(** * Verification of the TMEP trademark-assessment engine

    The development embeds the rule engine of the repository in Rocq:
    the Nice classification knowledge base and its keyword matcher
    ([nice_classification_db.py]), the Pillar 1 classification assessor
    ([tmep_1401_assessor.py]), the Pillar 2 identification lens
    ([tmep_1402_pillar2.py]) and the Pillar 3 multi-class assessor
    ([tmep_1403_pillar3.py]).  Definitions come first, the theorems about
    them follow.

    Modelling conventions.
    - A Python [str] is a Rocq [string]; its characters are read as the code
      points U+0000..U+00FF and the character classes of [PyStr] follow
      Python on that range.  The literal texts of findings are kept as the
      source file spells them (UTF-8), so that a section sign takes two
      characters of the Rocq string and a dash three.  The code concatenates
      these texts, compares them for equality and searches them, which does
      not depend on the spelling; Pillars 2 and 3 also cut a text of Pillar 1
      at 100 characters ([take]), and there the cut of the embedding falls
      up to two characters earlier for each section sign or dash before it.
    - A Python [int] is a [Z].  Writing an [int] into a text is [PyStr.str],
      the conversion with CPython's limit on the number of digits lifted;
      [PyStr.str_fits] says that the default limit allows the conversion.
    - A [dict] whose iteration order is observable is an association list in
      insertion order; [set(...)] of numbers whose size or sorted content is
      used is a duplicate-free list.
    - A method that appends to [self.findings] is a computation in the monad
      [Py.M]: a state transformer in which an exception leaves the state
      reached so far in place, as in Python. *)

From Stdlib Require Import ZArith NArith List String Ascii Bool Lia.
From Stdlib Require Import DecimalString Permutation Sorted PrimFloat.
From Stdlib Require Uint63 FloatOps SpecFloat.
Import ListNotations.
Open Scope string_scope.
Open Scope list_scope.
Open Scope Z_scope.

(* ===================================================================== *)
(** * Python strings *)
(* ===================================================================== *)

Module PyStr.

(** An f-string: the literal parts and the interpolated values, in order. *)
Definition fstr (parts : list string) : string := String.concat "" parts.

(** [str(n)] for an [int]. *)
Definition str (n : Z) : string := NilZero.string_of_int (Z.to_int n).

(** [len(s)]. *)
Definition len (s : string) : Z := Z.of_nat (String.length s).

(** [sys.get_int_max_str_digits()] as CPython sets it by default. *)
Definition int_max_str_digits : Z := 4300.

(** CPython bounds the conversion of an [int] to decimal text: under the
    default setting [str(n)], a field of an f-string and the [repr] of a list
    of numbers raise [ValueError] when [n] has more than 4300 digits, the
    sign not counted.  [str] is the conversion itself, as it runs with the
    limit lifted; [str_fits n] says that the default limit allows it. *)
Definition str_fits (n : Z) : bool := len (str (Z.abs n)) <=? int_max_str_digits.

Definition in_range (lo hi n : N) : bool := ((lo <=? n) && (n <=? hi))%N.

(** [c.lower()]: A-Z, and the Latin-1 capitals except the multiplication
    sign, move up by 32. *)
Definition lower_char (c : ascii) : ascii :=
  let n := N_of_ascii c in
  if in_range 65 90 n || (in_range 192 222 n && negb (n =? 215)%N)
  then ascii_of_N (n + 32) else c.

(** [s.lower()]. *)
Fixpoint lower (s : string) : string :=
  match s with
  | EmptyString => EmptyString
  | String c s' => String (lower_char c) (lower s')
  end.

(** [c.isspace()], also the class [\s] of [re]. *)
Definition isspace (c : ascii) : bool :=
  let n := N_of_ascii c in
  in_range 9 13 n || in_range 28 32 n || (n =? 133)%N || (n =? 160)%N.

(** [c.isalnum() or c == '_'], the class [\w] of [re]. *)
Definition isword (c : ascii) : bool :=
  let n := N_of_ascii c in
  in_range 48 57 n || in_range 65 90 n || in_range 97 122 n || (n =? 95)%N
  || (n =? 170)%N || (n =? 178)%N || (n =? 179)%N || (n =? 181)%N
  || (n =? 185)%N || (n =? 186)%N || in_range 188 190 n
  || in_range 192 214 n || in_range 216 246 n || in_range 248 255 n.

(** The class [\d] of [re]. *)
Definition isdigit (c : ascii) : bool := in_range 48 57 (N_of_ascii c).

Fixpoint lstrip (s : string) : string :=
  match s with
  | EmptyString => EmptyString
  | String c s' => if isspace c then lstrip s' else s
  end.

Fixpoint rstrip (s : string) : string :=
  match s with
  | EmptyString => EmptyString
  | String c s' =>
      match rstrip s' with
      | EmptyString => if isspace c then EmptyString else String c EmptyString
      | r => String c r
      end
  end.

(** [s.strip()]. *)
Definition strip (s : string) : string := rstrip (lstrip s).

(** [bool(s)]: a string is true when it is not empty. *)
Definition truthy (s : string) : bool :=
  match s with EmptyString => false | _ => true end.

(** [sub in s]. *)
Fixpoint str_in (sub s : string) : bool :=
  prefix sub s ||
  match s with
  | EmptyString => false
  | String _ s' => str_in sub s'
  end.

(** [s.split(sep)] for a separator of one character; [re.split] on a
    one-character pattern is the same function. *)
Fixpoint split_on (sep : ascii) (s : string) : list string :=
  match s with
  | EmptyString => [EmptyString]
  | String c s' =>
      if Ascii.eqb c sep then EmptyString :: split_on sep s'
      else match split_on sep s' with
           | [] => [String c EmptyString]
           | w :: ws => String c w :: ws
           end
  end.

(** The word that starts at the head of [s] (empty when [s] starts with
    white space) and the words after it. *)
Fixpoint words_from (s : string) : string * list string :=
  match s with
  | EmptyString => (EmptyString, [])
  | String c s' =>
      let '(w, ws) := words_from s' in
      if isspace c
      then (EmptyString, if truthy w then w :: ws else ws)
      else (String c w, ws)
  end.

(** [s.split()]: the maximal runs of characters that are not white space. *)
Definition split (s : string) : list string :=
  let '(w, ws) := words_from s in if truthy w then w :: ws else ws.

(** [s.replace(a, b)] for single characters. *)
Fixpoint replace (a b : ascii) (s : string) : string :=
  match s with
  | EmptyString => EmptyString
  | String c s' => String (if Ascii.eqb c a then b else c) (replace a b s')
  end.

(** [s[:n]]. *)
Fixpoint take (n : nat) (s : string) : string :=
  match n, s with
  | S n', String c s' => String c (take n' s')
  | _, _ => EmptyString
  end.

(** [sep.join(l)]. *)
Definition join (sep : string) (l : list string) : string := String.concat sep l.

(** [str(l)] for a list of [int]. *)
Definition repr_ints (l : list Z) : string :=
  fstr ["["; join ", " (map str l); "]"].

(** [str(l)] for a list of [str] without quotes or escapes inside. *)
Definition repr_strs (l : list string) : string :=
  fstr ["["; join ", " (map (fun s => fstr ["'"; s; "'"]) l); "]"].

(** [x in l] for a list of strings. *)
Definition mem (x : string) (l : list string) : bool :=
  existsb (String.eqb x) l.

(** [all(p(c) for c in s)]. *)
Fixpoint all_chars (p : ascii -> bool) (s : string) : bool :=
  match s with
  | EmptyString => true
  | String c s' => p c && all_chars p s'
  end.

(** [any(p(c) for c in s)]. *)
Fixpoint any_char (p : ascii -> bool) (s : string) : bool :=
  match s with
  | EmptyString => false
  | String c s' => p c || any_char p s'
  end.

(** [not s.strip()]: nothing but white space, if anything. *)
Definition blank (s : string) : bool := all_chars isspace s.

End PyStr.

(* ===================================================================== *)
(** * Regular expressions, as far as the code uses [re] *)
(* ===================================================================== *)

Module Re.
Import PyStr.

(** The patterns of the code: literal text, [\w] [\s] and bracket classes,
    [+] and [{n,}] on a class, groups with [|], [?], [\b] and [$]. *)
Inductive re :=
| Chars (t : string)                 (* literal text *)
| Class (p : ascii -> bool)          (* one character of a class *)
| Many (n : nat) (p : ascii -> bool) (* [n] characters of a class or more, greedy *)
| Seq (a b : re)
| Alt (a b : re)
| Opt (a : re)                       (* [a?], greedy *)
| WordBoundary                       (* [\b] *)
| EndOfString.                       (* [$] *)

(** One pattern character against one character of the text; with
    [re.IGNORECASE] both are compared in lower case. *)
Definition same_char (ignorecase : bool) (c x : ascii) : bool :=
  if ignorecase then Ascii.eqb (lower_char c) (lower_char x) else Ascii.eqb c x.

(** The literal [t] at the head of [s]: the position after it. *)
Fixpoint chars (ignorecase : bool) (t : string) (prev : option ascii) (s : string)
  : option (option ascii * string) :=
  match t with
  | EmptyString => Some (prev, s)
  | String c t' =>
      match s with
      | String x s' =>
          if same_char ignorecase c x then chars ignorecase t' (Some x) s' else None
      | EmptyString => None
      end
  end.

Definition word_before (prev : option ascii) : bool :=
  match prev with Some c => isword c | None => false end.

Definition word_after (s : string) : bool :=
  match s with String c _ => isword c | EmptyString => false end.

(** [\b]: a word character on one side of the position and none on the other. *)
Definition at_boundary (prev : option ascii) (s : string) : bool :=
  xorb (word_before prev) (word_after s).

(** [$]: the end of the text, or the line feed that ends it. *)
Definition at_end (s : string) : bool :=
  match s with
  | EmptyString => true
  | String c EmptyString => Ascii.eqb c (ascii_of_nat 10)
  | _ => false
  end.

(** [n] characters of the class [p] or more, the longest run first; [k] is
    what remains of the pattern. *)
Fixpoint many {R} (p : ascii -> bool) (n : nat) (prev : option ascii) (s : string)
         (k : option ascii -> string -> option R) : option R :=
  let stop := match n with O => k prev s | S _ => None end in
  match s with
  | String c s' =>
      if p c then
        match many p (Nat.pred n) (Some c) s' k with
        | Some r => Some r
        | None => stop
        end
      else stop
  | EmptyString => stop
  end.

(** The backtracking matcher: the first way, in the order [re] tries them,
    in which [r] followed by the rest of the pattern [k] matches at the
    position. *)
Fixpoint exec {R} (ignorecase : bool) (r : re) (prev : option ascii) (s : string)
         (k : option ascii -> string -> option R) : option R :=
  match r with
  | Chars t =>
      match chars ignorecase t prev s with
      | Some (prev', s') => k prev' s'
      | None => None
      end
  | Class p =>
      match s with
      | String c s' => if p c then k (Some c) s' else None
      | EmptyString => None
      end
  | Many n p => many p n prev s k
  | Seq a b => exec ignorecase a prev s (fun prev' s' => exec ignorecase b prev' s' k)
  | Alt a b =>
      match exec ignorecase a prev s k with
      | Some x => Some x
      | None => exec ignorecase b prev s k
      end
  | Opt a =>
      match exec ignorecase a prev s k with
      | Some x => Some x
      | None => k prev s
      end
  | WordBoundary => if at_boundary prev s then k prev s else None
  | EndOfString => if at_end s then k prev s else None
  end.

(** [r] matches at the position. *)
Definition matches_here (ignorecase : bool) (r : re) (prev : option ascii) (s : string)
  : bool :=
  match exec ignorecase r prev s (fun _ _ => Some tt) with
  | Some _ => true
  | None => false
  end.

(** [r] matches at the position or further on. *)
Fixpoint search_from (ignorecase : bool) (r : re) (prev : option ascii) (s : string)
  : bool :=
  matches_here ignorecase r prev s
  || match s with
     | String c s' => search_from ignorecase r (Some c) s'
     | EmptyString => false
     end.

(** [bool(re.search(r, s))], with [re.IGNORECASE] when [ignorecase]. *)
Definition search (ignorecase : bool) (r : re) (s : string) : bool :=
  search_from ignorecase r None s.

(** The matches from the position on, left to right and without overlap.
    A match of the patterns used here is never empty; [fuel] bounds the
    number of positions looked at. *)
Fixpoint findall_from (fuel : nat) (ignorecase : bool) (r : re)
         (prev : option ascii) (s : string) : list string :=
  match fuel with
  | O => []
  | S fuel' =>
      let next :=
        match s with
        | String c s' => findall_from fuel' ignorecase r (Some c) s'
        | EmptyString => []
        end in
      match exec ignorecase r prev s (fun prev' s' => Some (prev', s')) with
      | Some (prev', s') =>
          let found := take (String.length s - String.length s') s in
          if truthy found
          then found :: findall_from fuel' ignorecase r prev' s'
          else found :: next
      | None => next
      end
  end.

(** [re.findall(r, s)] for a pattern without groups. *)
Definition findall (ignorecase : bool) (r : re) (s : string) : list string :=
  findall_from (S (String.length s)) ignorecase r None s.

(** [\bword\b]. *)
Definition whole_word (t : string) : re := Seq WordBoundary (Seq (Chars t) WordBoundary).

(** [s.strip(chars)]. *)
Fixpoint lstrip_chars (chars : string) (s : string) : string :=
  match s with
  | String c s' =>
      if str_in (String c EmptyString) chars then lstrip_chars chars s' else s
  | EmptyString => EmptyString
  end.

Fixpoint rstrip_chars (chars : string) (s : string) : string :=
  match s with
  | EmptyString => EmptyString
  | String c s' =>
      match rstrip_chars chars s' with
      | EmptyString =>
          if str_in (String c EmptyString) chars then EmptyString
          else String c EmptyString
      | r => String c r
      end
  end.

Definition strip_chars (chars : string) (s : string) : string :=
  rstrip_chars chars (lstrip_chars chars s).

(** The character before the position reached when [a] has been read from
    a position that had [prev] before it. *)
Fixpoint last_char (a : string) (prev : option ascii) : option ascii :=
  match a with
  | EmptyString => prev
  | String c a' => last_char a' (Some c)
  end.

End Re.

(* ===================================================================== *)
(** * Python lists of numbers *)
(* ===================================================================== *)

Module PyList.

(** [x in l] for numbers. *)
Definition mem (x : Z) (l : list Z) : bool := existsb (Z.eqb x) l.

(** The elements of [set(l)]: [l] without repetitions. *)
Definition distinct (l : list Z) : list Z := nodup Z.eq_dec l.

(** [l.count(x)]. *)
Definition count (x : Z) (l : list Z) : Z :=
  Z.of_nat (List.length (filter (Z.eqb x) l)).

(** One step of a sort that keeps equal keys in their first order: [x]
    goes in front of the first element that is not ahead of it. *)
Fixpoint insert_by {A} (ahead : A -> A -> bool) (x : A) (l : list A) : list A :=
  match l with
  | [] => [x]
  | y :: l' => if ahead y x then y :: insert_by ahead x l' else x :: l
  end.

Fixpoint sort_by {A} (ahead : A -> A -> bool) (l : list A) : list A :=
  match l with
  | [] => []
  | x :: l' => insert_by ahead x (sort_by ahead l')
  end.

(** [sorted(l)] and [l.sort()]: ascending and stable. *)
Definition sorted (l : list Z) : list Z := sort_by (fun y x => y <? x) l.

(** [sorted(l, key=key)]. *)
Definition sorted_key {A} (key : A -> Z) (l : list A) : list A :=
  sort_by (fun y x => key y <? key x) l.

(** [l.sort(key=key, reverse=True)]: descending, and still stable. *)
Definition sort_key_reverse {A} (key : A -> Z) (l : list A) : list A :=
  sort_by (fun y x => key x <? key y) l.

End PyList.

(* ===================================================================== *)
(** * Python dictionaries *)
(* ===================================================================== *)

Module PyDict.

(** [d.get(k)] on a dictionary kept as an association list in insertion
    order; [None] when the key is absent. *)
Fixpoint get {K V} (eqb : K -> K -> bool) (d : list (K * V)) (k : K) : option V :=
  match d with
  | [] => None
  | (k', v) :: d' => if eqb k' k then Some v else get eqb d' k
  end.

(** [k in d]. *)
Definition mem {K V} (eqb : K -> K -> bool) (d : list (K * V)) (k : K) : bool :=
  match get eqb d k with Some _ => true | None => false end.

(** [d[k] = v]: a key already present keeps its place and takes the new
    value; a new key goes last. *)
Fixpoint set {K V} (eqb : K -> K -> bool) (d : list (K * V)) (k : K) (v : V)
  : list (K * V) :=
  match d with
  | [] => [(k, v)]
  | (k', v') :: d' =>
      if eqb k' k then (k', v) :: d' else (k', v') :: set eqb d' k v
  end.

End PyDict.

(* ===================================================================== *)
(** * Methods that update an object and may raise *)
(* ===================================================================== *)

Module Py.

(** The exceptions the embedded code can raise. *)
Inductive exn := ValueError | KeyError | TypeError.

Definition exn_eqb (a b : exn) : bool :=
  match a, b with
  | ValueError, ValueError | KeyError, KeyError | TypeError, TypeError => true
  | _, _ => false
  end.

(** How a call ends: it returns a value or it raises. *)
Inductive outcome (A : Type) :=
| Return (a : A)
| Raise (e : exn).
Arguments Return {A} a.
Arguments Raise {A} e.

(** A method over an object of type [St].  The state after the call is kept
    on either outcome: what was appended before an exception stays. *)
Definition M (St A : Type) : Type := St -> outcome A * St.

Definition ret {St A} (a : A) : M St A := fun s => (Return a, s).

Definition bind {St A B} (m : M St A) (k : A -> M St B) : M St B :=
  fun s =>
    match m s with
    | (Return a, s') => k a s'
    | (Raise e, s') => (Raise e, s')
    end.

Definition raise {St A} (e : exn) : M St A := fun s => (Raise e, s).

Definition get {St} : M St St := fun s => (Return s, s).

Definition gets {St A} (f : St -> A) : M St A := fun s => (Return (f s), s).

Definition modify {St} (f : St -> St) : M St unit := fun s => (Return tt, f s).

(** [try: body except e: handler]. *)
Definition try_except {St A} (body : M St A) (e : exn) (handler : M St A) : M St A :=
  fun s =>
    match body s with
    | (Raise e', s') => if exn_eqb e e' then handler s' else (Raise e', s')
    | r => r
    end.

(** [d[k]] where the lookup gave [o]: [KeyError] when the key is absent. *)
Definition getitem {St A} (o : option A) : M St A :=
  match o with Some a => ret a | None => raise KeyError end.

(** [x[k]] where [x] may be [None]: [TypeError] when it is. *)
Definition subscript {St A} (o : option A) : M St A :=
  match o with Some a => ret a | None => raise TypeError end.

(** [for x in l: body], the loop carrying its local variables [acc]. *)
Fixpoint for_each {St A B} (l : list A) (acc : B) (body : B -> A -> M St B) : M St B :=
  match l with
  | [] => ret acc
  | x :: l' => bind (body acc x) (fun acc' => for_each l' acc' body)
  end.

(** A loop whose body may [break]: the body returns its local variables and
    whether it broke out. *)
Fixpoint for_break {St A B} (l : list A) (acc : B) (body : B -> A -> M St (B * bool))
  : M St B :=
  match l with
  | [] => ret acc
  | x :: l' =>
      bind (body acc x) (fun r =>
        if snd r then ret (fst r) else for_break l' (fst r) body)
  end.

(** [if c: body] without an [else]. *)
Definition when {St} (c : bool) (body : M St unit) : M St unit :=
  if c then body else ret tt.

(** The call [m] from state [s] returns normally, with a value and a final
    state that satisfy [Q]. *)
Definition wp {St A} (m : M St A) (Q : A -> St -> Prop) (s : St) : Prop :=
  match m s with
  | (Return a, s') => Q a s'
  | (Raise _, _) => False
  end.

(** The call returns normally from every state. *)
Definition returns {St A} (m : M St A) : Prop :=
  forall s, wp m (fun _ _ => True) s.

(** The same with an exceptional postcondition: the call from [s] returns
    with [Q], or raises with [R]. *)
Definition wpx {St A} (m : M St A) (Q : A -> St -> Prop) (R : exn -> St -> Prop)
           (s : St) : Prop :=
  match m s with
  | (Return a, s') => Q a s'
  | (Raise e, s') => R e s'
  end.

(** An object that carries a list of findings: the list it holds and the
    object with another list in its place. *)
Class Findings (St F : Type) := {
  findings_of : St -> list F;
  with_findings_of : St -> list F -> St
}.

(** Reading and replacing the list behave as a field does. *)
Class FindingsLaws (St F : Type) `{Findings St F} : Prop := {
  findings_of_with : forall (s : St) (fs : list F),
      findings_of (with_findings_of s fs) = fs;
  with_findings_of_with : forall (s : St) (fs gs : list F),
      with_findings_of (with_findings_of s fs) gs = with_findings_of s gs;
  with_findings_of_same : forall s : St, with_findings_of s (findings_of s) = s
}.

(** The object [s] after [fs] has been appended to its findings. *)
Definition appended {St F} `{Findings St F} (s : St) (fs : list F) : St :=
  with_findings_of s (findings_of s ++ fs).

(** The call [m] from [s] changes nothing but the list of findings, to
    which it appends: it returns a value [a] having appended [fs] with
    [Q a fs], or it raises [e] having appended [fs] with [R e fs]. *)
Definition emitsx {St F A} `{Findings St F} (s : St) (m : M St A)
           (Q : A -> list F -> Prop) (R : exn -> list F -> Prop) : Prop :=
  wpx m (fun a s' => exists fs, s' = appended s fs /\ Q a fs)
        (fun e s' => exists fs, s' = appended s fs /\ R e fs) s.

(** The same for a call that does not raise. *)
Definition emits {St F A} `{Findings St F} (s : St) (m : M St A)
           (Q : A -> list F -> Prop) : Prop :=
  emitsx s m Q (fun _ _ => False).

(** From every state the call returns and appends findings that all
    satisfy [P]. *)
Definition always_emits {St F A} `{Findings St F} (P : F -> Prop) (m : M St A)
  : Prop :=
  forall s, emits s m (fun _ fs => Forall P fs).

(** The same for a call that may also raise [e], having appended findings
    that satisfy [P]. *)
Definition emits_or_raises {St F A} `{Findings St F} (P : F -> Prop) (e : exn)
           (m : M St A) : Prop :=
  forall s, emitsx s m (fun _ fs => Forall P fs)
                   (fun e' fs => e' = e /\ Forall P fs).

Declare Scope py_scope.
Delimit Scope py_scope with py.
Notation "x <- m ;; k" := (bind m (fun x => k))
  (at level 61, m at next level, right associativity) : py_scope.
Notation "m ;; k" := (bind m (fun _ => k))
  (at level 61, right associativity) : py_scope.

End Py.

(* ===================================================================== *)
(** * The Nice classification knowledge base ([nice_classification_db.py]) *)
(* ===================================================================== *)

Module NiceDb.
Import PyStr.

(** One record of [NICE_CLASSES]. *)
Record ClassInfo := {
  category : string;
  title : string;
  description : string;
  keywords : list string
}.

Definition NICE_CLASSES : list (Z * ClassInfo) :=
  [ (1, {| category := "GOODS"; title := "Chemicals";
      description := "Chemicals for industry, science, photography; unprocessed artificial resins; unprocessed plastics; fertilizers; fire extinguishing compositions; tempering and soldering preparations; chemical substances for preserving foodstuffs; tanning substances; adhesives for industry.";
      keywords :=
        [ "chemical"; "chemicals"; "adhesive"; "fertilizer"; "resin";
          "solvent"; "catalyst"; "reagent"; "polymer";
          "plastic raw material"; "glue industrial"; "photographic chemical";
          "tanning"; "fire extinguishing"; "flux" ] |})
  ; (2, {| category := "GOODS"; title := "Paints and Coatings";
      description := "Paints, varnishes, lacquers; preservatives against rust and against deterioration of wood; colorants, dyes; inks for printing; raw natural resins; metals in foil and powder form for use in painting, decorating, printing.";
      keywords :=
        [ "paint"; "varnish"; "lacquer"; "dye"; "colorant"; "pigment";
          "ink printing"; "rust prevention"; "coating"; "primer";
          "stain wood"; "enamel"; "glaze" ] |})
  ; (3, {| category := "GOODS"; title := "Cosmetics and Cleaning Products";
      description := "Non-medicated cosmetics and toiletry preparations; non-medicated dentifrices; perfumery, essential oils; bleaching preparations; cleaning, polishing, scouring and abrasive preparations.";
      keywords :=
        [ "cosmetic"; "shampoo"; "soap"; "perfume"; "fragrance"; "lotion";
          "cream skincare"; "toothpaste"; "deodorant"; "makeup"; "lipstick";
          "foundation"; "cleanser"; "detergent"; "bleach"; "polish";
          "conditioner hair"; "sunscreen"; "moisturizer"; "hair care";
          "body wash"; "face wash"; "cologne"; "essential oil"; "nail polish" ] |})
  ; (4, {| category := "GOODS"; title := "Lubricants and Fuels";
      description := "Industrial oils and greases; lubricants; dust absorbing, wetting and binding compositions; fuels and illuminants; candles and wicks for lighting.";
      keywords :=
        [ "lubricant"; "oil industrial"; "grease"; "fuel"; "petrol";
          "gasoline"; "diesel"; "candle"; "wax"; "kerosene"; "biofuel";
          "engine oil"; "motor oil" ] |})
  ; (5, {| category := "GOODS"; title := "Pharmaceuticals and Medical Preparations";
      description := "Pharmaceuticals, medical and veterinary preparations; sanitary preparations for medical purposes; dietetic food and substances adapted for medical use; food for babies; dietary supplements; plasters, materials for dressings; material for stopping teeth; disinfectants; preparations for destroying vermin; fungicides, herbicides.";
      keywords :=
        [ "pharmaceutical"; "drug"; "medicine"; "medication"; "supplement";
          "vitamin"; "antibiotic"; "vaccine"; "disinfectant"; "bandage";
          "plaster medical"; "baby food"; "dietary supplement"; "herbicide";
          "pesticide"; "fungicide"; "veterinary"; "dental filling";
          "antiseptic"; "laxative"; "analgesic" ] |})
  ; (6, {| category := "GOODS"; title := "Metal Goods";
      description := "Common metals and their alloys; ores; metal building and construction materials; transportable buildings of metal; non-electric cables and wires of common metal; small items of metal hardware; metal containers for storage or transport; safes.";
      keywords :=
        [ "metal"; "steel"; "iron"; "aluminum"; "copper"; "wire metal";
          "cable metal"; "safe"; "lock metal"; "nail"; "screw"; "bolt";
          "metal container"; "metal pipe"; "metal hardware";
          "metal building"; "chain"; "metal fitting" ] |})
  ; (7, {| category := "GOODS"; title := "Machinery";
      description := "Machines, machine tools, power-operated tools; motors and engines (not for land vehicles); machine coupling and transmission components; agricultural implements other than hand-operated; incubators for eggs; automatic vending machines.";
      keywords :=
        [ "machine"; "machinery"; "engine"; "motor industrial"; "pump";
          "compressor"; "turbine"; "robot industrial"; "tool power";
          "generator"; "vending machine"; "conveyor"; "agricultural machine";
          "drill machine"; "lathe" ] |})
  ; (8, {| category := "GOODS"; title := "Hand Tools";
      description := "Hand tools and implements (hand-operated); cutlery; side arms, except firearms; razors.";
      keywords :=
        [ "hand tool"; "knife"; "fork"; "spoon"; "cutlery"; "razor";
          "scissors"; "hammer"; "screwdriver manual"; "saw hand"; "plier";
          "wrench"; "chisel"; "sword"; "blade"; "shears" ] |})
  ; (9, {| category := "GOODS"; title := "Scientific and Electronic Apparatus";
      description := "Scientific, research, navigation, surveying, photographic, cinematographic, audiovisual, optical, weighing, measuring, signalling, detecting, testing, inspecting, life-saving and teaching apparatus and instruments; apparatus and instruments for conducting, switching, transforming, accumulating, regulating or controlling the distribution or use of electricity; computers; computer hardware and software; audio and video recordings; downloadable digital content.";
      keywords :=
        [ "software"; "computer software"; "app"; "application";
          "mobile app"; "computer"; "laptop"; "tablet"; "smartphone";
          "hardware"; "electronic"; "downloadable"; "digital content";
          "video game"; "game software"; "operating system"; "firmware";
          "database software"; "saas"; "platform software"; "camera";
          "telephone"; "headphone"; "speaker electronic"; "television";
          "monitor"; "server"; "semiconductor"; "circuit"; "battery";
          "charger"; "gps"; "navigation device"; "scanner";
          "printer hardware"; "calculator"; "data storage"; "usb";
          "hard drive"; "cloud software"; "artificial intelligence software";
          "machine learning software"; "recorded music";
          "downloadable music"; "ebook"; "downloadable video";
          "streaming software"; "vr headset"; "drone"; "robot" ] |})
  ; (10, {| category := "GOODS"; title := "Medical Devices";
      description := "Surgical, medical, dental and veterinary apparatus and instruments; artificial limbs, eyes and teeth; orthopedic articles; suture materials; therapeutic and assistive devices adapted for persons with disabilities; massage apparatus; apparatus, devices and articles for nursing infants; sexual activity apparatus, devices and articles.";
      keywords :=
        [ "medical device"; "surgical instrument"; "dental instrument";
          "prosthetic"; "wheelchair"; "orthopedic"; "hearing aid";
          "stethoscope"; "syringe"; "catheter"; "implant"; "pacemaker";
          "crutch"; "bandage medical device"; "thermometer medical";
          "blood pressure monitor"; "massage device" ] |})
  ; (11, {| category := "GOODS"; title := "Environmental Control Apparatus";
      description := "Apparatus and installations for lighting, heating, cooling, steam generating, cooking, drying, ventilating, water supply and sanitary purposes.";
      keywords :=
        [ "light fixture"; "lamp"; "bulb"; "air conditioner"; "heater";
          "furnace"; "refrigerator"; "freezer"; "oven"; "microwave";
          "dishwasher"; "washer"; "dryer"; "ventilation"; "air purifier";
          "water filter"; "toilet"; "faucet"; "shower"; "boiler";
          "heat pump"; "hvac"; "stove"; "cooking appliance" ] |})
  ; (12, {| category := "GOODS"; title := "Vehicles";
      description := "Vehicles; apparatus for locomotion by land, air or water.";
      keywords :=
        [ "vehicle"; "car"; "automobile"; "truck"; "motorcycle"; "bicycle";
          "boat"; "ship"; "aircraft"; "airplane"; "helicopter";
          "electric vehicle"; "ev"; "scooter"; "train"; "bus"; "trailer";
          "wheel vehicle"; "tire"; "car part" ] |})
  ; (13, {| category := "GOODS"; title := "Firearms";
      description := "Firearms; ammunition and projectiles; explosives; fireworks.";
      keywords :=
        [ "firearm"; "gun"; "pistol"; "rifle"; "ammunition"; "bullet";
          "explosive"; "firework"; "grenade"; "weapon"; "shotgun" ] |})
  ; (14, {| category := "GOODS"; title := "Jewelry and Timepieces";
      description := "Precious metals and their alloys; jewellery, precious and semi-precious stones; horological and chronometric instruments.";
      keywords :=
        [ "jewelry"; "jewellery"; "ring"; "necklace"; "bracelet"; "earring";
          "watch"; "clock"; "gold"; "silver precious"; "diamond"; "gemstone";
          "timepiece"; "brooch"; "pendant"; "charm jewelry" ] |})
  ; (15, {| category := "GOODS"; title := "Musical Instruments";
      description := "Musical instruments; music stands and music holders; conducting batons.";
      keywords :=
        [ "musical instrument"; "guitar"; "piano"; "violin"; "drum";
          "trumpet"; "flute"; "keyboard instrument"; "saxophone"; "bass";
          "instrument accessory" ] |})
  ; (16, {| category := "GOODS"; title := "Paper and Printed Matter";
      description := "Paper and cardboard; printed matter; bookbinding material; photographs; stationery and office requisites; adhesives for stationery or household purposes; drawing materials and materials for artists; paintbrushes; instructional and teaching materials.";
      keywords :=
        [ "paper"; "printed matter"; "book"; "magazine"; "newspaper";
          "brochure"; "stationery"; "pen"; "pencil"; "notebook"; "envelope";
          "cardboard"; "photo print"; "poster printed"; "greeting card";
          "label printed"; "manual printed"; "instruction book";
          "catalog printed"; "pamphlet" ] |})
  ; (17, {| category := "GOODS"; title := "Rubber and Plastic Products";
      description := "Unprocessed and semi-processed rubber, gutta-percha, gum, asbestos, mica and substitutes for all these materials; plastics and resins in extruded form for use in manufacture; packing, stopping and insulating materials; flexible pipes, tubes and hoses.";
      keywords :=
        [ "rubber"; "gasket"; "seal rubber"; "insulation"; "hose";
          "tube rubber"; "plastic semi-processed"; "foam insulation";
          "tape insulating" ] |})
  ; (18, {| category := "GOODS"; title := "Leather Goods";
      description := "Leather and imitations of leather; animal skins and hides; luggage and carrying bags; umbrellas and parasols; walking sticks; whips, harness and saddlery; collars, leashes and clothing for animals.";
      keywords :=
        [ "leather"; "bag"; "handbag"; "purse"; "wallet"; "luggage";
          "suitcase"; "backpack"; "umbrella"; "tote bag"; "briefcase";
          "belt leather"; "harness"; "saddle"; "pet collar"; "leash" ] |})
  ; (19, {| category := "GOODS"; title := "Building Materials";
      description := "Building and construction materials, not of metal; rigid pipes for building; asphalt, pitch, tar and bitumen; transportable buildings, not of metal; monuments, not of metal.";
      keywords :=
        [ "building material"; "cement"; "concrete"; "brick"; "tile";
          "wood building"; "glass building"; "stone"; "gravel"; "asphalt";
          "pipe non-metal"; "lumber" ] |})
  ; (20, {| category := "GOODS"; title := "Furniture";
      description := "Furniture, mirrors, picture frames; containers of plastic or wood for storage or transport; unworked or semi-worked bone, horn, whalebone or mother-of-pearl; shells; meerschaum; yellow amber.";
      keywords :=
        [ "furniture"; "chair"; "table"; "desk"; "bed"; "sofa"; "couch";
          "mirror"; "shelf"; "cabinet"; "wardrobe"; "mattress"; "pillow";
          "cushion"; "frame picture" ] |})
  ; (21, {| category := "GOODS"; title := "Household Utensils";
      description := "Household or kitchen utensils and containers; cookware and tableware; combs and sponges; brushes; brush-making materials; articles for cleaning purposes; unworked or semi-worked glass (except building glass); glassware, porcelain and earthenware.";
      keywords :=
        [ "kitchen utensil"; "pot"; "pan"; "cup"; "mug"; "plate"; "bowl";
          "glass tableware"; "cutlery set"; "brush household"; "comb";
          "sponge"; "broom"; "bucket"; "storage container household"; "vase";
          "canteen"; "flask" ] |})
  ; (22, {| category := "GOODS"; title := "Cordage and Textile Fibers";
      description := "Ropes and string; nets; tents and tarpaulins; awnings of textile or synthetic materials; sails; sacks for the transport and storage of materials in bulk; padding, cushioning and stuffing materials; raw fibrous textile materials and substitutes.";
      keywords :=
        [ "rope"; "string"; "net"; "tent"; "tarpaulin"; "sack";
          "padding stuffing"; "fiber textile raw"; "twine"; "cord"; "canvas" ] |})
  ; (23, {| category := "GOODS"; title := "Yarns and Threads";
      description := "Yarns and threads for textile use.";
      keywords :=
        [ "yarn"; "thread"; "sewing thread"; "knitting yarn";
          "embroidery thread" ] |})
  ; (24, {| category := "GOODS"; title := "Textiles";
      description := "Textiles and substitutes for textiles; household linen; curtains of textile or plastic.";
      keywords :=
        [ "textile"; "fabric"; "cloth"; "linen"; "bedsheet"; "towel";
          "curtain"; "blanket"; "duvet"; "tablecloth"; "upholstery fabric" ] |})
  ; (25, {| category := "GOODS"; title := "Clothing and Footwear";
      description := "Clothing, footwear, headgear.";
      keywords :=
        [ "clothing"; "clothes"; "apparel"; "shirt"; "t-shirt"; "pants";
          "jeans"; "dress"; "skirt"; "jacket"; "coat"; "suit"; "shoes";
          "boots"; "sneakers"; "sandals"; "hat"; "cap"; "gloves"; "socks";
          "underwear"; "sportswear"; "swimwear"; "uniform"; "footwear";
          "headgear"; "fashion apparel" ] |})
  ; (26, {| category := "GOODS"; title := "Lace and Embroidery";
      description := "Lace, braid and embroidery, and haberdashery ribbons and bows; buttons, hooks and eyes, pins and needles; artificial flowers; hair decorations; false hair.";
      keywords :=
        [ "lace"; "embroidery"; "button"; "needle"; "pin sewing"; "ribbon";
          "artificial flower"; "hair accessory"; "bow ribbon"; "zipper" ] |})
  ; (27, {| category := "GOODS"; title := "Floor Coverings";
      description := "Carpets, rugs, mats and matting, linoleum and other materials for covering existing floors; wall hangings, not of textile.";
      keywords :=
        [ "carpet"; "rug"; "mat"; "flooring"; "linoleum"; "wall hanging" ] |})
  ; (28, {| category := "GOODS"; title := "Games and Sporting Goods";
      description := "Games, toys and playthings; video game apparatus; gymnastic and sporting articles; decorations for Christmas trees.";
      keywords :=
        [ "toy"; "game board"; "puzzle"; "doll"; "sport equipment";
          "gym equipment"; "football"; "basketball"; "tennis racket";
          "golf club"; "ski"; "snowboard"; "christmas decoration";
          "playing card"; "chess"; "game controller hardware";
          "fishing equipment"; "hunting equipment non-firearm" ] |})
  ; (29, {| category := "GOODS"; title := "Meat and Processed Foods";
      description := "Meat, fish, poultry and game; meat extracts; preserved, frozen, dried and cooked fruits and vegetables; jellies, jams, compotes; eggs; milk, cheese, butter, yogurt and other milk products; oils and fats for food.";
      keywords :=
        [ "meat"; "fish food"; "poultry"; "cheese"; "butter"; "milk";
          "yogurt"; "egg"; "vegetable preserved"; "fruit preserved"; "jam";
          "jelly food"; "frozen food"; "dairy"; "oil food"; "margarine";
          "broth"; "soup canned" ] |})
  ; (30, {| category := "GOODS"; title := "Coffee and Staple Foods";
      description := "Coffee, tea, cocoa and artificial coffee; rice, pasta and noodles; tapioca and sago; flour and preparations made from cereals; bread, pastries and confectionery; chocolate; ice cream, sorbets and other edible ices; sugar, honey, treacle; yeast, baking-powder; salt, seasonings, spices, preserved herbs; vinegar, sauces and other condiments; ice.";
      keywords :=
        [ "coffee"; "tea"; "cocoa"; "chocolate"; "sugar"; "flour"; "bread";
          "cake"; "pastry"; "cookie"; "candy"; "ice cream"; "pasta";
          "noodle"; "rice"; "spice"; "seasoning"; "sauce"; "condiment";
          "vinegar"; "honey"; "salt" ] |})
  ; (31, {| category := "GOODS"; title := "Agricultural Products";
      description := "Raw and unprocessed agricultural, aquacultural, horticultural and forestry products; raw and unprocessed grains and seeds; fresh fruits and vegetables, fresh herbs; natural plants and flowers; bulbs, seedlings and seeds for planting; live animals; foodstuffs and beverages for animals; malt.";
      keywords :=
        [ "fresh fruit"; "fresh vegetable"; "plant"; "flower"; "seed";
          "live animal"; "pet food"; "animal feed"; "grain";
          "unprocessed agricultural"; "malt"; "bulb plant" ] |})
  ; (32, {| category := "GOODS"; title := "Beer and Non-Alcoholic Beverages";
      description := "Beer; non-alcoholic beverages; mineral and aerated waters; fruit beverages and fruit juices; syrups and other non-alcoholic preparations for making beverages.";
      keywords :=
        [ "beer"; "non-alcoholic beverage"; "soft drink"; "soda"; "juice";
          "water bottled"; "energy drink"; "sports drink"; "lemonade";
          "cola"; "syrup beverage" ] |})
  ; (33, {| category := "GOODS"; title := "Alcoholic Beverages";
      description := "Alcoholic beverages, except beers; alcoholic preparations for making beverages.";
      keywords :=
        [ "wine"; "spirits"; "whiskey"; "vodka"; "rum"; "gin"; "liquor";
          "alcohol"; "champagne"; "brandy"; "tequila"; "cocktail preparation" ] |})
  ; (34, {| category := "GOODS"; title := "Tobacco Products";
      description := "Tobacco and tobacco substitutes; cigarettes and cigars; electronic cigarettes and oral vaporizers for smokers; smokers' articles; matches.";
      keywords :=
        [ "tobacco"; "cigarette"; "cigar"; "vape"; "e-cigarette"; "match";
          "lighter"; "pipe smoking"; "nicotine"; "rolling paper" ] |})
  ; (35, {| category := "SERVICES"; title := "Advertising and Business Services";
      description := "Advertising; business management; business administration; office functions; online marketplaces for buyers and sellers; import-export agency services.";
      keywords :=
        [ "advertising"; "marketing"; "business management";
          "business consulting"; "public relations"; "recruitment";
          "staffing"; "retail store"; "online marketplace"; "import export";
          "business administration"; "telemarketing"; "seo";
          "market research"; "business strategy"; "ecommerce platform";
          "franchise" ] |})
  ; (36, {| category := "SERVICES"; title := "Insurance and Financial Services";
      description := "Insurance; financial affairs; monetary affairs; real estate affairs.";
      keywords :=
        [ "insurance"; "financial service"; "banking"; "investment";
          "real estate"; "mortgage"; "loan"; "credit"; "fund management";
          "stock exchange"; "cryptocurrency"; "fintech"; "payment service";
          "money transfer"; "tax service"; "accounting financial";
          "brokerage"; "leasing financial" ] |})
  ; (37, {| category := "SERVICES"; title := "Building and Repair Services";
      description := "Construction services; installation and repair services; mining extraction; oil and gas drilling.";
      keywords :=
        [ "construction"; "building service"; "repair"; "maintenance";
          "installation"; "plumbing"; "electrical installation";
          "painting service"; "cleaning service building"; "renovation";
          "carpentry service"; "roofing"; "drilling" ] |})
  ; (38, {| category := "SERVICES"; title := "Telecommunications Services";
      description := "Telecommunications services.";
      keywords :=
        [ "telecommunications"; "telecom"; "internet provider"; "broadband";
          "wireless"; "telephone service"; "satellite communication";
          "cable tv"; "streaming platform"; "voip"; "messaging service";
          "email service"; "social media platform"; "broadcasting";
          "radio service"; "tv broadcasting" ] |})
  ; (39, {| category := "SERVICES"; title := "Transport and Storage Services";
      description := "Transport; packaging and storage of goods; travel arrangement.";
      keywords :=
        [ "transport"; "shipping"; "delivery"; "logistics"; "freight";
          "courier"; "travel agency"; "airline service"; "bus service";
          "taxi"; "rideshare"; "storage service"; "warehousing";
          "moving service"; "cargo" ] |})
  ; (40, {| category := "SERVICES"; title := "Treatment of Materials";
      description := "Treatment of materials; recycling of waste and trash; air purification and treatment of water; printing services; food and drink preservation.";
      keywords :=
        [ "printing service"; "manufacturing service"; "recycling";
          "water treatment"; "food processing"; "custom manufacturing";
          "material treatment"; "dyeing service"; "engraving service";
          "welding service"; "air treatment" ] |})
  ; (41, {| category := "SERVICES"; title := "Education and Entertainment Services";
      description := "Education; providing of training; entertainment; sporting and cultural activities; publishing of texts other than publicity texts; music streaming services.";
      keywords :=
        [ "education"; "training"; "entertainment"; "sports event";
          "cultural event"; "music streaming service";
          "streaming entertainment"; "publishing service";
          "online education"; "e-learning"; "tutoring"; "school";
          "university service"; "fitness class"; "yoga class";
          "gaming service online"; "concert"; "theater"; "film production";
          "podcast"; "radio entertainment"; "sports club"; "news service";
          "journalism" ] |})
  ; (42, {| category := "SERVICES"; title := "Scientific and Technology Services";
      description := "Scientific and technological services and research and design relating thereto; industrial analysis, industrial research and industrial design services; quality control and authentication services; design and development of computer hardware and software; software as a service (SaaS); cloud computing.";
      keywords :=
        [ "technology service"; "it service"; "software development";
          "web development"; "app development"; "cloud computing";
          "saas service"; "paas"; "iaas"; "cybersecurity service";
          "data analytics service"; "ai service"; "ml service";
          "research and development"; "scientific research";
          "quality control"; "technical consulting"; "it consulting";
          "web hosting"; "database service"; "api service";
          "blockchain service"; "testing software"; "ux design";
          "computer programming"; "network service" ] |})
  ; (43, {| category := "SERVICES"; title := "Food and Beverage Services";
      description := "Services for providing food and drink; temporary accommodation.";
      keywords :=
        [ "restaurant"; "cafe"; "bar service"; "catering";
          "food delivery service"; "hotel"; "accommodation";
          "bed and breakfast"; "canteen"; "food service"; "coffee shop";
          "bakery service"; "fast food" ] |})
  ; (44, {| category := "SERVICES"; title := "Medical and Veterinary Services";
      description := "Medical services; veterinary services; hygienic and beauty care for human beings or animals; agriculture, aquaculture, horticulture and forestry services.";
      keywords :=
        [ "medical service"; "healthcare"; "hospital"; "clinic";
          "doctor service"; "dental service"; "veterinary service";
          "beauty salon"; "spa service"; "hair salon"; "nursing";
          "pharmacy service"; "therapy"; "mental health service";
          "agriculture service"; "landscaping"; "gardening service";
          "telemedicine" ] |})
  ; (45, {| category := "SERVICES"; title := "Legal and Security Services";
      description := "Legal services; security services for the physical protection of tangible property and individuals; personal and social services rendered by others to meet the needs of individuals; online social networking services.";
      keywords :=
        [ "legal service"; "law firm"; "attorney service";
          "security service"; "security guard"; "investigation service";
          "social service"; "dating service"; "matchmaking";
          "online social network"; "personal assistant service";
          "funeral service"; "licensing service";
          "intellectual property service"; "arbitration" ] |})
  ].

(** One record of [NICE_EDITION_TIMELINE]; [end] is written [end_]. *)
Record EditionInfo := {
  start : string;
  end_ : string;
  section : string;
  notes : option string
}.

Definition NICE_EDITION_TIMELINE : list (string * EditionInfo) :=
  [ ("7th", {| start := "1992-01-01"; end_ := "1996-12-31"; section := "1401.09";
       notes := None |})
  ; ("8th", {| start := "1997-01-01"; end_ := "2001-12-31"; section := "1401.11";
       notes := Some "Class 42 was split into Classes 42, 43, 44, and 45." |})
  ; ("9th", {| start := "2002-01-01"; end_ := "2006-12-31"; section := "1401.12";
       notes := Some "Major reclassification of services in Class 41 and 42." |})
  ; ("10th", {| start := "2007-01-01"; end_ := "2011-12-31"; section := "1401.13";
       notes := Some "Expansion of Class 9 to include downloadable digital content." |})
  ; ("11th", {| start := "2012-01-01"; end_ := "2022-12-31"; section := "1401.14";
       notes := Some "Additions to Class 35, 38, and 42 for internet-based services." |})
  ; ("12th", {| start := "2023-01-01"; end_ := "9999-12-31"; section := "1401.15";
       notes := Some "Current edition. Refinements to tech, AI, and digital service classifications." |})
  ].

Definition OLD_CLASS_42_SERVICES : list (string * Z) :=
  [ ("restaurant", 43); ("cafe", 43); ("hotel", 43); ("catering", 43);
    ("accommodation", 43); ("medical", 44); ("dental", 44);
    ("veterinary", 44); ("beauty", 44); ("salon", 44); ("legal", 45);
    ("security guard", 45); ("social service", 45);
    ("scientific research", 42); ("it service", 42);
    ("software development", 42) ].

(** [COMMON_MISCLASSIFICATIONS]: (keyword, wrong class) to (correct class,
    reason), in the order of the source. *)
Definition COMMON_MISCLASSIFICATIONS : list ((string * Z) * (Z * string)) :=
  [ (("software", 25),
     (9, "Software is a digital product → Class 9, not clothing (Class 25)"))
  ; (("software", 35),
     (42, "Software development is a tech service → Class 42, not business services (Class 35)"))
  ; (("app", 35),
     (9, "Mobile app (downloadable) → Class 9; if SaaS → Class 42"))
  ; (("website", 35),
     (42, "Website development is IT service → Class 42"))
  ; (("downloadable music", 41),
     (9, "Downloadable music is a digital product → Class 9"))
  ; (("music streaming service", 9),
     (41, "Streaming service is entertainment → Class 41"))
  ; (("printed manual", 9),
     (16, "Printed manuals are printed matter → Class 16"))
  ; (("restaurant", 43),
     (43, "OK"))
  ; (("restaurant", 35),
     (43, "Restaurant services → Class 43, not business services"))
  ; (("coffee beverage", 30),
     (30, "OK - coffee as a product"))
  ; (("coffee shop", 30),
     (43, "Coffee shop (service) → Class 43"))
  ; (("medical device", 5),
     (10, "Medical devices → Class 10, not pharmaceuticals (Class 5)"))
  ; (("pharmaceutical", 10),
     (5, "Pharmaceuticals → Class 5, not medical devices (Class 10)"))
  ; (("restaurant service", 42),
     (43, "Post 8th Ed.: restaurant services → Class 43 (split from old Class 42)"))
  ; (("medical service", 42),
     (44, "Post 8th Ed.: medical services → Class 44 (split from old Class 42)"))
  ; (("legal service", 42),
     (45, "Post 8th Ed.: legal services → Class 45 (split from old Class 42)"))
  ].

Definition SPECIMEN_TYPES : list (string * list string) :=
  [ ("goods_valid",
     [ "product label"; "product packaging"; "product tag"; "product photo";
       "hang tag"; "point of sale display";
       "screenshot showing product for sale" ])
  ; ("goods_invalid",
     [ "invoice"; "purchase order"; "business card"; "letterhead";
       "press release"; "rendering"; "mockup"; "logo alone" ])
  ; ("services_valid",
     [ "website screenshot"; "advertisement"; "brochure";
       "promotional material"; "screenshot of service";
       "service description page" ])
  ; ("services_invalid",
     [ "product label"; "invoice"; "business card alone"; "rendering" ])
  ].

Definition USPTO_FEES : list (string * Z) :=
  [ ("TEAS_PLUS", 250); ("TEAS_STANDARD", 350); ("PAPER", 750) ].

Definition VALID_CLASS_NUMBERS : list Z := map Z.of_nat (seq 1 45).

Definition get_class_info (class_number : Z) : option ClassInfo :=
  PyDict.get Z.eqb NICE_CLASSES class_number.

Definition get_valid_classes : list Z := VALID_CLASS_NUMBERS.

Definition get_keywords_for_class (class_number : Z) : list string :=
  match PyDict.get Z.eqb NICE_CLASSES class_number with
  | Some info => keywords info
  | None => []
  end.

(** A suggestion [(class_number, title, match_score)]. *)
Definition Suggestion : Type := Z * string * Z.
Definition sug_class (s : Suggestion) : Z := fst (fst s).
Definition sug_title (s : Suggestion) : string := snd (fst s).
Definition sug_score (s : Suggestion) : Z := snd s.

(** The body of the inner loop of [suggest_class_for_keyword]: the score
    after the keyword [kw] has been looked at. *)
Definition score_step (keyword_lower : string) (score : Z) (kw : string) : Z :=
  if (keyword_lower =? kw)%string then score + 10
  else if str_in keyword_lower kw || str_in kw keyword_lower then score + 5
  else if existsb (fun word => str_in word kw) (split keyword_lower)
       then score + 2
  else score.

(** The body of the outer loop: the suggestions after the class [entry] has
    been scored. *)
Definition class_step (keyword_lower : string) (suggestions : list Suggestion)
           (entry : Z * ClassInfo) : list Suggestion :=
  let '(cls_num, cls_info) := entry in
  let score := fold_left (score_step keyword_lower) (keywords cls_info) 0 in
  if score >? 0
  then suggestions ++ [(cls_num, title cls_info, score)]
  else suggestions.

(** [suggest_class_for_keyword], over the table it reads. *)
Definition suggest_in (table : list (Z * ClassInfo)) (keyword : string)
  : list Suggestion :=
  let keyword_lower := strip (lower keyword) in
  let suggestions := fold_left (class_step keyword_lower) table [] in
  let suggestions := PyList.sort_key_reverse sug_score suggestions in
  firstn 5 suggestions.

Definition suggest_class_for_keyword (keyword : string) : list Suggestion :=
  suggest_in NICE_CLASSES keyword.

(** *** The scoring rule as the specification words it

    The query term is the keyword in lower case without the white space
    around it.  A table keyword earns 10 points when it matches the query
    exactly, letter case aside; otherwise 5 points when one contains the
    other; otherwise 2 points when a word of the query occurs in it. *)
Definition query_term (keyword : string) : string := strip (lower keyword).

Definition match_points (query kw : string) : Z :=
  if (query =? lower kw)%string then 10
  else if str_in query kw || str_in kw query then 5
  else if existsb (fun word => str_in word kw) (split query) then 2
  else 0.

(** The score of a class: the points of its keywords, added up. *)
Definition class_score (query : string) (info : ClassInfo) : Z :=
  fold_right Z.add 0 (map (match_points query) (keywords info)).

(** The classes with a positive score, in the order of the table. *)
Definition scored_classes (table : list (Z * ClassInfo)) (query : string)
  : list Suggestion :=
  filter (fun s => sug_score s >? 0)
         (map (fun e : Z * ClassInfo => (fst e, title (snd e), class_score query (snd e)))
              table).

(** Every keyword of the table is in lower case. *)
Definition lowercase_keywords (table : list (Z * ClassInfo)) : bool :=
  forallb (fun e => forallb (fun kw => (lower kw =? kw)%string) (keywords (snd e))) table.

(** *** The module as the state the function runs in

    [NICE_CLASSES] is a global of the module: a call reads it.  A call is a
    step from the state of the module to the list returned and the state
    after the call. *)
Record Globals := { g_NICE_CLASSES : list (Z * ClassInfo) }.

Definition call_suggest_class_for_keyword (keyword : string)
  : Py.M Globals (list Suggestion) :=
  Py.bind (Py.gets g_NICE_CLASSES) (fun table => Py.ret (suggest_in table keyword)).

(** The module as loaded. *)
Definition loaded : Globals := {| g_NICE_CLASSES := NICE_CLASSES |}.

End NiceDb.

(* ===================================================================== *)
(** * Calendar dates and [datetime.strptime(s, "%Y-%m-%d").date()] *)
(* ===================================================================== *)

Module PyDate.
Import PyStr.

Record date := { year : Z; month : Z; day : Z }.

(** [a < b] on dates. *)
Definition lt (a b : date) : bool :=
  (year a <? year b)
  || ((year a =? year b)
      && ((month a <? month b)
          || ((month a =? month b) && (day a <? day b)))).

Definition is_leap (y : Z) : bool :=
  ((y mod 4 =? 0) && negb (y mod 100 =? 0)) || (y mod 400 =? 0).

Definition days_in_month (y m : Z) : Z :=
  if m =? 2 then (if is_leap y then 29 else 28)
  else if (m =? 4) || (m =? 6) || (m =? 9) || (m =? 11) then 30
  else 31.

(** The value of a decimal digit. *)
Definition digit (c : ascii) : Z := Z.of_N (N_of_ascii c) - 48.

Definition is_1_9 (c : ascii) : bool := in_range 49 57 (N_of_ascii c).

(** The directive [%m]: [1[0-2]|0[1-9]|[1-9]].  Every alternative that
    matches at the head of [s], in the order the matcher tries them, with
    the text left after it. *)
Definition month_matches (s : string) : list (Z * string) :=
  match s with
  | String a r1 =>
      (match r1 with
       | String b r2 =>
           (if Ascii.eqb a "1" && in_range 48 50 (N_of_ascii b)
            then [(10 + digit b, r2)] else [])
           ++ (if Ascii.eqb a "0" && is_1_9 b then [(digit b, r2)] else [])
       | EmptyString => []
       end)
      ++ (if is_1_9 a then [(digit a, r1)] else [])
  | EmptyString => []
  end.

(** The directive [%d]: [3[0-1]|[1-2]\d|0[1-9]|[1-9]| [1-9]]. *)
Definition day_matches (s : string) : list (Z * string) :=
  match s with
  | String a r1 =>
      (match r1 with
       | String b r2 =>
           (if Ascii.eqb a "3" && in_range 48 49 (N_of_ascii b)
            then [(30 + digit b, r2)] else [])
           ++ (if in_range 49 50 (N_of_ascii a) && isdigit b
               then [(10 * digit a + digit b, r2)] else [])
           ++ (if Ascii.eqb a "0" && is_1_9 b then [(digit b, r2)] else [])
       | EmptyString => []
       end)
      ++ (if is_1_9 a then [(digit a, r1)] else [])
      ++ (match r1 with
          | String b r2 =>
              if Ascii.eqb a " " && is_1_9 b then [(digit b, r2)] else []
          | EmptyString => []
          end)
  | EmptyString => []
  end.

(** The first way the pattern of ["%Y-%m-%d"] matches a prefix of [s]: the
    three numbers and the text that is left. *)
Definition match_ymd (s : string) : option (Z * Z * Z * string) :=
  match s with
  | String y1 (String y2 (String y3 (String y4 (String dash r)))) =>
      if isdigit y1 && isdigit y2 && isdigit y3 && isdigit y4 && Ascii.eqb dash "-"
      then
        let y := 1000 * digit y1 + 100 * digit y2 + 10 * digit y3 + digit y4 in
        let after_month :=
          flat_map (fun mr : Z * string =>
                      match snd mr with
                      | String dash2 r' =>
                          if Ascii.eqb dash2 "-"
                          then map (fun dr : Z * string => (y, fst mr, fst dr, snd dr))
                                   (firstn 1 (day_matches r'))
                          else []
                      | EmptyString => []
                      end)
                   (month_matches r) in
        hd_error after_month
      else None
  | _ => None
  end.

(** [datetime.strptime(s, "%Y-%m-%d").date()]; [None] stands for the
    [ValueError] of a text that does not match, of text left over and of a
    day or a year that does not exist. *)
Definition strptime (s : string) : option date :=
  match match_ymd s with
  | Some (y, m, d, rest) =>
      if negb (truthy rest) && (1 <=? y) && (d <=? days_in_month y m)
      then Some {| year := y; month := m; day := d |}
      else None
  | None => None
  end.

End PyDate.

(* ===================================================================== *)
(** * Pillar 1: the classification assessor ([tmep_1401_assessor.py]) *)
(* ===================================================================== *)

Module Pillar1.
Import PyStr NiceDb Py.
Local Open Scope py_scope.

(** The double quote, for the texts that contain one. *)
Definition dq : string := String (ascii_of_nat 34) EmptyString.

(** The line feed. *)
Definition nl : string := String (ascii_of_nat 10) EmptyString.

Module ClassEntry.
(** One class entry of a trademark application. *)
Record t := {
  class_number : Z;
  identification : string;
  specimen_type : string;
  specimen_description : string;
  fee_paid : bool;
  filing_basis : string;
  date_of_first_use : option string;
  date_of_first_use_commerce : option string;
  flags : list string;
  suggestions : list string
}.
End ClassEntry.

(** The trademark application handed to the assessor. *)
Record TrademarkApplication := {
  applicant_name : string;
  mark_text : string;
  mark_type : string;
  filing_date : string;
  nice_edition_claimed : string;
  application_serial : string;
  filing_type : string;
  classes : list ClassEntry.t;
  fees_paid_count : Z;
  total_fee_paid : float;
  is_multi_class : bool;
  notes : string
}.

Module AssessmentFinding.
(** A single finding of the assessment. *)
Record t := {
  tmep_section : string;
  severity : string;
  class_number : Z;
  item : string;
  finding : string;
  recommendation : string
}.
End AssessmentFinding.
Import AssessmentFinding.

(** The assessor object: the application it holds and the findings list it
    fills.  [assessment_date] is read from the clock by the constructor. *)
Record TMEP1401Assessor := {
  app : TrademarkApplication;
  findings : list AssessmentFinding.t;
  assessment_date : string
}.

(** A method of the assessor. *)
Definition Check (A : Type) : Type := M TMEP1401Assessor A.

(** The assessor [self] with [fs] as its findings list. *)
Definition with_findings (self : TMEP1401Assessor) (fs : list AssessmentFinding.t)
  : TMEP1401Assessor :=
  {| app := app self; findings := fs; assessment_date := assessment_date self |}.

(** [self.findings.append(f)]. *)
Definition findings_append (f : AssessmentFinding.t) : Check unit :=
  modify (fun self => with_findings self (findings self ++ [f])).

(** [self.findings.clear()]. *)
Definition findings_clear : Check unit :=
  modify (fun self => with_findings self []).

(** [f.severity == s]. *)
Definition has_severity (s : string) (f : AssessmentFinding.t) : bool :=
  (severity f =? s)%string.

(** A class number outside 1..45. *)
Definition out_of_range (n : Z) : bool := negb ((1 <=? n) && (n <=? 45)).

(** [', '.join(map(str, l))]. *)
Definition join_ints (l : list Z) : string := join ", " (map str l).

(* --------------------------------------------------------------------- *)
(** ** §1401.01: statutory authority *)

Definition _check_1401_01_statutory_authority : Check unit :=
  let section := "§1401.01" in
  let valid_bases := ["1(a)"; "1(b)"; "44(d)"; "44(e)"; "66(a)"] in
  self_app <- gets app ;;
  found_invalid_basis <-
    for_each (classes self_app) false (fun found_invalid_basis cls_entry =>
      if negb (mem (ClassEntry.filing_basis cls_entry) valid_bases) then
        findings_append
          {| tmep_section := section;
             severity := "ERROR";
             class_number := ClassEntry.class_number cls_entry;
             item := fstr ["Filing basis: '"; ClassEntry.filing_basis cls_entry; "'"];
             finding := fstr
               ["Invalid or unrecognized filing basis. USPTO jurisdiction requires ";
                "a recognized basis under the Lanham Act."];
             recommendation := fstr
               ["Correct filing basis to one of: "; join ", " valid_bases; "."] |} ;;
        ret true
      else ret found_invalid_basis) ;;
  when (negb found_invalid_basis)
    (findings_append
       {| tmep_section := section;
          severity := "OK";
          class_number := 0;
          item := "Filing Basis";
          finding := fstr
            ["All filing bases are recognized under the Lanham Act. ";
             "USPTO statutory authority to classify and charge per-class fees is confirmed ";
             "(15 U.S.C. §1112; Lanham Act §30)."];
          recommendation := "No action required." |}).

(* --------------------------------------------------------------------- *)
(** ** §1401.02: international classification adopted *)

Definition _check_1401_02_international_classification_adopted : Check unit :=
  let section := "§1401.02" in
  self_app <- gets app ;;
  invalid_classes_found <-
    for_each (classes self_app) [] (fun invalid_classes_found cls_entry =>
      if negb (PyList.mem (ClassEntry.class_number cls_entry) VALID_CLASS_NUMBERS) then
        findings_append
          {| tmep_section := section;
             severity := "ERROR";
             class_number := ClassEntry.class_number cls_entry;
             item := fstr ["Class "; str (ClassEntry.class_number cls_entry)];
             finding := fstr
               ["Class number "; str (ClassEntry.class_number cls_entry);
                " is NOT a valid ";
                "International (Nice) Classification number. ";
                "Valid classes are 1–45 under the Nice Agreement."];
             recommendation := fstr
               ["Replace with a valid Nice Classification class number (1–45). ";
                "Consult the USPTO ID Manual or TMEP §1401.02."] |} ;;
        ret (invalid_classes_found ++ [ClassEntry.class_number cls_entry])
      else ret invalid_classes_found) ;;
  when (match invalid_classes_found with [] => true | _ => false end)
    (let classes_used := map ClassEntry.class_number (classes self_app) in
     findings_append
       {| tmep_section := section;
          severity := "OK";
          class_number := 0;
          item := "Nice Classification System Compliance";
          finding := fstr
            ["All class numbers ("; join_ints (PyList.sorted classes_used);
             ") are valid ";
             "International Nice Classification numbers under the Nice Agreement ";
             "(adopted by USPTO per 37 C.F.R. §2.85)."];
          recommendation := "No action required." |}).

(* --------------------------------------------------------------------- *)
(** ** §1401.04: classification determines the number of fees *)

Definition dict_get_str {V} (d : list (string * V)) (k : string) : option V :=
  PyDict.get String.eqb d k.

Definition _check_1401_04_classification_determines_fees : Check unit :=
  let section := "§1401.04" in
  self_app <- gets app ;;
  (* Count distinct classes *)
  let claimed_classes := map ClassEntry.class_number (classes self_app) in
  let distinct_classes := PyList.sorted (PyList.distinct claimed_classes) in
  let num_distinct := Z.of_nat (List.length distinct_classes) in
  let fees_paid := fees_paid_count self_app in
  (* Check for duplicate class entries *)
  when (negb (Nat.eqb (List.length claimed_classes) (List.length distinct_classes)))
    (let duplicates :=
       filter (fun cls => PyList.count cls claimed_classes >? 1) distinct_classes in
     findings_append
       {| tmep_section := section;
          severity := "WARNING";
          class_number := 0;
          item := fstr ["Duplicate class entries: "; repr_ints duplicates];
          finding := fstr
            ["Class(es) "; repr_ints duplicates;
             " appear more than once in the application. ";
             "Each class should appear once with a consolidated identification."];
          recommendation := fstr
            ["Consolidate all goods/services for each class into a single ";
             "class entry. Duplicate class entries may cause processing issues."] |}) ;;
  (* Calculate expected fees; [actual_fee_total] of the source is never read *)
  teas_standard <- getitem (dict_get_str USPTO_FEES "TEAS_STANDARD") ;;
  let fee_per_class :=
    match dict_get_str USPTO_FEES (filing_type self_app) with
    | Some fee => fee
    | None => teas_standard
    end in
  let expected_fee_total := num_distinct * fee_per_class in
  (* Check fee count vs class count *)
  (if fees_paid =? 0 then
     findings_append
       {| tmep_section := section;
          severity := "INFO";
          class_number := 0;
          item := "Fee Count Not Specified";
          finding := fstr
            ["The number of fees paid was not specified in the application input. ";
             "Cannot perform fee count verification."];
          recommendation := fstr
            ["Verify that "; str num_distinct; " fee(s) were submitted — one per class: ";
             "Classes "; join_ints distinct_classes; ". ";
             "At "; filing_type self_app; " rate: $"; str fee_per_class; "/class = ";
             "$"; str expected_fee_total; " total."] |}
   else if fees_paid <? num_distinct then
     let shortage := num_distinct - fees_paid in
     findings_append
       {| tmep_section := section;
          severity := "ERROR";
          class_number := 0;
          item := fstr
            ["Fee Shortage: "; str fees_paid; " fees paid, "; str num_distinct;
             " classes claimed"];
          finding := fstr
            ["UNDERPAYMENT DETECTED: Application claims "; str num_distinct; " class(es) ";
             "("; join_ints distinct_classes; ") but only "; str fees_paid; " fee(s) ";
             "were submitted. Shortfall: "; str shortage; " fee(s) = ";
             "$"; str (shortage * fee_per_class); " at "; filing_type self_app; " rate."];
          recommendation := fstr
            ["Submit "; str shortage; " additional fee(s) of $"; str fee_per_class; " each ";
             "($"; str (shortage * fee_per_class); " total) to cover all classes. ";
             "Failure to pay per-class fees will result in the uncovered ";
             "class(es) being deleted from the application."] |}
   else if fees_paid >? num_distinct then
     let excess := fees_paid - num_distinct in
     findings_append
       {| tmep_section := section;
          severity := "WARNING";
          class_number := 0;
          item := fstr
            ["Fee Excess: "; str fees_paid; " fees paid, "; str num_distinct;
             " classes claimed"];
          finding := fstr
            ["OVERPAYMENT: "; str fees_paid; " fees paid but only "; str num_distinct;
             " class(es) claimed. ";
             "Excess: "; str excess; " fee(s) = $"; str (excess * fee_per_class); "."];
          recommendation := fstr
            ["Request refund of overpaid fees or add additional classes to match ";
             "the number of fees submitted."] |}
   else
     findings_append
       {| tmep_section := section;
          severity := "OK";
          class_number := 0;
          item := "Fee Verification";
          finding := fstr
            ["Fee count CORRECT: "; str fees_paid; " fee(s) paid for "; str num_distinct;
             " class(es). ";
             "Classes: "; join_ints distinct_classes; ". ";
             "Filing type: "; filing_type self_app; " ($"; str fee_per_class; "/class). ";
             "Total: $"; str (fees_paid * fee_per_class); "."];
          recommendation := "No action required." |}) ;;
  (* Check individual class fee flags *)
  for_each (classes self_app) tt (fun _ cls_entry =>
    when (negb (ClassEntry.fee_paid cls_entry))
      (findings_append
         {| tmep_section := section;
            severity := "ERROR";
            class_number := ClassEntry.class_number cls_entry;
            item := fstr ["Class "; str (ClassEntry.class_number cls_entry); " — No fee"];
            finding := fstr
              ["No filing fee has been paid for Class ";
               str (ClassEntry.class_number cls_entry); ". ";
               "Per §1401.04, each class requires a separate fee."];
            recommendation := fstr
              ["Submit $"; str fee_per_class; " ("; filing_type self_app; ") ";
               "for Class "; str (ClassEntry.class_number cls_entry); "."] |})).

(* --------------------------------------------------------------------- *)
(** ** §1401.03: designation of class *)

(** [any(x in text for x in l)]. *)
Definition any_in (l : list string) (text : string) : bool :=
  existsb (fun x => str_in x text) l.

(** [[t.strip() for t in text.replace(";", ",").split(",") if t.strip()]]. *)
Definition split_terms (text : string) : list string :=
  map strip
      (filter (fun t => truthy (strip t)) (split_on "," (replace ";" "," text))).

Definition _check_1401_03_designation_of_class : Check unit :=
  let section := "§1401.03" in
  self_app <- gets app ;;
  for_each (classes self_app) tt (fun _ cls_entry =>
    let claimed_class := ClassEntry.class_number cls_entry in
    let id_text := strip (lower (ClassEntry.identification cls_entry)) in
    match get_class_info claimed_class with
    | None => ret tt  (* Already flagged in §1401.02 *)
    | Some class_info =>
      (* Step A: Check against known misclassification patterns *)
      misclassification_found <-
        for_each COMMON_MISCLASSIFICATIONS false (fun misclassification_found entry =>
          let '((kw, wrong_class), (correct_class, reason)) := entry in
          if str_in kw id_text && (wrong_class =? claimed_class)
             && negb (correct_class =? claimed_class) then
            findings_append
              {| tmep_section := section;
                 severity := "ERROR";
                 class_number := claimed_class;
                 item := fstr [dq; kw; dq; " in Class "; str claimed_class];
                 finding := fstr
                   ["MISCLASSIFICATION DETECTED: '"; kw; "' is placed in Class ";
                    str claimed_class; " ";
                    "("; title class_info; "), but this is incorrect. "; reason];
                 recommendation := fstr
                   ["Move '"; kw; "' to Class "; str correct_class; " ";
                    "(";
                    match get_class_info correct_class with
                    | Some info => title info
                    | None => "see TMEP"
                    end;
                    ")."] |} ;;
            ret true
          else ret misclassification_found) ;;
      (* Step B: Keyword-based class suggestion check *)
      let id_terms := split_terms id_text in
      for_each id_terms tt (fun _ term =>
        let suggestions := suggest_class_for_keyword term in
        match suggestions with
        | [] => ret tt
        | top :: _ =>
          let top_suggested_class := sug_class top in
          let top_score := sug_score top in
          if negb (top_suggested_class =? claimed_class) && (top_score >=? 5) then
            let top_cls_info := get_class_info top_suggested_class in
            top_cls_info <- subscript top_cls_info ;;
            findings_append
              {| tmep_section := section;
                 severity := "WARNING";
                 class_number := claimed_class;
                 item := fstr ["Term: "; dq; term; dq; " in Class "; str claimed_class];
                 finding := fstr
                   ["Possible classification mismatch: '"; term; "' appears to match ";
                    "Class "; str top_suggested_class; " ("; title top_cls_info; ") ";
                    "more closely than Class "; str claimed_class;
                    " ("; title class_info; ")."];
                 recommendation := fstr
                   ["Verify whether '"; term; "' belongs in Class ";
                    str top_suggested_class; " ";
                    "("; title top_cls_info; ") instead of Class "; str claimed_class; ". ";
                    "Per §1401.05: nature of goods/services determines class."] |}
          else ret tt
        end) ;;
      (* Step C: Confirm class category alignment *)
      let category := category class_info in
      let service_indicators :=
        ["service"; "services"; "providing"; "rendering"; "consulting";
         "management of"; "repair of"; "installation of"; "development of"] in
      let goods_indicators :=
        ["downloadable"; "printed"; "physical"; "apparatus"; "device"; "equipment";
         "machine"; "clothing"; "food"; "beverage"; "chemical"] in
      let is_service_language := any_in service_indicators id_text in
      let is_goods_language := any_in goods_indicators id_text in
      (if (category =? "GOODS")%string && is_service_language
          && negb is_goods_language then
         findings_append
           {| tmep_section := section;
              severity := "WARNING";
              class_number := claimed_class;
              item := fstr
                ["Category mismatch in Class "; str claimed_class;
                 " ("; title class_info; ")"];
              finding := fstr
                ["The identification '"; ClassEntry.identification cls_entry;
                 "' appears to describe a SERVICE ";
                 "(contains service language: ";
                 repr_strs (filter (fun si => str_in si id_text) service_indicators);
                 "), ";
                 "but Class "; str claimed_class; " is a GOODS class."];
              recommendation := fstr
                ["Review the identification. Services must be placed in Classes 35–45. ";
                 "Consider which service class (35–45) is appropriate."] |}
       else if (category =? "SERVICES")%string && is_goods_language
               && negb is_service_language then
         findings_append
           {| tmep_section := section;
              severity := "WARNING";
              class_number := claimed_class;
              item := fstr
                ["Category mismatch in Class "; str claimed_class;
                 " ("; title class_info; ")"];
              finding := fstr
                ["The identification '"; ClassEntry.identification cls_entry;
                 "' appears to describe GOODS, ";
                 "but Class "; str claimed_class; " is a SERVICES class."];
              recommendation :=
                "Review the identification. Goods must be placed in Classes 1–34." |}
       else ret tt) ;;
      (* Step D: Record OK if no issues found *)
      when (negb misclassification_found)
        (self_findings <- gets findings ;;
         let has_warning :=
           existsb (fun f => (tmep_section f =? section)%string
                             && (class_number f =? claimed_class))
                   self_findings in
         when (negb has_warning)
           (findings_append
              {| tmep_section := section;
                 severity := "OK";
                 class_number := claimed_class;
                 item := fstr
                   ["Class "; str claimed_class; ": ";
                    take 60 (ClassEntry.identification cls_entry);
                    if len (ClassEntry.identification cls_entry) >? 60
                    then "..." else ""];
                 finding := fstr
                   ["Class designation appears correct. Class "; str claimed_class; " ";
                    "("; title class_info; ") is consistent with the ";
                    "identification provided."];
                 recommendation := "No action required." |}))
    end).

(* --------------------------------------------------------------------- *)
(** ** §1401.05: criteria on which classification is based *)

(** One entry of [ambiguous_pairs]. *)
Record AmbiguousPair := {
  term : string;
  goods_form : string;
  goods_class : Z;
  goods_reason : string;
  service_form : string;
  service_class : Z;
  service_reason : string
}.

Definition ambiguous_pairs : list AmbiguousPair :=
  [ {| term := "music";
       goods_form := "downloadable music";
       goods_class := 9;
       goods_reason := "Downloadable music is a DIGITAL PRODUCT (what it is = a file) → Class 9";
       service_form := "music streaming service";
       service_class := 41;
       service_reason := "Music streaming is an ENTERTAINMENT SERVICE (what it does = entertains) → Class 41" |}
  ; {| term := "video";
       goods_form := "downloadable video content";
       goods_class := 9;
       goods_reason := "Downloadable video is a DIGITAL PRODUCT → Class 9";
       service_form := "video streaming service";
       service_class := 41;
       service_reason := "Video streaming is an ENTERTAINMENT SERVICE → Class 41" |}
  ; {| term := "software";
       goods_form := "downloadable software";
       goods_class := 9;
       goods_reason := "Downloadable software is a DIGITAL PRODUCT → Class 9";
       service_form := "software as a service";
       service_class := 42;
       service_reason := "SaaS is a TECHNOLOGY SERVICE (what it does = provides tech access) → Class 42" |}
  ; {| term := "book";
       goods_form := "downloadable ebooks";
       goods_class := 9;
       goods_reason := "Downloadable ebooks are DIGITAL PRODUCTS → Class 9";
       service_form := "printed books";
       service_class := 16;
       service_reason := "Printed books are PHYSICAL GOODS (paper products) → Class 16" |}
  ; {| term := "food";
       goods_form := "packaged food products";
       goods_class := 30;
       goods_reason := "Packaged food is a PHYSICAL PRODUCT (what it is = food) → Class 29/30";
       service_form := "restaurant food service";
       service_class := 43;
       service_reason := "Restaurant is a FOOD SERVICE (what it does = serves meals) → Class 43" |}
  ; {| term := "education";
       goods_form := "educational printed materials";
       goods_class := 16;
       goods_reason := "Printed educational materials are GOODS → Class 16";
       service_form := "educational services";
       service_class := 41;
       service_reason := "Educational services are SERVICES (what they do = educate) → Class 41" |}
  ].

Definition _check_1401_05_criteria_for_classification : Check unit :=
  let section := "§1401.05" in
  self_app <- gets app ;;
  for_each (classes self_app) tt (fun _ cls_entry =>
    let id_text := lower (ClassEntry.identification cls_entry) in
    match get_class_info (ClassEntry.class_number cls_entry) with
    | None => ret tt
    | Some class_info =>
      (* Check for ambiguous terms *)
      for_each ambiguous_pairs tt (fun _ pair =>
        when (str_in (term pair) id_text)
          ((* Evaluate whether identification is goods or service form *)
           let has_download :=
             any_in ["download"; "downloadable"; "recorded"; "digital file"] id_text in
           let has_service_language :=
             any_in ["service"; "streaming"; "providing"; "access to"] id_text in
           let has_print := any_in ["printed"; "paper"; "physical"] id_text in
           (* Build contextual advisory *)
           findings_append
             {| tmep_section := section;
                severity := "INFO";
                class_number := ClassEntry.class_number cls_entry;
                item := fstr
                  ["Ambiguous term: "; dq; term pair; dq; " in Class ";
                   str (ClassEntry.class_number cls_entry)];
                finding := fstr
                  ["CLASSIFICATION CRITERIA ANALYSIS for '"; term pair; "':"; nl;
                   "   • If this is a PRODUCT (goods form) → ";
                   "Class "; str (goods_class pair); ": "; goods_reason pair; nl;
                   "   • If this is a SERVICE (service form) → ";
                   "Class "; str (service_class pair); ": "; service_reason pair; nl;
                   "   Current placement: Class ";
                   str (ClassEntry.class_number cls_entry); " ";
                   "("; title class_info; "). ";
                   "[Per §1401.05: goods = classified by nature; ";
                   "services = classified by function]"];
                recommendation := fstr
                  ["Confirm identification clearly distinguishes between ";
                   "the PRODUCT form (→ Class "; str (goods_class pair); ") and ";
                   "the SERVICE form (→ Class "; str (service_class pair); "). ";
                   "If both forms are offered, file in BOTH classes with ";
                   "separate identifications."] |})) ;;
      (* Verify goods/services classification logic is respected *)
      let category := category class_info in
      if (category =? "GOODS")%string then
        findings_append
          {| tmep_section := section;
             severity := "INFO";
             class_number := ClassEntry.class_number cls_entry;
             item := fstr
               ["Classification Logic — Class ";
                str (ClassEntry.class_number cls_entry); " (GOODS)"];
             finding := fstr
               ["Class "; str (ClassEntry.class_number cls_entry); " is a GOODS class. ";
                "Per §1401.05, classification is based on the NATURE/COMPOSITION ";
                "of the goods — what the product physically IS."];
             recommendation := fstr
               ["Ensure identification describes the product by its nature ";
                "(e.g., material, form, composition) not its marketing purpose."] |}
      else
        findings_append
          {| tmep_section := section;
             severity := "INFO";
             class_number := ClassEntry.class_number cls_entry;
             item := fstr
               ["Classification Logic — Class ";
                str (ClassEntry.class_number cls_entry); " (SERVICES)"];
             finding := fstr
               ["Class "; str (ClassEntry.class_number cls_entry); " is a SERVICES class. ";
                "Per §1401.05, classification is based on the FUNCTION/PURPOSE ";
                "of the service — what activity is performed and for whose benefit."];
             recommendation := fstr
               ["Ensure identification describes the service activity clearly ";
                "(e.g., 'providing X for Y' or 'X services for others in the field of Y')."] |}
    end).

(* --------------------------------------------------------------------- *)
(** ** §1401.06: specimens as related to classification *)

(** [sum(1 for kw in l if kw in text)]. *)
Definition count_in (l : list string) (text : string) : Z :=
  Z.of_nat (List.length (filter (fun kw => str_in kw text) l)).

Definition _check_1401_06_specimen_related_to_classification : Check unit :=
  let section := "§1401.06" in
  self_app <- gets app ;;
  for_each (classes self_app) tt (fun _ cls_entry =>
    (* Skip if no specimen submitted (intent-to-use applications) *)
    if (ClassEntry.filing_basis cls_entry =? "1(b)")%string then
      findings_append
        {| tmep_section := section;
           severity := "INFO";
           class_number := ClassEntry.class_number cls_entry;
           item := fstr
             ["Class "; str (ClassEntry.class_number cls_entry);
              " — Intent to Use (§1(b))"];
           finding := fstr
             ["No specimen required at this stage for §1(b) intent-to-use applications. ";
              "Specimen must be submitted with the Statement of Use (SOU) ";
              "after the mark is used in commerce."];
           recommendation :=
             "Ensure specimen is filed with SOU when the mark is put into use." |}
    else if negb (truthy (ClassEntry.specimen_type cls_entry))
            && negb (truthy (ClassEntry.specimen_description cls_entry)) then
      findings_append
        {| tmep_section := section;
           severity := "ERROR";
           class_number := ClassEntry.class_number cls_entry;
           item := fstr
             ["Class "; str (ClassEntry.class_number cls_entry); " — Specimen Missing"];
           finding := fstr
             ["No specimen was provided for Class ";
              str (ClassEntry.class_number cls_entry); ". ";
              "For §1(a) use-based applications, a specimen showing actual ";
              "use of the mark is required."];
           recommendation := fstr
             ["Submit an acceptable specimen showing the mark in actual use ";
              "in connection with the goods/services in this class."] |}
    else
    match get_class_info (ClassEntry.class_number cls_entry) with
    | None => ret tt
    | Some class_info =>
      let category := category class_info in
      let specimen_type_lower := lower (ClassEntry.specimen_type cls_entry) in
      let specimen_desc_lower := lower (ClassEntry.specimen_description cls_entry) in
      (* Check specimen type validity for goods vs. services *)
      (if (category =? "GOODS")%string then
         invalid_goods_specimens <- getitem (dict_get_str SPECIMEN_TYPES "goods_invalid") ;;
         valid_goods_specimens <- getitem (dict_get_str SPECIMEN_TYPES "goods_valid") ;;
         let is_invalid := any_in invalid_goods_specimens specimen_type_lower in
         let is_valid := any_in valid_goods_specimens specimen_type_lower in
         when (is_invalid && negb is_valid)
           (findings_append
              {| tmep_section := section;
                 severity := "ERROR";
                 class_number := ClassEntry.class_number cls_entry;
                 item := fstr
                   ["Class "; str (ClassEntry.class_number cls_entry);
                    " specimen: '"; ClassEntry.specimen_type cls_entry; "'"];
                 finding := fstr
                   ["UNACCEPTABLE SPECIMEN for GOODS: '";
                    ClassEntry.specimen_type cls_entry; "' ";
                    "is not an acceptable specimen for goods in Class ";
                    str (ClassEntry.class_number cls_entry); ". ";
                    "For goods, the specimen must show the mark directly on the goods, ";
                    "their packaging, or a point-of-sale display."];
                 recommendation := fstr
                   ["Replace specimen with an acceptable goods specimen such as: ";
                    join ", " valid_goods_specimens; "."] |})
       else if (category =? "SERVICES")%string then
         invalid_service_specimens <-
           getitem (dict_get_str SPECIMEN_TYPES "services_invalid") ;;
         valid_service_specimens <-
           getitem (dict_get_str SPECIMEN_TYPES "services_valid") ;;
         let is_invalid := any_in invalid_service_specimens specimen_type_lower in
         let is_valid := any_in valid_service_specimens specimen_type_lower in
         when (is_invalid && negb is_valid)
           (findings_append
              {| tmep_section := section;
                 severity := "ERROR";
                 class_number := ClassEntry.class_number cls_entry;
                 item := fstr
                   ["Class "; str (ClassEntry.class_number cls_entry);
                    " specimen: '"; ClassEntry.specimen_type cls_entry; "'"];
                 finding := fstr
                   ["UNACCEPTABLE SPECIMEN for SERVICES: '";
                    ClassEntry.specimen_type cls_entry; "' ";
                    "is not an acceptable specimen for services in Class ";
                    str (ClassEntry.class_number cls_entry); ". ";
                    "For services, the specimen must show the mark being used in the ";
                    "rendering or advertising of the services."];
                 recommendation := fstr
                   ["Replace specimen with an acceptable services specimen such as: ";
                    join ", " valid_service_specimens; "."] |})
       else ret tt) ;;
      (* Cross-check specimen description against class *)
      let specimen_class_keywords := keywords class_info in
      let specimen_matches_class :=
        any_in (firstn 20 specimen_class_keywords) specimen_desc_lower in
      (* Check for clear class mismatches in specimen *)
      let all_other_classes :=
        filter (fun e : Z * ClassInfo =>
                  negb (fst e =? ClassEntry.class_number cls_entry))
               NICE_CLASSES in
      (* Check for strong keywords from OTHER classes in specimen description *)
      class_mismatch_detected <-
        for_break all_other_classes false (fun class_mismatch_detected e =>
          let '(other_cn, other_ci) := e in
          let other_strong_kws := firstn 10 (keywords other_ci) in
          let other_matches := count_in other_strong_kws specimen_desc_lower in
          let own_matches :=
            count_in (firstn 10 specimen_class_keywords) specimen_desc_lower in
          if (other_matches >? own_matches) && (other_matches >=? 2) then
            findings_append
              {| tmep_section := section;
                 severity := "WARNING";
                 class_number := ClassEntry.class_number cls_entry;
                 item := fstr
                   ["Specimen mismatch with Class ";
                    str (ClassEntry.class_number cls_entry)];
                 finding := fstr
                   ["Specimen description appears to match Class "; str other_cn; " ";
                    "("; title other_ci; ") more closely than ";
                    "Class "; str (ClassEntry.class_number cls_entry);
                    " ("; title class_info; "). ";
                    "Specimen: '"; take 100 (ClassEntry.specimen_description cls_entry);
                    "...'"];
                 recommendation := fstr
                   ["Verify the specimen actually shows use of the mark ";
                    "in connection with the goods/services in ";
                    "Class "; str (ClassEntry.class_number cls_entry);
                    ", not Class "; str other_cn; "."] |} ;;
            ret (true, true)
          else ret (class_mismatch_detected, false)) ;;
      when (negb class_mismatch_detected)
        (findings_append
           {| tmep_section := section;
              severity := "OK";
              class_number := ClassEntry.class_number cls_entry;
              item := fstr
                ["Class "; str (ClassEntry.class_number cls_entry);
                 " specimen alignment"];
              finding := fstr
                ["Specimen ('"; ClassEntry.specimen_type cls_entry;
                 "') appears consistent with ";
                 "Class "; str (ClassEntry.class_number cls_entry);
                 " ("; title class_info; "). ";
                 "No obvious class mismatch detected."];
              recommendation := fstr
                ["Confirm specimen clearly shows the mark in actual use ";
                 "in connection with the identified goods/services."] |})
    end).

(* --------------------------------------------------------------------- *)
(** ** §1401.07: specimen discloses special characteristics *)

(** One entry of [reclassification_triggers]. *)
Record ReclassificationTrigger := {
  claimed_description_keywords : list string;
  claimed_class : Z;
  specimen_reveals_keywords : list string;
  true_class : Z;
  reason : string
}.

Definition reclassification_triggers : list ReclassificationTrigger :=
  [ {| claimed_description_keywords :=
         ["printed manual"; "printed guide"; "printed instruction"];
       claimed_class := 16;
       specimen_reveals_keywords :=
         ["download"; "online"; "digital"; "software"; "app"; "website"];
       true_class := 9;
       reason := fstr
         ["Specimen shows ONLINE/DOWNLOADABLE content. ";
          "Printed manuals → Class 16, but downloadable/online content → Class 9."] |}
  ; {| claimed_description_keywords := ["physical software"; "software disk"; "cd-rom"];
       claimed_class := 9;
       specimen_reveals_keywords :=
         ["service"; "cloud"; "saas"; "subscription"; "access to"];
       true_class := 42;
       reason := fstr
         ["Specimen reveals this is a SOFTWARE SERVICE (SaaS/cloud), ";
          "not a downloadable product. Software products → Class 9, ";
          "but software services → Class 42."] |}
  ; {| claimed_description_keywords := ["clothing"; "apparel"; "t-shirt"];
       claimed_class := 25;
       specimen_reveals_keywords :=
         ["restaurant"; "menu"; "food service"; "dining"; "catering"];
       true_class := 43;
       reason := fstr
         ["Specimen shows RESTAURANT/FOOD SERVICES, not clothing. ";
          "Clothing → Class 25, but restaurant services → Class 43."] |}
  ; {| claimed_description_keywords := ["book"; "publication"];
       claimed_class := 16;
       specimen_reveals_keywords := ["download"; "ebook"; "digital"; "epub"; "kindle"];
       true_class := 9;
       reason := fstr
         ["Specimen shows DOWNLOADABLE/DIGITAL format. ";
          "Printed books → Class 16, but downloadable ebooks → Class 9."] |}
  ; {| claimed_description_keywords := ["software"; "application"; "app"];
       claimed_class := 9;
       specimen_reveals_keywords :=
         ["web-based"; "saas"; "subscription service"; "cloud service";
          "hosted service"; "no download"];
       true_class := 42;
       reason := fstr
         ["Specimen reveals a WEB-BASED/SAAS service, not a downloaded product. ";
          "Downloadable software → Class 9, but SaaS/cloud services → Class 42."] |}
  ].

Definition _check_1401_07_specimen_discloses_special_characteristics : Check unit :=
  let section := "§1401.07" in
  self_app <- gets app ;;
  for_each (classes self_app) tt (fun _ cls_entry =>
    if negb (truthy (ClassEntry.specimen_description cls_entry)) then ret tt
    else
      let spec_desc_lower := lower (ClassEntry.specimen_description cls_entry) in
      let id_text_lower := lower (ClassEntry.identification cls_entry) in
      triggered <-
        for_break reclassification_triggers false (fun triggered trigger =>
          (* Check if the identification matches the trigger *)
          let id_matches := any_in (claimed_description_keywords trigger) id_text_lower in
          (* Check if the specimen reveals the trigger characteristics *)
          let spec_reveals := any_in (specimen_reveals_keywords trigger) spec_desc_lower in
          if id_matches && spec_reveals then
            findings_append
              {| tmep_section := section;
                 severity := "ERROR";
                 class_number := ClassEntry.class_number cls_entry;
                 item := fstr
                   ["Specimen reveals reclassification need — Class ";
                    str (ClassEntry.class_number cls_entry)];
                 finding := fstr
                   ["RECLASSIFICATION REQUIRED: The specimen reveals special characteristics ";
                    "that conflict with the current class designation."; nl;
                    "   • Identification says: '";
                    take 80 (ClassEntry.identification cls_entry); "'"; nl;
                    "   • Specimen reveals: "; reason trigger; nl;
                    "   • Current Class: "; str (ClassEntry.class_number cls_entry); " → ";
                    "Correct Class: "; str (true_class trigger)];
                 recommendation := fstr
                   ["Amend classification from Class ";
                    str (ClassEntry.class_number cls_entry); " ";
                    "to Class "; str (true_class trigger); " and update the ";
                    "identification accordingly. The specimen's actual content ";
                    "controls classification per §1401.07."] |} ;;
            ret (true, true)
          else ret (triggered, false)) ;;
      when (negb triggered && truthy (ClassEntry.specimen_description cls_entry))
        (findings_append
           {| tmep_section := section;
              severity := "OK";
              class_number := ClassEntry.class_number cls_entry;
              item := fstr
                ["Class "; str (ClassEntry.class_number cls_entry);
                 " — Specimen characteristic review"];
              finding := fstr
                ["No special characteristics detected in the specimen that would ";
                 "require reclassification from Class ";
                 str (ClassEntry.class_number cls_entry); ". ";
                 "Specimen appears consistent with the identification provided."];
              recommendation :=
                "No reclassification required based on specimen characteristics." |})).

(* --------------------------------------------------------------------- *)
(** ** §1401.08: classification and the identification of goods and services *)

Module Misaligned.
(** One entry of [misaligned_items]. *)
Record t := {
  item : string;
  suggested_class : Z;
  suggested_title : string
}.
End Misaligned.

(** [s.add(x)] on a set of numbers kept without repetitions. *)
Definition set_add (x : Z) (s : list Z) : list Z :=
  if PyList.mem x s then s else s ++ [x].

Definition _check_1401_08_classification_and_identification : Check unit :=
  let section := "§1401.08" in
  self_app <- gets app ;;
  for_each (classes self_app) tt (fun _ cls_entry =>
    let claimed_class := ClassEntry.class_number cls_entry in
    match get_class_info claimed_class with
    | None => ret tt
    | Some class_info =>
      let id_text := ClassEntry.identification cls_entry in
      let id_text_lower := lower id_text in
      (* Check 1: Entire identification consistency *)
      let id_items := split_terms id_text in
      misaligned_items <-
        for_each id_items [] (fun misaligned_items item =>
          let suggestions := suggest_class_for_keyword item in
          match suggestions with
          | [] => ret misaligned_items
          | top :: _ =>
            let top_class := sug_class top in
            let top_score := sug_score top in
            if negb (top_class =? claimed_class) && (top_score >=? 7) then
              ret (misaligned_items ++
                   [ {| Misaligned.item := item;
                        Misaligned.suggested_class := top_class;
                        Misaligned.suggested_title :=
                          match get_class_info top_class with
                          | Some info => title info
                          | None => "Unknown"
                          end |} ])
            else ret misaligned_items
          end) ;;
      for_each misaligned_items tt (fun _ mi =>
        findings_append
          {| tmep_section := section;
             severity := "WARNING";
             class_number := claimed_class;
             AssessmentFinding.item := fstr
               ["'"; Misaligned.item mi; "' in Class "; str claimed_class];
             finding := fstr
               ["ALIGNMENT ISSUE: The item '"; Misaligned.item mi; "' is listed under ";
                "Class "; str claimed_class; " ("; title class_info; "), but it appears ";
                "to better align with Class "; str (Misaligned.suggested_class mi); " ";
                "("; Misaligned.suggested_title mi; "). ";
                "Class and identification must tell the same story (§1401.08)."];
             recommendation := fstr
               ["Either: (a) move '"; Misaligned.item mi; "' to Class ";
                str (Misaligned.suggested_class mi); ", ";
                "or (b) confirm that this item is indeed a ";
                lower (title class_info); " product/service and amend ";
                "the identification to clarify."] |}) ;;
      (* Check 2: Bundling of multiple classes in one entry *)
      other_classes_suggested <-
        for_each id_items [] (fun other_classes_suggested item =>
          let suggestions := suggest_class_for_keyword item in
          match suggestions with
          | [] => ret other_classes_suggested
          | top :: _ =>
            let top_class := sug_class top in
            if negb (top_class =? claimed_class) && (sug_score top >=? 5)
            then ret (set_add top_class other_classes_suggested)
            else ret other_classes_suggested
          end) ;;
      if Z.of_nat (List.length other_classes_suggested) >=? 2 then
        findings_append
          {| tmep_section := section;
             severity := "WARNING";
             class_number := claimed_class;
             AssessmentFinding.item := fstr
               ["Class "; str claimed_class; " — Possible multi-class bundling"];
             finding := fstr
               ["The identification for Class "; str claimed_class;
                " may contain goods/services ";
                "from multiple different classes. Items in this entry may belong to ";
                "Classes: "; join_ints (PyList.sorted other_classes_suggested); " ";
                "as well as Class "; str claimed_class; "."];
             recommendation := fstr
               ["Review the identification and separate goods/services into their ";
                "correct individual classes. Each class must have only goods/services ";
                "that properly belong in that class."] |}
      else
        (* If no issues, give an OK *)
        self_findings <- gets findings ;;
        let already_flagged :=
          existsb (fun f => (tmep_section f =? section)%string
                            && (class_number f =? claimed_class)
                            && mem (severity f) ["ERROR"; "WARNING"])
                  self_findings in
        when (negb already_flagged)
          (findings_append
             {| tmep_section := section;
                severity := "OK";
                class_number := claimed_class;
                AssessmentFinding.item := fstr
                  ["Class "; str claimed_class; " — Class/Identification Alignment"];
                finding := fstr
                  ["Class "; str claimed_class; " ("; title class_info; ") and the ";
                   "identification appear consistent and aligned. ";
                   "The written description is coherent with the class designation."];
                recommendation := "No action required." |})
    end).

(* --------------------------------------------------------------------- *)
(** ** §1401.09: implementation of changes to the Nice Agreement *)

(** [datetime.strptime(s, "%Y-%m-%d").date()] as a step of a method. *)
Definition strptime (s : string) : Check PyDate.date :=
  match PyDate.strptime s with
  | Some d => ret d
  | None => raise ValueError
  end.

Definition _check_1401_09_implementation_of_nice_changes : Check unit :=
  let section := "§1401.09" in
  self_app <- gets app ;;
  let edition_used := nice_edition_claimed self_app in
  let filing_date_str := filing_date self_app in
  let current_edition := "12th" in  (* As of Nov 2025 TMEP *)
  if negb (PyDict.mem String.eqb NICE_EDITION_TIMELINE edition_used) then
    findings_append
      {| tmep_section := section;
         severity := "WARNING";
         class_number := 0;
         item := fstr ["Nice Edition: '"; edition_used; "'"];
         finding := fstr
           ["Unrecognized or unspecified Nice Agreement edition: '"; edition_used; "'. ";
            "Cannot verify edition-specific compliance."];
         recommendation := fstr
           ["Confirm the application uses the "; current_edition; " Edition ";
            "of the Nice Agreement (current as of Nov 2025)."] |}
  else
    edition_info <- getitem (dict_get_str NICE_EDITION_TIMELINE edition_used) ;;
    (* Validate filing date against edition *)
    when (truthy filing_date_str)
      (try_except
         (filing_dt <- strptime filing_date_str ;;
          edition_start <- strptime (start edition_info) ;;
          edition_end <- strptime (end_ edition_info) ;;
          if PyDate.lt filing_dt edition_start then
            findings_append
              {| tmep_section := section;
                 severity := "ERROR";
                 class_number := 0;
                 item := fstr
                   ["Edition/Date mismatch: "; edition_used; " edition, filed ";
                    filing_date_str];
                 finding := fstr
                   ["Filing date "; filing_date_str; " predates the "; edition_used;
                    " Edition ";
                    "(effective "; start edition_info; "). ";
                    "The edition claimed was not yet in effect at filing."];
                 recommendation := fstr
                   ["Use the edition that was in effect on the filing date. ";
                    "Check TMEP §1401.09-§1401.15 for edition effective dates."] |}
          else if PyDate.lt edition_end filing_dt
                  && negb (edition_used =? current_edition)%string then
            findings_append
              {| tmep_section := section;
                 severity := "WARNING";
                 class_number := 0;
                 item := fstr
                   ["Outdated edition: "; edition_used; " (filed "; filing_date_str; ")"];
                 finding := fstr
                   ["Application uses the "; edition_used;
                    " Edition of the Nice Agreement, ";
                    "but a newer edition was in effect on the filing date ";
                    filing_date_str; ". ";
                    "Current edition: "; current_edition; "."];
                 recommendation := fstr
                   ["Update classification to the "; current_edition; " Edition ";
                    "requirements. Review §1401.15 for current edition changes."] |}
          else
            findings_append
              {| tmep_section := section;
                 severity := "OK";
                 class_number := 0;
                 item := "Nice Edition Version Check";
                 finding := fstr
                   ["Application uses the "; edition_used;
                    " Edition of the Nice Agreement, ";
                    "which was in effect on filing date "; filing_date_str; " ";
                    "(Edition effective: "; start edition_info; " to ";
                    if (end_ edition_info =? "9999-12-31")%string
                    then "present" else end_ edition_info;
                    ")."];
                 recommendation := fstr
                   ["No edition conflict detected. ";
                    if (edition_used =? current_edition)%string
                    then "This is the current edition." else ""] |})
         ValueError
         (findings_append
            {| tmep_section := section;
               severity := "INFO";
               class_number := 0;
               item := "Filing date format";
               finding :=
                 "Filing date could not be parsed. Unable to verify Nice edition validity against filing date.";
               recommendation :=
                 "Provide filing date in YYYY-MM-DD format for edition compliance check." |})).

(* --------------------------------------------------------------------- *)
(** ** §1401.10: effective date of changes to the USPTO ID Manual *)

Module RecentTerm.
(** One entry of [recently_added_terms]. *)
Record t := {
  term : string;
  nft : option string;
  added_after : string;
  correct_class : Z;
  note : string
}.
End RecentTerm.

Definition recently_added_terms : list RecentTerm.t :=
  [ {| RecentTerm.term := "non-fungible token";
       RecentTerm.nft :=
         Some "downloadable digital files authenticated by non-fungible tokens";
       RecentTerm.added_after := "2022-01-01";
       RecentTerm.correct_class := 9;
       RecentTerm.note := fstr
         ["NFT-related downloadable goods were added to Class 9 in the ID Manual ";
          "after USPTO guidance in 2022."] |}
  ; {| RecentTerm.term := "artificial intelligence";
       RecentTerm.nft := None;
       RecentTerm.added_after := "2019-01-01";
       RecentTerm.correct_class := 42;
       RecentTerm.note := fstr
         ["AI-specific service descriptions were formally added to the ID Manual ";
          "in updated USPTO guidance."] |}
  ; {| RecentTerm.term := "cryptocurrency";
       RecentTerm.nft := None;
       RecentTerm.added_after := "2014-01-01";
       RecentTerm.correct_class := 36;
       RecentTerm.note :=
         "Cryptocurrency financial services were added to Class 36 ID Manual entries." |}
  ].

Definition _check_1401_10_effective_date_id_manual : Check unit :=
  let section := "§1401.10" in
  self_app <- gets app ;;
  let filing_date_str := filing_date self_app in
  for_each (classes self_app) tt (fun _ cls_entry =>
    let id_text_lower := lower (ClassEntry.identification cls_entry) in
    for_each recently_added_terms tt (fun _ term_info =>
      when (str_in (RecentTerm.term term_info) id_text_lower)
        (when (truthy filing_date_str)
           (try_except
              (filing_dt <- strptime filing_date_str ;;
               added_dt <- strptime (RecentTerm.added_after term_info) ;;
               if PyDate.lt filing_dt added_dt then
                 findings_append
                   {| tmep_section := section;
                      severity := "WARNING";
                      class_number := ClassEntry.class_number cls_entry;
                      item := fstr
                        ["'"; RecentTerm.term term_info; "' — ID Manual date check"];
                      finding := fstr
                        ["The term '"; RecentTerm.term term_info;
                         "' in the identification ";
                         "may not have been accepted in the ID Manual at the ";
                         "time of filing ("; filing_date_str; "). ";
                         RecentTerm.note term_info];
                      recommendation := fstr
                        ["Verify this term was acceptable in the USPTO ID Manual ";
                         "at the time of filing. If not, amend to use language ";
                         "acceptable as of the filing date."] |}
               else
                 findings_append
                   {| tmep_section := section;
                      severity := "INFO";
                      class_number := ClassEntry.class_number cls_entry;
                      item := fstr
                        ["'"; RecentTerm.term term_info; "' — Modern term detected"];
                      finding := fstr
                        ["Modern/specialized term '"; RecentTerm.term term_info;
                         "' detected. ";
                         RecentTerm.note term_info; " ";
                         "This term is acceptable in the current ID Manual."];
                      recommendation := fstr
                        ["Ensure identification uses the exact accepted ";
                         "ID Manual language for this term in Class ";
                         str (RecentTerm.correct_class term_info); "."] |})
              ValueError
              (ret tt))))) ;;
  (* General notice *)
  findings_append
    {| tmep_section := section;
       severity := "INFO";
       class_number := 0;
       item := "ID Manual Compliance";
       finding := fstr
         ["Per §1401.10, identification language must conform to ID Manual entries ";
          "as they existed at the time the registration is sought (not just at filing). ";
          "The ID Manual is updated periodically and applicants must use current ";
          "acceptable identification at time of registration."];
       recommendation := fstr
         ["Verify all identification language against the current USPTO ID Manual ";
          "at: https://idm.uspto.gov. Use pre-approved ID Manual language where possible."] |}.

(* --------------------------------------------------------------------- *)
(** ** §1401.11: Class 42 restructuring (8th edition) *)

Definition old_class_42_misplacements : list (string * (Z * string)) :=
  [ ("restaurant", (43, "Food/restaurant services → Class 43 (split from old Class 42 in 8th Ed.)"))
  ; ("food service", (43, "Food services → Class 43"))
  ; ("hotel", (43, "Hotel/accommodation → Class 43"))
  ; ("catering", (43, "Catering services → Class 43"))
  ; ("accommodation", (43, "Accommodation → Class 43"))
  ; ("medical service", (44, "Medical services → Class 44 (split from old Class 42 in 8th Ed.)"))
  ; ("dental service", (44, "Dental services → Class 44"))
  ; ("veterinary", (44, "Veterinary services → Class 44"))
  ; ("beauty service", (44, "Beauty services → Class 44"))
  ; ("salon", (44, "Salon services → Class 44"))
  ; ("healthcare", (44, "Healthcare services → Class 44"))
  ; ("legal service", (45, "Legal services → Class 45 (split from old Class 42 in 8th Ed.)"))
  ; ("law firm", (45, "Law firm services → Class 45"))
  ; ("security guard", (45, "Security guard services → Class 45"))
  ; ("social service", (45, "Social services → Class 45"))
  ].

Definition _check_1401_11_class42_restructuring_8th_edition : Check unit :=
  let section := "§1401.11" in
  self_app <- gets app ;;
  for_each (classes self_app) tt (fun _ cls_entry =>
    if negb (ClassEntry.class_number cls_entry =? 42) then ret tt
    else
      let id_text_lower := lower (ClassEntry.identification cls_entry) in
      for_each old_class_42_misplacements tt (fun _ entry =>
        let '(service_term, (correct_class, reason)) := entry in
        when (str_in service_term id_text_lower)
          (findings_append
             {| tmep_section := section;
                severity := "ERROR";
                class_number := 42;
                item := fstr ["'"; service_term; "' in Class 42"];
                finding := fstr
                  ["POST-8TH EDITION CLASS 42 VIOLATION: '"; service_term; "' is placed ";
                   "in Class 42, but this service was moved to Class "; str correct_class; " ";
                   "when the 8th Edition of the Nice Agreement restructured Class 42 ";
                   "(effective Jan 1, 2002). "; reason];
                recommendation := fstr
                  ["Move '"; service_term; "' from Class 42 to Class ";
                   str correct_class; ". ";
                   "Class 42 (post-8th Edition) covers only scientific and ";
                   "technological services, IT services, and software-related services."] |}))) ;;
  (* Also check if filing date is pre-8th edition and Class 42 is used *)
  when (truthy (filing_date self_app))
    (try_except
       (filing_dt <- strptime (filing_date self_app) ;;
        let edition_8_start :=
          {| PyDate.year := 2002; PyDate.month := 1; PyDate.day := 1 |} in
        if PyDate.lt filing_dt edition_8_start then
          (* Pre-8th edition application: old Class 42 rules MAY apply *)
          for_break (classes self_app) tt (fun _ cls_entry =>
            if PyList.mem (ClassEntry.class_number cls_entry) [43; 44; 45] then
              findings_append
                {| tmep_section := section;
                   severity := "INFO";
                   class_number := ClassEntry.class_number cls_entry;
                   item := fstr
                     ["Pre-8th Edition filing using Class ";
                      str (ClassEntry.class_number cls_entry)];
                   finding := fstr
                     ["This application has a filing date ("; filing_date self_app; ") ";
                      "BEFORE the 8th Edition restructuring of Class 42 ";
                      "(effective Jan 1, 2002). Classes 43, 44, and 45 ";
                      "did not exist before this date."];
                   recommendation := fstr
                     ["Review the application against the edition in effect ";
                      "at the time of filing. Consult §1401.11 for ";
                      "transition rules for pre-8th Edition applications."] |} ;;
              ret (tt, true)
            else ret (tt, false))
        else
          (* Check that no old Class 42 services exist in other classes as a reminder *)
          let class_42_entries :=
            filter (fun c => ClassEntry.class_number c =? 42) (classes self_app) in
          match class_42_entries with
          | [] =>
            findings_append
              {| tmep_section := section;
                 severity := "INFO";
                 class_number := 0;
                 item := "Class 42 Restructuring Check";
                 finding := fstr
                   ["No Class 42 entries in this application. ";
                    "Note: As of 8th Edition (Jan 1, 2002), Class 42 covers only ";
                    "scientific/technological/IT services. ";
                    "Restaurant services → Class 43; Medical → Class 44; ";
                    "Legal → Class 45."];
                 recommendation := "No action required for §1401.11." |}
          | _ =>
            (* Class 42 exists - check it's being used for correct services *)
            for_each class_42_entries tt (fun _ cls42 =>
              let id_lower := lower (ClassEntry.identification cls42) in
              let has_tech_service :=
                any_in ["software"; "technology"; "it service"; "computer";
                        "research"; "cloud"; "saas"; "data"; "programming";
                        "cybersecurity"; "network"; "engineering service"]
                       id_lower in
              when has_tech_service
                (findings_append
                   {| tmep_section := section;
                      severity := "OK";
                      class_number := 42;
                      item := "Class 42 usage (post-8th Edition)";
                      finding := fstr
                        ["Class 42 is being used for technology/scientific services ";
                         "consistent with the post-8th Edition restructuring."];
                      recommendation := "No action required." |}))
          end)
       ValueError
       (ret tt)).

(* --------------------------------------------------------------------- *)
(** ** §1401.12: 9th edition changes *)

Module NinthEditionChange.
(** One entry of [ninth_edition_changes]. *)
Record t := {
  old_placement : Z * string;
  new_class : Z;
  note : string
}.
End NinthEditionChange.

Definition ninth_edition_changes : list NinthEditionChange.t :=
  [ {| NinthEditionChange.old_placement := (41, "Internet access provider");
       NinthEditionChange.new_class := 38;
       NinthEditionChange.note :=
         "Internet access provider services: Class 41 → Class 38 (Telecom) in 9th Ed." |}
  ].

Definition _check_1401_12_9th_edition_changes : Check unit :=
  let section := "§1401.12" in
  self_app <- gets app ;;
  for_each (classes self_app) tt (fun _ cls_entry =>
    let id_text_lower := lower (ClassEntry.identification cls_entry) in
    for_each ninth_edition_changes tt (fun _ change =>
      let '(old_class, old_term) := NinthEditionChange.old_placement change in
      when ((ClassEntry.class_number cls_entry =? old_class)
            && str_in (lower old_term) id_text_lower)
        (findings_append
           {| tmep_section := section;
              severity := "WARNING";
              class_number := ClassEntry.class_number cls_entry;
              item := fstr ["'"; old_term; "' in Class "; str old_class];
              finding := fstr
                ["9TH EDITION CHANGE: '"; old_term; "' was reclassified from ";
                 "Class "; str old_class; " to Class ";
                 str (NinthEditionChange.new_class change); " ";
                 "in the 9th Edition. "; NinthEditionChange.note change];
              recommendation := fstr
                ["Move '"; old_term; "' from Class "; str old_class; " to ";
                 "Class "; str (NinthEditionChange.new_class change); "."] |}))) ;;
  findings_append
    {| tmep_section := section;
       severity := "INFO";
       class_number := 0;
       item := "9th Edition Nice Agreement Review";
       finding := fstr
         ["9th Edition (2002–2006): Key changes included refinements to educational ";
          "and entertainment services (Class 41), further definition of Class 42 ";
          "technology services, and movement of internet-related services to Class 38. ";
          "No critical violations detected under 9th Edition rules in this application."];
       recommendation := fstr
         ["If application was filed during 2002–2006, verify against 9th Edition ";
          "ID Manual entries. For current applications, 12th Edition applies."] |}.

(* --------------------------------------------------------------------- *)
(** ** §1401.13: 10th edition changes *)

Definition digital_content_terms : list string :=
  [ "downloadable music"; "downloadable video"; "downloadable ringtone";
    "downloadable image"; "downloadable audio"; "downloadable software";
    "downloadable ebook"; "downloadable digital content" ].

Definition _check_1401_13_10th_edition_changes : Check unit :=
  let section := "§1401.13" in
  self_app <- gets app ;;
  for_each (classes self_app) tt (fun _ cls_entry =>
    let id_text_lower := lower (ClassEntry.identification cls_entry) in
    (* Check if digital content terms are in wrong class *)
    for_each digital_content_terms tt (fun _ term =>
      when (str_in term id_text_lower
            && negb (ClassEntry.class_number cls_entry =? 9))
        (findings_append
           {| tmep_section := section;
              severity := "ERROR";
              class_number := ClassEntry.class_number cls_entry;
              item := fstr
                ["'"; term; "' in Class "; str (ClassEntry.class_number cls_entry)];
              finding := fstr
                ["10TH EDITION CHANGE VIOLATION: '"; term; "' is a DOWNLOADABLE DIGITAL ";
                 "PRODUCT. Per the 10th Edition expansion of Class 9 (effective 2007), ";
                 "all downloadable digital content belongs in Class 9 — ";
                 "not in Class "; str (ClassEntry.class_number cls_entry); "."];
              recommendation := fstr
                ["Move '"; term; "' to Class 9 (Scientific and Electronic Apparatus). ";
                 "Class 9 now explicitly includes downloadable digital content ";
                 "per §1401.13 and 10th Edition Nice Agreement."] |})) ;;
    (* Check if Class 9 is used correctly for digital content *)
    when (ClassEntry.class_number cls_entry =? 9)
      (let has_digital := any_in digital_content_terms id_text_lower in
       when has_digital
         (findings_append
            {| tmep_section := section;
               severity := "OK";
               class_number := 9;
               item := "Class 9 — Downloadable digital content";
               finding := fstr
                 ["Downloadable digital content correctly placed in Class 9 ";
                  "per 10th Edition Nice Agreement expansion."];
               recommendation := fstr
                 ["Ensure identification specifies 'downloadable' to distinguish ";
                  "from streaming services (which go in Class 41/42)."] |}))).

(* --------------------------------------------------------------------- *)
(** ** §1401.14: 11th edition changes *)

Module EditionCheck.
(** One entry of [eleventh_edition_checks] and of [twelfth_edition_checks];
    only the latter carry [wrong_class_examples]. *)
Record t := {
  term : string;
  expected_class : Z;
  wrong_class_examples : option (list Z);
  note : string
}.
End EditionCheck.

Definition eleventh_edition_checks : list EditionCheck.t :=
  [ {| EditionCheck.term := "online marketplace";
       EditionCheck.expected_class := 35;
       EditionCheck.wrong_class_examples := None;
       EditionCheck.note :=
         "11th Ed.: Online marketplace/platform services added explicitly to Class 35." |}
  ; {| EditionCheck.term := "retail store";
       EditionCheck.expected_class := 35;
       EditionCheck.wrong_class_examples := None;
       EditionCheck.note :=
         "11th Ed.: Online retail store services confirmed in Class 35." |}
  ; {| EditionCheck.term := "social media";
       EditionCheck.expected_class := 38;
       EditionCheck.wrong_class_examples := None;
       EditionCheck.note :=
         "11th Ed.: Social media platform services added to Class 38 (telecom)." |}
  ; {| EditionCheck.term := "online social network";
       EditionCheck.expected_class := 38;
       EditionCheck.wrong_class_examples := None;
       EditionCheck.note :=
         "11th Ed.: Online social networking services → Class 38." |}
  ; {| EditionCheck.term := "saas";
       EditionCheck.expected_class := 42;
       EditionCheck.wrong_class_examples := None;
       EditionCheck.note :=
         "11th Ed.: Software as a Service (SaaS) explicitly codified in Class 42." |}
  ; {| EditionCheck.term := "cloud computing";
       EditionCheck.expected_class := 42;
       EditionCheck.wrong_class_examples := None;
       EditionCheck.note :=
         "11th Ed.: Cloud computing services added to Class 42." |}
  ; {| EditionCheck.term := "platform as a service";
       EditionCheck.expected_class := 42;
       EditionCheck.wrong_class_examples := None;
       EditionCheck.note := "11th Ed.: PaaS services → Class 42." |}
  ].

Definition _check_1401_14_11th_edition_changes : Check unit :=
  let section := "§1401.14" in
  self_app <- gets app ;;
  for_each (classes self_app) tt (fun _ cls_entry =>
    let id_text_lower := lower (ClassEntry.identification cls_entry) in
    for_each eleventh_edition_checks tt (fun _ check =>
      when (str_in (EditionCheck.term check) id_text_lower)
        (if negb (ClassEntry.class_number cls_entry =? EditionCheck.expected_class check)
         then
           findings_append
             {| tmep_section := section;
                severity := "ERROR";
                class_number := ClassEntry.class_number cls_entry;
                item := fstr
                  ["'"; EditionCheck.term check; "' in Class ";
                   str (ClassEntry.class_number cls_entry)];
                finding := fstr
                  ["11TH EDITION CHANGE: '"; EditionCheck.term check; "' should be in ";
                   "Class "; str (EditionCheck.expected_class check);
                   " per 11th Edition changes. ";
                   EditionCheck.note check; " ";
                   "Currently placed in Class ";
                   str (ClassEntry.class_number cls_entry); "."];
                recommendation := fstr
                  ["Move '"; EditionCheck.term check; "' to Class ";
                   str (EditionCheck.expected_class check); "."] |}
         else
           findings_append
             {| tmep_section := section;
                severity := "OK";
                class_number := ClassEntry.class_number cls_entry;
                item := fstr
                  ["'"; EditionCheck.term check; "' classification (11th Edition)"];
                finding := fstr
                  ["'"; EditionCheck.term check; "' correctly placed in Class ";
                   str (ClassEntry.class_number cls_entry); " ";
                   "per 11th Edition Nice Agreement changes."];
                recommendation := "No action required." |}))).

(* --------------------------------------------------------------------- *)
(** ** §1401.15: 12th edition changes *)

Definition twelfth_edition_checks : list EditionCheck.t :=
  [ {| EditionCheck.term := "artificial intelligence";
       EditionCheck.expected_class := 42;
       EditionCheck.wrong_class_examples := Some [9; 35];
       EditionCheck.note :=
         "12th Ed.: AI services (AI software development, AI consulting) → Class 42." |}
  ; {| EditionCheck.term := "machine learning";
       EditionCheck.expected_class := 42;
       EditionCheck.wrong_class_examples := Some [9; 35];
       EditionCheck.note := "12th Ed.: Machine learning services → Class 42." |}
  ; {| EditionCheck.term := "non-fungible token";
       EditionCheck.expected_class := 9;
       EditionCheck.wrong_class_examples := Some [35; 36];
       EditionCheck.note :=
         "12th Ed.: NFT digital files/goods → Class 9. NFT marketplace services → Class 35." |}
  ; {| EditionCheck.term := "nft";
       EditionCheck.expected_class := 9;
       EditionCheck.wrong_class_examples := Some [35; 36; 42];
       EditionCheck.note := fstr
         ["12th Ed.: Downloadable NFT goods → Class 9. ";
          "NFT authentication services → Class 42."] |}
  ; {| EditionCheck.term := "virtual goods";
       EditionCheck.expected_class := 9;
       EditionCheck.wrong_class_examples := Some [28; 35];
       EditionCheck.note :=
         "12th Ed.: Virtual/digital goods (metaverse items, in-game items) → Class 9." |}
  ; {| EditionCheck.term := "blockchain";
       EditionCheck.expected_class := 42;
       EditionCheck.wrong_class_examples := Some [9; 36];
       EditionCheck.note := fstr
         ["12th Ed.: Blockchain technology services → Class 42. ";
          "Blockchain financial services → Class 36."] |}
  ; {| EditionCheck.term := "metaverse";
       EditionCheck.expected_class := 41;
       EditionCheck.wrong_class_examples := Some [9; 42];
       EditionCheck.note := fstr
         ["12th Ed.: Metaverse entertainment/virtual events → Class 41. ";
          "Virtual goods within metaverse → Class 9."] |}
  ].

Definition _check_1401_15_12th_edition_changes : Check unit :=
  let section := "§1401.15" in
  self_app <- gets app ;;
  for_each (classes self_app) tt (fun _ cls_entry =>
    let id_text_lower := lower (ClassEntry.identification cls_entry) in
    for_each twelfth_edition_checks tt (fun _ check =>
      when (str_in (EditionCheck.term check) id_text_lower)
        (if PyList.mem (ClassEntry.class_number cls_entry)
                       match EditionCheck.wrong_class_examples check with
                       | Some l => l
                       | None => []
                       end
         then
           findings_append
             {| tmep_section := section;
                severity := "WARNING";
                class_number := ClassEntry.class_number cls_entry;
                item := fstr
                  ["'"; EditionCheck.term check; "' in Class ";
                   str (ClassEntry.class_number cls_entry)];
                finding := fstr
                  ["12TH EDITION (CURRENT) NOTE: '"; EditionCheck.term check; "' may be ";
                   "misplaced in Class "; str (ClassEntry.class_number cls_entry); ". ";
                   EditionCheck.note check];
                recommendation := fstr
                  ["Per the 12th Edition Nice Agreement (current), ";
                   "consider whether '"; EditionCheck.term check; "' belongs in ";
                   "Class "; str (EditionCheck.expected_class check); ". ";
                   "Review the latest USPTO ID Manual entries."] |}
         else if ClassEntry.class_number cls_entry =? EditionCheck.expected_class check
         then
           findings_append
             {| tmep_section := section;
                severity := "OK";
                class_number := ClassEntry.class_number cls_entry;
                item := fstr
                  ["'"; EditionCheck.term check; "' — 12th Edition compliance"];
                finding := fstr
                  ["'"; EditionCheck.term check; "' correctly placed in Class ";
                   str (ClassEntry.class_number cls_entry); " ";
                   "per 12th Edition Nice Agreement (current edition). ";
                   EditionCheck.note check];
                recommendation := "No action required." |}
         else ret tt))) ;;
  (* General 12th Edition notice *)
  findings_append
    {| tmep_section := section;
       severity := "INFO";
       class_number := 0;
       item := "12th Edition (Current) Compliance — Nov 2025";
       finding := fstr
         ["This assessment is based on the 12th Edition of the Nice Agreement ";
          "(effective January 1, 2023), which is the current edition as of Nov 2025. ";
          "Key additions: AI/ML services (Class 42), virtual goods/NFTs (Class 9), ";
          "blockchain services (Class 42), metaverse entertainment (Class 41)."];
       recommendation := fstr
         ["Ensure all identification language conforms to 12th Edition requirements ";
          "and current USPTO ID Manual entries."] |}.

(* --------------------------------------------------------------------- *)
(** ** Entry point *)

(** Runs all §1401.01–§1401.15 checks in sequence and returns all findings. *)
Definition run_full_assessment : Check (list AssessmentFinding.t) :=
  findings_clear ;;
  _check_1401_01_statutory_authority ;;
  _check_1401_02_international_classification_adopted ;;
  _check_1401_03_designation_of_class ;;
  _check_1401_04_classification_determines_fees ;;
  _check_1401_05_criteria_for_classification ;;
  _check_1401_06_specimen_related_to_classification ;;
  _check_1401_07_specimen_discloses_special_characteristics ;;
  _check_1401_08_classification_and_identification ;;
  _check_1401_09_implementation_of_nice_changes ;;
  _check_1401_10_effective_date_id_manual ;;
  _check_1401_11_class42_restructuring_8th_edition ;;
  _check_1401_12_9th_edition_changes ;;
  _check_1401_13_10th_edition_changes ;;
  _check_1401_14_11th_edition_changes ;;
  _check_1401_15_12th_edition_changes ;;
  gets findings.

(** The fifteen checks in the order [run_full_assessment] calls them. *)
Definition all_checks : list (Check unit) :=
  [ _check_1401_01_statutory_authority;
    _check_1401_02_international_classification_adopted;
    _check_1401_03_designation_of_class;
    _check_1401_04_classification_determines_fees;
    _check_1401_05_criteria_for_classification;
    _check_1401_06_specimen_related_to_classification;
    _check_1401_07_specimen_discloses_special_characteristics;
    _check_1401_08_classification_and_identification;
    _check_1401_09_implementation_of_nice_changes;
    _check_1401_10_effective_date_id_manual;
    _check_1401_11_class42_restructuring_8th_edition;
    _check_1401_12_9th_edition_changes;
    _check_1401_13_10th_edition_changes;
    _check_1401_14_11th_edition_changes;
    _check_1401_15_12th_edition_changes ].

(** [TMEP1401Assessor(application)]: a fresh assessor, created at [now]. *)
Definition new_assessor (application : TrademarkApplication) (now : string)
  : TMEP1401Assessor :=
  {| app := application; findings := []; assessment_date := now |}.

(* --------------------------------------------------------------------- *)
(** ** What a check may do to the assessor *)

(** The call returns normally, leaves the application and the date of the
    assessor as they were and only adds findings at the end of the list. *)
Definition only_appends {A} (c : Check A) : Prop :=
  forall self, exists a fs,
    c self = (Return a, with_findings self (findings self ++ fs)).

(** The same, for a call that may also end by raising [e]. *)
Definition appends_or_raises {A} (e : exn) (c : Check A) : Prop :=
  forall self, exists fs,
    (exists a, c self = (Return a, with_findings self (findings self ++ fs)))
    \/ c self = (Raise e, with_findings self (findings self ++ fs)).

(** The call returns [tt] and changes nothing. *)
Definition silent (c : Check unit) : Prop := forall self, c self = (Return tt, self).

(** The checks of [cs] run one after the other from [self] and every one
    returns normally; [self'] is the assessor after the last one. *)
Inductive all_return : list (Check unit) -> TMEP1401Assessor -> TMEP1401Assessor -> Prop :=
| all_return_nil self : all_return [] self self
| all_return_cons c cs self self1 self' :
    c self = (Return tt, self1) ->
    all_return cs self1 self' ->
    all_return (c :: cs) self self'.

(** [cs] called one after the other, then [return self.findings]. *)
Fixpoint run_checks (cs : list (Check unit)) : Check (list AssessmentFinding.t) :=
  match cs with
  | [] => gets findings
  | c :: cs' => bind c (fun _ => run_checks cs')
  end.

(* --------------------------------------------------------------------- *)
(** ** The numbers of the fee check *)

(** The number of distinct class numbers of the application. *)
Definition num_distinct (a : TrademarkApplication) : Z :=
  Z.of_nat (List.length (PyList.distinct (map ClassEntry.class_number (classes a)))).

(** The fee for one class:
    [USPTO_FEES.get(self.app.filing_type, USPTO_FEES["TEAS_STANDARD"])]. *)
Definition fee_per_class (a : TrademarkApplication) : Z :=
  match dict_get_str USPTO_FEES (filing_type a) with
  | Some fee => fee
  | None => 350
  end.

(** The numbers that §1401.04 writes into its texts, whatever the branch
    taken: the fee count, the number of distinct classes, the fee for one
    class, the expected total, the shortage and the excess with the amounts
    they stand for, and the total paid. *)
Definition fee_check_numbers (a : TrademarkApplication) : list Z :=
  let fees_paid := fees_paid_count a in
  let fee := fee_per_class a in
  [ fees_paid; num_distinct a; fee;
    num_distinct a * fee;
    num_distinct a - fees_paid; (num_distinct a - fees_paid) * fee;
    fees_paid - num_distinct a; (fees_paid - num_distinct a) * fee;
    fees_paid * fee ].

(** The numbers of the application that a run writes into its texts: the
    class numbers of the class entries, in all the checks, and the numbers
    of §1401.04.  The other numbers that the checks write are class numbers
    of the tables of the module. *)
Definition converted_numbers (a : TrademarkApplication) : list Z :=
  map ClassEntry.class_number (classes a) ++ fee_check_numbers a.

(** Every number of the application that a run writes into a text is
    within the default limit of CPython for the conversion, so that no
    conversion of the run raises [ValueError].  The checks above convert
    with [str], which has no limit: on these applications, and only on
    these, that is what CPython does under its default setting. *)
Definition within_conversion_limit (a : TrademarkApplication) : bool :=
  forallb str_fits (converted_numbers a).

(* --------------------------------------------------------------------- *)
(** ** Reporting a filing date that does not parse *)

(** The checks that parse the filing date. *)
Definition date_parsing_checks : list (Check unit) :=
  [ _check_1401_09_implementation_of_nice_changes;
    _check_1401_10_effective_date_id_manual;
    _check_1401_11_class42_restructuring_8th_edition ].

(** An INFO finding that notes the parse failure. *)
Definition notes_parse_failure (f : AssessmentFinding.t) : bool :=
  has_severity "INFO" f && str_in "could not be parsed" (finding f).

(** The check [c], called on [self], returns normally and appends a
    finding that notes the parse failure. *)
Definition reports_parse_failure (c : Check unit) (self : TMEP1401Assessor) : Prop :=
  exists fs f,
    c self = (Return tt, with_findings self (findings self ++ fs))
    /\ In f fs /\ notes_parse_failure f = true.

(* --------------------------------------------------------------------- *)
(** ** Constructors with the defaults of the dataclasses, and samples *)

(** [ClassEntry(class_number, identification)] with the defaults of the
    other fields but the fee flag. *)
Definition class_entry (class_number : Z) (identification : string) (fee_paid : bool)
  : ClassEntry.t :=
  {| ClassEntry.class_number := class_number;
     ClassEntry.identification := identification;
     ClassEntry.specimen_type := "";
     ClassEntry.specimen_description := "";
     ClassEntry.fee_paid := fee_paid;
     ClassEntry.filing_basis := "1(a)";
     ClassEntry.date_of_first_use := None;
     ClassEntry.date_of_first_use_commerce := None;
     ClassEntry.flags := [];
     ClassEntry.suggestions := [] |}.

(** [TrademarkApplication(filing_date=..., classes=..., fees_paid_count=...)]
    with the defaults of the other fields. *)
Definition application (filing_date : string) (classes : list ClassEntry.t)
           (fees_paid_count : Z) : TrademarkApplication :=
  {| applicant_name := "";
     mark_text := "";
     mark_type := "standard_character";
     filing_date := filing_date;
     nice_edition_claimed := "12th";
     application_serial := "";
     filing_type := "TEAS_PLUS";
     classes := classes;
     fees_paid_count := fees_paid_count;
     total_fee_paid := 0%float;
     is_multi_class := false;
     notes := "" |}.

(** One class of software, one fee, a filing date with a month 13. *)
Definition sample_bad_date : TMEP1401Assessor :=
  new_assessor
    (application "2024-13-01"
                 [class_entry 9 "Downloadable software for financial management" true]
                 1)
    "2025-11-03 10:00:00".

(** One class of software and a fee count left at 0. *)
Definition sample_no_fee_count : TMEP1401Assessor :=
  new_assessor
    (application "2024-06-01"
                 [class_entry 9 "Downloadable software for financial management" true]
                 0)
    "2025-11-03 10:00:00".

(** Two classes and one fee. *)
Definition sample_one_fee_two_classes : TMEP1401Assessor :=
  new_assessor
    (application "2024-06-01"
                 [class_entry 9 "Downloadable software for financial management" true;
                  class_entry 25 "T-shirts" true]
                 1)
    "2025-11-03 10:00:00".

(** For an application with a filing date that does not parse: every check
    that parses the date reports the failure and the run returns. *)
Definition parse_failure_claim (self : TMEP1401Assessor) : Prop :=
  PyDate.strptime (filing_date (app self)) = None ->
  Forall (fun c => reports_parse_failure c self) date_parsing_checks
  /\ exists fs self', run_full_assessment self = (Return fs, self').

(* --------------------------------------------------------------------- *)
(** ** What the fee check is expected to emit *)

(** The text of [f] reports [k] fees under [label], as in "Shortfall: 2 fee(s)". *)
Definition reports_fees (label : string) (k : Z) (f : AssessmentFinding.t) : bool :=
  str_in (fstr [label; str k; " fee(s)"]) (finding f).

(** The fee check on [self] returns normally, and among the findings it
    appends there is an application-level OK when the fees paid equal the
    number of distinct classes, an ERROR that reports the shortage when
    they are fewer, a WARNING that reports the excess when they are more. *)
Definition fee_count_claim (self : TMEP1401Assessor) : Prop :=
  let paid := fees_paid_count (app self) in
  let classes_claimed := num_distinct (app self) in
  exists emitted,
    _check_1401_04_classification_determines_fees self
    = (Return tt, with_findings self (findings self ++ emitted))
    /\ (paid = classes_claimed ->
        exists f, In f emitted /\ severity f = "OK" /\ class_number f = 0
                  /\ item f = "Fee Verification")
    /\ (paid < classes_claimed ->
        exists f, In f emitted /\ severity f = "ERROR" /\ class_number f = 0
                  /\ reports_fees "Shortfall: " (classes_claimed - paid) f = true)
    /\ (paid > classes_claimed ->
        exists f, In f emitted /\ severity f = "WARNING" /\ class_number f = 0
                  /\ reports_fees "Excess: " (paid - classes_claimed) f = true).

(* --------------------------------------------------------------------- *)
(** ** What a finding of the assessor looks like *)

(** The assessor carries its findings. *)
#[export] Instance findings_of_assessor : Findings TMEP1401Assessor AssessmentFinding.t :=
  {| findings_of := findings; with_findings_of := with_findings |}.

(** The four severities. *)
Definition known_severity (s : string) : Prop :=
  s = "ERROR" \/ s = "WARNING" \/ s = "INFO" \/ s = "OK".

(** The sections of the fifteen checks, in the order of the run. *)
Definition sections : list string :=
  ["§1401.01"; "§1401.02"; "§1401.03"; "§1401.04"; "§1401.05";
   "§1401.06"; "§1401.07"; "§1401.08"; "§1401.09"; "§1401.10";
   "§1401.11"; "§1401.12"; "§1401.13"; "§1401.14"; "§1401.15"].

(** A finding filed under [section], with a known severity, about the
    application [a] as a whole (class 0) or about one of its classes. *)
Definition filed_under (a : TrademarkApplication) (section : string)
           (f : AssessmentFinding.t) : Prop :=
  tmep_section f = section
  /\ known_severity (severity f)
  /\ (class_number f = 0
      \/ In (class_number f) (map ClassEntry.class_number (classes a))).

(* --------------------------------------------------------------------- *)
(** ** The summary of the entry point (main.py) *)

(** [sum(1 for f in findings if f.severity == sev)]. *)
Definition count_severity (sev : string) (findings : list AssessmentFinding.t) : Z :=
  fold_left (fun total f => if (severity f =? sev)%string then total + 1 else total)
            findings 0.

Module Summary.
(** The [summary] dictionary of [assess_trademark_application]. *)
Record t := {
  total : Z;
  errors : Z;
  warnings : Z;
  info : Z;
  ok : Z
}.
End Summary.

(** Step 4 of [assess_trademark_application]: the summary built from the
    findings of the run. *)
Definition summary (findings : list AssessmentFinding.t) : Summary.t :=
  {| Summary.total := Z.of_nat (List.length findings);
     Summary.errors := count_severity "ERROR" findings;
     Summary.warnings := count_severity "WARNING" findings;
     Summary.info := count_severity "INFO" findings;
     Summary.ok := count_severity "OK" findings |}.





(* --------------------------------------------------------------------- *)
(** ** When the checks file an ERROR *)

(** Some finding of [fs] is an ERROR. *)
Definition any_error (fs : list AssessmentFinding.t) : bool :=
  existsb (has_severity "ERROR") fs.

(** From every state the call returns, and it has appended an ERROR
    finding exactly when [b] holds. *)
Definition blocks {A} (m : Check A) (b : bool) : Prop :=
  forall s, emits s m (fun _ fs => any_error fs = b).

(** §1401.01: the filing basis of the class is not one of the five. *)
Definition unrecognized_basis (c : ClassEntry.t) : bool :=
  negb (mem (ClassEntry.filing_basis c) ["1(a)"; "1(b)"; "44(d)"; "44(e)"; "66(a)"]).

(** §1401.02: the class number is not a Nice class. *)
Definition invalid_class (c : ClassEntry.t) : bool :=
  negb (PyList.mem (ClassEntry.class_number c) VALID_CLASS_NUMBERS).

(** §1401.03: the identification of a class of the table has a keyword of
    [COMMON_MISCLASSIFICATIONS] listed as wrong for this class. *)
Definition misclassified (c : ClassEntry.t) : bool :=
  match get_class_info (ClassEntry.class_number c) with
  | Some _ =>
      existsb (fun entry =>
                 let '((kw, wrong_class), (correct_class, _)) := entry in
                 str_in kw (strip (lower (ClassEntry.identification c)))
                 && (wrong_class =? ClassEntry.class_number c)
                 && negb (correct_class =? ClassEntry.class_number c))
              COMMON_MISCLASSIFICATIONS
  | None => false
  end.

(** §1401.04: fees were counted and are fewer than the distinct classes. *)
Definition fees_short (a : TrademarkApplication) : bool :=
  negb (fees_paid_count a =? 0) && (fees_paid_count a <? num_distinct a).

(** §1401.04: the fee of the class is not paid. *)
Definition fee_unpaid (c : ClassEntry.t) : bool := negb (ClassEntry.fee_paid c).

(** A list of [SPECIMEN_TYPES]. *)
Definition specimen_types (key : string) : list string :=
  match dict_get_str SPECIMEN_TYPES key with
  | Some l => l
  | None => []
  end.

(** §1401.06: a class not filed under 1(b) has no specimen at all, or its
    specimen type is of an invalid and of no valid kind for the category of
    the class. *)
Definition specimen_unacceptable (c : ClassEntry.t) : bool :=
  let specimen_type_lower := lower (ClassEntry.specimen_type c) in
  negb (ClassEntry.filing_basis c =? "1(b)")%string
  && ((negb (truthy (ClassEntry.specimen_type c))
       && negb (truthy (ClassEntry.specimen_description c)))
      || match get_class_info (ClassEntry.class_number c) with
         | Some class_info =>
             if (category class_info =? "GOODS")%string then
               any_in (specimen_types "goods_invalid") specimen_type_lower
               && negb (any_in (specimen_types "goods_valid") specimen_type_lower)
             else if (category class_info =? "SERVICES")%string then
               any_in (specimen_types "services_invalid") specimen_type_lower
               && negb (any_in (specimen_types "services_valid") specimen_type_lower)
             else false
         | None => false
         end).

(** §1401.07: the specimen description reveals what a reclassification
    trigger names, for an identification the trigger applies to. *)
Definition specimen_contradicts_class (c : ClassEntry.t) : bool :=
  truthy (ClassEntry.specimen_description c)
  && existsb (fun trigger =>
                any_in (claimed_description_keywords trigger)
                       (lower (ClassEntry.identification c))
                && any_in (specimen_reveals_keywords trigger)
                          (lower (ClassEntry.specimen_description c)))
             reclassification_triggers.

(** §1401.09: the filing date parses and is before the start of the
    edition claimed. *)
Definition edition_not_yet_in_effect (a : TrademarkApplication) : bool :=
  match PyDict.get String.eqb NICE_EDITION_TIMELINE (nice_edition_claimed a) with
  | Some edition_info =>
      match PyDate.strptime (filing_date a),
            PyDate.strptime (start edition_info) with
      | Some filing_dt, Some edition_start => PyDate.lt filing_dt edition_start
      | _, _ => false
      end
  | None => false
  end.

(** §1401.11: Class 42 with a service that left it in the 8th Edition. *)
Definition old_class_42_service (c : ClassEntry.t) : bool :=
  (ClassEntry.class_number c =? 42)
  && existsb (fun entry => str_in (fst entry) (lower (ClassEntry.identification c)))
             old_class_42_misplacements.

(** §1401.13: digital content in a class other than 9. *)
Definition digital_content_outside_class_9 (c : ClassEntry.t) : bool :=
  negb (ClassEntry.class_number c =? 9)
  && any_in digital_content_terms (lower (ClassEntry.identification c)).

(** §1401.14: a term of the 11th Edition outside its class. *)
Definition eleventh_edition_misfiled (c : ClassEntry.t) : bool :=
  existsb (fun chk =>
             str_in (EditionCheck.term chk) (lower (ClassEntry.identification c))
             && negb (ClassEntry.class_number c =? EditionCheck.expected_class chk))
          eleventh_edition_checks.

(** Something in the application makes a check file an ERROR. *)
Definition blocking (a : TrademarkApplication) : bool :=
  existsb unrecognized_basis (classes a)
  || existsb invalid_class (classes a)
  || existsb misclassified (classes a)
  || fees_short a
  || existsb fee_unpaid (classes a)
  || existsb specimen_unacceptable (classes a)
  || existsb specimen_contradicts_class (classes a)
  || edition_not_yet_in_effect a
  || existsb old_class_42_service (classes a)
  || existsb digital_content_outside_class_9 (classes a)
  || existsb eleventh_edition_misfiled (classes a).

End Pillar1.

(* ===================================================================== *)
(** * The class data handed from pillar to pillar *)
(* ===================================================================== *)

Module ClassData.

Module ClassEntryDict.
(** [class_entry_dict], the raw class data: each key is absent ([None]) or
    holds a value of the type the class summary declares for it. *)
Record t := {
  class_number : option Z;
  class_title : option string;
  class_category : option string;
  identification : option string;
  filing_basis : option string;
  specimen_type : option string;
  specimen_description : option string;
  date_of_first_use : option string;
  date_of_first_use_commerce : option string;
  fee_paid : option bool
}.
End ClassEntryDict.

(** [d.get(key, default)] where the lookup gave [o]. *)
Definition get_or {A} (o : option A) (default : A) : A :=
  match o with Some v => v | None => default end.

(** A Pillar 1 ERROR about the class of number [n] or about the
    application as a whole. *)
Definition p1_error_for (n : Z) (f : Pillar1.AssessmentFinding.t) : bool :=
  (Pillar1.AssessmentFinding.severity f =? "ERROR")%string
  && ((Pillar1.AssessmentFinding.class_number f =? n)
      || (Pillar1.AssessmentFinding.class_number f =? 0)).

End ClassData.

(* ===================================================================== *)
(** * The entry point (main.py): from the application JSON to the model *)
(* ===================================================================== *)

Module Main.
Import PyStr ClassData Pillar1.

Module AppDict.
(** [app_dict], the structured application: each key is absent ([None]) or
    holds a value of the type the application declares for it. *)
Record t := {
  applicant_name : option string;
  mark_text : option string;
  mark_type : option string;
  filing_date : option string;
  nice_edition_claimed : option string;
  application_serial : option string;
  filing_type : option string;
  classes : option (list ClassEntryDict.t);
  fees_paid_count : option Z;
  total_fee_paid : option float;
  notes : option string
}.
End AppDict.

(** Convert the structured JSON into a [TrademarkApplication]. *)
Definition parse_application (app_dict : AppDict.t) : TrademarkApplication :=
  let class_entries :=
    map (fun cls =>
           {| ClassEntry.class_number := get_or (ClassEntryDict.class_number cls) 0;
              ClassEntry.identification := get_or (ClassEntryDict.identification cls) "";
              ClassEntry.specimen_type := get_or (ClassEntryDict.specimen_type cls) "";
              ClassEntry.specimen_description :=
                get_or (ClassEntryDict.specimen_description cls) "";
              ClassEntry.fee_paid := get_or (ClassEntryDict.fee_paid cls) true;
              ClassEntry.filing_basis := get_or (ClassEntryDict.filing_basis cls) "1(a)";
              ClassEntry.date_of_first_use := ClassEntryDict.date_of_first_use cls;
              ClassEntry.date_of_first_use_commerce :=
                ClassEntryDict.date_of_first_use_commerce cls;
              ClassEntry.flags := [];
              ClassEntry.suggestions := [] |})
        (get_or (AppDict.classes app_dict) []) in
  let unique_classes := PyList.distinct (map ClassEntry.class_number class_entries) in
  {| applicant_name := get_or (AppDict.applicant_name app_dict) "";
     mark_text := get_or (AppDict.mark_text app_dict) "";
     mark_type := get_or (AppDict.mark_type app_dict) "standard_character";
     filing_date := get_or (AppDict.filing_date app_dict) "";
     nice_edition_claimed := get_or (AppDict.nice_edition_claimed app_dict) "12th";
     application_serial := get_or (AppDict.application_serial app_dict) "";
     filing_type := get_or (AppDict.filing_type app_dict) "TEAS_PLUS";
     classes := class_entries;
     fees_paid_count :=
       get_or (AppDict.fees_paid_count app_dict)
              (Z.of_nat (List.length unique_classes));
     total_fee_paid := get_or (AppDict.total_fee_paid app_dict) 0%float;
     is_multi_class := Z.of_nat (List.length unique_classes) >? 1;
     notes := get_or (AppDict.notes app_dict) "" |}.

(** An application JSON with no key at all. *)
Definition empty_app_dict : AppDict.t :=
  {| AppDict.applicant_name := None; AppDict.mark_text := None;
     AppDict.mark_type := None; AppDict.filing_date := None;
     AppDict.nice_edition_claimed := None; AppDict.application_serial := None;
     AppDict.filing_type := None; AppDict.classes := None;
     AppDict.fees_paid_count := None; AppDict.total_fee_paid := None;
     AppDict.notes := None |}.

(** The class data says that the fee is not paid. *)
Definition says_fee_unpaid (cls : ClassEntryDict.t) : bool :=
  match ClassEntryDict.fee_paid cls with
  | Some paid => negb paid
  | None => false
  end.

End Main.

(* ===================================================================== *)
(** * The report generator (tmep_1401_report.py): its helpers *)
(* ===================================================================== *)

Module Report1401.
Import PyStr Pillar1 Pillar1.AssessmentFinding.

(** [order] of [_top_finding]. *)
Definition order : list (string * Z) :=
  [("ERROR", 0); ("WARNING", 1); ("INFO", 2); ("OK", 3)].

(** [order.get(x.severity, 9)]. *)
Definition order_key (x : AssessmentFinding.t) : Z :=
  match PyDict.get String.eqb order (severity x) with
  | Some n => n
  | None => 9
  end.

(** Return the single most severe finding from a list. *)
Definition _top_finding (findings : list AssessmentFinding.t)
  : option AssessmentFinding.t :=
  let actionable :=
    filter (fun f => mem (severity f) ["ERROR"; "WARNING"]) findings in
  match actionable with
  | [] => None
  | _ :: _ => hd_error (PyList.sorted_key order_key actionable)
  end.

End Report1401.

(* ===================================================================== *)
(** * Python floats *)
(* ===================================================================== *)

Module PyFloat.

(** [float(n)] for a count. *)
Definition of_Z (n : Z) : float := PrimFloat.of_uint63 (Uint63.of_Z n).

(** [a / b] on two counts: the quotient rounded to the nearest float. *)
Definition div (a b : Z) : float := PrimFloat.div (of_Z a) (of_Z b).

(** [int(x)]: the float cut towards zero. *)
Definition int (x : float) : Z :=
  match FloatOps.Prim2SF x with
  | SpecFloat.S754_finite sign m e =>
      let magnitude :=
        if 0 <=? e then Z.shiftl (Zpos m) e else Z.shiftr (Zpos m) (- e) in
      if sign then - magnitude else magnitude
  | _ => 0
  end.

End PyFloat.

(* ===================================================================== *)
(** * Pillar 2: the identification lens ([tmep_1402_pillar2.py]) *)
(* ===================================================================== *)

Module Pillar2.
Import PyStr Re.

(** What Pillar 1 found for one class entry, as Pillar 2 takes it. *)
Record Pillar1ClassContext := {
  class_number : Z;
  class_title : string;
  class_category : string;
  filing_basis : string;
  specimen_type : string;
  specimen_description : string;
  has_pillar1_class_error : bool;
  has_pillar1_class_warning : bool;
  pillar1_error_summary : string
}.

(** A single finding tied to a §1402.xx sub-section. *)
Record SubsectionFinding := {
  tmep_section : string;
  severity : string;
  item : string;
  finding : string;
  recommendation : string
}.

Record TMEP1402AnalysisResult := {
  is_definite : bool;
  identified_goods_services : list string;
  purpose_detected : bool;
  vague_terms_found : list string;
  structural_issues : list string;
  reasoning : string;
  subsection_findings : list SubsectionFinding;
  pillar1_dependency_note : string
}.

(** The lens object: the text and the Pillar 1 context, [None] when the
    lens runs alone. *)
Record TMEP1402Lens := {
  text : string;
  p1 : option Pillar1ClassContext
}.

Definition VAGUE_TERMS : list string :=
  [ "including"; "and related"; "etc"; "etc."; "products"; "services";
    "solutions"; "technology"; "equipment"; "devices"; "materials"; "systems";
    "components"; "platform";
    "miscellaneous"; "various"; "all types"; "any"; "type of"; "kind of";
    "and the like"; "other" ].

(** [PURPOSE_PATTERNS]. *)
Definition PURPOSE_PATTERNS : list re :=
  [ whole_word "for";
    whole_word "namely";
    whole_word "consisting of";
    whole_word "in the field of";
    whole_word "used for" ].

Definition BANNED_TERMS_1402_09 : list string := ["applicant"; "registrant"].

(** [SERVICE_ACTIVITY_PATTERNS]. *)
Definition SERVICE_ACTIVITY_PATTERNS : list re :=
  [ whole_word "services for";
    Seq WordBoundary
        (Seq (Chars "services in the ")
             (Seq (Alt (Chars "nature") (Chars "field")) WordBoundary));
    whole_word "providing";
    whole_word "rendering";
    whole_word "offering";
    whole_word "consulting" ].

(** Extracts potential goods/services by splitting on semicolons. *)
Definition extract_candidate_goods (self : TMEP1402Lens) : list string :=
  let segments := split_on ";" (text self) in
  map strip (filter (fun seg => truthy (strip seg)) segments).

(** Detects whether the identification specifies purpose qualifiers. *)
Definition detect_purpose_language (self : TMEP1402Lens) : bool :=
  existsb (fun pattern => search true pattern (text self)) PURPOSE_PATTERNS.

(** [rf"\b{re.escape(term)}(?:\b|\.|\s|$)"]. *)
Definition vague_pattern (term : string) : re :=
  Seq WordBoundary
      (Seq (Chars term)
           (Alt WordBoundary (Alt (Chars ".") (Alt (Class isspace) EndOfString)))).

(** [r"\bservices\s+(for|in|of|namely|consisting)\b"]. *)
Definition services_qualified : re :=
  Seq WordBoundary
      (Seq (Chars "services")
           (Seq (Many 1 isspace)
                (Seq (Alt (Chars "for")
                          (Alt (Chars "in")
                               (Alt (Chars "of")
                                    (Alt (Chars "namely") (Chars "consisting")))))
                     WordBoundary))).

(** The body of the loop of [detect_vague_terms]. *)
Definition vague_step (self : TMEP1402Lens) (found : list string) (term : string)
  : list string :=
  let pattern := vague_pattern term in
  if search true pattern (text self) && negb (mem term found) then
    if (term =? "services")%string then
      if negb (search true services_qualified (text self))
      then found ++ [term]
      else found
    else found ++ [term]
  else found.

(** Flags indefinite or catch-all terminology. *)
Definition detect_vague_terms (self : TMEP1402Lens) : list string :=
  fold_left (vague_step self) VAGUE_TERMS [].

(** [r"[\(\)\[\]\{\}]"]. *)
Definition is_bracket (c : ascii) : bool :=
  str_in (String c EmptyString) "()[]{}".

(** Flags structural issues. *)
Definition detect_structural_issues (self : TMEP1402Lens) : list string :=
  let issues := [] in
  let and_count := Z.of_nat (List.length (findall true (whole_word "and") (text self))) in
  let issues :=
    if and_count >? 3
    then issues ++ ["Excessive conjunction stacking ('and') may indicate over-breadth."]
    else issues in
  let issues :=
    if search false (Class is_bracket) (text self)
    then issues ++ ["Parentheses or brackets detected. Prohibited under TMEP §1402.12."]
    else issues in
  issues.

(* --------------------------------------------------------------------- *)
(** ** §1402.01: general specificity *)

Definition _check_1402_01 (self : TMEP1402Lens) (segments : list string)
  : SubsectionFinding :=
  match segments with
  | [] =>
    {| tmep_section := "§1402.01";
       severity := "ERROR";
       item := "Identification text";
       finding :=
         "Identification is empty or cannot be parsed into distinct goods/services.";
       recommendation :=
         "Provide a clear, itemized list of goods/services separated by semicolons." |}
  | _ =>
    {| tmep_section := "§1402.01";
       severity := "OK";
       item := fstr [str (Z.of_nat (List.length segments)); " item(s) identified"];
       finding := fstr
         ["Identification contains "; str (Z.of_nat (List.length segments));
          " item(s): ";
          join "; " (map (take 40) (firstn 3 segments));
          if Z.of_nat (List.length segments) >? 3 then "..." else ""];
       recommendation := "No action required." |}
  end.

(* --------------------------------------------------------------------- *)
(** ** §1402.02: filing date entitlement *)

Definition _check_1402_02 (self : TMEP1402Lens) (segments : list string)
  : SubsectionFinding :=
  let placeholders :=
    ["tbd"; "to be determined"; "see attached"; "n/a";
     "[insert]"; "xxx"; "your goods here"] in
  let text_lower := strip (lower (text self)) in
  if existsb (fun p => str_in p text_lower) placeholders then
    {| tmep_section := "§1402.02";
       severity := "ERROR";
       item := "Placeholder text detected";
       finding := fstr
         ["Identification contains placeholder or incomplete text. ";
          "Application will not be entitled to its filing date."];
       recommendation := fstr
         ["Replace placeholder text with a complete, definite identification ";
          "of actual goods/services."] |}
  else if len text_lower <? 10 then
    {| tmep_section := "§1402.02";
       severity := "ERROR";
       item := "Identification too short";
       finding := "Identification is too brief to secure a filing date.";
       recommendation := "Provide a complete identification of goods/services." |}
  else
    {| tmep_section := "§1402.02";
       severity := "OK";
       item := "Filing date entitlement";
       finding :=
         "Identification appears complete enough to support filing date entitlement.";
       recommendation := "No action required." |}.

(* --------------------------------------------------------------------- *)
(** ** §1402.03: specificity of terms *)

(** The terms that §1402.03 holds to be severely indefinite. *)
Definition severe_vague_terms : list string :=
  ["miscellaneous"; "various"; "all types"; "any"; "and the like"; "etc"; "etc."].

Definition _check_1402_03 (self : TMEP1402Lens) (vague_found : list string)
  : SubsectionFinding :=
  let severe_vague := filter (fun t => mem t severe_vague_terms) vague_found in
  let mild_vague := filter (fun t => negb (mem t severe_vague)) vague_found in
  match severe_vague, mild_vague with
  | _ :: _, _ =>
    {| tmep_section := "§1402.03";
       severity := "ERROR";
       item := fstr ["Indefinite terms: "; join ", " severe_vague];
       finding := fstr
         ["Severely indefinite terms found: "; join ", " severe_vague; ". ";
          "These are categorically unacceptable under USPTO practice."];
       recommendation := fstr
         ["Remove all indefinite terms. Replace with specific, ";
          "enumerated goods/services."] |}
  | [], _ :: _ =>
    {| tmep_section := "§1402.03";
       severity := "WARNING";
       item := fstr ["Potentially vague terms: "; join ", " mild_vague];
       finding := fstr
         ["Possibly indefinite terms found: "; join ", " mild_vague; ". ";
          "These may be acceptable with additional specificity."];
       recommendation := fstr
         ["Review terms: "; join ", " mild_vague; ". ";
          "Add 'namely' clauses to specify exact goods/services."] |}
  | [], [] =>
    {| tmep_section := "§1402.03";
       severity := "OK";
       item := "Specificity check";
       finding :=
         "No indefinite terms detected. Identification appears sufficiently specific.";
       recommendation := "No action required." |}
  end.

(* --------------------------------------------------------------------- *)
(** ** §1402.05: accuracy, cross-checked against the Pillar 1 specimen *)

(** The elements of [set(l)] for strings: [l] without repetitions. *)
Definition distinct_words (l : list string) : list string := nodup string_dec l.

(** [r"\b\w{4,}\b"]. *)
Definition long_word : re := Seq WordBoundary (Seq (Many 4 isword) WordBoundary).

Definition _check_1402_05 (self : TMEP1402Lens) : SubsectionFinding :=
  match p1 self with
  | None =>
    {| tmep_section := "§1402.05";
       severity := "INFO";
       item := "Accuracy check (no Pillar 1 context)";
       finding := fstr
         ["No Pillar 1 context provided. Cannot cross-check identification ";
          "accuracy against specimen."];
       recommendation :=
         "Run with Pillar 1 context for full §1402.05 accuracy check." |}
  | Some self_p1 =>
    (* If Pillar 1 already flagged a class ERROR, accuracy check is secondary *)
    if has_pillar1_class_error self_p1 then
      {| tmep_section := "§1402.05";
         severity := "WARNING";
         item := fstr ["Class "; str (class_number self_p1); " — Accuracy deferred"];
         finding := fstr
           ["Pillar 1 detected a classification ERROR for this class. ";
            "Accuracy of identification cannot be confirmed until the class ";
            "is corrected. Pillar 1 issue: "; take 100 (pillar1_error_summary self_p1)];
         recommendation := fstr
           ["Resolve Pillar 1 classification errors first, then ";
            "re-assess identification accuracy in the correct class."] |}
    (* Intent-to-use: no specimen yet, different accuracy standard *)
    else if (filing_basis self_p1 =? "1(b)")%string then
      {| tmep_section := "§1402.05";
         severity := "INFO";
         item := fstr
           ["Class "; str (class_number self_p1); " — §1(b) accuracy standard"];
         finding := fstr
           ["Intent-to-use application (§1(b)). Identification must accurately ";
            "reflect goods/services applicant has a bona fide intention to use. ";
            "Specimen not yet required — accuracy will be verified at SOU stage."];
         recommendation := fstr
           ["Ensure identification reflects actual intended use. ";
            "Overly broad identifications may cause problems at SOU stage."] |}
    else
      (* Cross-check identification text against specimen description *)
      let id_lower := lower (text self) in
      let spec_lower := lower (specimen_description self_p1) in
      if negb (truthy spec_lower) then
        {| tmep_section := "§1402.05";
           severity := "INFO";
           item := "No specimen description from Pillar 1";
           finding := "Specimen description not available for accuracy cross-check.";
           recommendation :=
             "Provide specimen description in Pillar 1 class entry for full check." |}
      else
        (* Look for obvious mismatches: words in specimen not in identification *)
        let id_words := distinct_words (findall false long_word id_lower) in
        let spec_words := distinct_words (findall false long_word spec_lower) in
        let overlap := filter (fun w => mem w spec_words) id_words in
        let overlap_ratio :=
          PyFloat.div (Z.of_nat (List.length overlap))
                      (Z.max (Z.of_nat (List.length spec_words)) 1) in
        if PrimFloat.ltb overlap_ratio 0x1.999999999999ap-4%float
           && (Z.of_nat (List.length spec_words) >? 3) then
          {| tmep_section := "§1402.05";
             severity := "WARNING";
             item := "Low overlap between identification and specimen";
             finding := fstr
               ["Low conceptual overlap between identification and specimen description ";
                "(~"; str (PyFloat.int (PrimFloat.mul overlap_ratio 100%float));
                "% word overlap). ";
                "Identification may not accurately reflect the actual goods/services ";
                "shown in the specimen."];
             recommendation := fstr
               ["Review whether identification accurately describes what the ";
                "specimen actually shows. Amend if over-broad or misaligned."] |}
        else
          {| tmep_section := "§1402.05";
             severity := "OK";
             item := "Accuracy vs. specimen";
             finding := fstr
               ["Identification appears consistent with the specimen provided ";
                "(~"; str (PyFloat.int (PrimFloat.mul overlap_ratio 100%float));
                "% conceptual overlap)."];
             recommendation := "No action required." |}
  end.

(* --------------------------------------------------------------------- *)
(** ** §1402.09: banned terms *)

Definition _check_1402_09 (self : TMEP1402Lens) : SubsectionFinding :=
  let found_banned :=
    filter (fun term => search true (whole_word term) (text self))
           BANNED_TERMS_1402_09 in
  match found_banned with
  | _ :: _ =>
    {| tmep_section := "§1402.09";
       severity := "ERROR";
       item := fstr ["Banned terms found: "; join ", " found_banned];
       finding := fstr
         ["The term(s) '"; join ", " found_banned; "' appear in the identification. ";
          "Per §1402.09, 'applicant' and 'registrant' are inappropriate ";
          "in identifications of goods and services."];
       recommendation := fstr
         ["Remove '"; join ", " found_banned; "' from the identification. ";
          "Rewrite the relevant clause without reference to the applicant/registrant."] |}
  | [] =>
    {| tmep_section := "§1402.09";
       severity := "OK";
       item := "Banned terms check";
       finding := "No prohibited terms ('applicant', 'registrant') found.";
       recommendation := "No action required." |}
  end.

(* --------------------------------------------------------------------- *)
(** ** §1402.10: intent-to-use requirements *)

(** [future_tense_patterns]: each pattern with the text it is written as. *)
Definition future_tense_patterns : list (string * re) :=
  [ ("\bwill\b", whole_word "will");
    ("\bintend\b", whole_word "intend");
    ("\bplanning to\b", whole_word "planning to");
    ("\bproposed\b", whole_word "proposed");
    ("\bfuture\b", whole_word "future") ].

Definition _check_1402_10 (self : TMEP1402Lens) : SubsectionFinding :=
  let basis :=
    match p1 self with Some self_p1 => filing_basis self_p1 | None => "1(a)" end in
  if negb (basis =? "1(b)")%string then
    {| tmep_section := "§1402.10";
       severity := "INFO";
       item := fstr ["Filing basis: "; basis];
       finding := fstr
         ["Application is filed under "; basis; ", not §1(b). ";
          "§1402.10 intent-to-use requirements do not apply."];
       recommendation := "No action required." |}
  else
    (* For §1(b): check for future-tense or speculative wording *)
    let found_future :=
      map (fun p => strip_chars "\b" (fst p))
          (filter (fun p => search true (snd p) (text self)) future_tense_patterns) in
    match found_future with
    | _ :: _ =>
      {| tmep_section := "§1402.10";
         severity := "WARNING";
         item := "Future-tense language in §1(b) identification";
         finding := fstr
           ["Identification contains future-tense or speculative language ";
            "("; join ", " found_future; "). Even for §1(b) applications, ";
            "the identification must describe goods/services definitively, ";
            "not contingently."];
         recommendation := fstr
           ["Remove future-tense wording. State goods/services definitively ";
            "as if already in use (the filing basis covers the intent — ";
            "the identification does not need to reflect it)."] |}
    | [] =>
      {| tmep_section := "§1402.10";
         severity := "OK";
         item := "§1(b) identification format";
         finding :=
           "§1(b) identification is stated definitively without future-tense language.";
         recommendation :=
           "No action required. Remember: specimen must be filed with SOU." |}
    end.

(* --------------------------------------------------------------------- *)
(** ** §1402.11: services as activities for others *)

(** [r"\bservice[s]?\b"]. *)
Definition service_word : re :=
  Seq WordBoundary (Seq (Chars "service") (Seq (Opt (Chars "s")) WordBoundary)).

(** [internal_patterns]. *)
Definition internal_patterns : list re :=
  [ whole_word "our";
    whole_word "my";
    Seq WordBoundary
        (Seq (Chars "the company") (Seq (Opt (Chars "'")) (Seq (Chars "s") WordBoundary)));
    whole_word "internal" ].

Definition _check_1402_11 (self : TMEP1402Lens) : SubsectionFinding :=
  (* Determine if this is a services class *)
  let is_services :=
    match p1 self with
    | Some self_p1 => (class_category self_p1 =? "SERVICES")%string
    | None =>
      (* Fallback: detect service language if no Pillar 1 context *)
      search true service_word (text self)
    end in
  if negb is_services then
    {| tmep_section := "§1402.11";
       severity := "INFO";
       item := "§1402.11 services check";
       finding := fstr
         ["This appears to be a goods class. §1402.11 services format ";
          "requirement does not apply."];
       recommendation := "No action required." |}
  else
    (* Check for service activity language *)
    let has_service_activity :=
      existsb (fun p => search true p (text self)) SERVICE_ACTIVITY_PATTERNS in
    (* Check for internal-activity framing *)
    let has_internal := existsb (fun p => search true p (text self)) internal_patterns in
    if has_internal then
      {| tmep_section := "§1402.11";
         severity := "ERROR";
         item := "Internal-activity language in service identification";
         finding := fstr
           ["Identification appears to describe the applicant's own internal activities ";
            "rather than services rendered FOR OTHERS. Services must be described ";
            "as activities performed for the benefit of third parties."];
         recommendation := fstr
           ["Rewrite as: 'providing X services for others in the field of Y' ";
            "or 'X services rendered to others, namely...'"] |}
    else if negb has_service_activity then
      {| tmep_section := "§1402.11";
         severity := "WARNING";
         item := "Service identification format";
         finding := fstr
           ["Service identification does not explicitly state the activity is ";
            "rendered for others. Per §1402.11, services must be described as ";
            "activities performed for third parties."];
         recommendation := fstr
           ["Add language such as 'providing', 'rendering', or ";
            "'offering...for others' to clarify the commercial nature."] |}
    else
      {| tmep_section := "§1402.11";
         severity := "OK";
         item := "Service activity format";
         finding :=
           "Identification correctly describes a service activity rendered for others.";
         recommendation := "No action required." |}.

(* --------------------------------------------------------------------- *)
(** ** §1402.12: parentheses and brackets *)

Definition _check_1402_12 (self : TMEP1402Lens) (structural_issues : list string)
  : SubsectionFinding :=
  let bracket_issues :=
    filter (fun i => str_in "Parentheses" i || str_in "brackets" i) structural_issues in
  match bracket_issues with
  | first :: _ =>
    {| tmep_section := "§1402.12";
       severity := "ERROR";
       item := "Parentheses/brackets in identification";
       finding := first;
       recommendation := fstr
         ["Remove all parentheses ( ), brackets [ ], and braces { } from ";
          "the identification. Rewrite any parenthetical clarifications ";
          "as direct language."] |}
  | [] =>
    {| tmep_section := "§1402.12";
       severity := "OK";
       item := "Parentheses/brackets check";
       finding := "No parentheses or brackets found.";
       recommendation := "No action required." |}
  end.

(* --------------------------------------------------------------------- *)
(** ** The main method *)

(** [sum(1 for f in findings if f.severity == s)]. *)
Definition count_severity (s : string) (findings : list SubsectionFinding) : Z :=
  Z.of_nat (List.length (filter (fun f => (severity f =? s)%string) findings)).

(** The eight checks of [evaluate], in its order, on the detectors' results. *)
Definition run_checks (self : TMEP1402Lens) (goods_segments vague_found
                       structural_flags : list string) : list SubsectionFinding :=
  [ _check_1402_01 self goods_segments;
    _check_1402_02 self goods_segments;
    _check_1402_03 self vague_found;
    _check_1402_05 self;
    _check_1402_09 self;
    _check_1402_10 self;
    _check_1402_11 self;
    _check_1402_12 self structural_flags ].

Definition evaluate (self : TMEP1402Lens) : TMEP1402AnalysisResult :=
  (* Run the shared detectors *)
  let goods_segments := extract_candidate_goods self in
  let purpose_flag := detect_purpose_language self in
  let vague_found := detect_vague_terms self in
  let structural_flags := detect_structural_issues self in
  (* Run all per-subsection checks *)
  let findings := run_checks self goods_segments vague_found structural_flags in
  let error_count := count_severity "ERROR" findings in
  let warning_count := count_severity "WARNING" findings in
  let is_definite := error_count =? 0 in  (* Only hard errors block definiteness *)
  (* Build reasoning *)
  let reasoning_parts :=
    if is_definite && (warning_count =? 0) then
      [ fstr ["The identification appears to list particular goods/services ";
              "with sufficient specificity under TMEP §1402."] ]
    else if is_definite && (warning_count >? 0) then
      [ fstr ["The identification meets minimum §1402 standards but has ";
              str warning_count; " warning(s) that should be addressed."] ]
    else
      [ fstr ["The identification does not sufficiently identify particular goods/services ";
              "as required by TMEP §1402. "; str error_count;
              " error(s) must be corrected."] ] in
  let reasoning_parts :=
    match vague_found with
    | _ :: _ =>
      reasoning_parts ++ [fstr ["Vague terminology: "; join ", " vague_found; "."]]
    | [] => reasoning_parts
    end in
  let reasoning_parts :=
    if negb purpose_flag then
      reasoning_parts ++
      [ fstr ["No explicit commercial purpose qualifier detected ";
              "(may be required depending on class)."] ]
    else reasoning_parts in
  let reasoning_parts := reasoning_parts ++ structural_flags in
  (* Pillar 1 dependency note *)
  let p1_note :=
    match p1 self with
    | Some self_p1 =>
      let p1_note := fstr
        ["Assessed in context of Class "; str (class_number self_p1); " ";
         "("; class_title self_p1; ") ["; class_category self_p1; "] ";
         "as determined by Pillar 1. ";
         "Filing basis: "; filing_basis self_p1; ". "] in
      if has_pillar1_class_error self_p1 then
        fstr [p1_note;
              "⚠️ Pillar 1 flagged a classification ERROR — some Pillar 2 ";
              "checks are deferred until class is corrected."]
      else p1_note
    | None => "No Pillar 1 context — standalone assessment only."
    end in
  {| is_definite := is_definite;
     identified_goods_services := goods_segments;
     purpose_detected := purpose_flag;
     vague_terms_found := vague_found;
     structural_issues := structural_flags;
     reasoning := join " " reasoning_parts;
     subsection_findings := findings;
     pillar1_dependency_note := p1_note |}.

(** [TMEP1402Lens(identification_text, pillar1_context)]. *)
Definition lens (identification_text : string)
           (pillar1_context : option Pillar1ClassContext) : TMEP1402Lens :=
  {| text := identification_text; p1 := pillar1_context |}.

(** [text] with [term] added as a separate word at its end. *)
Definition with_word_appended (text term : string) : string :=
  (text ++ " " ++ term)%string.

(** The four severities. *)
Definition known_severity (s : string) : Prop :=
  s = "ERROR" \/ s = "WARNING" \/ s = "INFO" \/ s = "OK".

(* --------------------------------------------------------------------- *)
(** ** The public entry point *)

(** Stores the identification exactly as submitted. *)
Record IdentificationRecord := { original_text : string }.

(** Returns the exact wording as filed. *)
Definition get_verbatim (self : IdentificationRecord) : string := original_text self.

Module Summary.
(** The [summary] dictionary of the output: counts by severity. *)
Record t := {
  total_findings : Z;
  errors : Z;
  warnings : Z;
  info : Z;
  ok : Z;
  is_definite : bool
}.
End Summary.

Module Analysis.
(** The dictionary [analyze_identification_under_tmep_1402] returns.
    [asdict(result)] has the fields of the result, and of its findings, as
    keys: it is kept here as the result itself. *)
Record t := {
  verbatim_text : string;
  tmep_1402_analysis : TMEP1402AnalysisResult;
  summary : Summary.t
}.
End Analysis.

(** End-to-end pipeline for the §1402 evaluation of one identification. *)
Definition analyze_identification_under_tmep_1402 (identification_text : string)
    (pillar1_context : option Pillar1ClassContext) : Analysis.t :=
  let record := {| original_text := identification_text |} in
  let verbatim := get_verbatim record in
  let lens := lens verbatim pillar1_context in
  let result := evaluate lens in
  let analysis_dict := result in
  let summary :=
    {| Summary.total_findings := Z.of_nat (List.length (subsection_findings result));
       Summary.errors := count_severity "ERROR" (subsection_findings result);
       Summary.warnings := count_severity "WARNING" (subsection_findings result);
       Summary.info := count_severity "INFO" (subsection_findings result);
       Summary.ok := count_severity "OK" (subsection_findings result);
       Summary.is_definite := is_definite result |} in
  {| Analysis.verbatim_text := verbatim;
     Analysis.tmep_1402_analysis := analysis_dict;
     Analysis.summary := summary |}.

(** The placeholder texts of §1402.02. *)
Definition placeholders : list string :=
  ["tbd"; "to be determined"; "see attached"; "n/a";
   "[insert]"; "xxx"; "your goods here"].

(** A semicolon or white space: what separates goods without naming any. *)
Definition is_separator (c : ascii) : bool := isspace c || Ascii.eqb c ";".

(** §1402.11 takes the class for a services class: by the category of the
    Pillar 1 context, or without one by the word "service(s)" in the text. *)
Definition is_services (self : TMEP1402Lens) : bool :=
  match p1 self with
  | Some self_p1 => (class_category self_p1 =? "SERVICES")%string
  | None => search true service_word (text self)
  end.

(* --------------------------------------------------------------------- *)
(** ** The bridge from Pillar 1 *)

(** Build the Pillar 1 context of one class from its raw class data and
    the findings of Pillar 1. *)
Definition build_pillar1_context_from_dicts
    (class_entry_dict : ClassData.ClassEntryDict.t)
    (pillar1_findings : list Pillar1.AssessmentFinding.t) : Pillar1ClassContext :=
  let cls_num :=
    ClassData.get_or (ClassData.ClassEntryDict.class_number class_entry_dict) 0 in
  (* Pull relevant findings for this class from Pillar 1 *)
  let class_findings :=
    filter (fun fn => (Pillar1.AssessmentFinding.class_number fn =? cls_num)
                      || (Pillar1.AssessmentFinding.class_number fn =? 0))
           pillar1_findings in
  let errors :=
    filter (fun f => (Pillar1.AssessmentFinding.severity f =? "ERROR")%string)
           class_findings in
  let warnings :=
    filter (fun f => (Pillar1.AssessmentFinding.severity f =? "WARNING")%string)
           class_findings in
  let error_summary :=
    match errors with
    | _ :: _ =>
        join "; " (map (fun e => take 80 (Pillar1.AssessmentFinding.finding e))
                       (firstn 2 errors))
    | [] => ""
    end in
  (* Try to get class info if nice_classification_db is available *)
  let '(class_title, class_category) :=
    match NiceDb.get_class_info cls_num with
    | Some info => (NiceDb.title info, NiceDb.category info)
    | None => ("", "")
    end in
  {| class_number := cls_num;
     class_title := class_title;
     class_category := class_category;
     filing_basis :=
       ClassData.get_or (ClassData.ClassEntryDict.filing_basis class_entry_dict) "1(a)";
     specimen_type :=
       ClassData.get_or (ClassData.ClassEntryDict.specimen_type class_entry_dict) "";
     specimen_description :=
       ClassData.get_or
         (ClassData.ClassEntryDict.specimen_description class_entry_dict) "";
     has_pillar1_class_error := Z.of_nat (List.length errors) >? 0;
     has_pillar1_class_warning := Z.of_nat (List.length warnings) >? 0;
     pillar1_error_summary := error_summary |}.

End Pillar2.

(* ===================================================================== *)
(** * Pillar 3: the multi-class assessor ([tmep_1403_pillar3.py]) *)
(* ===================================================================== *)

Module Pillar3.
Import PyStr Py ClassData.
Local Open Scope py_scope.

(** Overall status of a single class, from Pillar 1 and Pillar 2. *)
Inductive ClassStatus := CLEAN | HAS_WARNINGS | HAS_ERRORS | REFUSAL_CANDIDATE.

Definition ClassStatus_eqb (a b : ClassStatus) : bool :=
  match a, b with
  | CLEAN, CLEAN | HAS_WARNINGS, HAS_WARNINGS | HAS_ERRORS, HAS_ERRORS
  | REFUSAL_CANDIDATE, REFUSAL_CANDIDATE => true
  | _, _ => false
  end.

(** Stage of the application lifecycle. *)
Inductive ApplicationStage :=
| PRE_FILING | FILED_PENDING | OFFICE_ACTION | STATEMENT_OF_USE
| REGISTERED | POST_REGISTRATION.

(** [stage.value]. *)
Definition stage_value (stage : ApplicationStage) : string :=
  match stage with
  | PRE_FILING => "PRE_FILING"
  | FILED_PENDING => "FILED_PENDING"
  | OFFICE_ACTION => "OFFICE_ACTION"
  | STATEMENT_OF_USE => "STATEMENT_OF_USE"
  | REGISTERED => "REGISTERED"
  | POST_REGISTRATION => "POST_REGISTRATION"
  end.

Definition ApplicationStage_eqb (a b : ApplicationStage) : bool :=
  (stage_value a =? stage_value b)%string.

Module ClassSummary.
(** One class, with what Pillars 1 and 2 found for it. *)
Record t := {
  class_number : Z;
  class_title : string;
  class_category : string;
  identification : string;
  filing_basis : string;
  specimen_type : string;
  specimen_description : string;
  date_of_first_use : option string;
  date_of_first_use_commerce : option string;
  fee_paid : bool;
  p1_error_count : Z;
  p1_warning_count : Z;
  p1_error_messages : list string;
  p2_is_definite : bool;
  p2_error_count : Z;
  p2_warning_count : Z;
  p2_error_messages : list string;
  status : ClassStatus
}.

Definition has_any_error (self : t) : bool :=
  (p1_error_count self >? 0) || (p2_error_count self >? 0).

Definition has_any_warning (self : t) : bool :=
  (p1_warning_count self >? 0) || (p2_warning_count self >? 0).

Definition is_use_based (self : t) : bool :=
  mem (filing_basis self) ["1(a)"; "44(e)"].

Definition is_intent_to_use (self : t) : bool :=
  (filing_basis self =? "1(b)")%string.
End ClassSummary.

(** Application-level context for the multi-class assessment. *)
Record MultiClassApplicationContext := {
  applicant_name : string;
  mark_text : string;
  filing_date : string;
  filing_type : string;
  fees_paid_count : Z;
  total_fee_paid : float;
  application_stage : ApplicationStage;
  amendment_requested : bool;
  amendment_affects_classes : list Z;
  amendment_description : string;
  division_requested : bool;
  classes_to_divide_out : list Z;
  surrender_requested : bool;
  classes_to_surrender : list Z;
  post_filing_action_type : string
}.

Module Pillar3Finding.
(** A single finding for one §1403.xx check. *)
Record t := {
  tmep_section : string;
  severity : string;
  class_number : Z;
  item : string;
  finding : string;
  recommendation : string;
  triggered_by : string
}.
End Pillar3Finding.
Import Pillar3Finding.

Module Pillar3AssessmentResult.
(** Complete Pillar 3 output. *)
Record t := {
  findings : list Pillar3Finding.t;
  division_eligible_classes : list Z;
  division_recommended : bool;
  partial_refusal_classes : list Z;
  partial_refusal_reasons : list (Z * string);
  is_multi_class_compliant : bool;
  total_errors : Z;
  total_warnings : Z
}.
End Pillar3AssessmentResult.

(** The assessor object. *)
Record Pillar3Assessor := {
  classes : list ClassSummary.t;
  ctx : MultiClassApplicationContext;
  findings : list Pillar3Finding.t
}.

(** A method of the assessor. *)
Definition Check (A : Type) : Type := M Pillar3Assessor A.

(** The assessor [self] with [fs] as its findings list. *)
Definition with_findings (self : Pillar3Assessor) (fs : list Pillar3Finding.t)
  : Pillar3Assessor :=
  {| classes := classes self; ctx := ctx self; findings := fs |}.

(** [self.findings.append(f)]. *)
Definition findings_append (f : Pillar3Finding.t) : Check unit :=
  modify (fun self => with_findings self (findings self ++ [f])).

(** [self.findings.clear()]. *)
Definition findings_clear : Check unit :=
  modify (fun self => with_findings self []).

Definition USPTO_FEES : list (string * Z) :=
  [ ("TEAS_PLUS", 250); ("TEAS_STANDARD", 350); ("PAPER", 750) ].

(** [self.USPTO_FEES.get(filing_type, 350)]. *)
Definition fee_for (filing_type : string) : Z :=
  match PyDict.get String.eqb USPTO_FEES filing_type with
  | Some fee => fee
  | None => 350
  end.

(** [bool(o)] for an optional string: neither [None] nor empty. *)
Definition truthy_opt (o : option string) : bool :=
  match o with Some s => truthy s | None => false end.

(** [str(o)] for an optional string. *)
Definition str_opt (o : option string) : string :=
  match o with Some s => s | None => "None" end.

(** [bool(l)] for a list. *)
Definition nonempty {A} (l : list A) : bool :=
  match l with [] => false | _ => true end.

(** [', '.join(f'Class {c}' for c in l)]. *)
Definition join_classes (l : list Z) : string :=
  join ", " (map (fun c => fstr ["Class "; str c]) l).

(** [', '.join(str(c) for c in l)]. *)
Definition join_ints (l : list Z) : string := join ", " (map str l).

(** The elements of [set(l)] for strings: [l] without repetitions. *)
Definition distinct_words (l : list string) : list string := nodup string_dec l.

(** [set(text.lower().split())]. *)
Definition word_set (text : string) : list string :=
  distinct_words (split (lower text)).

(** [any(kw in text for kw in l)]. *)
Definition any_in (l : list string) (text : string) : bool :=
  existsb (fun kw => str_in kw text) l.

(* --------------------------------------------------------------------- *)
(** ** §1403.01: requirements for combined or multiple-class applications *)

(** The number of distinct class numbers, [len({c.class_number for c in classes})]. *)
Definition unique_class_count (classes : list ClassSummary.t) : Z :=
  Z.of_nat (List.length (PyList.distinct (map ClassSummary.class_number classes))).

(** Five-point completeness checklist for every class.  The flag
    [all_clean] of the source is set and never read. *)
Definition _check_1403_01_multi_class_requirements : Check unit :=
  let section := "§1403.01" in
  self_classes <- gets classes ;;
  self_ctx <- gets ctx ;;
  for_each self_classes tt (fun _ cls =>
    let cls_label := fstr
      ["Class "; str (ClassSummary.class_number cls);
       " ("; ClassSummary.class_title cls; ")"] in
    (* CHECK 1: Each class has its own separate identification *)
    (if negb (truthy (ClassSummary.identification cls))
        || (len (strip (ClassSummary.identification cls)) <? 5) then
       findings_append
         {| tmep_section := section;
            severity := "ERROR";
            class_number := ClassSummary.class_number cls;
            item := fstr [cls_label; " — Missing identification"];
            finding := fstr
              ["No identification of goods/services found for this class. ";
               "Every class in a multi-class application must have its own ";
               "separate identification."];
            recommendation := fstr
              ["Provide a complete identification of goods/services ";
               "for this class."];
            triggered_by := "P1:ClassEntry.identification" |}
     else if negb (ClassSummary.p2_is_definite cls) then
       (* Pillar 2 found the identification non-definite *)
       let p2_issues :=
         if nonempty (ClassSummary.p2_error_messages cls)
         then join "; " (firstn 2 (ClassSummary.p2_error_messages cls))
         else "Identification does not meet §1402 specificity standards" in
       findings_append
         {| tmep_section := section;
            severity := "ERROR";
            class_number := ClassSummary.class_number cls;
            item := fstr [cls_label; " — Identification not definite (Pillar 2)"];
            finding := fstr
              ["Pillar 2 (§1402) determined the identification for ";
               cls_label; " is NOT sufficiently definite. ";
               "Issues: "; p2_issues];
            recommendation := fstr
              ["Amend the identification to meet §1402 specificity ";
               "requirements before this class can be accepted in ";
               "a multi-class application."];
            triggered_by := "P2:§1402.03" |}
     else
       findings_append
         {| tmep_section := section;
            severity := "OK";
            class_number := ClassSummary.class_number cls;
            item := fstr [cls_label; " — Identification"];
            finding := "Separate, definite identification present for this class.";
            recommendation := "No action required.";
            triggered_by := "" |}) ;;
    (* CHECK 2: Each class has its own fee paid *)
    (if negb (ClassSummary.fee_paid cls) then
       findings_append
         {| tmep_section := section;
            severity := "ERROR";
            class_number := ClassSummary.class_number cls;
            item := fstr [cls_label; " — Fee not paid"];
            finding := fstr
              ["No filing fee was paid for "; cls_label; ". ";
               "Every class in a multi-class application requires ";
               "a separate filing fee."];
            recommendation := fstr
              ["Submit the per-class fee ";
               "($"; str (fee_for (filing_type self_ctx)); ") ";
               "for "; cls_label; " to avoid deletion of this class."];
            triggered_by := "P1:§1401.04" |}
     else
       findings_append
         {| tmep_section := section;
            severity := "OK";
            class_number := ClassSummary.class_number cls;
            item := fstr [cls_label; " — Fee"];
            finding := "Fee paid for this class.";
            recommendation := "No action required.";
            triggered_by := "" |}) ;;
    (* CHECK 3: Each class has its own specimen (use-based) *)
    (if ClassSummary.is_use_based cls then
       if negb (truthy (ClassSummary.specimen_type cls))
          && negb (truthy (ClassSummary.specimen_description cls)) then
         findings_append
           {| tmep_section := section;
              severity := "ERROR";
              class_number := ClassSummary.class_number cls;
              item := fstr [cls_label; " — Specimen missing"];
              finding := fstr
                ["No specimen provided for "; cls_label; ". ";
                 "Use-based applications (§1(a)) require a separate ";
                 "specimen for each class showing the mark in actual use."];
              recommendation := fstr
                ["Submit a specimen showing the mark in actual commercial ";
                 "use in connection with the goods/services in this class."];
              triggered_by := "P1:§1401.06" |}
       else if (ClassSummary.p1_error_count cls >? 0)
               && existsb (fun m => str_in "specimen" (lower m))
                          (ClassSummary.p1_error_messages cls) then
         (* Pillar 1 already flagged a specimen error *)
         findings_append
           {| tmep_section := section;
              severity := "ERROR";
              class_number := ClassSummary.class_number cls;
              item := fstr [cls_label; " — Specimen invalid (Pillar 1)"];
              finding := fstr
                ["Pillar 1 detected a specimen issue for "; cls_label; ": ";
                 take 120
                   (join "; "
                      (filter (fun m => str_in "specimen" (lower m))
                              (ClassSummary.p1_error_messages cls)))];
              recommendation := fstr
                ["Replace the specimen with an acceptable one for this class. ";
                 "Each class must have its own valid specimen."];
              triggered_by := "P1:§1401.06" |}
       else
         findings_append
           {| tmep_section := section;
              severity := "OK";
              class_number := ClassSummary.class_number cls;
              item := fstr [cls_label; " — Specimen"];
              finding := fstr
                ["Specimen present: '"; ClassSummary.specimen_type cls; "'."];
              recommendation := "No action required.";
              triggered_by := "" |}
     else
       findings_append
         {| tmep_section := section;
            severity := "INFO";
            class_number := ClassSummary.class_number cls;
            item := fstr [cls_label; " — Specimen (§1(b))"];
            finding := fstr
              ["Intent-to-use basis ("; ClassSummary.filing_basis cls; "). ";
               "No specimen required at this stage."];
            recommendation := "Specimen must be submitted with Statement of Use.";
            triggered_by := "" |}) ;;
    (* CHECK 4: Goods/services correctly assigned to class *)
    let p1_class_errors :=
      filter (fun m =>
                any_in ["misclassif"; "class"; "wrong"; "incorrect"; "reclassif"]
                       (lower m))
             (ClassSummary.p1_error_messages cls) in
    (match p1_class_errors with
     | first :: _ =>
       findings_append
         {| tmep_section := section;
            severity := "ERROR";
            class_number := ClassSummary.class_number cls;
            item := fstr [cls_label; " — Classification issue (Pillar 1)"];
            finding := fstr
              ["Pillar 1 (§1401.03) detected incorrect class assignment for ";
               cls_label; ": "; take 120 first];
            recommendation := fstr
              ["Correct the class assignment per Pillar 1 recommendations ";
               "before proceeding with multi-class filing requirements."];
            triggered_by := "P1:§1401.03" |}
     | [] =>
       let has_p1_class_warning := ClassSummary.p1_warning_count cls >? 0 in
       findings_append
         {| tmep_section := section;
            severity := if has_p1_class_warning then "WARNING" else "OK";
            class_number := ClassSummary.class_number cls;
            item := fstr [cls_label; " — Class assignment"];
            finding :=
              if has_p1_class_warning then
                fstr ["Pillar 1 raised "; str (ClassSummary.p1_warning_count cls);
                      " warning(s) about the ";
                      "class assignment — review recommended."]
              else "No class assignment errors detected for this class.";
            recommendation :=
              if has_p1_class_warning
              then "Review Pillar 1 warnings for this class."
              else "No action required.";
            triggered_by := "P1:§1401.03" |}
     end) ;;
    (* CHECK 5: Dates of use provided per class (use-based) *)
    when (ClassSummary.is_use_based cls)
      (let missing_dates :=
         (if negb (truthy_opt (ClassSummary.date_of_first_use cls))
          then ["date of first use anywhere"] else [])
         ++ (if negb (truthy_opt (ClassSummary.date_of_first_use_commerce cls))
             then ["date of first use in commerce"] else []) in
       if nonempty missing_dates then
         findings_append
           {| tmep_section := section;
              severity := "WARNING";
              class_number := ClassSummary.class_number cls;
              item := fstr [cls_label; " — Missing dates of use"];
              finding := fstr
                ["Missing for "; cls_label; ": "; join ", " missing_dates; ". ";
                 "Per §1403.01, dates of use must be provided separately ";
                 "for each class in a use-based application."];
              recommendation := fstr
                ["Add separate dates of first use (anywhere) and ";
                 "first use in commerce for this class."];
              triggered_by := "P1:ClassEntry.date_of_first_use" |}
       else
         findings_append
           {| tmep_section := section;
              severity := "OK";
              class_number := ClassSummary.class_number cls;
              item := fstr [cls_label; " — Dates of use"];
              finding := fstr
                ["First use: "; str_opt (ClassSummary.date_of_first_use cls); " | ";
                 "First use in commerce: ";
                 str_opt (ClassSummary.date_of_first_use_commerce cls)];
              recommendation := "No action required.";
              triggered_by := "" |})) ;;
  (* Application-level fee count cross-check *)
  let unique_cls_count := unique_class_count self_classes in
  let fees_paid := fees_paid_count self_ctx in
  if (fees_paid >? 0) && negb (fees_paid =? unique_cls_count) then
    let shortage := unique_cls_count - fees_paid in
    let severity_ := if shortage >? 0 then "ERROR" else "WARNING" in
    findings_append
      {| tmep_section := section;
         severity := severity_;
         class_number := 0;
         item := fstr
           ["Application-level fee count: "; str fees_paid; " paid, ";
            str unique_cls_count; " classes"];
         finding := fstr
           [if shortage >? 0 then "UNDERPAYMENT" else "OVERPAYMENT"; ": ";
            str fees_paid; " fee(s) submitted but "; str unique_cls_count;
            " class(es) filed. ";
            if shortage >? 0
            then ("Shortage: " ++ str (Z.abs shortage) ++ " fee(s).")%string
            else ("Excess: " ++ str (Z.abs shortage) ++ " fee(s).")%string];
         recommendation :=
           if shortage >? 0 then
             fstr ["Submit "; str (Z.abs shortage); " additional fee(s) at ";
                   "$"; str (fee_for (filing_type self_ctx)); "/class. ";
                   "Unpaid classes will be deleted."]
           else "Request refund for excess fees or add additional classes.";
         triggered_by := "P1:§1401.04" |}
  else if fees_paid >? 0 then
    findings_append
      {| tmep_section := section;
         severity := "OK";
         class_number := 0;
         item := "Application-level fee count";
         finding := fstr
           ["Fee count matches class count: ";
            str fees_paid; " fee(s) for "; str unique_cls_count; " class(es)."];
         recommendation := "No action required.";
         triggered_by := "" |}
  else ret tt.

(* --------------------------------------------------------------------- *)
(** ** §1403.02: amendment of a combined or multiple-class application *)

(** [set(a) == set(b)] for lists of numbers. *)
Definition same_set (a b : list Z) : bool :=
  forallb (fun x => PyList.mem x b) a && forallb (fun x => PyList.mem x a) b.

(** [a - b] and [a & b] on sets of words kept as lists without repetitions. *)
Definition set_minus (a b : list string) : list string :=
  filter (fun w => negb (mem w b)) a.

Definition set_inter (a b : list string) : list string :=
  filter (fun w => mem w b) a.

Section SetOrder.

(** The order in which Python walks a set of strings follows their hashes,
    which change from one interpreter run to the next: [set_order l] is the
    elements of the set [l] in the order of the run at hand. *)
Variable set_order : list string -> list string.

(** Amendments in multi-class applications.  Returns the class numbers
    with potential cross-class conflicts.  The list [non_affected] of the
    source is built and never read. *)
Definition _check_1403_02_amendment_review : Check (list Z) :=
  let section := "§1403.02" in
  self_classes <- gets classes ;;
  self_ctx <- gets ctx ;;
  if negb (amendment_requested self_ctx) then
    findings_append
      {| tmep_section := section;
         severity := "INFO";
         class_number := 0;
         item := "No amendment in this assessment";
         finding := fstr
           ["No amendment has been requested. §1403.02 amendment rules ";
            "are noted for reference."];
         recommendation := fstr
           ["When filing any amendment, ensure changes are ";
            "class-specific and do not affect other classes."];
         triggered_by := "" |} ;;
    ret []
  else
    let affected := amendment_affects_classes self_ctx in
    let all_class_numbers := map ClassSummary.class_number self_classes in
    conflict_classes <-
      (* If amendment description says all classes or affects all *)
      (if negb (nonempty affected) || same_set affected all_class_numbers then
         findings_append
           {| tmep_section := section;
              severity := "WARNING";
              class_number := 0;
              item := "Amendment scope: ALL classes";
              finding := fstr
                ["The requested amendment appears to affect all classes ";
                 "("; join_classes (PyList.sorted all_class_numbers); "). ";
                 "An application-wide amendment must be reviewed carefully to ensure ";
                 "it does not inadvertently narrow or alter classes that don't need changing."];
              recommendation := fstr
                ["Confirm which classes actually need amendment. ";
                 "File class-specific amendments where possible to avoid ";
                 "unintended scope changes across classes."];
              triggered_by := "" |} ;;
         ret []
       else
         (* Amendment affects specific classes: check for cross-class conflicts *)
         conflict_classes <-
           for_each self_classes [] (fun conflict_classes cls =>
             if negb (PyList.mem (ClassSummary.class_number cls) affected) then
               ret conflict_classes
             else
               let amended_words := word_set (ClassSummary.identification cls) in
               for_each self_classes conflict_classes
                 (fun conflict_classes other_cls =>
                   if PyList.mem (ClassSummary.class_number other_cls) affected then
                     ret conflict_classes
                   else
                     let other_words :=
                       word_set (ClassSummary.identification other_cls) in
                     let shared :=
                       set_inter amended_words
                         (set_minus other_words
                            ["and"; "or"; "for"; "the"; "of"; "in"; "a"; "an";
                             "to"; "with"; "by"; "from"; "on"; "at"]) in
                     if Z.of_nat (List.length shared) >=? 3 then
                       findings_append
                         {| tmep_section := section;
                            severity := "WARNING";
                            class_number := ClassSummary.class_number cls;
                            item := fstr
                              ["Cross-class amendment conflict: ";
                               "Class "; str (ClassSummary.class_number cls);
                               " ↔ Class "; str (ClassSummary.class_number other_cls)];
                            finding := fstr
                              ["Amending Class "; str (ClassSummary.class_number cls);
                               " may affect Class ";
                               str (ClassSummary.class_number other_cls);
                               " — they share terminology: ";
                               join ", " (firstn 5 (set_order shared)); ". ";
                               "Per §1403.02, amendments to one class must not ";
                               "inadvertently alter the scope of another."];
                            recommendation := fstr
                              ["Review whether the amendment to Class ";
                               str (ClassSummary.class_number cls); " ";
                               "creates any scope overlap with Class ";
                               str (ClassSummary.class_number other_cls); ". ";
                               "Amend each class separately with distinct language."];
                            triggered_by := fstr
                              ["P1+P2:Class"; str (ClassSummary.class_number cls);
                               "↔Class"; str (ClassSummary.class_number other_cls)] |} ;;
                       ret (conflict_classes ++ [ClassSummary.class_number cls])
                     else ret conflict_classes)) ;;
         when (negb (nonempty conflict_classes))
           (findings_append
              {| tmep_section := section;
                 severity := "OK";
                 class_number := 0;
                 item := fstr
                   ["Amendment scope: Class(es) ";
                    join_ints (PyList.sorted affected); " only"];
                 finding := fstr
                   ["Amendment is limited to Class(es) ";
                    join_ints (PyList.sorted affected); ". ";
                    "No obvious cross-class terminology conflicts detected."];
                 recommendation := fstr
                   ["Ensure the amendment is filed with correct class-specific ";
                    "language and any required additional fees."];
                 triggered_by := "" |}) ;;
         ret conflict_classes) ;;
    (* Amendment broadening guard *)
    when (truthy (amendment_description self_ctx))
      (let broadening_keywords :=
         ["add"; "adding"; "expand"; "include"; "broader"; "additional";
          "new goods"; "new services"; "new class"] in
       let desc_lower := lower (amendment_description self_ctx) in
       when (any_in broadening_keywords desc_lower)
         (findings_append
            {| tmep_section := section;
               severity := "ERROR";
               class_number := 0;
               item := "Amendment may attempt to broaden scope";
               finding := fstr
                 ["Amendment description '";
                  take 80 (amendment_description self_ctx); "' ";
                  "contains language suggesting scope broadening. ";
                  "Per §1402.07 (applied through §1403.02), amendments cannot ";
                  "expand the identification beyond the original filing scope."];
               recommendation := fstr
                 ["Amendments may only CLARIFY or LIMIT the identification. ";
                  "Remove any language that adds new goods/services not ";
                  "encompassed by the original filing."];
               triggered_by := "" |})) ;;
    ret conflict_classes.

(* --------------------------------------------------------------------- *)
(** ** §1403.03: dividing of a combined or multiple-class application *)

(** What keeps a class from standing as an application of its own. *)
Definition division_issues (cls : ClassSummary.t) : list string :=
  (if negb (truthy (strip (ClassSummary.identification cls)))
   then ["missing identification"] else [])
  ++ (if ClassSummary.is_use_based cls
         && negb (truthy (ClassSummary.specimen_type cls))
      then ["missing specimen"] else [])
  ++ (if negb (ClassSummary.fee_paid cls) then ["fee not paid"] else []).

(** Returns the class numbers eligible or recommended for division. *)
Definition _check_1403_03_division_eligibility : Check (list Z) :=
  let section := "§1403.03" in
  self_classes <- gets classes ;;
  self_ctx <- gets ctx ;;
  (* Classes with errors that would benefit from division *)
  let error_classes := filter ClassSummary.has_any_error self_classes in
  let clean_classes :=
    filter (fun c => negb (ClassSummary.has_any_error c)) self_classes in
  (* Classes with mixed filing bases *)
  let use_based := filter ClassSummary.is_use_based self_classes in
  let intent_to_use := filter ClassSummary.is_intent_to_use self_classes in
  if division_requested self_ctx then
    (* Case 1: specific division requested by applicant *)
    let to_divide := classes_to_divide_out self_ctx in
    let remaining :=
      filter (fun n => negb (PyList.mem n to_divide))
             (map ClassSummary.class_number self_classes) in
    (* Verify divided classes meet standalone requirements *)
    division_eligible <-
      for_each to_divide [] (fun division_eligible cls_num =>
        match find (fun c => ClassSummary.class_number c =? cls_num) self_classes with
        | None => ret division_eligible
        | Some cls =>
          let issues := division_issues cls in
          if nonempty issues then
            findings_append
              {| tmep_section := section;
                 severity := "ERROR";
                 class_number := cls_num;
                 item := fstr
                   ["Class "; str cls_num; " — Cannot divide: incomplete requirements"];
                 finding := fstr
                   ["Class "; str cls_num; " cannot be divided out because it does ";
                    "not meet standalone filing requirements: ";
                    join ", " issues; ". A divided application must be ";
                    "complete in itself."];
                 recommendation := fstr
                   ["Resolve these issues before dividing: ";
                    join ", " issues; "."];
                 triggered_by := "" |} ;;
            ret division_eligible
          else
            findings_append
              {| tmep_section := section;
                 severity := "OK";
                 class_number := cls_num;
                 item := fstr ["Class "; str cls_num; " — Division eligible"];
                 finding := fstr
                   ["Class "; str cls_num; " meets all standalone requirements ";
                    "and can be divided into its own application."];
                 recommendation := fstr
                   ["Proceed with division request for Class "; str cls_num; ". ";
                    "The child application will carry forward the ";
                    "original filing date."];
                 triggered_by := "" |} ;;
            ret (division_eligible ++ [cls_num])
        end) ;;
    when (nonempty remaining)
      (findings_append
         {| tmep_section := section;
            severity := "INFO";
            class_number := 0;
            item := fstr
              ["Remaining after division: ";
               "Class(es) "; join_ints (PyList.sorted remaining)];
            finding := fstr
              ["After dividing out Class(es) ";
               join_ints (PyList.sorted to_divide); ", ";
               "the parent application retains ";
               "Class(es) "; join_ints (PyList.sorted remaining); "."];
            recommendation := fstr
              ["Verify the parent application remains complete ";
               "and all retained classes are properly supported."];
            triggered_by := "" |}) ;;
    ret division_eligible
  else
    (* Case 2: no division requested, assess recommendation *)
    if nonempty error_classes && nonempty clean_classes then
      let error_cls_nums := map ClassSummary.class_number error_classes in
      let clean_cls_nums := map ClassSummary.class_number clean_classes in
      findings_append
        {| tmep_section := section;
           severity := "WARNING";
           class_number := 0;
           item := "Division RECOMMENDED — Clean vs. problem classes detected";
           finding := fstr
             ["DIVISION ANALYSIS (§1403.03): ";
              "Class(es) "; join_classes (PyList.sorted clean_cls_nums); " ";
              "are clean, but ";
              "Class(es) "; join_classes (PyList.sorted error_cls_nums); " ";
              "have errors. Without division, the errors in ";
              join_classes (PyList.sorted error_cls_nums); " ";
              "will delay registration for the clean classes too."];
           recommendation := fstr
             ["Consider dividing Class(es) ";
              join_ints (PyList.sorted clean_cls_nums); " ";
              "into a separate application so they can proceed to ";
              "registration independently. ";
              "File a Request to Divide (USPTO Form PTO-2302)."];
           triggered_by := "" |} ;;
      ret clean_cls_nums
    else if nonempty use_based && nonempty intent_to_use then
      let itu_nums := map ClassSummary.class_number intent_to_use in
      let use_nums := map ClassSummary.class_number use_based in
      findings_append
        {| tmep_section := section;
           severity := "INFO";
           class_number := 0;
           item := "Mixed filing basis — potential division candidate";
           finding := fstr
             ["Application has mixed filing bases: ";
              "Class(es) "; join_ints (PyList.sorted use_nums); " ";
              "are §1(a) use-based; ";
              "Class(es) "; join_ints (PyList.sorted itu_nums); " ";
              "are §1(b) intent-to-use. ";
              "The §1(b) classes cannot achieve registration until a ";
              "Statement of Use is filed, which may delay the §1(a) classes."];
           recommendation := fstr
             ["Consider dividing the §1(a) classes ";
              "("; join_ints (PyList.sorted use_nums); ") ";
              "so they can proceed to registration independently ";
              "of the §1(b) classes."];
           triggered_by := "" |} ;;
      ret use_nums
    else
      findings_append
        {| tmep_section := section;
           severity := "INFO";
           class_number := 0;
           item := "Division not currently indicated";
           finding := fstr
             ["All classes appear to be at the same stage with similar ";
              "issue profiles. Division is not currently recommended."];
           recommendation := fstr
             ["Monitor application progress. Division may become ";
              "appropriate if one class receives a specific refusal."];
           triggered_by := "" |} ;;
      ret [].

(* --------------------------------------------------------------------- *)
(** ** §1403.04: refusals as to less than all classes *)

(** The grounds of refusal Pillars 1 and 2 give for one class. *)
Definition refusal_reasons_of (cls : ClassSummary.t) : list string :=
  (* Collect P1 error reasons *)
  (if ClassSummary.p1_error_count cls >? 0
   then map (fun msg => fstr ["[Pillar 1 — §1401] "; take 100 msg])
            (firstn 2 (ClassSummary.p1_error_messages cls))
   else [])
  (* Collect P2 error reasons *)
  ++ (if negb (ClassSummary.p2_is_definite cls)
         || (ClassSummary.p2_error_count cls >? 0)
      then map (fun msg => fstr ["[Pillar 2 — §1402] "; take 100 msg])
               (firstn 2 (ClassSummary.p2_error_messages cls))
           ++ (if negb (ClassSummary.p2_is_definite cls)
                  && negb (nonempty (ClassSummary.p2_error_messages cls))
               then ["[Pillar 2 — §1402] Identification is not sufficiently definite."]
               else [])
      else []).

(** Returns the refused class numbers and the reasons per class. *)
Definition _check_1403_04_partial_refusals : Check (list Z * list (Z * string)) :=
  let section := "§1403.04" in
  self_classes <- gets classes ;;
  refused <-
    for_each self_classes ([], []) (fun refused cls =>
      let refusal_classes := fst refused in
      let refusal_reasons := snd refused in
      let reasons := refusal_reasons_of cls in
      if nonempty reasons then
        let severity_ :=
          if ClassStatus_eqb (ClassSummary.status cls) REFUSAL_CANDIDATE
          then "ERROR" else "WARNING" in
        findings_append
          {| tmep_section := section;
             severity := severity_;
             class_number := ClassSummary.class_number cls;
             item := fstr
               ["Class "; str (ClassSummary.class_number cls);
                " — PARTIAL REFUSAL CANDIDATE"];
             finding := fstr
               ["Class "; str (ClassSummary.class_number cls);
                " ("; ClassSummary.class_title cls; ") has ";
                str (ClassSummary.p1_error_count cls); " Pillar 1 error(s) and ";
                str (ClassSummary.p2_error_count cls);
                " Pillar 2 error(s) that constitute ";
                "grounds for a PARTIAL REFUSAL under §1403.04. ";
                "Reasons: "; join "; " (firstn 2 reasons)];
             recommendation := fstr
               ["Issue a partial refusal limited to Class ";
                str (ClassSummary.class_number cls); ". ";
                "Do NOT refuse the entire application — other classes ";
                "should continue to be processed. ";
                "State each ground of refusal clearly in the Office Action."];
             triggered_by := fstr
               ["P1:"; str (ClassSummary.p1_error_count cls); "errors + P2:";
                str (ClassSummary.p2_error_count cls); "errors"] |} ;;
        ret (refusal_classes ++ [ClassSummary.class_number cls],
             PyDict.set Z.eqb refusal_reasons (ClassSummary.class_number cls)
                        (join "; " reasons))
      else
        findings_append
          {| tmep_section := section;
             severity := "OK";
             class_number := ClassSummary.class_number cls;
             item := fstr
               ["Class "; str (ClassSummary.class_number cls);
                " — No refusal grounds"];
             finding := fstr
               ["Class "; str (ClassSummary.class_number cls);
                " ("; ClassSummary.class_title cls; ") has no ";
                "errors from Pillar 1 or Pillar 2. No refusal is indicated ";
                "for this class."];
             recommendation := fstr
               ["This class may proceed independently. ";
                "Consider division if other classes face refusals."];
             triggered_by := "" |} ;;
        ret refused) ;;
  let refusal_classes := fst refused in
  (* Application-level refusal summary *)
  when (nonempty refusal_classes)
    (let non_refusal :=
       filter (fun n => negb (PyList.mem n refusal_classes))
              (map ClassSummary.class_number self_classes) in
     findings_append
       {| tmep_section := section;
          severity := "INFO";
          class_number := 0;
          item := "Partial refusal summary";
          finding := fstr
            ["PARTIAL REFUSAL applies to: ";
             "Class(es) "; join_ints (PyList.sorted refusal_classes); ". ";
             "Classes NOT subject to refusal: ";
             if nonempty non_refusal
             then join_ints (PyList.sorted non_refusal) else "None";
             "."];
          recommendation := fstr
            ["Issue Office Action with partial refusal. ";
             "For each refused class, cite the specific legal ground. ";
             "For clean classes, note they are approved or being processed."];
          triggered_by := "" |}) ;;
  ret refused.

(* --------------------------------------------------------------------- *)
(** ** §1403.05: fees for post-filing actions, multiple classes *)

(** The per-class fee [fee_per_class] of the source is looked up and never
    read. *)
Definition _check_1403_05_post_filing_fees : Check unit :=
  let section := "§1403.05" in
  self_classes <- gets classes ;;
  self_ctx <- gets ctx ;;
  let stage := application_stage self_ctx in
  let action := post_filing_action_type self_ctx in
  (* No post-filing action in this assessment *)
  if negb (truthy action)
     && (ApplicationStage_eqb stage PRE_FILING
         || ApplicationStage_eqb stage FILED_PENDING) then
    findings_append
      {| tmep_section := section;
         severity := "INFO";
         class_number := 0;
         item := "No post-filing action in this assessment";
         finding := fstr
           ["Application is at filing/pending stage. ";
            "§1403.05 post-filing fee requirements will apply if/when ";
            "responses, amendments, or Statements of Use are filed."];
         recommendation := fstr
           ["When filing any post-filing action, ensure the ";
            "correct per-class fee is included for each affected class."];
         triggered_by := "" |}
  else
    (* Statement of Use: intent-to-use classes *)
    let itu_classes := filter ClassSummary.is_intent_to_use self_classes in
    let itu_count := Z.of_nat (List.length itu_classes) in
    when ((ApplicationStage_eqb stage STATEMENT_OF_USE || (action =? "sou")%string)
          && nonempty itu_classes)
      (let sou_fee_total := itu_count * 100 in
       findings_append
         {| tmep_section := section;
            severity := "INFO";
            class_number := 0;
            item := fstr ["Statement of Use — "; str itu_count; " class(es)"];
            finding := fstr
              ["Statement of Use being filed for ";
               str itu_count; " §1(b) class(es): ";
               join_classes (map ClassSummary.class_number itu_classes); ". ";
               "SOU fee: $100/class × "; str itu_count; " = $";
               str sou_fee_total; "."];
            recommendation := fstr
              ["Submit SOU with $"; str sou_fee_total; " total ";
               "($"; str 100; "/class for each of the ";
               str itu_count; " §1(b) class(es)). ";
               "Each class needs its own specimen with the SOU."];
            triggered_by := "" |}) ;;
    (* Amendment response with fees *)
    when (mem action ["amendment"; "response"]
          && nonempty (amendment_affects_classes self_ctx))
      (let affected_count :=
         Z.of_nat (List.length (amendment_affects_classes self_ctx)) in
       findings_append
         {| tmep_section := section;
            severity := "INFO";
            class_number := 0;
            item := fstr
              ["Post-filing "; action; " fee — ";
               str affected_count; " class(es) affected"];
            finding := fstr
              ["Post-filing "; action; " affects ";
               str affected_count; " class(es): ";
               join_classes (PyList.sorted (amendment_affects_classes self_ctx));
               ". ";
               "Verify whether additional per-class fees are required ";
               "for this type of action."];
            recommendation := fstr
              ["Check USPTO fee schedule for post-filing "; action; " fees. ";
               "Ensure fee is submitted for each of the ";
               str affected_count; " affected class(es)."];
            triggered_by := "" |}) ;;
    (* Surrender fees (if applicable) *)
    when (surrender_requested self_ctx
          && nonempty (classes_to_surrender self_ctx))
      (findings_append
         {| tmep_section := section;
            severity := "INFO";
            class_number := 0;
            item := fstr
              ["Surrender fee check — ";
               "Class(es) "; join_ints (classes_to_surrender self_ctx)];
            finding := fstr
              ["Partial surrender of classes in a multi-class registration. ";
               "Verify whether any petition or maintenance fees apply ";
               "to the surrender action."];
            recommendation := fstr
              ["File a Section 7 Request for Amendment/Surrender ";
               "(USPTO Form) with required fees for each surrendered class."];
            triggered_by := "" |}) ;;
    (* General multi-class post-filing reminder *)
    findings_append
      {| tmep_section := section;
         severity := "INFO";
         class_number := 0;
         item := "Multi-class post-filing fee rule";
         finding := fstr
           ["Per §1403.05: in multi-class applications, post-filing actions ";
            "require separate fees for each class to which the action applies. ";
            "A single fee does not cover all classes automatically."];
         recommendation := fstr
           ["Always verify the number of classes affected by any ";
            "post-filing action and submit the correct per-class fee amount."];
         triggered_by := "" |}.

(* --------------------------------------------------------------------- *)
(** ** §1403.06: surrender or amendment in multi-class registrations *)

(** [retained_id_words] after the loop over the retained classes. *)
Definition retained_words (to_retain : list ClassSummary.t) : list string :=
  distinct_words
    (flat_map (fun rc => split (lower (ClassSummary.identification rc))) to_retain).

Definition _check_1403_06_surrender_or_amendment : Check unit :=
  let section := "§1403.06" in
  self_classes <- gets classes ;;
  self_ctx <- gets ctx ;;
  let stage := application_stage self_ctx in
  (* Only relevant post-registration *)
  if negb (ApplicationStage_eqb stage REGISTERED
           || ApplicationStage_eqb stage POST_REGISTRATION) then
    findings_append
      {| tmep_section := section;
         severity := "INFO";
         class_number := 0;
         item := fstr
           ["§1403.06 — Not yet registered (stage: "; stage_value stage; ")"];
         finding := fstr
           ["Application has not yet reached registration. ";
            "§1403.06 surrender and post-registration amendment rules ";
            "will apply after registration is granted."];
         recommendation := fstr
           ["Note for post-registration: partial surrender is possible ";
            "via Section 7 amendment. Surrendering a class is irrevocable."];
         triggered_by := "" |}
  else if negb (surrender_requested self_ctx) then
    findings_append
      {| tmep_section := section;
         severity := "INFO";
         class_number := 0;
         item := "No surrender requested";
         finding := "No surrender of classes has been requested in this assessment.";
         recommendation := fstr
           ["If a partial surrender is needed post-registration, ";
            "file a Section 7 Request (USPTO Form SB/08). ";
            "Surrender is irrevocable — once a class is surrendered, ";
            "it cannot be reinstated."];
         triggered_by := "" |}
  else
    let to_surrender := classes_to_surrender self_ctx in
    let to_retain :=
      filter (fun c => negb (PyList.mem (ClassSummary.class_number c) to_surrender))
             self_classes in
    (* Validate surrender doesn't leave registration empty *)
    if Z.of_nat (List.length to_surrender) >=? Z.of_nat (List.length self_classes) then
      findings_append
        {| tmep_section := section;
           severity := "ERROR";
           class_number := 0;
           item := "Full surrender — entire registration would be abandoned";
           finding := fstr
             ["Surrendering all classes would result in complete abandonment ";
              "of the registration. If that is the intent, a full cancellation ";
              "should be filed instead."];
           recommendation := fstr
             ["File a Request for Cancellation (USPTO Form) if the intent ";
              "is to abandon the entire registration. ";
              "For partial surrender, retain at least one class."];
           triggered_by := "" |}
    else
      (* Check for scope inconsistencies in retained classes *)
      let surrendered_cls_objects :=
        filter (fun c => PyList.mem (ClassSummary.class_number c) to_surrender)
               self_classes in
      let retained_id_words := retained_words to_retain in
      inconsistency_found <-
        for_each surrendered_cls_objects false (fun inconsistency_found sc =>
          let surrendered_words :=
            set_minus (word_set (ClassSummary.identification sc))
              ["and"; "or"; "for"; "the"; "of"; "in"; "a"; "an"; "to";
               "with"; "by"; "from"; "on"; "at"; "namely"; "including"] in
          let overlap_with_retained :=
            set_inter surrendered_words retained_id_words in
          let significant_overlap :=
            filter (fun w => len w >? 4) (set_order overlap_with_retained) in
          if nonempty significant_overlap then
            findings_append
              {| tmep_section := section;
                 severity := "WARNING";
                 class_number := ClassSummary.class_number sc;
                 item := fstr
                   ["Scope overlap: surrendering Class ";
                    str (ClassSummary.class_number sc); " ";
                    "while retaining other classes"];
                 finding := fstr
                   ["Surrendering Class "; str (ClassSummary.class_number sc);
                    " ("; ClassSummary.class_title sc; ") ";
                    "may create inconsistency with retained classes. ";
                    "Shared terminology between surrendered and retained ";
                    "identifications: ";
                    join ", " (firstn 5 significant_overlap); ". ";
                    "After surrender, consumers may be confused about the ";
                    "scope of the remaining registration."];
                 recommendation := fstr
                   ["Review whether surrendering Class ";
                    str (ClassSummary.class_number sc); " ";
                    "creates gaps or ambiguity in the overall trademark scope. ";
                    "Consider whether amendments to retained class identifications ";
                    "are needed for clarity post-surrender."];
                 triggered_by := "" |} ;;
            ret true
          else
            findings_append
              {| tmep_section := section;
                 severity := "OK";
                 class_number := ClassSummary.class_number sc;
                 item := fstr
                   ["Class "; str (ClassSummary.class_number sc);
                    " — Surrender scope check"];
                 finding := fstr
                   ["Surrendering Class "; str (ClassSummary.class_number sc);
                    " ("; ClassSummary.class_title sc; ") ";
                    "does not appear to create scope inconsistency with retained classes."];
                 recommendation := fstr
                   ["Proceed with surrender of Class ";
                    str (ClassSummary.class_number sc); ". ";
                    "Remember: surrender is irrevocable."];
                 triggered_by := "" |} ;;
            ret inconsistency_found) ;;
      (* Retained classes check *)
      when (nonempty to_retain)
        (let retained_nums :=
           join_ints (map ClassSummary.class_number
                          (PyList.sorted_key ClassSummary.class_number to_retain)) in
         findings_append
           {| tmep_section := section;
              severity := "INFO";
              class_number := 0;
              item := fstr
                ["Post-surrender retained: "; "Class(es) "; retained_nums];
              finding := fstr
                ["After surrendering Class(es) ";
                 join_ints (PyList.sorted to_surrender); ", ";
                 "the registration will retain ";
                 "Class(es) "; retained_nums; "."];
              recommendation := fstr
                ["Ensure maintenance fees (Section 8/71 Declarations) ";
                 "are paid for all RETAINED classes going forward. ";
                 "Surrendered classes are excluded from future maintenance."];
              triggered_by := "" |}).

(* --------------------------------------------------------------------- *)
(** ** The result and the entry point *)

(** [sum(1 for f in findings if f.severity == sev)]. *)
Definition sum_severity (sev : string) (fs : list Pillar3Finding.t) : Z :=
  fold_left (fun total f => if (severity f =? sev)%string then total + 1 else total)
            fs 0.

(** The result holds the assessor's findings list itself, as it stands when
    the result is built. *)
Definition _build_result (division_eligible refusal_classes : list Z)
    (refusal_reasons : list (Z * string)) : Check Pillar3AssessmentResult.t :=
  self_findings <- gets findings ;;
  let errors := sum_severity "ERROR" self_findings in
  let warnings := sum_severity "WARNING" self_findings in
  let is_compliant := errors =? 0 in
  ret {| Pillar3AssessmentResult.findings := self_findings;
         Pillar3AssessmentResult.division_eligible_classes := division_eligible;
         Pillar3AssessmentResult.division_recommended :=
           Z.of_nat (List.length division_eligible) >? 0;
         Pillar3AssessmentResult.partial_refusal_classes := refusal_classes;
         Pillar3AssessmentResult.partial_refusal_reasons := refusal_reasons;
         Pillar3AssessmentResult.is_multi_class_compliant := is_compliant;
         Pillar3AssessmentResult.total_errors := errors;
         Pillar3AssessmentResult.total_warnings := warnings |}.

(** Run all §1403 checks in sequence and return the full result. *)
Definition run_full_assessment : Check Pillar3AssessmentResult.t :=
  findings_clear ;;
  self_classes <- gets classes ;;
  (* Guard: single-class apps don't need §1403 analysis *)
  let unique_classes := PyList.distinct (map ClassSummary.class_number self_classes) in
  if Z.of_nat (List.length unique_classes) <? 2 then
    findings_append
      {| tmep_section := "§1403";
         severity := "INFO";
         class_number := 0;
         item := "Single-class application";
         finding := fstr
           ["Application contains only one class. ";
            "§1403 multi-class requirements do not apply."];
         recommendation := "No §1403 action required.";
         triggered_by := "" |} ;;
    _build_result [] [] []
  else
    _check_1403_01_multi_class_requirements ;;
    amendment_conflicts <- _check_1403_02_amendment_review ;;
    division_eligible <- _check_1403_03_division_eligibility ;;
    refused <- _check_1403_04_partial_refusals ;;
    _check_1403_05_post_filing_fees ;;
    _check_1403_06_surrender_or_amendment ;;
    _build_result division_eligible (fst refused) (snd refused).

End SetOrder.

(** A fresh assessor, as [Pillar3Assessor(class_summaries, app_context)]
    builds it. *)
Definition new_assessor (class_summaries : list ClassSummary.t)
    (app_context : MultiClassApplicationContext) : Pillar3Assessor :=
  {| classes := class_summaries; ctx := app_context; findings := [] |}.

(* --------------------------------------------------------------------- *)
(** ** Sample input and properties of a result *)

(** A class summary with the defaults of the dataclass. *)
Definition class_summary (class_number : Z) (class_title class_category
    identification filing_basis : string) : ClassSummary.t :=
  {| ClassSummary.class_number := class_number;
     ClassSummary.class_title := class_title;
     ClassSummary.class_category := class_category;
     ClassSummary.identification := identification;
     ClassSummary.filing_basis := filing_basis;
     ClassSummary.specimen_type := "";
     ClassSummary.specimen_description := "";
     ClassSummary.date_of_first_use := None;
     ClassSummary.date_of_first_use_commerce := None;
     ClassSummary.fee_paid := true;
     ClassSummary.p1_error_count := 0;
     ClassSummary.p1_warning_count := 0;
     ClassSummary.p1_error_messages := [];
     ClassSummary.p2_is_definite := true;
     ClassSummary.p2_error_count := 0;
     ClassSummary.p2_warning_count := 0;
     ClassSummary.p2_error_messages := [];
     ClassSummary.status := CLEAN |}.

(** [MultiClassApplicationContext()]: every field at its default. *)
Definition default_context : MultiClassApplicationContext :=
  {| applicant_name := "";
     mark_text := "";
     filing_date := "";
     filing_type := "TEAS_PLUS";
     fees_paid_count := 0;
     total_fee_paid := 0%float;
     application_stage := FILED_PENDING;
     amendment_requested := false;
     amendment_affects_classes := [];
     amendment_description := "";
     division_requested := false;
     classes_to_divide_out := [];
     surrender_requested := false;
     classes_to_surrender := [];
     post_filing_action_type := "" |}.

(** Class 9 listed twice, on an assessor that still holds the finding of an
    earlier run. *)
Definition sample_single_class : Pillar3Assessor :=
  {| classes :=
       [ class_summary 9 "Scientific and Electronic Apparatus" "GOODS"
           "Downloadable software for financial management" "1(a)";
         class_summary 9 "Scientific and Electronic Apparatus" "GOODS"
           "Computer hardware" "1(b)" ];
     ctx := default_context;
     findings :=
       [ {| tmep_section := "§1403.05";
            severity := "ERROR";
            class_number := 0;
            item := "An earlier finding";
            finding := "";
            recommendation := "";
            triggered_by := "" |} ] |}.

(** The findings of [fs] with severity [sev]. *)
Definition with_severity (sev : string) (fs : list Pillar3Finding.t)
  : list Pillar3Finding.t :=
  filter (fun f => (severity f =? sev)%string) fs.

(** The counts of a result agree with its findings. *)
Definition counts_agree (result : Pillar3AssessmentResult.t) : Prop :=
  let fs := Pillar3AssessmentResult.findings result in
  Pillar3AssessmentResult.total_errors result
  = Z.of_nat (List.length (with_severity "ERROR" fs))
  /\ Pillar3AssessmentResult.total_warnings result
     = Z.of_nat (List.length (with_severity "WARNING" fs))
  /\ (Pillar3AssessmentResult.is_multi_class_compliant result = true
      <-> Pillar3AssessmentResult.total_errors result = 0)
  /\ (Pillar3AssessmentResult.is_multi_class_compliant result = true
      <-> Forall (fun f => severity f <> "ERROR") fs).

(* --------------------------------------------------------------------- *)
(** ** What a finding of the assessor looks like *)

(** The assessor carries its findings. *)
#[export] Instance assessor_findings : Findings Pillar3Assessor Pillar3Finding.t :=
  {| findings_of := findings; with_findings_of := with_findings |}.

(** The four severities. *)
Definition known_severity (s : string) : Prop :=
  s = "ERROR" \/ s = "WARNING" \/ s = "INFO" \/ s = "OK".

(** The sections the findings are filed under: §1403 for the single-class
    notice, §1403.01 to §1403.06 for the checks. *)
Definition sections : list string :=
  ["§1403"; "§1403.01"; "§1403.02"; "§1403.03"; "§1403.04"; "§1403.05"; "§1403.06"].

(** A finding about the application as a whole (class 0) or about one of
    the classes [cs], with a known severity and section. *)
Definition well_formed (cs : list ClassSummary.t) (f : Pillar3Finding.t) : Prop :=
  known_severity (severity f)
  /\ In (tmep_section f) sections
  /\ (class_number f = 0
      \/ In (class_number f) (map ClassSummary.class_number cs)).

(* --------------------------------------------------------------------- *)
(** ** Refused classes *)

(** The class has grounds of refusal from Pillar 1 or Pillar 2. *)
Definition is_refused (c : ClassSummary.t) : bool :=
  nonempty (refusal_reasons_of c).

(** The reason recorded for a refused class: its grounds, joined. *)
Definition refusal_reason (c : ClassSummary.t) : string :=
  join "; " (refusal_reasons_of c).

(** [refusal_reasons] after the classes [l] have been entered in turn. *)
Definition reasons_by_class (l : list ClassSummary.t) : list (Z * string) :=
  fold_left (fun d c => PyDict.set Z.eqb d (ClassSummary.class_number c)
                                   (refusal_reason c))
            l [].

(** Classes 9 and 25 with the default context; Pillar 1 reported one error
    for Class 25. *)
Definition sample_two_classes : Pillar3Assessor :=
  {| classes :=
       [ class_summary 9 "Scientific and Electronic Apparatus" "GOODS"
           "Downloadable software for financial management" "1(b)";
         {| ClassSummary.class_number := 25;
            ClassSummary.class_title := "Clothing and Footwear";
            ClassSummary.class_category := "GOODS";
            ClassSummary.identification := "Software for inventory management";
            ClassSummary.filing_basis := "1(b)";
            ClassSummary.specimen_type := "";
            ClassSummary.specimen_description := "";
            ClassSummary.date_of_first_use := None;
            ClassSummary.date_of_first_use_commerce := None;
            ClassSummary.fee_paid := true;
            ClassSummary.p1_error_count := 1;
            ClassSummary.p1_warning_count := 0;
            ClassSummary.p1_error_messages :=
              ["MISCLASSIFICATION DETECTED: 'software' is placed in Class 25"];
            ClassSummary.p2_is_definite := true;
            ClassSummary.p2_error_count := 0;
            ClassSummary.p2_warning_count := 0;
            ClassSummary.p2_error_messages := [];
            ClassSummary.status := HAS_ERRORS |} ];
     ctx := default_context;
     findings := [] |}.

(* --------------------------------------------------------------------- *)
(** ** When the checks file an ERROR *)

(** [any(f.severity == "ERROR" for f in fs)]. *)
Definition has_error (fs : list Pillar3Finding.t) : bool :=
  existsb (fun f => (severity f =? "ERROR")%string) fs.

(** From every state the call returns, and it has appended an ERROR
    finding exactly when [b] holds. *)
Definition files_error {A} (m : Check A) (b : bool) : Prop :=
  forall s, emits s m (fun _ fs => has_error fs = b).

(** §1403.01, point 1: the identification is missing, shorter than five
    characters once trimmed, or not definite for Pillar 2. *)
Definition identification_fails (c : ClassSummary.t) : bool :=
  negb (truthy (ClassSummary.identification c))
  || (len (strip (ClassSummary.identification c)) <? 5)
  || negb (ClassSummary.p2_is_definite c).

(** §1403.01, point 3: a use-based class without any specimen, or with a
    Pillar 1 error message about the specimen. *)
Definition specimen_fails (c : ClassSummary.t) : bool :=
  ClassSummary.is_use_based c
  && ((negb (truthy (ClassSummary.specimen_type c))
       && negb (truthy (ClassSummary.specimen_description c)))
      || ((ClassSummary.p1_error_count c >? 0)
          && existsb (fun m => str_in "specimen" (lower m))
                     (ClassSummary.p1_error_messages c))).

(** §1403.01, point 4: a Pillar 1 error message about the class. *)
Definition class_assignment_fails (c : ClassSummary.t) : bool :=
  existsb (fun m => any_in ["misclassif"; "class"; "wrong"; "incorrect"; "reclassif"]
                           (lower m))
          (ClassSummary.p1_error_messages c).

(** One of the points of §1403.01 fails for the class. *)
Definition class_blocks_1403_01 (c : ClassSummary.t) : bool :=
  identification_fails c
  || negb (ClassSummary.fee_paid c)
  || specimen_fails c
  || class_assignment_fails c.

(** §1403.01, application level: fees were counted and are fewer than the
    distinct classes. *)
Definition fee_shortage (cs : list ClassSummary.t) (x : MultiClassApplicationContext)
  : bool :=
  (fees_paid_count x >? 0) && (fees_paid_count x <? unique_class_count cs).

(** §1403.02: an amendment is requested and its description has a word
    that suggests broadening. *)
Definition amendment_broadens (x : MultiClassApplicationContext) : bool :=
  amendment_requested x
  && any_in ["add"; "adding"; "expand"; "include"; "broader"; "additional";
             "new goods"; "new services"; "new class"]
            (lower (amendment_description x)).

(** §1403.03: a division is requested for a class of the application that
    cannot stand alone. *)
Definition division_blocked (cs : list ClassSummary.t)
           (x : MultiClassApplicationContext) : bool :=
  division_requested x
  && existsb (fun n =>
                match find (fun c => ClassSummary.class_number c =? n) cs with
                | Some cls => nonempty (division_issues cls)
                | None => false
                end)
             (classes_to_divide_out x).

(** §1403.04: a refusal candidate with grounds of refusal. *)
Definition refusal_candidate (c : ClassSummary.t) : bool :=
  is_refused c && ClassStatus_eqb (ClassSummary.status c) REFUSAL_CANDIDATE.

(** §1403.06: after registration, the surrender of as many classes as the
    registration has. *)
Definition full_surrender (cs : list ClassSummary.t)
           (x : MultiClassApplicationContext) : bool :=
  (ApplicationStage_eqb (application_stage x) REGISTERED
   || ApplicationStage_eqb (application_stage x) POST_REGISTRATION)
  && surrender_requested x
  && (Z.of_nat (List.length (classes_to_surrender x))
      >=? Z.of_nat (List.length cs)).

(** Something in the application makes a check file an ERROR. *)
Definition blocking (cs : list ClassSummary.t) (x : MultiClassApplicationContext)
  : bool :=
  existsb class_blocks_1403_01 cs
  || fee_shortage cs x
  || amendment_broadens x
  || division_blocked cs x
  || existsb refusal_candidate cs
  || full_surrender cs x.

(* --------------------------------------------------------------------- *)
(** ** Division *)

(** The first class of number [n] is there and has no division issue. *)
Definition can_stand_alone (cs : list ClassSummary.t) (n : Z) : bool :=
  match find (fun c => ClassSummary.class_number c =? n) cs with
  | Some cls => negb (nonempty (division_issues cls))
  | None => false
  end.

(** The class numbers §1403.03 returns: on request the classes to divide
    out that can stand alone; else the clean classes when some classes have
    errors and some have none; else the use-based classes when the filing
    bases are mixed; else none. *)
Definition division_eligible (cs : list ClassSummary.t)
           (x : MultiClassApplicationContext) : list Z :=
  if division_requested x then
    filter (can_stand_alone cs) (classes_to_divide_out x)
  else if nonempty (filter ClassSummary.has_any_error cs)
          && nonempty (filter (fun c => negb (ClassSummary.has_any_error c)) cs) then
    map ClassSummary.class_number
        (filter (fun c => negb (ClassSummary.has_any_error c)) cs)
  else if nonempty (filter ClassSummary.is_use_based cs)
          && nonempty (filter ClassSummary.is_intent_to_use cs) then
    map ClassSummary.class_number (filter ClassSummary.is_use_based cs)
  else [].

(* --------------------------------------------------------------------- *)
(** ** Building a class summary from Pillars 1 and 2 *)

(** [a or b] on strings. *)
Definition str_or (a b : string) : string := if truthy a then a else b.

(** Build a class summary from the raw class data, the findings of
    Pillar 1 and, if given, the output of Pillar 2 for the class.  The
    messages kept are cut at 100 characters: [take 100] counts the
    characters of the Rocq string, where the source counts code points, so
    that a message with a section sign or a dash among its first 100
    characters is kept up to two characters shorter for each of them than
    the source keeps it. *)
Definition build_class_summary (class_entry_dict : ClassEntryDict.t)
    (p1_findings : list Pillar1.AssessmentFinding.t)
    (p2_result_dict : option Pillar2.Analysis.t) : ClassSummary.t :=
  let cls_num := get_or (ClassEntryDict.class_number class_entry_dict) 0 in
  (* Pull class metadata *)
  let class_title := get_or (ClassEntryDict.class_title class_entry_dict) "" in
  let class_category := get_or (ClassEntryDict.class_category class_entry_dict) "" in
  let '(class_title, class_category) :=
    if negb (truthy class_title) || negb (truthy class_category) then
      match NiceDb.get_class_info cls_num with
      | Some info =>
          (str_or class_title (NiceDb.title info),
           str_or class_category (NiceDb.category info))
      | None => (class_title, class_category)
      end
    else (class_title, class_category) in
  (* Pull Pillar 1 findings for this class *)
  let cls_p1_findings :=
    filter (fun f => (Pillar1.AssessmentFinding.class_number f =? cls_num)
                     || (Pillar1.AssessmentFinding.class_number f =? 0))
           p1_findings in
  let p1_errors :=
    filter (fun f => (Pillar1.AssessmentFinding.severity f =? "ERROR")%string)
           cls_p1_findings in
  let p1_warnings :=
    filter (fun f => (Pillar1.AssessmentFinding.severity f =? "WARNING")%string)
           cls_p1_findings in
  let p1_error_msgs :=
    map (fun f => take 100 (Pillar1.AssessmentFinding.finding f))
        (firstn 3 p1_errors) in
  (* Pull Pillar 2 findings *)
  let '(p2_is_definite, p2_errors, p2_warnings, p2_error_msgs) :=
    match p2_result_dict with
    | Some result =>
        let summary := Pillar2.Analysis.summary result in
        let analysis := Pillar2.Analysis.tmep_1402_analysis result in
        (Pillar2.Summary.is_definite summary,
         Pillar2.Summary.errors summary,
         Pillar2.Summary.warnings summary,
         map (fun sf => take 100 (Pillar2.finding sf))
             (filter (fun sf => (Pillar2.severity sf =? "ERROR")%string)
                     (Pillar2.subsection_findings analysis)))
    | None => (true, 0, 0, [])
    end in
  (* Compute status *)
  let total_errors := Z.of_nat (List.length p1_errors) + p2_errors in
  let total_warnings := Z.of_nat (List.length p1_warnings) + p2_warnings in
  let status :=
    if total_errors >=? 3 then REFUSAL_CANDIDATE
    else if total_errors >? 0 then HAS_ERRORS
    else if total_warnings >? 0 then HAS_WARNINGS
    else CLEAN in
  {| ClassSummary.class_number := cls_num;
     ClassSummary.class_title := class_title;
     ClassSummary.class_category := class_category;
     ClassSummary.identification :=
       get_or (ClassEntryDict.identification class_entry_dict) "";
     ClassSummary.filing_basis :=
       get_or (ClassEntryDict.filing_basis class_entry_dict) "1(a)";
     ClassSummary.specimen_type :=
       get_or (ClassEntryDict.specimen_type class_entry_dict) "";
     ClassSummary.specimen_description :=
       get_or (ClassEntryDict.specimen_description class_entry_dict) "";
     ClassSummary.date_of_first_use :=
       ClassEntryDict.date_of_first_use class_entry_dict;
     ClassSummary.date_of_first_use_commerce :=
       ClassEntryDict.date_of_first_use_commerce class_entry_dict;
     ClassSummary.fee_paid := get_or (ClassEntryDict.fee_paid class_entry_dict) true;
     ClassSummary.p1_error_count := Z.of_nat (List.length p1_errors);
     ClassSummary.p1_warning_count := Z.of_nat (List.length p1_warnings);
     ClassSummary.p1_error_messages := p1_error_msgs;
     ClassSummary.p2_is_definite := p2_is_definite;
     ClassSummary.p2_error_count := p2_errors;
     ClassSummary.p2_warning_count := p2_warnings;
     ClassSummary.p2_error_messages := p2_error_msgs;
     ClassSummary.status := status |}.

End Pillar3.

(* ===================================================================== *)
(** * THEOREMS *)
(* ===================================================================== *)

(* --------------------------------------------------------------------- *)
(** ** Substrings *)

Module PyStrFacts.
Import PyStr.

Lemma prefix_app (a b : string) : prefix a (a ++ b) = true.
Proof.
  induction a as [|c a IH]; simpl.
  - now destruct b.
  - destruct (ascii_dec c c); [exact IH|congruence].
Qed.

Lemma prefix_app_l (a b c : string) : prefix (a ++ b) (a ++ c) = prefix b c.
Proof.
  induction a as [|x a IH]; simpl; [reflexivity|].
  destruct (ascii_dec x x); [exact IH|congruence].
Qed.

Lemma str_in_prefix (t s : string) : prefix t s = true -> str_in t s = true.
Proof. intros H. destruct s; cbn [str_in]; rewrite H; reflexivity. Qed.

Lemma str_in_app_r (t s1 s2 : string) :
  str_in t s2 = true -> str_in t (s1 ++ s2) = true.
Proof.
  intros H. induction s1 as [|c s1 IH]; [exact H|].
  cbn [append str_in]. rewrite IH. apply orb_true_r.
Qed.


(** *** Letter case and white space *)

Lemma lower_char_idem c : lower_char (lower_char c) = lower_char c.
Proof. destruct c as [[] [] [] [] [] [] [] []]; reflexivity. Qed.

Lemma isspace_lower_char c : isspace (lower_char c) = isspace c.
Proof. destruct c as [[] [] [] [] [] [] [] []]; reflexivity. Qed.

Lemma lower_idem s : lower (lower s) = lower s.
Proof. induction s as [|c s IH]; simpl; [reflexivity|]. now rewrite lower_char_idem, IH. Qed.


Lemma lower_app (a b : string) : lower (a ++ b) = (lower a ++ lower b)%string.
Proof. induction a as [|c a IH]; simpl; [reflexivity|]. now rewrite IH. Qed.

Lemma blank_lower s : blank (lower s) = blank s.
Proof.
  unfold blank. induction s as [|c s IH]; simpl; [reflexivity|].
  now rewrite isspace_lower_char, IH.
Qed.

Lemma lstrip_lower s : lstrip (lower s) = lower (lstrip s).
Proof.
  induction s as [|c s IH]; simpl; [reflexivity|].
  rewrite isspace_lower_char. destruct (isspace c); [exact IH|reflexivity].
Qed.

Lemma rstrip_lower s : rstrip (lower s) = lower (rstrip s).
Proof.
  induction s as [|c s IH]; simpl; [reflexivity|].
  rewrite IH, isspace_lower_char.
  destruct (rstrip s); simpl; [destruct (isspace c)|]; reflexivity.
Qed.

(** Trimming and lower-casing commute. *)
Lemma strip_lower s : strip (lower s) = lower (strip s).
Proof. unfold strip. now rewrite lstrip_lower, rstrip_lower. Qed.

Lemma lstrip_blank s : lstrip s = "" <-> blank s = true.
Proof.
  unfold blank. induction s as [|c s IH]; simpl; [tauto|].
  destruct (isspace c); simpl; [exact IH|]. split; discriminate.
Qed.

Lemma rstrip_blank s : rstrip s = "" <-> blank s = true.
Proof.
  unfold blank. induction s as [|c s IH]; simpl; [tauto|].
  destruct (rstrip s) eqn:E.
  - destruct (isspace c); simpl.
    + split; [intros _; now apply IH|reflexivity].
    + split; discriminate.
  - split; [discriminate|]. intros H. apply andb_true_iff in H as [_ H].
    apply IH in H. discriminate.
Qed.

(** What [lstrip] returns is empty or starts with a character that is not
    white space. *)
Lemma lstrip_head s :
  match lstrip s with
  | EmptyString => True
  | String c _ => isspace c = false
  end.
Proof.
  induction s as [|c s IH]; simpl; [exact I|].
  destruct (isspace c) eqn:E; [exact IH|exact E].
Qed.

Lemma rstrip_keeps_head c s :
  isspace c = false -> exists r, rstrip (String c s) = String c r.
Proof.
  intros H. simpl. destruct (rstrip s); [rewrite H|]; eauto.
Qed.

(** A text is trimmed to nothing exactly when it is blank. *)
Lemma strip_blank s : strip s = "" <-> blank s = true.
Proof.
  unfold strip. split.
  - intros H. apply lstrip_blank.
    pose proof (lstrip_head s) as Hh. destruct (lstrip s) as [|c t]; [reflexivity|].
    destruct (rstrip_keeps_head c t Hh) as [r Hr]. congruence.
  - intros H. apply lstrip_blank in H. now rewrite H.
Qed.

Lemma rstrip_idem s : rstrip (rstrip s) = rstrip s.
Proof.
  induction s as [|c s IH]; simpl; [reflexivity|].
  destruct (rstrip s) as [|d r] eqn:E.
  - destruct (isspace c) eqn:Ec; simpl; [reflexivity|now rewrite Ec].
  - simpl. simpl in IH. rewrite IH. reflexivity.
Qed.

Lemma lstrip_fixed s :
  match s with EmptyString => True | String c _ => isspace c = false end ->
  lstrip s = s.
Proof. destruct s as [|c s]; simpl; [reflexivity|]. now intros ->. Qed.

(** Trimming twice is trimming once. *)
Lemma strip_idem s : strip (strip s) = strip s.
Proof.
  unfold strip.
  pose proof (lstrip_head s) as Hh. destruct (lstrip s) as [|c t].
  - reflexivity.
  - destruct (rstrip_keeps_head c t Hh) as [r Hr]. rewrite Hr.
    rewrite lstrip_fixed by exact Hh. rewrite <- Hr. apply rstrip_idem.
Qed.

Lemma lstrip_blank_app (a s : string) :
  blank a = true -> lstrip (a ++ s) = lstrip s.
Proof.
  unfold blank. induction a as [|c a IH]; simpl; [reflexivity|].
  intros H. apply andb_true_iff in H as [Hc Ha]. rewrite Hc. now apply IH.
Qed.

Lemma rstrip_app_blank (s b : string) :
  blank b = true -> rstrip (s ++ b) = rstrip s.
Proof.
  intros Hb. induction s as [|c s IH]; simpl.
  - now apply rstrip_blank.
  - now rewrite IH.
Qed.

Lemma lstrip_app (s b : string) :
  lstrip (s ++ b) = if blank s then lstrip b else (lstrip s ++ b)%string.
Proof.
  unfold blank. induction s as [|c s IH]; simpl; [reflexivity|].
  destruct (isspace c); simpl; [exact IH|reflexivity].
Qed.

(** White space around a text does not change what trimming leaves. *)
Lemma strip_padded (a s b : string) :
  blank a = true -> blank b = true -> strip (a ++ s ++ b) = strip s.
Proof.
  intros Ha Hb. unfold strip. rewrite lstrip_blank_app by exact Ha.
  rewrite lstrip_app. destruct (blank s) eqn:Hs.
  - apply lstrip_blank in Hs, Hb. now rewrite Hs, Hb.
  - now apply rstrip_app_blank.
Qed.

Lemma str_in_empty s : str_in "" s = true.
Proof. destruct s; reflexivity. Qed.

End PyStrFacts.

(* --------------------------------------------------------------------- *)
(** ** The stable sort *)

Module PyListFacts.
Import PyList.

Section SortBy.
Context {A : Type} (ahead : A -> A -> bool).

Lemma insert_by_perm (x : A) (l : list A) :
  Permutation (insert_by ahead x l) (x :: l).
Proof.
  induction l as [|y l IH]; simpl; [reflexivity|].
  destruct (ahead y x); [|reflexivity].
  rewrite IH. apply perm_swap.
Qed.

Lemma sort_by_perm (l : list A) : Permutation (sort_by ahead l) l.
Proof.
  induction l as [|x l IH]; simpl; [reflexivity|].
  rewrite insert_by_perm. now constructor.
Qed.

End SortBy.

Lemma sorted_length (l : list Z) : List.length (sorted l) = List.length l.
Proof. apply Permutation_length, sort_by_perm. Qed.

Section SortByKeyReverse.
Context {A : Type} (key : A -> Z).

Let ahead (y x : A) : bool := key x <? key y.

Lemma insert_by_sorted (x : A) (l : list A) :
  StronglySorted (fun a b => key a >= key b) l ->
  StronglySorted (fun a b => key a >= key b) (insert_by ahead x l).
Proof.
  induction l as [|y l IH]; intros Hs; simpl.
  - repeat constructor.
  - inversion Hs as [|? ? Hl Hy]; subst.
    unfold ahead at 1. destruct (key x <? key y) eqn:E.
    + apply Z.ltb_lt in E. constructor; [now apply IH|].
      eapply Permutation_Forall; [symmetry; apply insert_by_perm|].
      constructor; [lia|assumption].
    + apply Z.ltb_ge in E. constructor; [assumption|].
      constructor; [lia|].
      eapply Forall_impl; [|exact Hy]. simpl. intros; lia.
Qed.

Lemma sort_by_sorted (l : list A) :
  StronglySorted (fun a b => key a >= key b) (sort_by ahead l).
Proof.
  induction l as [|x l IH]; simpl; [constructor|].
  now apply insert_by_sorted.
Qed.

(** Stability: the elements of one key keep the order they had. *)
Lemma insert_by_stable (v : Z) (x : A) (l : list A) :
  filter (fun a => key a =? v) (insert_by ahead x l)
  = filter (fun a => key a =? v) (x :: l).
Proof.
  induction l as [|y l IH]; [reflexivity|].
  simpl insert_by. unfold ahead at 1. destruct (key x <? key y) eqn:E; [|reflexivity].
  apply Z.ltb_lt in E.
  simpl. simpl in IH. rewrite IH.
  destruct (key y =? v) eqn:Ey, (key x =? v) eqn:Ex; try reflexivity.
  apply Z.eqb_eq in Ey, Ex. lia.
Qed.

Lemma sort_by_stable (v : Z) (l : list A) :
  filter (fun a => key a =? v) (sort_by ahead l) = filter (fun a => key a =? v) l.
Proof.
  induction l as [|x l IH]; [reflexivity|].
  simpl sort_by. rewrite insert_by_stable. simpl. now rewrite IH.
Qed.

End SortByKeyReverse.

Lemma in_firstn {A} (x : A) n l : In x (firstn n l) -> In x l.
Proof.
  revert l. induction n as [|n IH]; intros [|y l]; simpl; try tauto.
  intros [H|H]; [now left|right; auto].
Qed.

Lemma sort_key_reverse_perm {A} (key : A -> Z) l :
  Permutation (sort_key_reverse key l) l.
Proof. apply sort_by_perm. Qed.

Lemma sort_key_reverse_sorted {A} (key : A -> Z) l :
  StronglySorted (fun a b => key a >= key b) (sort_key_reverse key l).
Proof. apply sort_by_sorted. Qed.

Lemma sort_key_reverse_stable {A} (key : A -> Z) v l :
  filter (fun a => key a =? v) (sort_key_reverse key l)
  = filter (fun a => key a =? v) l.
Proof. apply sort_by_stable. Qed.

End PyListFacts.

(* --------------------------------------------------------------------- *)
(** ** The keyword matcher *)

Module NiceDbFacts.
Import PyStr NiceDb.

(** The table has the 45 classes, numbered 1 to 45 in this order. *)
Lemma NICE_CLASSES_keys : map fst NICE_CLASSES = VALID_CLASS_NUMBERS.
Proof. reflexivity. Qed.

(** Every keyword of the table is in lower case. *)
Lemma NICE_CLASSES_lowercase : lowercase_keywords NICE_CLASSES = true.
Proof. vm_compute. reflexivity. Qed.

Lemma score_step_points query score kw :
  lower kw = kw -> score_step query score kw = score + match_points query kw.
Proof.
  intros Hkw. unfold score_step, match_points. rewrite Hkw.
  destruct (query =? kw)%string; [reflexivity|].
  destruct (str_in query kw || str_in kw query); [reflexivity|].
  destruct (existsb _ _); [reflexivity|lia].
Qed.

Lemma inner_loop_score query kws :
  forallb (fun kw => (lower kw =? kw)%string) kws = true ->
  forall score,
    fold_left (score_step query) kws score
    = score + fold_right Z.add 0 (map (match_points query) kws).
Proof.
  induction kws as [|kw kws IH]; intros Hall score; simpl.
  - lia.
  - simpl in Hall. apply andb_true_iff in Hall as [Hkw Hall].
    apply String.eqb_eq in Hkw.
    rewrite IH by assumption. rewrite score_step_points by assumption. lia.
Qed.

Lemma outer_loop_suggestions query table :
  lowercase_keywords table = true ->
  forall suggestions,
    fold_left (class_step query) table suggestions
    = suggestions ++ scored_classes table query.
Proof.
  unfold scored_classes.
  induction table as [|[n info] table IH]; intros Hall suggestions; simpl.
  - now rewrite app_nil_r.
  - simpl in Hall. apply andb_true_iff in Hall as [Hkws Hall].
    rewrite IH by assumption. unfold class_step.
    rewrite inner_loop_score by assumption. simpl Z.add.
    unfold sug_score at 2. simpl snd. fold (class_score query info).
    destruct (class_score query info >? 0); [|reflexivity].
    now rewrite <- app_assoc.
Qed.

(** The function over a table with lower-case keywords: the positive
    scores, sorted, cut at five. *)
Lemma suggest_in_scored table keyword :
  lowercase_keywords table = true ->
  suggest_in table keyword
  = firstn 5 (PyList.sort_key_reverse sug_score
                (scored_classes table (query_term keyword))).
Proof.
  intros Hall. unfold suggest_in. cbv zeta.
  now rewrite (outer_loop_suggestions (strip (lower keyword)) table Hall []).
Qed.

(** C1. [suggest_class_for_keyword] scores each of the 45 classes by adding,
    over the whole keyword list of the class, 10 for a keyword equal to the
    query term letter case aside, else 5 for containment in either direction,
    else 2 when a white-space separated word of the query occurs in the
    keyword; it keeps the classes with a positive score, ranks them by
    descending score with equal scores in the order of the table, and
    returns the first five at most. *)
Theorem suggest_class_for_keyword_scores_and_ranks :
  forall keyword : string,
    let kept := scored_classes NICE_CLASSES (query_term keyword) in
    map fst NICE_CLASSES = map Z.of_nat (seq 1 45)
    /\ exists ranked,
        suggest_class_for_keyword keyword = firstn 5 ranked
        /\ Permutation ranked kept
        /\ StronglySorted (fun a b => sug_score a >= sug_score b) ranked
        /\ (forall v, filter (fun s => sug_score s =? v) ranked
                      = filter (fun s => sug_score s =? v) kept)
        /\ (List.length (suggest_class_for_keyword keyword) <= 5)%nat.
Proof.
  intros keyword kept. split; [reflexivity|].
  exists (PyList.sort_key_reverse sug_score kept).
  split; [apply suggest_in_scored, NICE_CLASSES_lowercase|].
  split; [apply PyListFacts.sort_key_reverse_perm|].
  split; [apply PyListFacts.sort_key_reverse_sorted|].
  split; [intros v; apply PyListFacts.sort_key_reverse_stable|].
  unfold suggest_class_for_keyword.
  rewrite suggest_in_scored by apply NICE_CLASSES_lowercase.
  apply firstn_le_length.
Qed.

(** C8. Two successive calls with the same term return the same ordered
    list: a call reads the table and leaves the module as it found it, so
    the second call sees what the first one saw. *)
Theorem suggest_class_for_keyword_deterministic :
  forall (keyword : string) (g : Globals),
    let first := call_suggest_class_for_keyword keyword g in
    let second := call_suggest_class_for_keyword keyword (snd first) in
    fst first = fst second
    /\ snd first = g /\ snd second = g
    /\ fst first = Py.Return (suggest_in (g_NICE_CLASSES g) keyword).
Proof.
  intros keyword g. unfold call_suggest_class_for_keyword, Py.bind, Py.gets, Py.ret.
  simpl. auto.
Qed.

(** A suggestion names a class of the table. *)
Lemma outer_loop_in query table s :
  forall acc,
    In s (fold_left (class_step query) table acc) ->
    In s acc \/ exists info, In (sug_class s, info) table.
Proof.
  induction table as [|[n info] table IH]; intros acc Hin; simpl in Hin.
  - now left.
  - apply IH in Hin. destruct Hin as [Hin|[i Hi]].
    + unfold class_step in Hin. destruct (_ >? 0).
      * apply in_app_or in Hin as [Hin|[Hin|[]]]; [now left|].
        right. exists info. left. subst s. reflexivity.
      * now left.
    + right. exists i. now right.
Qed.

Lemma suggest_in_table table keyword s :
  In s (suggest_in table keyword) ->
  exists info, In (sug_class s, info) table.
Proof.
  unfold suggest_in. cbv zeta. intros Hin.
  apply PyListFacts.in_firstn in Hin.
  apply (Permutation_in _ (PyListFacts.sort_key_reverse_perm sug_score _)) in Hin.
  apply outer_loop_in in Hin. destruct Hin as [[]|H]. exact H.
Qed.

Lemma dict_get_In {V} (d : list (Z * V)) k v :
  In (k, v) d -> exists v', PyDict.get Z.eqb d k = Some v'.
Proof.
  induction d as [|[k' w] d IH]; intros Hin; [destruct Hin|].
  simpl. destruct (k' =? k) eqn:E; [eauto|].
  destruct Hin as [Heq|Hin]; [|auto].
  inversion Heq; subst. rewrite Z.eqb_refl in E. discriminate.
Qed.

(** The class of a suggestion is known to [get_class_info]. *)
Lemma suggested_class_known keyword s :
  In s (suggest_class_for_keyword keyword) ->
  exists info, get_class_info (sug_class s) = Some info.
Proof.
  unfold suggest_class_for_keyword, get_class_info. intros Hin.
  apply suggest_in_table in Hin. destruct Hin as [info Hinfo].
  revert Hinfo. apply dict_get_In.
Qed.


(* --------------------------------------------------------------------- *)
(** ** Lookups and the matcher on the table as loaded *)

Lemma dict_get_Some_In {V} (d : list (Z * V)) k v :
  PyDict.get Z.eqb d k = Some v -> In (k, v) d.
Proof.
  induction d as [|[k' w] d IH]; simpl; [discriminate|].
  destruct (k' =? k) eqn:E; [|auto].
  apply Z.eqb_eq in E. intros H. inversion H; subst. now left.
Qed.

Lemma dict_get_None {V} (d : list (Z * V)) k :
  PyDict.get Z.eqb d k = None <-> ~ In k (map fst d).
Proof.
  induction d as [|[k' w] d IH]; simpl; [tauto|].
  destruct (k' =? k) eqn:E.
  - apply Z.eqb_eq in E. split; [discriminate|]. intros H. exfalso. apply H. now left.
  - apply Z.eqb_neq in E. rewrite IH. tauto.
Qed.

Lemma dict_get_unique {V} (d : list (Z * V)) k v :
  NoDup (map fst d) -> In (k, v) d -> PyDict.get Z.eqb d k = Some v.
Proof.
  induction d as [|[k' w] d IH]; simpl; [tauto|].
  intros Hnd Hin. inversion Hnd as [|? ? Hk Hd]; subst.
  destruct Hin as [Heq|Hin].
  - inversion Heq; subst. now rewrite Z.eqb_refl.
  - destruct (k' =? k) eqn:E; [|auto].
    apply Z.eqb_eq in E. subst k'. exfalso. apply Hk.
    apply in_map_iff. exists (k, v). auto.
Qed.

Lemma valid_class_numbers_range n : In n VALID_CLASS_NUMBERS <-> 1 <= n <= 45.
Proof.
  unfold VALID_CLASS_NUMBERS. rewrite in_map_iff. split.
  - intros (k & Hk & Hin). apply in_seq in Hin. lia.
  - intros H. exists (Z.to_nat n). split; [lia|]. apply in_seq. lia.
Qed.

Lemma valid_class_numbers_NoDup : NoDup VALID_CLASS_NUMBERS.
Proof.
  unfold VALID_CLASS_NUMBERS. apply Finite.Injective_map_NoDup.
  - intros a b H. lia.
  - apply seq_NoDup.
Qed.

Lemma NICE_CLASSES_NoDup : NoDup (map fst NICE_CLASSES).
Proof. rewrite NICE_CLASSES_keys. apply valid_class_numbers_NoDup. Qed.

(** Every class of the table has keywords, and every keyword is in lower
    case, trimmed and not empty. *)
Lemma NICE_CLASSES_keywords :
  forallb (fun e : Z * ClassInfo =>
             match keywords (snd e) with [] => false | _ => true end
             && forallb (fun kw => (strip (lower kw) =? kw)%string
                                   && (lower kw =? kw)%string && truthy kw)
                        (keywords (snd e)))
          NICE_CLASSES = true.
Proof. vm_compute. reflexivity. Qed.

(** X1. The lookups of the knowledge base are defined exactly on the valid
    class numbers, which are 1 to 45: there [get_class_info] returns the
    entry of the class and [get_keywords_for_class] its keyword list, which
    is not empty; for any other number [get_class_info] returns [None] and
    [get_keywords_for_class] the empty list. *)
Theorem class_lookups_defined_on_valid_classes :
  forall class_number : Z,
    (In class_number get_valid_classes <-> 1 <= class_number <= 45)
    /\ (In class_number get_valid_classes <->
        exists info,
          get_class_info class_number = Some info
          /\ get_keywords_for_class class_number = keywords info
          /\ keywords info <> [])
    /\ (~ In class_number get_valid_classes <->
        get_class_info class_number = None
        /\ get_keywords_for_class class_number = []).
Proof.
  intros n. unfold get_valid_classes, get_class_info, get_keywords_for_class.
  split; [apply valid_class_numbers_range|].
  rewrite <- NICE_CLASSES_keys.
  destruct (PyDict.get Z.eqb NICE_CLASSES n) as [info|] eqn:E.
  - assert (Hin : In (n, info) NICE_CLASSES) by now apply dict_get_Some_In.
    assert (Hkey : In n (map fst NICE_CLASSES)).
    { apply in_map_iff. exists (n, info). auto. }
    split.
    + split; [|intros _; exact Hkey]. intros _. exists info.
      split; [reflexivity|]. split; [reflexivity|].
      pose proof NICE_CLASSES_keywords as Hall.
      rewrite forallb_forall in Hall. specialize (Hall _ Hin).
      apply andb_true_iff in Hall as [Hne _]. simpl in Hne.
      destruct (keywords info); [discriminate|discriminate].
    + split; [intros H; contradiction|]. intros [H _]. discriminate.
  - apply dict_get_None in E. split.
    + split; [intros H; contradiction|]. intros (info & H & _). discriminate.
    + split; [auto|intros _; exact E].
Qed.

Lemma suggest_in_query table k1 k2 :
  query_term k1 = query_term k2 -> suggest_in table k1 = suggest_in table k2.
Proof. unfold suggest_in, query_term. cbv zeta. now intros ->. Qed.

(** X2. The suggestions depend on the keyword only through its lower-case,
    trimmed form: two keywords that differ in letter case only, or in white
    space around them, get the same suggestions. *)
Theorem suggestions_ignore_case_and_outer_white_space :
  forall keyword other a b : string,
    lower other = lower keyword -> blank a = true -> blank b = true ->
    suggest_class_for_keyword (a ++ other ++ b) = suggest_class_for_keyword keyword
    /\ suggest_class_for_keyword (lower keyword) = suggest_class_for_keyword keyword
    /\ suggest_class_for_keyword (strip keyword) = suggest_class_for_keyword keyword.
Proof.
  intros keyword other a b Hcase Ha Hb. unfold suggest_class_for_keyword.
  repeat split; apply suggest_in_query; unfold query_term.
  - rewrite !PyStrFacts.strip_lower, PyStrFacts.strip_padded by assumption.
    now rewrite <- !PyStrFacts.strip_lower, Hcase.
  - now rewrite PyStrFacts.lower_idem.
  - now rewrite !PyStrFacts.strip_lower, PyStrFacts.strip_idem.
Qed.

(** The theorem at "  SOFTWARE " and "Software". *)
Lemma suggestions_ignore_case_witness :
  suggest_class_for_keyword ("  " ++ "SOFTWARE" ++ " ")
  = suggest_class_for_keyword "Software"
  /\ suggest_class_for_keyword (lower "Software") = suggest_class_for_keyword "Software"
  /\ suggest_class_for_keyword (strip "Software") = suggest_class_for_keyword "Software".
Proof.
  exact (suggestions_ignore_case_and_outer_white_space
           "Software" "SOFTWARE" "  " " " eq_refl eq_refl eq_refl).
Defined.

Lemma match_points_range query kw : 0 <= match_points query kw <= 10.
Proof.
  unfold match_points.
  destruct (query =? lower kw)%string; [lia|].
  destruct (_ || _); [lia|]. destruct (existsb _ _); lia.
Qed.

Lemma class_score_range query info :
  0 <= class_score query info <= 10 * Z.of_nat (List.length (keywords info)).
Proof.
  unfold class_score. induction (keywords info) as [|kw kws IH].
  - simpl. lia.
  - pose proof (match_points_range query kw).
    cbn [map fold_right List.length]. lia.
Qed.

(** What [scored_classes] holds. *)
Lemma in_scored_classes table query s :
  In s (scored_classes table query)
  <-> exists n info,
        In (n, info) table /\ s = (n, title info, class_score query info)
        /\ 0 < class_score query info.
Proof.
  unfold scored_classes. rewrite filter_In, in_map_iff. split.
  - intros [([n info] & Hs & Hin) Hpos]. subst s. unfold sug_score in Hpos.
    simpl in Hpos. exists n, info. repeat split; [assumption|lia].
  - intros (n & info & Hin & Hs & Hpos). subst s. split.
    + exists (n, info). auto.
    + unfold sug_score. simpl. lia.
Qed.

Lemma NoDup_filter {A} (p : A -> bool) l : NoDup l -> NoDup (filter p l).
Proof.
  induction 1 as [|x l Hx Hl IH]; simpl; [constructor|].
  destruct (p x); [|exact IH]. constructor; [|exact IH].
  intros H. apply filter_In in H. tauto.
Qed.

Lemma NoDup_firstn {A} n (l : list A) : NoDup l -> NoDup (firstn n l).
Proof.
  intros H. revert n. induction H as [|x l Hx Hl IH]; intros [|n]; simpl;
    try constructor; [|apply IH].
  intros Hin. apply Hx. now apply PyListFacts.in_firstn in Hin.
Qed.

Lemma scored_classes_NoDup table query :
  NoDup (map fst table) -> NoDup (map sug_class (scored_classes table query)).
Proof.
  unfold scored_classes. induction table as [|[n info] table IH]; simpl.
  - constructor.
  - intros Hnd. inversion Hnd as [|? ? Hn Ht]; subst.
    destruct (class_score query info >? 0); [|now apply IH].
    simpl. constructor; [|now apply IH].
    unfold sug_class at 1. simpl. intros Hin. apply Hn.
    apply in_map_iff in Hin as (s & Hs & Hin).
    apply filter_In in Hin as [Hin _].
    apply in_map_iff in Hin as ([m i] & Hm & Hin). subst s.
    unfold sug_class in Hs. simpl in Hs. subst m.
    apply in_map_iff. exists (n, i). auto.
Qed.

(** X3. Every suggestion names a class of the table with the title of that
    class; its score is the score of the class for the query term, positive
    and at most ten times the number of keywords of the class; and no class
    is suggested twice. *)
Theorem suggestions_are_scored_table_classes :
  forall keyword : string,
    Forall (fun s =>
              exists info,
                get_class_info (sug_class s) = Some info
                /\ sug_title s = title info
                /\ sug_score s = class_score (query_term keyword) info
                /\ 0 < sug_score s <= 10 * Z.of_nat (List.length (keywords info)))
           (suggest_class_for_keyword keyword)
    /\ NoDup (map sug_class (suggest_class_for_keyword keyword)).
Proof.
  intros keyword. unfold suggest_class_for_keyword, get_class_info.
  rewrite suggest_in_scored by apply NICE_CLASSES_lowercase.
  split.
  - apply Forall_forall. intros s Hin.
    apply PyListFacts.in_firstn in Hin.
    apply (Permutation_in _ (PyListFacts.sort_key_reverse_perm sug_score _)) in Hin.
    apply in_scored_classes in Hin as (n & info & Hin & Hs & Hpos).
    subst s. exists info. unfold sug_class, sug_title, sug_score. cbn [fst snd].
    split; [apply dict_get_unique; [apply NICE_CLASSES_NoDup|exact Hin]|].
    split; [reflexivity|]. split; [reflexivity|].
    pose proof (class_score_range (query_term keyword) info). lia.
  - rewrite <- firstn_map. apply NoDup_firstn.
    eapply Permutation_NoDup;
      [apply Permutation_map; symmetry; apply PyListFacts.sort_key_reverse_perm|].
    apply scored_classes_NoDup, NICE_CLASSES_NoDup.
Qed.


Lemma query_term_blank keyword : blank keyword = true -> query_term keyword = "".
Proof.
  intros H. unfold query_term. apply PyStrFacts.strip_blank.
  now rewrite PyStrFacts.blank_lower.
Qed.

Lemma blank_query_scores :
  scored_classes NICE_CLASSES ""
  = map (fun e : Z * ClassInfo =>
           (fst e, title (snd e), 5 * Z.of_nat (List.length (keywords (snd e)))))
        NICE_CLASSES.
Proof. vm_compute. reflexivity. Qed.

(** X4. A keyword that is empty or all white space is trimmed to the empty
    text, which every keyword of the table contains: every one of the 45
    classes then scores 5 points for each of its keywords, and the five
    classes with the most keywords come back (classes 9, 25, 42, 3 and 11),
    not an empty list. *)
Theorem blank_keyword_matches_every_class :
  forall keyword : string,
    blank keyword = true ->
    suggest_class_for_keyword keyword
    = firstn 5 (PyList.sort_key_reverse sug_score
                  (map (fun e : Z * ClassInfo =>
                          (fst e, title (snd e),
                           5 * Z.of_nat (List.length (keywords (snd e)))))
                       NICE_CLASSES))
    /\ map sug_class (suggest_class_for_keyword keyword) = [9; 25; 42; 3; 11].
Proof.
  intros keyword Hblank.
  assert (Hrun : suggest_class_for_keyword keyword
                 = firstn 5 (PyList.sort_key_reverse sug_score
                               (scored_classes NICE_CLASSES ""))).
  { unfold suggest_class_for_keyword.
    rewrite suggest_in_scored by apply NICE_CLASSES_lowercase.
    now rewrite query_term_blank. }
  split.
  - rewrite Hrun. now rewrite blank_query_scores.
  - rewrite Hrun. vm_compute. reflexivity.
Qed.

(** The theorem at a keyword of two spaces. *)
Lemma blank_keyword_witness :
  blank "  " = true
  /\ suggest_class_for_keyword "  "
     = firstn 5 (PyList.sort_key_reverse sug_score
                   (map (fun e : Z * ClassInfo =>
                           (fst e, title (snd e),
                            5 * Z.of_nat (List.length (keywords (snd e)))))
                        NICE_CLASSES))
  /\ map sug_class (suggest_class_for_keyword "  ") = [9; 25; 42; 3; 11].
Proof.
  split; [reflexivity|].
  exact (blank_keyword_matches_every_class "  " eq_refl).
Defined.

Lemma class_score_of_keyword info kw :
  In kw (keywords info) -> lower kw = kw -> 10 <= class_score kw info.
Proof.
  unfold class_score. intros Hin Hlow.
  induction (keywords info) as [|k kws IH]; [destruct Hin|].
  cbn [map fold_right].
  assert (Hrest : 0 <= fold_right Z.add 0 (map (match_points kw) kws)).
  { clear. induction kws as [|k kws IH]; simpl; [lia|].
    pose proof (match_points_range kw k). lia. }
  destruct Hin as [Heq|Hin].
  - subst k. unfold match_points at 1. rewrite Hlow, String.eqb_refl. lia.
  - pose proof (match_points_range kw k). specialize (IH Hin). lia.
Qed.

(** The head of a list sorted by descending key has the largest key. *)
Lemma sort_key_reverse_head {A} (key : A -> Z) (l : list A) (x : A) :
  In x l ->
  exists top rest,
    PyList.sort_key_reverse key l = top :: rest /\ key x <= key top.
Proof.
  intros Hin.
  pose proof (PyListFacts.sort_key_reverse_perm key l) as Hperm.
  pose proof (PyListFacts.sort_key_reverse_sorted key l) as Hsorted.
  apply (Permutation_in _ (Permutation_sym Hperm)) in Hin.
  destruct (PyList.sort_key_reverse key l) as [|top rest]; [destruct Hin|].
  exists top, rest. split; [reflexivity|].
  destruct Hin as [->|Hin]; [lia|].
  inversion Hsorted as [|? ? _ Hall]; subst.
  rewrite Forall_forall in Hall. specialize (Hall x Hin). lia.
Qed.

(** X5. A keyword of the table always gets a suggestion: asked for a
    keyword of some class, the matcher returns a list that is not empty and
    whose first entry scores 10 or more. *)
Theorem table_keyword_gets_a_suggestion :
  forall (class_number : Z) (kw : string),
    In kw (get_keywords_for_class class_number) ->
    exists top rest,
      suggest_class_for_keyword kw = top :: rest /\ 10 <= sug_score top.
Proof.
  intros n kw Hin. unfold get_keywords_for_class in Hin.
  destruct (PyDict.get Z.eqb NICE_CLASSES n) as [info|] eqn:E; [|destruct Hin].
  apply dict_get_Some_In in E.
  pose proof NICE_CLASSES_keywords as Hall.
  rewrite forallb_forall in Hall. specialize (Hall _ E).
  apply andb_true_iff in Hall as [_ Hall]. cbn [snd] in Hall.
  rewrite forallb_forall in Hall. specialize (Hall _ Hin).
  apply andb_true_iff in Hall as [Hall _].
  apply andb_true_iff in Hall as [Hstrip Hlow].
  apply String.eqb_eq in Hstrip, Hlow.
  assert (Hscore : 10 <= class_score kw info)
    by now apply class_score_of_keyword.
  assert (Hscored : In (n, title info, class_score kw info)
                       (scored_classes NICE_CLASSES (query_term kw))).
  { apply in_scored_classes. exists n, info. unfold query_term. rewrite Hstrip.
    repeat split; [exact E|lia]. }
  destruct (sort_key_reverse_head sug_score _ _ Hscored) as (top & rest & Hsort & Htop).
  exists top, (firstn 4 rest). unfold suggest_class_for_keyword.
  rewrite suggest_in_scored by apply NICE_CLASSES_lowercase.
  rewrite Hsort. split; [reflexivity|].
  unfold sug_score at 1 in Htop. cbn [snd] in Htop. lia.
Qed.

(** The theorem at a keyword of Class 9. *)
Lemma table_keyword_witness :
  In "software" (get_keywords_for_class 9)
  /\ exists top rest,
      suggest_class_for_keyword "software" = top :: rest /\ 10 <= sug_score top.
Proof.
  assert (H : In "software" (get_keywords_for_class 9)) by (vm_compute; tauto).
  split; [exact H|].
  exact (table_keyword_gets_a_suggestion 9 "software" H).
Defined.


(** The table has goods in Classes 1 to 34 and services in 35 to 45. *)
Lemma NICE_CLASSES_categories :
  forallb (fun entry =>
             String.eqb (category (snd entry))
                        (if fst entry <=? 34 then "GOODS" else "SERVICES"))
          NICE_CLASSES = true.
Proof. vm_compute. reflexivity. Qed.

Lemma class_category_by_number n info :
  get_class_info n = Some info ->
  category info = if n <=? 34 then "GOODS" else "SERVICES".
Proof.
  intros H. apply dict_get_Some_In in H.
  pose proof NICE_CLASSES_categories as Hall. rewrite forallb_forall in Hall.
  specialize (Hall _ H). cbn [fst snd] in Hall. now apply String.eqb_eq in Hall.
Qed.

End NiceDbFacts.

(* --------------------------------------------------------------------- *)
(** ** Methods of the Pillar 1 assessor *)

Module Pillar1Facts.
Import PyStr NiceDb Py Pillar1 Pillar1.AssessmentFinding.
Local Open Scope py_scope.

Lemma with_findings_same self : with_findings self (findings self) = self.
Proof. destruct self; reflexivity. Qed.

Lemma with_findings_twice self fs gs :
  with_findings (with_findings self fs) gs = with_findings self gs.
Proof. reflexivity. Qed.

Lemma findings_append_run f self :
  findings_append f self = (Return tt, with_findings self (findings self ++ [f])).
Proof. reflexivity. Qed.

Lemma valid_class_number_range n :
  PyList.mem n VALID_CLASS_NUMBERS = (1 <=? n) && (n <=? 45).
Proof.
  destruct ((1 <=? n) && (n <=? 45)) eqn:E.
  - apply andb_true_iff in E as [H1 H2].
    apply Z.leb_le in H1, H2.
    unfold PyList.mem. apply existsb_exists. exists n. split.
    + unfold VALID_CLASS_NUMBERS. apply in_map_iff.
      exists (Z.to_nat n). split; [lia|]. apply in_seq. lia.
    + apply Z.eqb_refl.
  - apply not_true_is_false. intros H.
    unfold PyList.mem in H. apply existsb_exists in H as [x [Hin Hx]].
    apply Z.eqb_eq in Hx. subst x.
    unfold VALID_CLASS_NUMBERS in Hin. apply in_map_iff in Hin as [k [Hk Hin]].
    apply in_seq in Hin.
    assert (1 <= n <= 45) by lia.
    assert ((1 <=? n) && (n <=? 45) = true).
    { apply andb_true_iff; split; apply Z.leb_le; lia. }
    congruence.
Qed.

Lemma with_findings_app self fs gs :
  with_findings (with_findings self (findings self ++ fs))
                (findings (with_findings self (findings self ++ fs)) ++ gs)
  = with_findings self (findings self ++ (fs ++ gs)).
Proof. unfold with_findings; simpl. now rewrite app_assoc. Qed.

(** A loop under an invariant [P] on the entries gone through, the local
    variables and the findings appended so far. *)
Lemma for_each_invariant {A B} (body : B -> A -> Check B)
      (P : list A -> B -> list AssessmentFinding.t -> Prop) :
  (forall pre x acc fs self,
      P pre acc fs ->
      exists acc' fs',
        body acc x self = (Return acc', with_findings self (findings self ++ fs'))
        /\ P (pre ++ [x]) acc' (fs ++ fs')) ->
  forall l pre acc fs self,
    P pre acc fs ->
    exists acc' fs',
      for_each l acc body self
      = (Return acc', with_findings self (findings self ++ fs'))
      /\ P (pre ++ l) acc' (fs ++ fs').
Proof.
  intros Hbody l. induction l as [|x l IH]; intros pre acc fs self HP.
  - exists acc, []. simpl. rewrite !app_nil_r, with_findings_same. auto.
  - destruct (Hbody pre x acc fs self HP) as (acc1 & fs1 & Hrun & HP1).
    destruct (IH (pre ++ [x]) acc1 (fs ++ fs1)
                 (with_findings self (findings self ++ fs1)) HP1)
      as (acc2 & fs2 & Hrun2 & HP2).
    exists acc2, (fs1 ++ fs2). split.
    + simpl. unfold bind at 1. rewrite Hrun, Hrun2.
      now rewrite with_findings_app.
    + now rewrite <- app_assoc in HP2; simpl in HP2; rewrite <- app_assoc in HP2.
Qed.

Lemma filter_app_one {A} (p : A -> bool) l x :
  filter p (l ++ [x]) = filter p l ++ (if p x then [x] else []).
Proof. rewrite filter_app. reflexivity. Qed.

(** C5. The §1401.02 check returns normally and only appends.  What it
    appends: one ERROR finding for each class entry whose number is outside
    1..45, in the order of the entries and carrying the entry's number;
    nothing but ERROR and application-level OK findings; no OK finding at all
    as soon as one entry is out of range, hence none for an offending class;
    and exactly one OK finding, for the whole application, when every entry
    is within 1..45. *)
Theorem check_1401_02_flags_each_invalid_class :
  forall self : TMEP1401Assessor,
    let entries := classes (app self) in
    let offending :=
      filter (fun c => out_of_range (ClassEntry.class_number c)) entries in
    exists emitted,
      _check_1401_02_international_classification_adopted self
      = (Return tt, with_findings self (findings self ++ emitted))
      /\ Forall2 (fun c f => class_number f = ClassEntry.class_number c
                              /\ tmep_section f = "§1401.02")
                 offending (filter (has_severity "ERROR") emitted)
      /\ Forall (fun f => severity f = "ERROR"
                          \/ (severity f = "OK" /\ class_number f = 0)) emitted
      /\ (forall c f, In c offending -> In f emitted -> severity f = "OK" ->
                      class_number f <> ClassEntry.class_number c)
      /\ List.length (filter (has_severity "OK") emitted)
         = (if forallb (fun c => negb (out_of_range (ClassEntry.class_number c))) entries
            then 1%nat else 0%nat).
Proof.
  intros self entries offending.
  unfold _check_1401_02_international_classification_adopted.
  set (body := fun (invalid_classes_found : list Z) (cls_entry : ClassEntry.t) => _).
  pose (P := fun (pre : list ClassEntry.t) (acc : list Z) (fs : list AssessmentFinding.t) =>
               acc = map ClassEntry.class_number
                         (filter (fun c => out_of_range (ClassEntry.class_number c)) pre)
               /\ Forall2 (fun c f => class_number f = ClassEntry.class_number c
                                       /\ tmep_section f = "§1401.02")
                          (filter (fun c => out_of_range (ClassEntry.class_number c)) pre) fs
               /\ Forall (fun f => severity f = "ERROR") fs).
  assert (Hloop : exists acc' fs',
             for_each entries [] body self
             = (Return acc', with_findings self (findings self ++ fs'))
             /\ P ([] ++ entries) acc' ([] ++ fs')).
  { apply (for_each_invariant body P).
    - intros pre x acc fs self0 (Hacc & Hf2 & Hsev).
      unfold body, P.
      rewrite valid_class_number_range.
      rewrite !filter_app_one.
      fold (out_of_range (ClassEntry.class_number x)).
      destruct (out_of_range (ClassEntry.class_number x)) eqn:E; simpl negb; cbv iota.
      + eexists; eexists; split; [reflexivity|].
        rewrite map_app, Hacc. split; [reflexivity|]. split.
        * apply Forall2_app; [assumption|]. repeat constructor.
        * apply Forall_app; split; [assumption|]. repeat constructor.
      + exists acc, []. split.
        * unfold ret. now rewrite app_nil_r, with_findings_same.
        * rewrite !app_nil_r. auto.
    - unfold P. simpl. repeat split; constructor. }
  destruct Hloop as (acc & fs & Hrun & Hacc & Hf2 & Hsev).
  cbn [List.app] in Hacc, Hf2, Hsev. fold offending in Hacc, Hf2.
  assert (Hfilt : filter (has_severity "ERROR") fs = fs).
  { clear - Hsev. induction Hsev as [|f l Hf _ IH]; [reflexivity|].
    simpl. unfold has_severity at 1. rewrite Hf. simpl. now rewrite IH. }
  assert (HnoOK : filter (has_severity "OK") fs = []).
  { clear - Hsev. induction Hsev as [|f l Hf _ IH]; [reflexivity|].
    simpl. unfold has_severity at 1. rewrite Hf. simpl. exact IH. }
  assert (Hall : forallb (fun c => negb (out_of_range (ClassEntry.class_number c))) entries
                 = match acc with [] => true | _ => false end).
  { rewrite Hacc. unfold offending. clear.
    induction entries as [|c l IH]; [reflexivity|].
    simpl. destruct (out_of_range (ClassEntry.class_number c)); simpl; auto. }
  unfold bind at 1. unfold gets at 1. cbv beta iota.
  unfold bind at 1. fold entries. rewrite Hrun. cbv beta iota.
  rewrite Hall.
  destruct acc as [|a acc].
  - (* every entry in range: the application-level OK *)
    unfold when. rewrite findings_append_run, with_findings_app.
    eexists. split; [reflexivity|].
    assert (Hoff : offending = []).
    { destruct offending; [reflexivity|discriminate]. }
    rewrite !filter_app, Hfilt, HnoOK. simpl.
    rewrite app_nil_r. split; [assumption|]. split.
    + apply Forall_app. split.
      * eapply Forall_impl; [|exact Hsev]. simpl. auto.
      * constructor; [right; auto | constructor].
    + split; [|reflexivity].
      intros c f Hc. rewrite Hoff in Hc. destruct Hc.
  - (* some entry out of range: no OK at all *)
    unfold when, ret. exists fs. split; [reflexivity|].
    rewrite Hfilt, HnoOK. split; [assumption|]. split.
    + eapply Forall_impl; [|exact Hsev]. simpl. auto.
    + split; [|reflexivity].
      intros c f _ Hf Hok.
      assert (severity f = "ERROR").
      { eapply Forall_forall in Hsev; eauto. }
      congruence.
Qed.

(* The combinators keep [only_appends]. *)

Lemma only_appends_ret {A} (a : A) : only_appends (ret a).
Proof.
  intros self. exists a, []. unfold ret.
  now rewrite app_nil_r, with_findings_same.
Qed.

Lemma only_appends_gets {A} (f : TMEP1401Assessor -> A) : only_appends (gets f).
Proof.
  intros self. exists (f self), []. unfold gets.
  now rewrite app_nil_r, with_findings_same.
Qed.

Lemma only_appends_findings_append f : only_appends (findings_append f).
Proof. intros self. exists tt, [f]. reflexivity. Qed.

Lemma only_appends_bind {A B} (m : Check A) (k : A -> Check B) :
  only_appends m -> (forall a, only_appends (k a)) -> only_appends (bind m k).
Proof.
  intros Hm Hk self.
  destruct (Hm self) as (a & fs & Hrun).
  destruct (Hk a (with_findings self (findings self ++ fs))) as (b & gs & Hrun').
  exists b, (fs ++ gs). unfold bind. rewrite Hrun, Hrun'.
  now rewrite with_findings_app.
Qed.

Lemma only_appends_when c (body : Check unit) :
  only_appends body -> only_appends (when c body).
Proof. intros H. destruct c; simpl; [exact H|apply only_appends_ret]. Qed.

Lemma only_appends_for_each {A B} (l : list A) (body : B -> A -> Check B) :
  (forall acc x, only_appends (body acc x)) ->
  forall acc, only_appends (for_each l acc body).
Proof.
  intros Hbody. induction l as [|x l IH]; intros acc; simpl.
  - apply only_appends_ret.
  - apply only_appends_bind; [apply Hbody|intros; apply IH].
Qed.

Lemma only_appends_for_break {A B} (l : list A) (body : B -> A -> Check (B * bool)) :
  (forall acc x, only_appends (body acc x)) ->
  forall acc, only_appends (for_break l acc body).
Proof.
  intros Hbody. induction l as [|x l IH]; intros acc; simpl.
  - apply only_appends_ret.
  - apply only_appends_bind; [apply Hbody|].
    intros [acc' stop]; simpl. destruct stop; [apply only_appends_ret|apply IH].
Qed.

Lemma only_appends_getitem {A} (a : A) : only_appends (getitem (Some a)).
Proof. apply only_appends_ret. Qed.

Lemma only_appends_subscript {A} (a : A) : only_appends (subscript (Some a)).
Proof. apply only_appends_ret. Qed.

(* Calls that may raise. *)

Lemma appends_or_raises_of_only_appends {A} e (c : Check A) :
  only_appends c -> appends_or_raises e c.
Proof.
  intros H self. destruct (H self) as (a & fs & Hrun).
  exists fs. left. eauto.
Qed.

Lemma appends_or_raises_strptime s : appends_or_raises ValueError (strptime s).
Proof.
  intros self. exists []. rewrite app_nil_r, with_findings_same.
  unfold strptime. destruct (PyDate.strptime s); [left; eexists|right]; reflexivity.
Qed.

Lemma appends_or_raises_bind {A B} e (m : Check A) (k : A -> Check B) :
  appends_or_raises e m -> (forall a, appends_or_raises e (k a)) ->
  appends_or_raises e (bind m k).
Proof.
  intros Hm Hk self.
  destruct (Hm self) as (fs & [(a & Hrun)|Hrun]).
  - destruct (Hk a (with_findings self (findings self ++ fs)))
      as (gs & [(b & Hrun')|Hrun']);
      exists (fs ++ gs); [left; exists b|right];
      unfold bind; rewrite Hrun, Hrun'; now rewrite with_findings_app.
  - exists fs. right. unfold bind. now rewrite Hrun.
Qed.

Lemma only_appends_try_except {A} e (body handler : Check A) :
  appends_or_raises e body -> only_appends handler ->
  only_appends (try_except body e handler).
Proof.
  intros Hb Hh self.
  destruct (Hb self) as (fs & [(a & Hrun)|Hrun]).
  - exists a, fs. unfold try_except. now rewrite Hrun.
  - destruct (Hh (with_findings self (findings self ++ fs))) as (a & gs & Hrun').
    exists a, (fs ++ gs). unfold try_except. rewrite Hrun.
    destruct e; simpl; rewrite Hrun'; now rewrite with_findings_app.
Qed.

(** One step of a proof that a check only appends: the combinator at the
    head of the goal, or a case split on what it branches on. *)
Ltac only_appends_step :=
  lazymatch goal with
  | |- only_appends (bind _ _) => apply only_appends_bind; [|intros]
  | |- only_appends (ret _) => apply only_appends_ret
  | |- only_appends (gets _) => apply only_appends_gets
  | |- only_appends (findings_append _) => apply only_appends_findings_append
  | |- only_appends (when _ _) => apply only_appends_when
  | |- only_appends (for_each _ _ _) => apply only_appends_for_each; intros
  | |- only_appends (for_break _ _ _) => apply only_appends_for_break; intros
  | |- only_appends (getitem (Some _)) => apply only_appends_getitem
  | |- only_appends (getitem ?o) =>
      let v := eval vm_compute in o in
      change (only_appends (getitem v)); apply only_appends_getitem
  | |- only_appends (match suggest_class_for_keyword ?t with _ => _ end) =>
      let E := fresh "E" in
      let top := fresh "top" in
      let H := fresh "H" in
      destruct (suggest_class_for_keyword t) as [|top ?] eqn:E;
      [|assert (H : In top (suggest_class_for_keyword t))
          by (rewrite E; left; reflexivity);
        apply NiceDbFacts.suggested_class_known in H;
        destruct H as [? H]; try rewrite H]
  | |- only_appends (subscript (Some _)) => apply only_appends_subscript
  | |- only_appends (try_except _ _ _) => apply only_appends_try_except
  | |- only_appends (if ?b then _ else _) => destruct b
  | |- only_appends (match ?x with _ => _ end) => destruct x
  | |- appends_or_raises _ (strptime _) => apply appends_or_raises_strptime
  | |- appends_or_raises _ (bind _ _) => apply appends_or_raises_bind; [|intros]
  | |- appends_or_raises _ (if ?b then _ else _) => destruct b
  | |- appends_or_raises _ (match ?x with _ => _ end) => destruct x
  | |- appends_or_raises _ _ => apply appends_or_raises_of_only_appends
  end.

Ltac only_appends_auto := cbv zeta; repeat only_appends_step.

Lemma check_1401_01_only_appends : only_appends _check_1401_01_statutory_authority.
Proof. unfold _check_1401_01_statutory_authority. only_appends_auto. Qed.

Lemma check_1401_02_only_appends :
  only_appends _check_1401_02_international_classification_adopted.
Proof. unfold _check_1401_02_international_classification_adopted. only_appends_auto. Qed.

Lemma check_1401_03_only_appends : only_appends _check_1401_03_designation_of_class.
Proof. unfold _check_1401_03_designation_of_class. only_appends_auto. Qed.

Lemma check_1401_04_only_appends :
  only_appends _check_1401_04_classification_determines_fees.
Proof. unfold _check_1401_04_classification_determines_fees. only_appends_auto. Qed.

Lemma check_1401_05_only_appends :
  only_appends _check_1401_05_criteria_for_classification.
Proof. unfold _check_1401_05_criteria_for_classification. only_appends_auto. Qed.

Lemma check_1401_06_only_appends :
  only_appends _check_1401_06_specimen_related_to_classification.
Proof. unfold _check_1401_06_specimen_related_to_classification. only_appends_auto. Qed.

Lemma check_1401_07_only_appends :
  only_appends _check_1401_07_specimen_discloses_special_characteristics.
Proof.
  unfold _check_1401_07_specimen_discloses_special_characteristics. only_appends_auto.
Qed.

Lemma check_1401_08_only_appends :
  only_appends _check_1401_08_classification_and_identification.
Proof. unfold _check_1401_08_classification_and_identification. only_appends_auto. Qed.

Lemma check_1401_09_only_appends :
  only_appends _check_1401_09_implementation_of_nice_changes.
Proof.
  unfold _check_1401_09_implementation_of_nice_changes. cbv zeta.
  apply only_appends_bind; [apply only_appends_gets|]. intros self_app.
  unfold PyDict.mem, dict_get_str.
  destruct (PyDict.get String.eqb NICE_EDITION_TIMELINE (nice_edition_claimed self_app))
    as [edition_info|]; cbn [negb]; cbv iota; only_appends_auto.
Qed.

Lemma check_1401_10_only_appends : only_appends _check_1401_10_effective_date_id_manual.
Proof. unfold _check_1401_10_effective_date_id_manual. only_appends_auto. Qed.

Lemma check_1401_11_only_appends :
  only_appends _check_1401_11_class42_restructuring_8th_edition.
Proof. unfold _check_1401_11_class42_restructuring_8th_edition. only_appends_auto. Qed.

Lemma check_1401_12_only_appends : only_appends _check_1401_12_9th_edition_changes.
Proof. unfold _check_1401_12_9th_edition_changes. only_appends_auto. Qed.

Lemma check_1401_13_only_appends : only_appends _check_1401_13_10th_edition_changes.
Proof. unfold _check_1401_13_10th_edition_changes. only_appends_auto. Qed.

Lemma check_1401_14_only_appends : only_appends _check_1401_14_11th_edition_changes.
Proof. unfold _check_1401_14_11th_edition_changes. only_appends_auto. Qed.

Lemma check_1401_15_only_appends : only_appends _check_1401_15_12th_edition_changes.
Proof. unfold _check_1401_15_12th_edition_changes. only_appends_auto. Qed.

(* The run as a whole. *)

Lemma run_full_assessment_as_run_checks :
  run_full_assessment = bind findings_clear (fun _ => run_checks all_checks).
Proof. reflexivity. Qed.

Lemma all_checks_only_append : Forall only_appends all_checks.
Proof.
  unfold all_checks.
  repeat constructor;
    first [ apply check_1401_01_only_appends | apply check_1401_02_only_appends
          | apply check_1401_03_only_appends | apply check_1401_04_only_appends
          | apply check_1401_05_only_appends | apply check_1401_06_only_appends
          | apply check_1401_07_only_appends | apply check_1401_08_only_appends
          | apply check_1401_09_only_appends | apply check_1401_10_only_appends
          | apply check_1401_11_only_appends | apply check_1401_12_only_appends
          | apply check_1401_13_only_appends | apply check_1401_14_only_appends
          | apply check_1401_15_only_appends ].
Qed.

Lemma all_return_of_only_appends cs :
  Forall only_appends cs ->
  forall self, exists fs,
    all_return cs self (with_findings self (findings self ++ fs)).
Proof.
  induction 1 as [|c cs Hc _ IH]; intros self.
  - exists []. rewrite app_nil_r, with_findings_same. constructor.
  - destruct (Hc self) as ([] & fs & Hrun).
    destruct (IH (with_findings self (findings self ++ fs))) as (gs & Hrest).
    rewrite with_findings_app in Hrest.
    exists (fs ++ gs). econstructor; eassumption.
Qed.

Lemma run_checks_all_return cs self self' :
  all_return cs self self' ->
  run_checks cs self = (Return (findings self'), self').
Proof.
  induction 1 as [self|c cs self self1 self' Hc _ IH]; simpl.
  - reflexivity.
  - unfold bind. now rewrite Hc.
Qed.

(** The run from any assessor: the list is cleared, the fifteen checks
    return one after the other, and the findings they appended are
    returned. *)
Lemma run_full_assessment_returns self :
  exists fs,
    all_return all_checks (with_findings self []) (with_findings self fs)
    /\ run_full_assessment self = (Return fs, with_findings self fs).
Proof.
  destruct (all_return_of_only_appends all_checks all_checks_only_append
                                       (with_findings self [])) as (fs & Hall).
  simpl findings in Hall. rewrite with_findings_twice in Hall. simpl in Hall.
  exists fs. split; [exact Hall|].
  rewrite run_full_assessment_as_run_checks. unfold bind at 1.
  change (findings_clear self) with (Return tt, with_findings self []).
  cbv beta iota.
  now rewrite (run_checks_all_return _ _ _ Hall).
Qed.


(* Calls that leave the assessor as it is. *)

Lemma silent_ret : silent (ret tt).
Proof. intros self. reflexivity. Qed.

Lemma silent_when b c : silent c -> silent (when b c).
Proof. intros H. destruct b; simpl; [exact H|apply silent_ret]. Qed.

Lemma silent_for_each {A} (l : list A) (body : unit -> A -> Check unit) :
  (forall x, silent (body tt x)) -> silent (for_each l tt body).
Proof.
  intros Hbody. induction l as [|x l IH]; intros self; simpl; [reflexivity|].
  unfold bind. rewrite (Hbody x self). apply IH.
Qed.

(** A [try] whose first step is to parse a date that does not parse goes
    straight to its handler. *)
Lemma try_strptime_fails {A} s (k : PyDate.date -> Check A) (handler : Check A) self :
  PyDate.strptime s = None ->
  try_except (bind (strptime s) k) ValueError handler self = handler self.
Proof.
  intros Hs. unfold try_except, bind, strptime. rewrite Hs. reflexivity.
Qed.

Lemma silent_try_strptime_fails s (k : PyDate.date -> Check unit) :
  PyDate.strptime s = None ->
  silent (try_except (bind (strptime s) k) ValueError (ret tt)).
Proof. intros Hs self. now rewrite try_strptime_fails. Qed.

(** §1401.09 on a date that does not parse: the INFO finding of the
    handler, when the edition is known and the date is not empty. *)
Lemma check_1401_09_unparsable self :
  PyDate.strptime (filing_date (app self)) = None ->
  truthy (filing_date (app self)) = true ->
  PyDict.mem String.eqb NICE_EDITION_TIMELINE (nice_edition_claimed (app self)) = true ->
  exists f,
    _check_1401_09_implementation_of_nice_changes self
    = (Return tt, with_findings self (findings self ++ [f]))
    /\ notes_parse_failure f = true
    /\ item f = "Filing date format"
    /\ class_number f = 0.
Proof.
  intros Hparse Hdate Hmem.
  unfold _check_1401_09_implementation_of_nice_changes. cbv zeta.
  unfold bind at 1. unfold gets at 1. cbv beta iota.
  rewrite Hmem. cbn [negb]. cbv iota.
  unfold PyDict.mem in Hmem. unfold dict_get_str.
  destruct (PyDict.get String.eqb NICE_EDITION_TIMELINE (nice_edition_claimed (app self)))
    as [edition_info|]; [|discriminate].
  unfold bind at 1. unfold getitem, ret at 1. cbv beta iota.
  rewrite Hdate. unfold when.
  rewrite try_strptime_fails by assumption.
  eexists. split; [apply findings_append_run|].
  split; [vm_compute; reflexivity|]. split; reflexivity.
Qed.

(** §1401.09 when the filing date is empty or the edition claimed is not
    in the timeline: the date is not parsed, and no finding notes a parse
    failure. *)
Lemma check_1401_09_date_not_parsed self :
  truthy (filing_date (app self)) = false
  \/ PyDict.mem String.eqb NICE_EDITION_TIMELINE (nice_edition_claimed (app self))
     = false ->
  exists fs,
    _check_1401_09_implementation_of_nice_changes self
    = (Return tt, with_findings self (findings self ++ fs))
    /\ Forall (fun f => notes_parse_failure f = false) fs.
Proof.
  intros Hnot.
  unfold _check_1401_09_implementation_of_nice_changes. cbv zeta.
  unfold bind at 1. unfold gets at 1. cbv beta iota.
  destruct (PyDict.mem String.eqb NICE_EDITION_TIMELINE (nice_edition_claimed (app self)))
    eqn:Hmem; cbn [negb]; cbv iota.
  - destruct Hnot as [Hdate|Hc]; [|discriminate].
    unfold PyDict.mem in Hmem. unfold dict_get_str.
    destruct (PyDict.get String.eqb NICE_EDITION_TIMELINE (nice_edition_claimed (app self)))
      as [edition_info|]; [|discriminate].
    unfold bind at 1. unfold getitem, ret at 1. cbv beta iota.
    rewrite Hdate. unfold when, ret.
    exists []. split; [now rewrite app_nil_r, with_findings_same|constructor].
  - eexists. split; [apply findings_append_run|].
    constructor; [reflexivity|constructor].
Qed.

(** §1401.10 on a date that does not parse: the general notice, and
    nothing else. *)
Lemma check_1401_10_unparsable self :
  PyDate.strptime (filing_date (app self)) = None ->
  exists f,
    _check_1401_10_effective_date_id_manual self
    = (Return tt, with_findings self (findings self ++ [f]))
    /\ item f = "ID Manual Compliance"
    /\ notes_parse_failure f = false.
Proof.
  intros Hparse.
  unfold _check_1401_10_effective_date_id_manual. cbv zeta.
  unfold bind at 1. unfold gets at 1. cbv beta iota.
  unfold bind at 1.
  rewrite silent_for_each.
  - cbv beta iota. eexists. split; [apply findings_append_run|].
    split; [reflexivity|vm_compute; reflexivity].
  - intros cls_entry. apply silent_for_each. intros term_info.
    apply silent_when, silent_when.
    now apply silent_try_strptime_fails.
Qed.

(** §1401.11 on a date that does not parse: the ERROR findings of the
    Class 42 entries, and nothing about the date. *)
Lemma check_1401_11_unparsable self :
  PyDate.strptime (filing_date (app self)) = None ->
  exists fs,
    _check_1401_11_class42_restructuring_8th_edition self
    = (Return tt, with_findings self (findings self ++ fs))
    /\ Forall (fun f => severity f = "ERROR" /\ class_number f = 42) fs.
Proof.
  intros Hparse.
  unfold _check_1401_11_class42_restructuring_8th_edition. cbv zeta.
  unfold bind at 1. unfold gets at 1. cbv beta iota.
  set (errors := fun f : AssessmentFinding.t => severity f = "ERROR" /\ class_number f = 42).
  match goal with
  | |- context [bind (for_each ?ll tt ?bb) _] =>
      destruct (fun H => for_each_invariant bb (fun _ _ fs => Forall errors fs) H
                           ll (@nil ClassEntry.t) tt (@nil AssessmentFinding.t) self)
        as (acc & fs & Hrun & Hfs)
  end.
  - intros pre cls_entry [] fs0 self0 Hfs0.
    destruct (negb (ClassEntry.class_number cls_entry =? 42)).
    + exists tt, []. split.
      * unfold ret. now rewrite app_nil_r, with_findings_same.
      * now rewrite app_nil_r.
    + match goal with
      | |- context [for_each ?ll tt ?bb] =>
          destruct (fun H => for_each_invariant bb (fun _ _ gs => Forall errors gs) H
                               ll (@nil (string * (Z * string))) tt fs0 self0)
            as (acc' & gs & Hrun' & Hgs)
      end.
      * intros pre' [service_term [correct_class reason]] [] gs0 self1 Hgs0.
        destruct (str_in service_term (lower (ClassEntry.identification cls_entry))).
        -- eexists; eexists. split; [apply findings_append_run|].
           apply Forall_app. split; [assumption|].
           constructor; [split; reflexivity|constructor].
        -- exists tt, []. split.
           ++ unfold when, ret. now rewrite app_nil_r, with_findings_same.
           ++ now rewrite app_nil_r.
      * assumption.
      * exists acc', gs. split; [exact Hrun'|exact Hgs].
  - constructor.
  - destruct acc. unfold bind at 1. rewrite Hrun. cbv beta iota.
    exists fs. split.
    + destruct (truthy (filing_date (app self))); simpl; [|reflexivity].
      now rewrite try_strptime_fails.
    + exact Hfs.
Qed.

(** C7, as the code has it.  For every application whose filing date does
    not parse as YYYY-MM-DD and whose numbers are within the limit of the
    conversion to text, the run does not abort: the fifteen checks return
    one after the other and [run_full_assessment] returns the findings
    they appended.  Of the three checks that parse the filing date, only
    §1401.09 notes the failure: it appends one INFO finding that notes it
    when the date is not empty and the claimed edition is in the timeline,
    and only then; else it does not parse the date and no finding of it
    notes a failure.  §1401.10 and §1401.11 catch the failure and append
    nothing about it: §1401.10 only its general notice, §1401.11 only the
    ERROR findings of its Class 42 entries. *)
Theorem unparsable_filing_date_is_caught_in_each_check :
  forall self : TMEP1401Assessor,
    PyDate.strptime (filing_date (app self)) = None ->
    within_conversion_limit (app self) = true ->
    (exists fs,
        all_return all_checks (with_findings self []) (with_findings self fs)
        /\ run_full_assessment self = (Return fs, with_findings self fs))
    /\ (exists fs,
          _check_1401_09_implementation_of_nice_changes self
          = (Return tt, with_findings self (findings self ++ fs))
          /\ (truthy (filing_date (app self)) = true ->
              PyDict.mem String.eqb NICE_EDITION_TIMELINE
                         (nice_edition_claimed (app self)) = true ->
              exists f,
                fs = [f]
                /\ notes_parse_failure f = true
                /\ item f = "Filing date format"
                /\ class_number f = 0)
          /\ (truthy (filing_date (app self)) = false
              \/ PyDict.mem String.eqb NICE_EDITION_TIMELINE
                            (nice_edition_claimed (app self)) = false ->
              Forall (fun f => notes_parse_failure f = false) fs))
    /\ (exists f,
          _check_1401_10_effective_date_id_manual self
          = (Return tt, with_findings self (findings self ++ [f]))
          /\ item f = "ID Manual Compliance"
          /\ notes_parse_failure f = false)
    /\ (exists fs,
          _check_1401_11_class42_restructuring_8th_edition self
          = (Return tt, with_findings self (findings self ++ fs))
          /\ Forall (fun f => severity f = "ERROR" /\ class_number f = 42
                              /\ notes_parse_failure f = false) fs).
Proof.
  intros self Hparse _. split; [apply run_full_assessment_returns|].
  split; [|split; [now apply check_1401_10_unparsable|]].
  - destruct (truthy (filing_date (app self))) eqn:Hdate;
      [destruct (PyDict.mem String.eqb NICE_EDITION_TIMELINE
                            (nice_edition_claimed (app self))) eqn:Hmem|].
    + destruct (check_1401_09_unparsable self Hparse Hdate Hmem)
        as (f & Hrun & Hnote & Hitem & Hclass).
      exists [f]. split; [exact Hrun|]. split.
      * intros _ _. exists f. repeat split; assumption.
      * intros [Hc|Hc]; discriminate.
    + destruct (check_1401_09_date_not_parsed self) as (fs & Hrun & Hfs);
        [right; exact Hmem|].
      exists fs. split; [exact Hrun|]. split; [discriminate|]. intros _. exact Hfs.
    + destruct (check_1401_09_date_not_parsed self) as (fs & Hrun & Hfs);
        [left; exact Hdate|].
      exists fs. split; [exact Hrun|]. split; [discriminate|]. intros _. exact Hfs.
  - destruct (check_1401_11_unparsable self Hparse) as (fs & Hrun & Hfs).
    exists fs. split; [exact Hrun|].
    eapply Forall_impl; [|exact Hfs].
    intros f [Hsev Hclass]. split; [exact Hsev|]. split; [exact Hclass|].
    unfold notes_parse_failure, has_severity. now rewrite Hsev.
Qed.

(** C7, as stated, fails on an application filed with a month 13: the
    filing date does not parse, §1401.11 returns without a finding, so it
    reports no parse failure. *)
Lemma parse_failure_claim_fails_on_month_13 : ~ parse_failure_claim sample_bad_date.
Proof.
  unfold parse_failure_claim. intros H.
  destruct H as [Hall _]; [vm_compute; reflexivity|].
  unfold date_parsing_checks in Hall.
  inversion Hall as [|? ? _ H1]; subst.
  inversion H1 as [|? ? _ H2]; subst.
  inversion H2 as [|? ? H11 _]; subst.
  destruct H11 as (fs & f & Hrun & Hin & _).
  assert (Hc : findings (snd (_check_1401_11_class42_restructuring_8th_edition
                                sample_bad_date)) = [])
    by (vm_compute; reflexivity).
  rewrite Hrun in Hc. simpl in Hc. subst fs. destruct Hin.
Qed.

(** The theorem at the application filed with a month 13: the run
    returns, and §1401.09 appends the INFO finding that notes the
    failure. *)
Lemma unparsable_filing_date_witness :
  PyDate.strptime (filing_date (app sample_bad_date)) = None
  /\ within_conversion_limit (app sample_bad_date) = true
  /\ (exists fs,
        run_full_assessment sample_bad_date
        = (Return fs, with_findings sample_bad_date fs))
  /\ (exists f,
        _check_1401_09_implementation_of_nice_changes sample_bad_date
        = (Return tt,
           with_findings sample_bad_date (findings sample_bad_date ++ [f]))
        /\ notes_parse_failure f = true).
Proof.
  assert (H : PyDate.strptime (filing_date (app sample_bad_date)) = None)
    by reflexivity.
  assert (L : within_conversion_limit (app sample_bad_date) = true)
    by (vm_compute; reflexivity).
  split; [exact H|]. split; [exact L|].
  destruct (unparsable_filing_date_is_caught_in_each_check sample_bad_date H L)
    as [(fs & _ & Hrun) [(gs & Hrun9 & Hnoted & _) _]].
  split; [exists fs; exact Hrun|].
  destruct Hnoted as (f & Hgs & Hnote & _); [reflexivity|reflexivity|].
  exists f. subst gs. split; [exact Hrun9|exact Hnote].
Defined.

(* The fee check. *)

(** The list has no repetition exactly when dropping the repetitions
    keeps its length. *)
Lemma distinct_length_NoDup (l : list Z) :
  List.length l = List.length (PyList.distinct l) <-> NoDup l.
Proof.
  unfold PyList.distinct. split.
  - induction l as [|x l IH]; simpl; [constructor|].
    destruct (in_dec Z.eq_dec x l) as [Hin|Hin]; simpl; intros Hlen.
    + pose proof (NoDup_incl_length (NoDup_nodup Z.eq_dec l)
                                    (fun y => proj1 (nodup_In Z.eq_dec l y))).
      lia.
    + constructor; [exact Hin|]. apply IH. congruence.
  - intros H. now rewrite nodup_fixed_point.
Qed.

(** A loop that appends one finding for each element that meets a
    condition. *)
Lemma for_each_when_append {A} (cond : A -> bool) (mk : A -> AssessmentFinding.t)
      (l : list A) self :
  for_each l tt (fun _ x => when (cond x) (findings_append (mk x))) self
  = (Return tt, with_findings self (findings self ++ map mk (filter cond l))).
Proof.
  revert self. induction l as [|x l IH]; intros self; simpl.
  - unfold ret. now rewrite app_nil_r, with_findings_same.
  - unfold bind. destruct (cond x); simpl.
    + rewrite IH. unfold with_findings; simpl. now rewrite <- app_assoc.
    + apply IH.
Qed.

Lemma Forall2_map_of {A B} (P : A -> B -> Prop) (mk : A -> B) (l : list A) :
  (forall x, P x (mk x)) -> Forall2 P l (map mk l).
Proof. intros H. induction l; simpl; constructor; auto. Qed.

(** C2, as the code has it.  For every application whose numbers are
    within the limit of the conversion to text, the fee check returns and
    appends, in this order: a WARNING about duplicate class entries,
    exactly when a class number is repeated; one verdict about the
    application as a whole; one ERROR on each class entry whose fee flag is
    not set, in the order of the entries.  The verdict is an INFO, Fee
    Count Not Specified, when the fee count is 0.  When the fee count is
    not 0, it is an OK when the fees paid equal the number of distinct
    class numbers, an ERROR reporting a shortage of (distinct minus paid)
    fees when they are fewer, and a WARNING reporting an excess of (paid
    minus distinct) fees when they are more. *)
Theorem fee_check_files_one_verdict :
  forall self : TMEP1401Assessor,
    within_conversion_limit (app self) = true ->
    let paid := fees_paid_count (app self) in
    let classes_claimed := num_distinct (app self) in
    exists duplicates verdict flags,
      _check_1401_04_classification_determines_fees self
      = (Return tt,
         with_findings self (findings self ++ duplicates ++ [verdict] ++ flags))
      /\ (NoDup (map ClassEntry.class_number (classes (app self))) ->
          duplicates = [])
      /\ (~ NoDup (map ClassEntry.class_number (classes (app self))) ->
          exists w, duplicates = [w] /\ severity w = "WARNING" /\ class_number w = 0)
      /\ tmep_section verdict = "§1401.04"
      /\ class_number verdict = 0
      /\ (paid = 0 ->
          severity verdict = "INFO" /\ item verdict = "Fee Count Not Specified")
      /\ (paid <> 0 -> paid = classes_claimed ->
          severity verdict = "OK" /\ item verdict = "Fee Verification")
      /\ (paid <> 0 -> paid < classes_claimed ->
          severity verdict = "ERROR"
          /\ reports_fees "Shortfall: " (classes_claimed - paid) verdict = true)
      /\ (paid <> 0 -> paid > classes_claimed ->
          severity verdict = "WARNING"
          /\ reports_fees "Excess: " (paid - classes_claimed) verdict = true)
      /\ Forall2 (fun cls_entry f =>
                    severity f = "ERROR"
                    /\ class_number f = ClassEntry.class_number cls_entry)
                 (filter (fun cls_entry => negb (ClassEntry.fee_paid cls_entry))
                         (classes (app self)))
                 flags.
Proof.
  intros self _ paid classes_claimed.
  unfold _check_1401_04_classification_determines_fees. cbv zeta.
  unfold bind at 1. unfold gets at 1. cbv beta iota.
  rewrite !PyListFacts.sorted_length.
  set (claimed := map ClassEntry.class_number (classes (app self))).
  change (Z.of_nat (List.length (PyList.distinct claimed))) with classes_claimed.
  fold paid.
  match goal with
  | |- context [when ?c (findings_append ?w)] =>
      assert (Hpre : exists duplicates,
                 when c (findings_append w) self
                 = (Return tt, with_findings self (findings self ++ duplicates))
                 /\ (NoDup claimed -> duplicates = [])
                 /\ (~ NoDup claimed ->
                     exists w', duplicates = [w'] /\ severity w' = "WARNING"
                                /\ class_number w' = 0))
  end.
  { destruct (Nat.eqb (List.length claimed) (List.length (PyList.distinct claimed)))
      eqn:E; cbn [negb when].
    - exists []. split; [unfold ret; now rewrite app_nil_r, with_findings_same|].
      split; [reflexivity|]. intros Hn. exfalso. apply Hn.
      apply distinct_length_NoDup. now apply Nat.eqb_eq.
    - eexists. split; [apply findings_append_run|]. split.
      + intros Hn. apply distinct_length_NoDup in Hn. apply Nat.eqb_neq in E.
        contradiction.
      + intros _. eexists. repeat split. }
  destruct Hpre as (duplicates & Hpre & Hnone & Hsome).
  unfold bind at 1. rewrite Hpre. cbv beta iota.
  unfold bind at 1.
  change (getitem (dict_get_str USPTO_FEES "TEAS_STANDARD")) with (@ret TMEP1401Assessor Z 350).
  unfold ret at 1. cbv beta iota.
  unfold bind at 1.
  exists duplicates.
  destruct (paid =? 0) eqn:Hz;
    [|destruct (paid <? classes_claimed) eqn:Hlt;
      [|destruct (paid >? classes_claimed) eqn:Hgt]];
    rewrite findings_append_run; cbv beta iota;
    rewrite for_each_when_append, !with_findings_app;
    eexists; eexists; (split; [reflexivity|]);
    (split; [exact Hnone|]); (split; [exact Hsome|]);
    (split; [reflexivity|]); (split; [reflexivity|]).
  - (* no fee count *)
    apply Z.eqb_eq in Hz.
    split; [intros _; split; reflexivity|].
    split; [intros; contradiction|]. split; [intros; contradiction|].
    split; [intros; contradiction|].
    apply Forall2_map_of. intros x. split; reflexivity.
  - (* fewer fees than classes *)
    apply Z.eqb_neq in Hz. apply Z.ltb_lt in Hlt.
    split; [intros; contradiction|]. split; [intros; lia|].
    split; [|split; [intros; lia|apply Forall2_map_of; intros x; split; reflexivity]].
    intros _ _. split; [reflexivity|].
    unfold reports_fees, fstr. cbn [finding String.concat].
    do 16 apply PyStrFacts.str_in_app_r.
    match goal with
    | |- str_in ?t (_ ++ ?r) = true =>
        change (str_in t ("were submitted. " ++ "Shortfall: " ++ r) = true)
    end.
    apply PyStrFacts.str_in_app_r, PyStrFacts.str_in_prefix.
    rewrite !PyStrFacts.prefix_app_l. reflexivity.
  - (* more fees than classes *)
    apply Z.eqb_neq in Hz. apply Z.ltb_ge in Hlt. apply Z.gtb_lt in Hgt.
    split; [intros; contradiction|]. split; [intros; lia|]. split; [intros; lia|].
    split; [|apply Forall2_map_of; intros x; split; reflexivity].
    intros _ _. split; [reflexivity|].
    unfold reports_fees, fstr. cbn [finding String.concat].
    do 10 apply PyStrFacts.str_in_app_r.
    apply PyStrFacts.str_in_prefix.
    rewrite !PyStrFacts.prefix_app_l. reflexivity.
  - (* as many fees as classes *)
    apply Z.eqb_neq in Hz. apply Z.ltb_ge in Hlt.
    assert (~ (classes_claimed < paid)).
    { intros Hc. apply Z.gtb_lt in Hc. congruence. }
    split; [intros; contradiction|].
    split; [intros _ _; split; reflexivity|].
    split; [intros; lia|]. split; [intros; lia|].
    apply Forall2_map_of. intros x. split; reflexivity.
Qed.

(** C2, as stated, fails on an application with one class and a fee count
    of 0: the fees paid are fewer than the classes, and the check appends a
    single INFO finding, no ERROR. *)
Lemma fee_count_claim_fails_without_fee_count : ~ fee_count_claim sample_no_fee_count.
Proof.
  unfold fee_count_claim. cbv zeta.
  intros (emitted & Hrun & _ & Hshort & _).
  destruct Hshort as (f & Hin & Hsev & _); [vm_compute; reflexivity|].
  assert (Hinfo : Forall (fun f => severity f = "INFO")
                         (findings (snd (_check_1401_04_classification_determines_fees
                                           sample_no_fee_count))))
    by (vm_compute; repeat constructor).
  rewrite Hrun in Hinfo. simpl in Hinfo.
  rewrite Forall_forall in Hinfo. specialize (Hinfo f Hin). congruence.
Qed.

(** The theorem at an application with two classes and one fee: no
    duplicates, and the verdict is the ERROR that reports a shortage of one
    fee. *)
Lemma fee_check_files_one_verdict_witness :
  within_conversion_limit (app sample_one_fee_two_classes) = true
  /\ exists verdict,
      _check_1401_04_classification_determines_fees sample_one_fee_two_classes
      = (Return tt,
         with_findings sample_one_fee_two_classes
                       (findings sample_one_fee_two_classes ++ [verdict]))
      /\ severity verdict = "ERROR"
      /\ reports_fees "Shortfall: " 1 verdict = true.
Proof.
  assert (H : within_conversion_limit (app sample_one_fee_two_classes) = true)
    by (vm_compute; reflexivity).
  split; [exact H|].
  destruct (fee_check_files_one_verdict sample_one_fee_two_classes H)
    as (duplicates & verdict & flags & Hrun & Hnone & _ & _ & _ & _ & _ & Hshort
        & _ & Hflags).
  rewrite Hnone in Hrun by (repeat constructor; simpl; intuition discriminate).
  inversion Hflags; subst flags.
  exists verdict. split; [exact Hrun|].
  apply Hshort; [discriminate|reflexivity].
Defined.

End Pillar1Facts.

(* --------------------------------------------------------------------- *)
(** ** Searching a text *)

Module ReFacts.
Import PyStr Re.

Lemma last_char_app a b prev : last_char (a ++ b) prev = last_char b (last_char a prev).
Proof. revert prev. induction a as [|c a IH]; intros prev; simpl; auto. Qed.

(** A match in the second part of a text is a match in the text. *)
Lemma search_from_skip ignorecase r a b prev :
  search_from ignorecase r (last_char a prev) b = true ->
  search_from ignorecase r prev (a ++ b) = true.
Proof.
  revert prev. induction a as [|c a IH]; intros prev H; [exact H|].
  cbn [append search_from]. rewrite (IH (Some c) H). apply orb_true_r.
Qed.

(** A match right after [a] and a space is a match in the text that has
    the word [w] added to [a]. *)
Lemma search_appended_word ignorecase r a w :
  search_from ignorecase r (Some " "%char) w = true ->
  search ignorecase r (a ++ " " ++ w) = true.
Proof.
  intros H. unfold search.
  replace (a ++ " " ++ w)%string with ((a ++ " ") ++ w)%string
    by (induction a as [|c a IH]; simpl; [reflexivity|now rewrite IH]).
  apply search_from_skip. rewrite last_char_app. exact H.
Qed.

Lemma take_nonempty n s : truthy (take n s) = true -> (0 < n)%nat.
Proof. destruct n; [destruct s; discriminate|intros _; apply Nat.lt_0_succ]. Qed.

(** More fuel than the positions of the text changes nothing: the fuel
    [findall] gives is enough. *)
Lemma findall_from_fuel ignorecase r :
  forall n m prev s,
    (String.length s < n)%nat -> (String.length s < m)%nat ->
    findall_from n ignorecase r prev s = findall_from m ignorecase r prev s.
Proof.
  induction n as [|n IH]; intros m prev s Hn Hm; [inversion Hn|].
  destruct m as [|m]; [inversion Hm|].
  cbn [findall_from].
  assert (Hnext :
            match s with
            | String c s' => findall_from n ignorecase r (Some c) s'
            | EmptyString => []
            end
            = match s with
              | String c s' => findall_from m ignorecase r (Some c) s'
              | EmptyString => []
              end).
  { destruct s as [|c s']; [reflexivity|].
    simpl in Hn, Hm. apply IH; apply Nat.succ_lt_mono; assumption. }
  cbv zeta. rewrite Hnext.
  destruct (exec ignorecase r prev s (fun prev' s' => Some (prev', s')))
    as [[prev' s']|]; [|reflexivity].
  destruct (truthy (take (String.length s - String.length s') s)) eqn:E;
    [|reflexivity].
  apply take_nonempty in E.
  f_equal. apply IH.
  - apply Nat.lt_le_trans with (String.length s); [|apply Nat.lt_succ_r; exact Hn].
    apply Nat.lt_add_lt_sub_r in E. exact E.
  - apply Nat.lt_le_trans with (String.length s); [|apply Nat.lt_succ_r; exact Hm].
    apply Nat.lt_add_lt_sub_r in E. exact E.
Qed.

End ReFacts.

(* --------------------------------------------------------------------- *)
(** ** The identification lens *)

Module Pillar2Facts.
Import PyStr Re Pillar2.

Lemma mem_In x l : mem x l = true <-> In x l.
Proof.
  unfold mem. rewrite existsb_exists. split.
  - intros (y & Hin & Heq). apply String.eqb_eq in Heq. now subst.
  - intros Hin. exists x. split; [assumption|apply String.eqb_refl].
Qed.

(** No finding counted means no finding of that severity, and conversely. *)
Lemma count_severity_zero s findings :
  (count_severity s findings =? 0) = true
  <-> Forall (fun f => severity f <> s) findings.
Proof.
  unfold count_severity. rewrite Z.eqb_eq.
  induction findings as [|f l IH]; simpl.
  - split; [constructor|reflexivity].
  - destruct (severity f =? s)%string eqn:E.
    + split.
      * simpl. lia.
      * intros H. inversion H; subst. apply String.eqb_eq in E. contradiction.
    + apply String.eqb_neq in E. rewrite IH. split.
      * intros H; constructor; assumption.
      * intros H; inversion H; assumption.
Qed.

Lemma check_1402_01_severity self segments :
  known_severity (severity (_check_1402_01 self segments)).
Proof. unfold _check_1402_01, known_severity. destruct segments; simpl; auto. Qed.

Lemma check_1402_02_severity self segments :
  known_severity (severity (_check_1402_02 self segments)).
Proof.
  unfold _check_1402_02, known_severity. cbv zeta.
  destruct (existsb _ _); [simpl; auto|].
  destruct (_ <? 10); simpl; auto.
Qed.

Lemma check_1402_03_severity self vague_found :
  known_severity (severity (_check_1402_03 self vague_found)).
Proof.
  unfold _check_1402_03, known_severity. cbv zeta.
  destruct (filter _ vague_found); [|simpl; auto].
  destruct (filter _ vague_found); simpl; auto.
Qed.

Lemma check_1402_05_severity self : known_severity (severity (_check_1402_05 self)).
Proof.
  unfold _check_1402_05, known_severity. cbv zeta.
  destruct (p1 self) as [ctx|]; [|simpl; auto].
  destruct (has_pillar1_class_error ctx); [simpl; auto|].
  destruct (filing_basis ctx =? "1(b)")%string; [simpl; auto|].
  destruct (negb _); [simpl; auto|].
  destruct (_ && _); simpl; auto.
Qed.

Lemma check_1402_09_severity self : known_severity (severity (_check_1402_09 self)).
Proof.
  unfold _check_1402_09, known_severity. cbv zeta.
  destruct (filter _ _); simpl; auto.
Qed.

Lemma check_1402_10_severity self : known_severity (severity (_check_1402_10 self)).
Proof.
  unfold _check_1402_10, known_severity. cbv zeta.
  destruct (negb _); [simpl; auto|].
  destruct (map _ _); simpl; auto.
Qed.

Lemma check_1402_11_severity self : known_severity (severity (_check_1402_11 self)).
Proof.
  unfold _check_1402_11, known_severity. cbv zeta.
  destruct (negb _); [simpl; auto|].
  destruct (existsb _ internal_patterns); [simpl; auto|].
  destruct (negb _); simpl; auto.
Qed.

Lemma check_1402_12_severity self issues :
  known_severity (severity (_check_1402_12 self issues)).
Proof.
  unfold _check_1402_12, known_severity. cbv zeta.
  destruct (filter _ issues); simpl; auto.
Qed.

(** C3. The result of [evaluate] carries the findings of the eight
    sub-section checks, each of one of the four severities, and its
    [is_definite] flag is the test that the number of ERROR findings among
    them is 0.  So the flag is false exactly when one of the eight findings
    is an ERROR: a WARNING finding never makes it false. *)
Theorem evaluate_is_definite_iff_no_error :
  forall (identification_text : string) (pillar1_context : option Pillar1ClassContext),
    let self := lens identification_text pillar1_context in
    let result := evaluate self in
    subsection_findings result
    = run_checks self (extract_candidate_goods self) (detect_vague_terms self)
                 (detect_structural_issues self)
    /\ List.length (subsection_findings result) = 8%nat
    /\ Forall (fun f => known_severity (severity f)) (subsection_findings result)
    /\ is_definite result
       = (count_severity "ERROR" (subsection_findings result) =? 0)
    /\ (is_definite result = true
        <-> Forall (fun f => severity f <> "ERROR") (subsection_findings result))
    /\ (is_definite result = false
        <-> exists f, In f (subsection_findings result) /\ severity f = "ERROR").
Proof.
  intros identification_text pillar1_context self result.
  assert (Hfindings :
            subsection_findings result
            = run_checks self (extract_candidate_goods self) (detect_vague_terms self)
                         (detect_structural_issues self)).
  { unfold result, evaluate. cbv zeta. cbn [subsection_findings]. reflexivity. }
  assert (Hdef : is_definite result
                 = (count_severity "ERROR" (subsection_findings result) =? 0)).
  { rewrite Hfindings. unfold result, evaluate. cbv zeta. cbn [is_definite].
    reflexivity. }
  split; [exact Hfindings|]. split; [now rewrite Hfindings|]. split.
  - rewrite Hfindings. unfold run_checks.
    repeat (apply Forall_cons;
            [first [ apply check_1402_01_severity | apply check_1402_02_severity
                   | apply check_1402_03_severity | apply check_1402_05_severity
                   | apply check_1402_09_severity | apply check_1402_10_severity
                   | apply check_1402_11_severity | apply check_1402_12_severity ]|]).
    apply Forall_nil.
  - split; [exact Hdef|]. split.
    + rewrite Hdef. apply count_severity_zero.
    + rewrite Hdef. split.
      * intros Hfalse.
        destruct (Exists_dec (fun f => severity f = "ERROR") (subsection_findings result))
          as [Hex|Hno].
        { intros f. apply string_dec. }
        { apply Exists_exists in Hex. exact Hex. }
        { exfalso.
          assert (Hall : (count_severity "ERROR" (subsection_findings result) =? 0)
                         = true).
          { apply count_severity_zero. apply Forall_forall. intros f Hin Hsev.
            apply Hno. apply Exists_exists. eauto. }
          congruence. }
      * intros (f & Hin & Hsev).
        apply not_true_is_false. intros Htrue.
        apply count_severity_zero in Htrue.
        rewrite Forall_forall in Htrue. exact (Htrue f Hin Hsev).
Qed.

(* Vague terms. *)

Lemma vague_step_keeps self found term t :
  In t found -> In t (vague_step self found term).
Proof.
  intros H. unfold vague_step. cbv zeta.
  destruct (_ && _); [|exact H].
  destruct (term =? "services")%string;
    [destruct (negb _)|]; try exact H; apply in_or_app; now left.
Qed.

Lemma vague_step_finds self found t :
  t <> "services" ->
  search true (vague_pattern t) (text self) = true ->
  In t (vague_step self found t).
Proof.
  intros Hservices Hsearch. unfold vague_step. cbv zeta. rewrite Hsearch.
  destruct (mem t found) eqn:Hmem; simpl.
  - now apply mem_In.
  - apply String.eqb_neq in Hservices. rewrite Hservices.
    apply in_or_app. right. now left.
Qed.

Lemma vague_loop_finds self t terms :
  t <> "services" ->
  search true (vague_pattern t) (text self) = true ->
  forall found,
    In t found \/ In t terms ->
    In t (fold_left (vague_step self) terms found).
Proof.
  intros Hservices Hsearch.
  induction terms as [|term terms IH]; intros found H; simpl.
  - destruct H as [H|[]]. exact H.
  - apply IH. destruct H as [H|[H|H]].
    + left. now apply vague_step_keeps.
    + left. subst term. now apply vague_step_finds.
    + now right.
Qed.

(** A term of the vocabulary, other than "services", that the text shows
    as a word is among the vague terms detected. *)
Lemma detect_vague_terms_finds self t :
  In t VAGUE_TERMS ->
  t <> "services" ->
  search true (vague_pattern t) (text self) = true ->
  In t (detect_vague_terms self).
Proof.
  intros Hin Hservices Hsearch. unfold detect_vague_terms.
  apply vague_loop_finds; auto.
Qed.

(** A severe term among the vague terms makes §1402.03 an ERROR. *)
Lemma check_1402_03_severe self vague_found t :
  In t severe_vague_terms -> In t vague_found ->
  severity (_check_1402_03 self vague_found) = "ERROR".
Proof.
  intros Hsevere Hfound. unfold _check_1402_03. cbv zeta.
  assert (Hin : In t (filter (fun t => mem t severe_vague_terms) vague_found)).
  { apply filter_In. split; [assumption|now apply mem_In]. }
  destruct (filter (fun t => mem t severe_vague_terms) vague_found);
    [destruct Hin|reflexivity].
Qed.

(** A severe term added as a word at the end of a text is found there. *)
Lemma severe_term_appended_is_found text t :
  In t severe_vague_terms ->
  search true (vague_pattern t) (with_word_appended text t) = true.
Proof.
  intros Hin. unfold with_word_appended.
  apply ReFacts.search_appended_word.
  unfold severe_vague_terms in Hin.
  repeat (destruct Hin as [Hin|Hin]; [subst t; vm_compute; reflexivity|]).
  destruct Hin.
Qed.

(** Whatever the text and the context, [evaluate] is not definite once a
    severe term stands as a word at the end of the text. *)
Lemma severe_term_appended_not_definite text pillar1_context t :
  In t severe_vague_terms ->
  is_definite (evaluate (lens (with_word_appended text t) pillar1_context)) = false.
Proof.
  intros Hsevere.
  set (self := lens (with_word_appended text t) pillar1_context).
  assert (Hvocabulary : In t VAGUE_TERMS /\ t <> "services").
  { unfold severe_vague_terms in Hsevere.
    repeat (destruct Hsevere as [Hsevere|Hsevere];
            [subst t; split; [unfold VAGUE_TERMS; simpl; tauto|discriminate]|]).
    destruct Hsevere. }
  destruct Hvocabulary as [Hvague Hservices].
  assert (Hfound : In t (detect_vague_terms self)).
  { apply detect_vague_terms_finds; auto.
    apply (severe_term_appended_is_found text t Hsevere). }
  assert (Herror : severity (_check_1402_03 self (detect_vague_terms self)) = "ERROR")
    by (eapply check_1402_03_severe; eauto).
  apply not_true_is_false. intros Hdefinite.
  assert (Hnone : Forall (fun f => severity f <> "ERROR")
                         (run_checks self (extract_candidate_goods self)
                                     (detect_vague_terms self)
                                     (detect_structural_issues self))).
  { apply count_severity_zero. exact Hdefinite. }
  unfold run_checks in Hnone.
  inversion Hnone as [|? ? _ H2]; subst.
  inversion H2 as [|? ? _ H3]; subst.
  inversion H3 as [|? ? H03 _]; subst.
  exact (H03 Herror).
Qed.

(** C6. For every identification text whose evaluation is definite, and
    for every term of the severe subset ("miscellaneous", "various",
    "all types", "any", "and the like", "etc", "etc."), the text with that
    term appended as a separate word evaluates as not definite. *)
Theorem appending_severe_term_flips_is_definite :
  forall (identification_text : string) (pillar1_context : option Pillar1ClassContext)
         (term : string),
    In term severe_vague_terms ->
    is_definite (evaluate (lens identification_text pillar1_context)) = true ->
    is_definite
      (evaluate (lens (with_word_appended identification_text term) pillar1_context))
    = false.
Proof.
  intros identification_text pillar1_context term Hsevere _.
  now apply severe_term_appended_not_definite.
Qed.

(** The theorem at "Downloadable software for financial management" and
    "miscellaneous". *)
Lemma appending_severe_term_witness :
  In "miscellaneous" severe_vague_terms
  /\ is_definite
       (evaluate (lens "Downloadable software for financial management" None)) = true
  /\ is_definite
       (evaluate
          (lens (with_word_appended "Downloadable software for financial management"
                                    "miscellaneous")
                None))
     = false.
Proof.
  assert (H1 : In "miscellaneous" severe_vague_terms) by (left; reflexivity).
  assert (H2 : is_definite
                 (evaluate (lens "Downloadable software for financial management" None))
               = true) by (vm_compute; reflexivity).
  split; [exact H1|]. split; [exact H2|].
  exact (appending_severe_term_flips_is_definite
           "Downloadable software for financial management" None "miscellaneous" H1 H2).
Defined.


(* --------------------------------------------------------------------- *)
(** ** What decides definiteness *)

Lemma is_definite_evaluate self :
  is_definite (evaluate self)
  = (count_severity "ERROR"
       (run_checks self (extract_candidate_goods self) (detect_vague_terms self)
                   (detect_structural_issues self)) =? 0).
Proof. unfold evaluate. cbv zeta. cbn [is_definite]. reflexivity. Qed.

Lemma subsection_findings_evaluate self :
  subsection_findings (evaluate self)
  = run_checks self (extract_candidate_goods self) (detect_vague_terms self)
               (detect_structural_issues self).
Proof. unfold evaluate. cbv zeta. cbn [subsection_findings]. reflexivity. Qed.

(** One ERROR among the eight findings and the identification is not
    definite. *)
Lemma not_definite_of_error self f :
  In f (run_checks self (extract_candidate_goods self) (detect_vague_terms self)
                   (detect_structural_issues self)) ->
  severity f = "ERROR" ->
  is_definite (evaluate self) = false.
Proof.
  intros Hin Hsev. rewrite is_definite_evaluate.
  apply not_true_is_false. intros H. apply count_severity_zero in H.
  rewrite Forall_forall in H. exact (H f Hin Hsev).
Qed.

Lemma run_checks_known_severity self a b c :
  Forall (fun f => known_severity (severity f)) (run_checks self a b c).
Proof.
  unfold run_checks.
  repeat (apply Forall_cons;
          [first [ apply check_1402_01_severity | apply check_1402_02_severity
                 | apply check_1402_03_severity | apply check_1402_05_severity
                 | apply check_1402_09_severity | apply check_1402_10_severity
                 | apply check_1402_11_severity | apply check_1402_12_severity ]|]).
  apply Forall_nil.
Qed.

(** Findings of the four severities: the four counts add up to the number
    of findings. *)
Lemma count_severity_partition findings :
  Forall (fun f => known_severity (severity f)) findings ->
  count_severity "ERROR" findings + count_severity "WARNING" findings
  + count_severity "INFO" findings + count_severity "OK" findings
  = Z.of_nat (List.length findings).
Proof.
  unfold count_severity. induction 1 as [|f l Hf _ IH]; [reflexivity|].
  cbn [filter List.length].
  destruct Hf as [H|[H|[H|H]]]; rewrite H; cbn [String.eqb Ascii.eqb Bool.eqb];
    cbn [List.length]; lia.
Qed.

(** X6. The summary that [analyze_identification_under_tmep_1402] returns
    counts the eight findings of the evaluation of the text as filed: the
    numbers of ERROR, WARNING, INFO and OK findings add up to
    [total_findings], which is 8, and [is_definite] in the summary is the
    flag of the analysis, true exactly when [errors] is 0.  The text comes
    back verbatim. *)
Theorem analysis_summary_counts_the_eight_findings :
  forall (identification_text : string) (pillar1_context : option Pillar1ClassContext),
    let out := analyze_identification_under_tmep_1402 identification_text
                                                       pillar1_context in
    let summary := Analysis.summary out in
    Analysis.verbatim_text out = identification_text
    /\ Analysis.tmep_1402_analysis out
       = evaluate (lens identification_text pillar1_context)
    /\ Summary.total_findings summary = 8
    /\ Summary.errors summary + Summary.warnings summary
       + Summary.info summary + Summary.ok summary
       = Summary.total_findings summary
    /\ Summary.is_definite summary
       = is_definite (Analysis.tmep_1402_analysis out)
    /\ (Summary.is_definite summary = true <-> Summary.errors summary = 0).
Proof.
  intros identification_text pillar1_context out summary.
  unfold summary, out, analyze_identification_under_tmep_1402, get_verbatim.
  cbv zeta.
  cbn [Analysis.verbatim_text Analysis.tmep_1402_analysis Analysis.summary
       Summary.total_findings Summary.errors Summary.warnings Summary.info
       Summary.ok Summary.is_definite original_text].
  split; [reflexivity|]. split; [reflexivity|].
  rewrite subsection_findings_evaluate.
  split; [reflexivity|]. split.
  - apply count_severity_partition, run_checks_known_severity.
  - split; [reflexivity|]. rewrite is_definite_evaluate. apply Z.eqb_eq.
Qed.

Lemma check_1402_05_not_error self : severity (_check_1402_05 self) <> "ERROR".
Proof.
  unfold _check_1402_05. cbv zeta.
  destruct (p1 self) as [ctx|]; [|simpl; discriminate].
  destruct (has_pillar1_class_error ctx); [simpl; discriminate|].
  destruct (filing_basis ctx =? "1(b)")%string; [simpl; discriminate|].
  destruct (negb _); [simpl; discriminate|].
  destruct (_ && _); simpl; discriminate.
Qed.

Lemma check_1402_10_not_error self : severity (_check_1402_10 self) <> "ERROR".
Proof.
  unfold _check_1402_10. cbv zeta.
  destruct (negb _); [simpl; discriminate|].
  destruct (map _ _); simpl; discriminate.
Qed.

(** X7. The accuracy check against the specimen (§1402.05) and the
    intent-to-use check (§1402.10) never return an ERROR, whatever the text
    and the Pillar 1 context: a Pillar 1 class error, a low overlap with the
    specimen or future-tense wording can only warn.  So the identification
    is definite exactly when none of the other six checks returns ERROR. *)
Theorem accuracy_and_intent_checks_never_block :
  forall (identification_text : string) (pillar1_context : option Pillar1ClassContext),
    let self := lens identification_text pillar1_context in
    severity (_check_1402_05 self) <> "ERROR"
    /\ severity (_check_1402_10 self) <> "ERROR"
    /\ (is_definite (evaluate self) = true
        <-> severity (_check_1402_01 self (extract_candidate_goods self)) <> "ERROR"
            /\ severity (_check_1402_02 self (extract_candidate_goods self)) <> "ERROR"
            /\ severity (_check_1402_03 self (detect_vague_terms self)) <> "ERROR"
            /\ severity (_check_1402_09 self) <> "ERROR"
            /\ severity (_check_1402_11 self) <> "ERROR"
            /\ severity (_check_1402_12 self (detect_structural_issues self)) <> "ERROR").
Proof.
  intros identification_text pillar1_context self.
  split; [apply check_1402_05_not_error|]. split; [apply check_1402_10_not_error|].
  rewrite is_definite_evaluate, count_severity_zero. unfold run_checks. split.
  - intros H.
    inversion H as [|? ? H1 H']; subst. inversion H' as [|? ? H2 H'']; subst.
    inversion H'' as [|? ? H3 H4']; subst. inversion H4' as [|? ? _ H5']; subst.
    inversion H5' as [|? ? H9 H6']; subst. inversion H6' as [|? ? _ H7']; subst.
    inversion H7' as [|? ? H11 H8']; subst. inversion H8' as [|? ? H12 _]; subst.
    tauto.
  - intros (H1 & H2 & H3 & H9 & H11 & H12).
    repeat (apply Forall_cons; [first [assumption
                                      | apply check_1402_05_not_error
                                      | apply check_1402_10_not_error]|]).
    apply Forall_nil.
Qed.




Lemma search_from_class ignorecase p prev s :
  search_from ignorecase (Class p) prev s = any_char p s.
Proof.
  revert prev. induction s as [|c s IH]; intros prev; [reflexivity|].
  cbn [search_from any_char]. rewrite IH.
  unfold matches_here. cbn [exec]. destruct (p c); reflexivity.
Qed.

(** X9. The bracket check (§1402.12) returns an ERROR exactly when the text
    holds one of the characters ( ) [ ] { }; then the identification is not
    definite.  The other structural issue, more than three "and", is never
    an ERROR of this check. *)
Theorem brackets_and_only_brackets_fail_1402_12 :
  forall (identification_text : string) (pillar1_context : option Pillar1ClassContext),
    let self := lens identification_text pillar1_context in
    (severity (_check_1402_12 self (detect_structural_issues self)) = "ERROR"
     <-> any_char is_bracket identification_text = true)
    /\ (any_char is_bracket identification_text = true ->
        is_definite (evaluate self) = false).
Proof.
  intros identification_text pillar1_context self.
  assert (Hiff : severity (_check_1402_12 self (detect_structural_issues self))
                 = "ERROR"
                 <-> any_char is_bracket identification_text = true).
  { unfold _check_1402_12, detect_structural_issues. cbv zeta.
    unfold search. rewrite search_from_class.
    change (text self) with identification_text.
    destruct (any_char is_bracket identification_text);
      destruct (_ >? 3); cbn; split; intros H; try reflexivity; discriminate. }
  split; [exact Hiff|].
  intros H. apply Hiff in H.
  refine (not_definite_of_error self _ _ H).
  unfold run_checks. do 7 right. left. reflexivity.
Qed.


(* --------------------------------------------------------------------- *)
(** ** The candidate goods *)

Lemma split_on_not_nil sep s : split_on sep s <> [].
Proof.
  destruct s as [|c s]; simpl; [discriminate|].
  destruct (Ascii.eqb c sep); [discriminate|].
  destruct (split_on sep s); discriminate.
Qed.

(** The pieces between the separators hold no separator. *)
Lemma split_on_pieces sep s :
  Forall (fun t => any_char (fun c => Ascii.eqb c sep) t = false) (split_on sep s).
Proof.
  induction s as [|c s IH]; simpl; [repeat constructor|].
  destruct (Ascii.eqb c sep) eqn:E; [constructor; [reflexivity|exact IH]|].
  destruct (split_on sep s) as [|w ws]; [repeat constructor; simpl; now rewrite E|].
  inversion IH as [|? ? Hw Hws]; subst.
  constructor; [|exact Hws]. simpl. now rewrite E, Hw.
Qed.

Lemma split_on_blank s :
  Forall (fun t => blank t = true) (split_on ";" s)
  <-> all_chars is_separator s = true.
Proof.
  unfold blank, is_separator. induction s as [|c s IH]; simpl.
  - split; [reflexivity|repeat constructor].
  - destruct (Ascii.eqb c ";") eqn:E.
    + rewrite orb_true_r. simpl. rewrite <- IH. split.
      * intros H. now inversion H.
      * intros H. now constructor.
    + rewrite orb_false_r. pose proof (split_on_not_nil ";" s) as Hne.
      destruct (split_on ";" s) as [|w ws]; [contradiction|].
      rewrite andb_true_iff, <- IH. split.
      * intros H. inversion H as [|? ? Hcw Hws]; subst. simpl in Hcw.
        apply andb_true_iff in Hcw as [Hc Hw]. split; [exact Hc|now constructor].
      * intros [Hc H]. inversion H as [|? ? Hw Hws]; subst.
        constructor; [|exact Hws]. simpl. now rewrite Hc, Hw.
Qed.

Lemma any_char_lstrip p s :
  any_char p s = false -> any_char p (lstrip s) = false.
Proof.
  induction s as [|c s IH]; simpl; [reflexivity|].
  intros H. apply orb_false_iff in H as [Hc Hs].
  destruct (isspace c); [now apply IH|]. simpl. now rewrite Hc, Hs.
Qed.

Lemma any_char_rstrip p s :
  any_char p s = false -> any_char p (rstrip s) = false.
Proof.
  induction s as [|c s IH]; simpl; [reflexivity|].
  intros H. apply orb_false_iff in H as [Hc Hs]. specialize (IH Hs).
  destruct (rstrip s).
  - destruct (isspace c); simpl; [reflexivity|now rewrite Hc].
  - simpl. simpl in IH. now rewrite Hc, IH.
Qed.

Lemma truthy_not_empty s : truthy s = true <-> s <> "".
Proof. destruct s; simpl; split; congruence. Qed.

Lemma filter_nil_iff {A} (p : A -> bool) l :
  filter p l = [] <-> Forall (fun x => p x = false) l.
Proof.
  induction l as [|x l IH]; simpl; [split; constructor|].
  destruct (p x) eqn:E.
  - split; [discriminate|]. intros H. inversion H. congruence.
  - rewrite IH. split; [now constructor|intros H; now inversion H].
Qed.

(** X10. [extract_candidate_goods] returns the pieces of the text between
    semicolons that are not blank, trimmed: no piece is empty, none has
    white space at either end and none holds a semicolon.  It returns
    nothing exactly when the text is made of semicolons and white space
    only (the empty text among them); then the specificity check (§1402.01)
    is an ERROR and the identification is not definite, and in no other
    case is §1402.01 an ERROR. *)
Theorem candidate_goods_are_the_trimmed_nonblank_pieces :
  forall (identification_text : string) (pillar1_context : option Pillar1ClassContext),
    let self := lens identification_text pillar1_context in
    let segments := extract_candidate_goods self in
    Forall (fun seg => seg <> ""
                       /\ strip seg = seg
                       /\ any_char (fun c => Ascii.eqb c ";") seg = false)
           segments
    /\ (segments = [] <-> all_chars is_separator identification_text = true)
    /\ (severity (_check_1402_01 self segments) = "ERROR" <-> segments = [])
    /\ (segments = [] -> is_definite (evaluate self) = false).
Proof.
  intros identification_text pillar1_context self segments.
  unfold segments, extract_candidate_goods. cbv zeta.
  change (text self) with identification_text.
  split; [|split; [|split]].
  - apply Forall_forall. intros seg Hin.
    apply in_map_iff in Hin as (t & Hseg & Hin). subst seg.
    apply filter_In in Hin as [Hin Htruthy].
    split; [now apply truthy_not_empty|]. split; [apply PyStrFacts.strip_idem|].
    pose proof (split_on_pieces ";" identification_text) as Hpieces.
    rewrite Forall_forall in Hpieces. specialize (Hpieces t Hin).
    unfold strip. now apply any_char_rstrip, any_char_lstrip.
  - rewrite <- split_on_blank. split.
    + intros H. apply map_eq_nil in H. apply filter_nil_iff in H.
      eapply Forall_impl; [|exact H]. intros t Ht. cbv beta in Ht.
      apply PyStrFacts.strip_blank. destruct (strip t); [reflexivity|discriminate].
    + intros H.
      assert (Hnil : filter (fun seg => truthy (strip seg))
                            (split_on ";" identification_text) = []).
      { apply filter_nil_iff. eapply Forall_impl; [|exact H].
        intros t Ht. cbv beta in Ht. apply PyStrFacts.strip_blank in Ht.
        now rewrite Ht. }
      now rewrite Hnil.
  - unfold _check_1402_01.
    destruct (map strip _); cbn; split; intros H; try reflexivity; discriminate.
  - intros Hnil.
    refine (not_definite_of_error self _ (or_introl eq_refl) _).
    unfold extract_candidate_goods. cbv zeta.
    change (text self) with identification_text. now rewrite Hnil.
Qed.


(* --------------------------------------------------------------------- *)
(** ** When an identification is definite *)










(* --------------------------------------------------------------------- *)
(** ** The context built from Pillar 1 *)

Lemma filter_twice {A} (p q : A -> bool) l :
  filter p (filter q l) = filter (fun x => p x && q x) l.
Proof.
  induction l as [|x l IH]; simpl; [reflexivity|].
  destruct (q x); simpl; rewrite ?andb_true_r, ?andb_false_r;
    [destruct (p x)|]; now rewrite IH.
Qed.

Lemma length_filter_pos {A} (p : A -> bool) l :
  (Z.of_nat (List.length (filter p l)) >? 0) = existsb p l.
Proof.
  induction l as [|x l IH]; [reflexivity|].
  cbn [filter existsb]. destruct (p x); cbn [List.length orb]; [|exact IH].
  rewrite Nat2Z.inj_succ. apply Z.gtb_lt. lia.
Qed.

(** X24. The Pillar 1 context that Pillar 2 builds for a class has the
    title and the category of the class in the Nice table (both empty for a
    number that is no Nice class), and it says that Pillar 1 flagged an
    error exactly when a Pillar 1 finding about the class, or about the
    application as a whole (class 0), is an ERROR.  With this context the
    services check (§1402.11) treats the class as a services class exactly
    for the numbers 35 to 45, whatever the text says, and the accuracy
    check (§1402.05) is deferred with a WARNING whenever Pillar 1 flagged
    such an error. *)
Theorem pillar1_context_carries_class_and_errors :
  forall (class_entry_dict : ClassData.ClassEntryDict.t)
         (pillar1_findings : list Pillar1.AssessmentFinding.t)
         (identification_text : string),
    let ctx := build_pillar1_context_from_dicts class_entry_dict pillar1_findings in
    let n := class_number ctx in
    let self := lens identification_text (Some ctx) in
    n = ClassData.get_or (ClassData.ClassEntryDict.class_number class_entry_dict) 0
    /\ class_category ctx
       = (if (1 <=? n) && (n <=? 34) then "GOODS"
          else if (35 <=? n) && (n <=? 45) then "SERVICES"
          else "")
    /\ has_pillar1_class_error ctx
       = existsb (ClassData.p1_error_for n) pillar1_findings
    /\ is_services self = (35 <=? n) && (n <=? 45)
    /\ (has_pillar1_class_error ctx = true ->
        severity (_check_1402_05 self) = "WARNING").
Proof.
  intros class_entry_dict pillar1_findings identification_text ctx n self.
  set (k := ClassData.get_or (ClassData.ClassEntryDict.class_number class_entry_dict) 0).
  assert (Hn : n = k).
  { subst n ctx. unfold build_pillar1_context_from_dicts. cbv zeta. fold k.
    now destruct (NiceDb.get_class_info k). }
  assert (Hcat : class_category ctx
                 = (if (1 <=? n) && (n <=? 34) then "GOODS"
                    else if (35 <=? n) && (n <=? 45) then "SERVICES"
                    else "")).
  { rewrite Hn. subst ctx. unfold build_pillar1_context_from_dicts. cbv zeta. fold k.
    destruct (NiceDb.get_class_info k) as [info|] eqn:E; cbn [class_category].
    - rewrite (NiceDbFacts.class_category_by_number _ _ E).
      assert (Hin : In k NiceDb.VALID_CLASS_NUMBERS).
      { rewrite <- NiceDbFacts.NICE_CLASSES_keys. apply in_map_iff.
        exists (k, info). split; [reflexivity|].
        now apply NiceDbFacts.dict_get_Some_In. }
      apply NiceDbFacts.valid_class_numbers_range in Hin.
      destruct (k <=? 34) eqn:E34.
      + apply Z.leb_le in E34.
        replace (1 <=? k) with true by (symmetry; apply Z.leb_le; lia).
        reflexivity.
      + apply Z.leb_gt in E34. rewrite andb_false_r.
        replace (35 <=? k) with true by (symmetry; apply Z.leb_le; lia).
        replace (k <=? 45) with true by (symmetry; apply Z.leb_le; lia).
        reflexivity.
    - unfold NiceDb.get_class_info in E. apply NiceDbFacts.dict_get_None in E.
      rewrite NiceDbFacts.NICE_CLASSES_keys in E.
      rewrite NiceDbFacts.valid_class_numbers_range in E.
      destruct ((1 <=? k) && (k <=? 34)) eqn:E1.
      { apply andb_true_iff in E1 as [H1 H2]. apply Z.leb_le in H1, H2. lia. }
      destruct ((35 <=? k) && (k <=? 45)) eqn:E2; [|reflexivity].
      apply andb_true_iff in E2 as [H1 H2]. apply Z.leb_le in H1, H2. lia. }
  assert (Herr : has_pillar1_class_error ctx
                 = existsb (ClassData.p1_error_for n) pillar1_findings).
  { rewrite Hn. subst ctx. unfold build_pillar1_context_from_dicts. cbv zeta. fold k.
    destruct (NiceDb.get_class_info k); cbn [has_pillar1_class_error];
      rewrite filter_twice;
      change (fun x => (Pillar1.AssessmentFinding.severity x =? "ERROR")%string
                       && ((Pillar1.AssessmentFinding.class_number x =? k)
                           || (Pillar1.AssessmentFinding.class_number x =? 0)))
        with (ClassData.p1_error_for k);
      apply length_filter_pos. }
  split; [exact Hn|]. split; [exact Hcat|]. split; [exact Herr|]. split.
  - unfold is_services. subst self. cbn [p1 lens]. rewrite Hcat.
    destruct ((1 <=? n) && (n <=? 34)) eqn:E1.
    + apply andb_true_iff in E1 as [H1 H2]. apply Z.leb_le in H1, H2.
      replace (35 <=? n) with false by (symmetry; apply Z.leb_gt; lia).
      reflexivity.
    + now destruct ((35 <=? n) && (n <=? 45)).
  - intros Hflag. unfold _check_1402_05. subst self. cbn [p1 lens].
    rewrite Hflag. reflexivity.
Qed.

End Pillar2Facts.

(* ===================================================================== *)
(** * Calls that return normally *)
(* ===================================================================== *)

Module PyFacts.
Import Py.
Local Open Scope py_scope.

Section Wp.
Context {St : Type}.

Lemma wp_elim {A} (m : M St A) Q s :
  wp m Q s -> exists a s', m s = (Return a, s') /\ Q a s'.
Proof.
  unfold wp. destruct (m s) as [[a|e] s']; [eauto|contradiction].
Qed.

Lemma wp_intro {A} (m : M St A) (Q : A -> St -> Prop) s a s' :
  m s = (Return a, s') -> Q a s' -> wp m Q s.
Proof. intros H HQ. unfold wp. now rewrite H. Qed.

Lemma wp_mono {A} (m : M St A) (Q Q' : A -> St -> Prop) s :
  (forall a s', Q a s' -> Q' a s') -> wp m Q s -> wp m Q' s.
Proof.
  unfold wp. intros H. destruct (m s) as [[a|e] s']; [apply H|exact (fun f => f)].
Qed.

Lemma wp_bind {A B} (m : M St A) (k : A -> M St B) Q s :
  wp m (fun a s' => wp (k a) Q s') s -> wp (bind m k) Q s.
Proof.
  unfold wp, bind. destruct (m s) as [[a|e] s']; [exact (fun f => f)|contradiction].
Qed.

(** A call that always returns, followed by [k]. *)
Lemma wp_bind_returns {A B} (m : M St A) (k : A -> M St B) Q s :
  returns m -> (forall a s', wp (k a) Q s') -> wp (bind m k) Q s.
Proof.
  intros Hm Hk. apply wp_bind. apply (wp_mono m (fun _ _ => True)); [|apply Hm].
  intros a s' _. apply Hk.
Qed.

Lemma returns_ret {A} (a : A) : returns (ret a : M St A).
Proof. intros s. exact I. Qed.

Lemma returns_gets {A} (f : St -> A) : returns (gets f).
Proof. intros s. exact I. Qed.

Lemma returns_modify (f : St -> St) : returns (modify f).
Proof. intros s. exact I. Qed.

Lemma returns_bind {A B} (m : M St A) (k : A -> M St B) :
  returns m -> (forall a, returns (k a)) -> returns (bind m k).
Proof.
  intros Hm Hk s. apply wp_bind_returns; [exact Hm|]. intros a s'. apply Hk.
Qed.

Lemma returns_when c (body : M St unit) : returns body -> returns (when c body).
Proof. intros H. destruct c; [exact H|apply returns_ret]. Qed.

Lemma returns_for_each {A B} (l : list A) (body : B -> A -> M St B) :
  (forall acc x, returns (body acc x)) ->
  forall acc, returns (for_each l acc body).
Proof.
  intros Hbody. induction l as [|x l IH]; intros acc; simpl.
  - apply returns_ret.
  - apply returns_bind; [apply Hbody|intros; apply IH].
Qed.

End Wp.


Section Emits.
Context {St F : Type} `{FindingsLaws St F}.

Lemma appended_nil (s : St) : appended s [] = s.
Proof. unfold appended. rewrite app_nil_r. apply with_findings_of_same. Qed.

Lemma appended_app (s : St) (fs gs : list F) :
  appended (appended s fs) gs = appended s (fs ++ gs).
Proof.
  unfold appended. rewrite findings_of_with, with_findings_of_with.
  now rewrite app_assoc.
Qed.


Lemma emitsx_intro {A} (s : St) (m : M St A) Q R a fs :
  m s = (Return a, appended s fs) -> Q a fs -> emitsx s m Q R.
Proof. intros Hrun HQ. unfold emitsx, wpx. rewrite Hrun. eauto. Qed.

Lemma emits_elim {A} (s : St) (m : M St A) Q :
  emits s m Q -> exists a fs, m s = (Return a, appended s fs) /\ Q a fs.
Proof.
  unfold emits, emitsx, wpx. destruct (m s) as [[a|e] s'].
  - intros (fs & -> & HQ). eauto.
  - intros (fs & _ & []).
Qed.

Lemma emitsx_mono {A} (s : St) (m : M St A) (Q Q' : A -> list F -> Prop)
      (R R' : exn -> list F -> Prop) :
  (forall a fs, Q a fs -> Q' a fs) -> (forall e fs, R e fs -> R' e fs) ->
  emitsx s m Q R -> emitsx s m Q' R'.
Proof.
  unfold emitsx, wpx. intros HQ HR. destruct (m s) as [[a|e] s'];
    intros (fs & Hs & Hfs); exists fs; auto.
Qed.

Lemma emitsx_ret {A} (s : St) (a : A) (Q : A -> list F -> Prop) R :
  Q a [] -> emitsx s (ret a) Q R.
Proof. intros HQ. exists []. now rewrite appended_nil. Qed.

Lemma emitsx_raise {A} (s : St) e (Q : A -> list F -> Prop) (R : exn -> list F -> Prop) :
  R e [] -> emitsx s (raise e) Q R.
Proof. intros HR. exists []. now rewrite appended_nil. Qed.

Lemma emitsx_gets {A} (s : St) (f : St -> A) (Q : A -> list F -> Prop) R :
  Q (f s) [] -> emitsx s (gets f) Q R.
Proof. intros HQ. exists []. now rewrite appended_nil. Qed.

(** Reading the object: the code that follows runs with what was read. *)
Lemma emitsx_bind_gets {A B} (s : St) (f : St -> A) (k : A -> M St B) Q R :
  emitsx s (k (f s)) Q R -> emitsx s (bind (gets f) k) Q R.
Proof. exact (fun H => H). Qed.

(** Sequencing: what [m] appended, then what the code after it appends. *)
Lemma emitsx_bind {A B} (s : St) (m : M St A) (k : A -> M St B)
      (Q1 : A -> list F -> Prop) (Q : B -> list F -> Prop) R :
  emitsx s m Q1 R ->
  (forall a fs1, Q1 a fs1 ->
     emitsx (appended s fs1) (k a) (fun b fs2 => Q b (fs1 ++ fs2))
            (fun e fs2 => R e (fs1 ++ fs2))) ->
  emitsx s (bind m k) Q R.
Proof.
  unfold emitsx, wpx, bind. intros Hm Hk.
  destruct (m s) as [[a|e] s1].
  - destruct Hm as (fs1 & -> & HQ1). specialize (Hk a fs1 HQ1).
    destruct (k a (appended s fs1)) as [[b|e] s2];
      destruct Hk as (fs2 & -> & Hfs2); exists (fs1 ++ fs2);
      now rewrite appended_app.
  - exact Hm.
Qed.

Lemma emitsx_when (s : St) c (body : M St unit) (Q : unit -> list F -> Prop) R :
  (c = true -> emitsx s body Q R) -> (c = false -> Q tt []) ->
  emitsx s (when c body) Q R.
Proof.
  destruct c; simpl; intros Hb Hn; [now apply Hb|].
  apply emitsx_ret. now apply Hn.
Qed.

(** A loop under an invariant [I] on the items gone through, the local
    variables and the findings appended so far. *)
Lemma emitsx_for_each {A B} (body : B -> A -> M St B)
      (I : list A -> B -> list F -> Prop) (R : exn -> list F -> Prop) (l : list A) :
  forall (pre : list A) (s : St) (acc : B) (fs : list F),
    (forall pre' x post acc fs,
        pre ++ l = pre' ++ x :: post -> I pre' acc fs ->
        emitsx (appended s fs) (body acc x)
               (fun acc' fsx => I (pre' ++ [x]) acc' (fs ++ fsx))
               (fun e fsx => R e (fs ++ fsx))) ->
    I pre acc fs ->
    emitsx (appended s fs) (for_each l acc body)
           (fun acc' fsl => I (pre ++ l) acc' (fs ++ fsl))
           (fun e fsl => R e (fs ++ fsl)).
Proof.
  induction l as [|x l IH]; intros pre s acc fs Hbody HI.
  - simpl. apply emitsx_ret. now rewrite !app_nil_r.
  - simpl. eapply emitsx_bind.
    + apply (Hbody pre x l acc fs eq_refl HI).
    + intros acc1 fs1 HI1. cbv beta in HI1. rewrite appended_app.
      replace (pre ++ x :: l) with ((pre ++ [x]) ++ l)
        by (now rewrite <- app_assoc).
      eapply emitsx_mono;
        [| |apply (IH (pre ++ [x]) s acc1 (fs ++ fs1));
            [|exact HI1]].
      * intros a fs2 Hfs2. cbv beta in Hfs2. now rewrite app_assoc.
      * intros e fs2 Hfs2. cbv beta in Hfs2. now rewrite app_assoc.
      * intros pre' y post acc' fs' Heq. apply (Hbody pre' y post acc' fs').
        now rewrite <- app_assoc in Heq.
Qed.

(** The loop from the start. *)
Lemma emits_for_each {A B} (body : B -> A -> M St B)
      (I : list A -> B -> list F -> Prop) (l : list A) (s : St) (acc : B) :
  (forall pre x post acc fs,
      l = pre ++ x :: post -> I pre acc fs ->
      emits (appended s fs) (body acc x)
            (fun acc' fsx => I (pre ++ [x]) acc' (fs ++ fsx))) ->
  I [] acc [] ->
  emits s (for_each l acc body) (fun acc' fs => I l acc' fs).
Proof.
  intros Hbody HI. unfold emits.
  rewrite <- (appended_nil s).
  eapply emitsx_mono;
    [| |apply (emitsx_for_each body I (fun _ _ => False) l [] s acc [])].
  - intros a fs Hfs. exact Hfs.
  - intros e fs Hfs. exact Hfs.
  - intros pre x post acc' fs Heq HI'. apply (Hbody pre x post acc' fs); assumption.
  - exact HI.
Qed.

(** A handler for [e]: the findings of the body up to the exception stay. *)
Lemma emitsx_try_except {A} (s : St) (body handler : M St A) e
      (Q : A -> list F -> Prop) (Rb R : exn -> list F -> Prop) :
  emitsx s body Q Rb ->
  (forall e' fs1, Rb e' fs1 ->
     if exn_eqb e e'
     then emitsx (appended s fs1) handler (fun a fs2 => Q a (fs1 ++ fs2))
                 (fun e'' fs2 => R e'' (fs1 ++ fs2))
     else R e' fs1) ->
  emitsx s (try_except body e handler) Q R.
Proof.
  unfold emitsx, wpx, try_except. intros Hb Hh.
  destruct (body s) as [[a|e'] s1]; [exact Hb|].
  destruct Hb as (fs1 & -> & HRb). specialize (Hh e' fs1 HRb).
  destruct (exn_eqb e e'); [|eauto].
  destruct (handler (appended s fs1)) as [[a|e''] s2];
    destruct Hh as (fs2 & -> & Hfs2); exists (fs1 ++ fs2);
    now rewrite appended_app.
Qed.

(** *** Findings that all satisfy a predicate *)

Variable P : F -> Prop.

Lemma always_emits_at {A} (m : M St A) (s : St) :
  always_emits P m -> emits s m (fun _ fs => Forall P fs).
Proof. intros Hm. apply Hm. Qed.

Lemma always_emits_ret {A} (a : A) : always_emits P (ret a : M St A).
Proof. intros s. apply emitsx_ret. constructor. Qed.

Lemma always_emits_gets {A} (f : St -> A) : always_emits P (gets f).
Proof. intros s. apply emitsx_gets. constructor. Qed.

Lemma always_emits_bind {A B} (m : M St A) (k : A -> M St B) :
  always_emits P m -> (forall a, always_emits P (k a)) ->
  always_emits P (bind m k).
Proof.
  intros Hm Hk s. eapply emitsx_bind; [apply Hm|].
  intros a fs1 Hfs1. eapply emitsx_mono; [| |apply Hk].
  - intros b fs2 Hfs2. apply Forall_app. auto.
  - intros e fs2 [].
Qed.

Lemma always_emits_when c (body : M St unit) :
  always_emits P body -> always_emits P (when c body).
Proof. intros Hb. destruct c; [exact Hb|apply always_emits_ret]. Qed.

Lemma always_emits_for_each {A B} (l : list A) (body : B -> A -> M St B) :
  (forall acc x, In x l -> always_emits P (body acc x)) ->
  forall acc, always_emits P (for_each l acc body).
Proof.
  induction l as [|x l IH]; intros Hbody acc; simpl.
  - apply always_emits_ret.
  - apply always_emits_bind; [apply Hbody; now left|].
    intros acc'. apply IH. intros a y Hy. apply Hbody. now right.
Qed.

Lemma always_emits_for_break {A B} (l : list A) (body : B -> A -> M St (B * bool)) :
  (forall acc x, In x l -> always_emits P (body acc x)) ->
  forall acc, always_emits P (for_break l acc body).
Proof.
  induction l as [|x l IH]; intros Hbody acc; simpl.
  - apply always_emits_ret.
  - apply always_emits_bind; [apply Hbody; now left|].
    intros [acc' stop]; simpl. destruct stop; [apply always_emits_ret|].
    apply IH. intros a y Hy. apply Hbody. now right.
Qed.

(** Calls that may raise. *)

Lemma emits_or_raises_of_always {A} e (m : M St A) :
  always_emits P m -> emits_or_raises P e m.
Proof.
  intros Hm s. eapply emitsx_mono; [| |apply Hm].
  - intros a fs Hfs. exact Hfs.
  - intros e' fs [].
Qed.

Lemma emits_or_raises_bind {A B} e (m : M St A) (k : A -> M St B) :
  emits_or_raises P e m -> (forall a, emits_or_raises P e (k a)) ->
  emits_or_raises P e (bind m k).
Proof.
  intros Hm Hk s. eapply emitsx_bind; [apply Hm|].
  intros a fs1 Hfs1. eapply emitsx_mono; [| |apply Hk].
  - intros b fs2 Hfs2. apply Forall_app. auto.
  - intros e' fs2 [He Hfs2]. split; [exact He|]. apply Forall_app. auto.
Qed.

Lemma always_emits_try_except {A} e (body handler : M St A) :
  emits_or_raises P e body -> always_emits P handler ->
  always_emits P (try_except body e handler).
Proof.
  intros Hb Hh s. eapply emitsx_try_except; [apply Hb|].
  intros e' fs1 [-> Hfs1]. destruct e; simpl;
    (eapply emitsx_mono; [| |apply Hh];
     [intros a fs2 Hfs2; apply Forall_app; auto|intros e' fs2 []]).
Qed.

End Emits.

Section EmitsMore.
Context {St F : Type} `{FindingsLaws St F}.



Lemma emits_mono {A} (s : St) (m : M St A) (Q Q' : A -> list F -> Prop) :
  (forall a fs, Q a fs -> Q' a fs) -> emits s m Q -> emits s m Q'.
Proof. intros HQ. apply emitsx_mono; [exact HQ|auto]. Qed.

Lemma emits_bind {A B} (s : St) (m : M St A) (k : A -> M St B)
      (Q1 : A -> list F -> Prop) (Q : B -> list F -> Prop) :
  emits s m Q1 ->
  (forall a fs1, Q1 a fs1 ->
     emits (appended s fs1) (k a) (fun b fs2 => Q b (fs1 ++ fs2))) ->
  emits s (bind m k) Q.
Proof. intros Hm Hk. eapply emitsx_bind; [exact Hm|exact Hk]. Qed.

End EmitsMore.
End PyFacts.

(* ===================================================================== *)
(** * Pillar 3: the short circuit and the counts of the result *)
(* ===================================================================== *)

Module Pillar3Facts.
Import PyStr Py PyFacts ClassData Pillar3 Pillar3.Pillar3Finding.
Local Open Scope py_scope.

Lemma returns_findings_append f : returns (findings_append f).
Proof. apply returns_modify. Qed.

(** One step of a proof that a check returns: the combinator at the head
    of the goal, or a case split on what it branches on. *)
Ltac returns_step :=
  lazymatch goal with
  | |- returns (bind _ _) => apply returns_bind; [|intros]
  | |- returns (ret _) => apply returns_ret
  | |- returns (gets _) => apply returns_gets
  | |- returns (findings_append _) => apply returns_findings_append
  | |- returns (when _ _) => apply returns_when
  | |- returns (for_each _ _ _) => apply returns_for_each; intros
  | |- returns (if ?b then _ else _) => destruct b
  | |- returns (match ?x with _ => _ end) => destruct x
  end.

Ltac returns_auto := cbv zeta; repeat returns_step.

Lemma check_1403_01_returns : returns _check_1403_01_multi_class_requirements.
Proof. unfold _check_1403_01_multi_class_requirements. returns_auto. Qed.

Lemma check_1403_02_returns set_order :
  returns (_check_1403_02_amendment_review set_order).
Proof. unfold _check_1403_02_amendment_review. returns_auto. Qed.

Lemma check_1403_03_returns : returns _check_1403_03_division_eligibility.
Proof. unfold _check_1403_03_division_eligibility. returns_auto. Qed.

Lemma check_1403_04_returns : returns _check_1403_04_partial_refusals.
Proof. unfold _check_1403_04_partial_refusals. returns_auto. Qed.

Lemma check_1403_05_returns : returns _check_1403_05_post_filing_fees.
Proof. unfold _check_1403_05_post_filing_fees. returns_auto. Qed.

Lemma check_1403_06_returns set_order :
  returns (_check_1403_06_surrender_or_amendment set_order).
Proof. unfold _check_1403_06_surrender_or_amendment. returns_auto. Qed.


(** The generator sum counts the findings of the severity. *)
Lemma sum_severity_counts sev fs :
  sum_severity sev fs = Z.of_nat (List.length (with_severity sev fs)).
Proof.
  unfold sum_severity, with_severity.
  assert (H : forall total,
             fold_left (fun total f => if (severity f =? sev)%string
                                       then total + 1 else total) fs total
             = total + Z.of_nat (List.length
                                   (filter (fun f => (severity f =? sev)%string) fs))).
  { induction fs as [|f fs IH]; intros total; simpl; [lia|].
    rewrite IH. destruct (severity f =? sev)%string; simpl List.length; lia. }
  rewrite H. lia.
Qed.

Lemma no_finding_of_severity sev fs :
  with_severity sev fs = [] <-> Forall (fun f => severity f <> sev) fs.
Proof.
  unfold with_severity. induction fs as [|f fs IH]; simpl.
  - split; constructor.
  - destruct (severity f =? sev)%string eqn:E.
    + apply String.eqb_eq in E. split; [discriminate|].
      intros H. inversion H. contradiction.
    + apply String.eqb_neq in E. rewrite IH. split.
      * now constructor.
      * intros H. now inversion H.
Qed.

(** What [_build_result] returns, from any state. *)
Lemma build_result_run division_eligible refusal_classes refusal_reasons self :
  exists result,
    _build_result division_eligible refusal_classes refusal_reasons self
    = (Return result, self)
    /\ Pillar3AssessmentResult.findings result = findings self
    /\ Pillar3AssessmentResult.division_eligible_classes result = division_eligible
    /\ Pillar3AssessmentResult.partial_refusal_classes result = refusal_classes
    /\ Pillar3AssessmentResult.partial_refusal_reasons result = refusal_reasons
    /\ counts_agree result.
Proof.
  eexists. split; [reflexivity|]. cbn -[sum_severity].
  repeat (split; [reflexivity|]).
  unfold counts_agree. cbn -[sum_severity with_severity].
  rewrite !sum_severity_counts.
  split; [reflexivity|]. split; [reflexivity|].
  split; [apply Z.eqb_eq|].
  rewrite Z.eqb_eq, <- no_finding_of_severity.
  destruct (with_severity "ERROR" (findings self)); simpl List.length; split;
    intros H; try reflexivity; try discriminate; lia.
Qed.

Lemma wp_build_result division_eligible refusal_classes refusal_reasons self :
  wp (_build_result division_eligible refusal_classes refusal_reasons)
     (fun result self' =>
        Pillar3AssessmentResult.findings result = findings self'
        /\ counts_agree result)
     self.
Proof.
  destruct (build_result_run division_eligible refusal_classes refusal_reasons self)
    as (result & Hrun & Hfs & _ & _ & _ & Hcounts).
  now apply (wp_intro _ _ _ result self).
Qed.

(** C4. On an assessor whose classes carry fewer than two distinct class
    numbers (one class, one class listed several times, or no class at
    all), whatever the application context, the other fields of the classes
    and the findings left by an earlier run, [run_full_assessment] returns a
    result with exactly one finding; that finding has severity INFO and
    belongs to §1403 as a whole; the lists of division-eligible classes and
    of partial-refusal classes are empty, as are the refusal reasons; and
    the assessor keeps its classes and context and holds that one
    finding. *)
Theorem run_full_assessment_single_class_short_circuit :
  forall (set_order : list string -> list string) (self : Pillar3Assessor),
    unique_class_count (classes self) < 2 ->
    exists result f,
      run_full_assessment set_order self = (Return result, with_findings self [f])
      /\ Pillar3AssessmentResult.findings result = [f]
      /\ severity f = "INFO"
      /\ tmep_section f = "§1403"
      /\ class_number f = 0
      /\ Pillar3AssessmentResult.division_eligible_classes result = []
      /\ Pillar3AssessmentResult.division_recommended result = false
      /\ Pillar3AssessmentResult.partial_refusal_classes result = []
      /\ Pillar3AssessmentResult.partial_refusal_reasons result = []
      /\ Pillar3AssessmentResult.total_errors result = 0
      /\ Pillar3AssessmentResult.is_multi_class_compliant result = true.
Proof.
  intros set_order self Hfew.
  unfold unique_class_count in Hfew. apply Z.ltb_lt in Hfew.
  unfold run_full_assessment, findings_clear, bind at 1 2, modify, gets.
  cbv zeta. cbn [classes with_findings].
  rewrite Hfew.
  eexists. eexists. split; [reflexivity|].
  repeat split; reflexivity.
Qed.

(** The theorem at class 9 listed twice, with the default context. *)
Lemma run_full_assessment_single_class_witness :
  unique_class_count (classes sample_single_class) < 2
  /\ exists result f,
      run_full_assessment (fun l => l) sample_single_class
      = (Return result, with_findings sample_single_class [f])
      /\ Pillar3AssessmentResult.findings result = [f]
      /\ severity f = "INFO"
      /\ tmep_section f = "§1403"
      /\ class_number f = 0
      /\ Pillar3AssessmentResult.division_eligible_classes result = []
      /\ Pillar3AssessmentResult.division_recommended result = false
      /\ Pillar3AssessmentResult.partial_refusal_classes result = []
      /\ Pillar3AssessmentResult.partial_refusal_reasons result = []
      /\ Pillar3AssessmentResult.total_errors result = 0
      /\ Pillar3AssessmentResult.is_multi_class_compliant result = true.
Proof.
  assert (H : unique_class_count (classes sample_single_class) < 2)
    by (vm_compute; reflexivity).
  split; [exact H|].
  exact (run_full_assessment_single_class_short_circuit
           (fun l => l) sample_single_class H).
Defined.

(** C10. [run_full_assessment] returns a result from every assessor, and in
    that result [total_errors] is the number of findings with severity
    ERROR, [total_warnings] the number of findings with severity WARNING,
    and [is_multi_class_compliant] is true exactly when [total_errors] is 0,
    that is exactly when no finding has severity ERROR: findings of any
    other severity do not make the result non-compliant.  The findings of
    the result are those the assessor holds when the run ends. *)
Theorem run_full_assessment_counts_agree :
  forall (set_order : list string -> list string) (self : Pillar3Assessor),
    exists result self',
      run_full_assessment set_order self = (Return result, self')
      /\ Pillar3AssessmentResult.findings result = findings self'
      /\ Pillar3AssessmentResult.total_errors result
         = Z.of_nat (List.length
                       (with_severity "ERROR" (Pillar3AssessmentResult.findings result)))
      /\ Pillar3AssessmentResult.total_warnings result
         = Z.of_nat (List.length
                       (with_severity "WARNING" (Pillar3AssessmentResult.findings result)))
      /\ (Pillar3AssessmentResult.is_multi_class_compliant result = true
          <-> Pillar3AssessmentResult.total_errors result = 0)
      /\ (Pillar3AssessmentResult.is_multi_class_compliant result = true
          <-> Forall (fun f => severity f <> "ERROR")
                     (Pillar3AssessmentResult.findings result)).
Proof.
  intros set_order self.
  assert (H : wp (run_full_assessment set_order)
                 (fun result self' =>
                    Pillar3AssessmentResult.findings result = findings self'
                    /\ counts_agree result)
                 self).
  { unfold run_full_assessment.
    apply wp_bind_returns; [apply returns_modify|]. intros _ s1.
    apply wp_bind_returns; [apply returns_gets|]. intros self_classes s2.
    cbv zeta.
    destruct (Z.of_nat _ <? 2).
    - apply wp_bind_returns; [apply returns_findings_append|].
      intros _ s3. apply wp_build_result.
    - apply wp_bind_returns; [apply check_1403_01_returns|]. intros _ s3.
      apply wp_bind_returns; [apply check_1403_02_returns|].
      intros amendment_conflicts s4.
      apply wp_bind_returns; [apply check_1403_03_returns|].
      intros division_eligible s5.
      apply wp_bind_returns; [apply check_1403_04_returns|]. intros refused s6.
      apply wp_bind_returns; [apply check_1403_05_returns|]. intros _ s7.
      apply wp_bind_returns; [apply check_1403_06_returns|]. intros _ s8.
      apply wp_build_result. }
  apply wp_elim in H. destruct H as (result & self' & Hrun & Hfs & Hcounts).
  exists result, self'. split; [exact Hrun|]. split; [exact Hfs|].
  exact Hcounts.
Qed.


(* --------------------------------------------------------------------- *)
(** ** The checks only append, and what they append is well formed *)

#[export] Instance assessor_findings_laws :
  FindingsLaws Pillar3Assessor Pillar3Finding.t.
Proof. split; [reflexivity|reflexivity|intros []; reflexivity]. Qed.

Lemma classes_appended (s : Pillar3Assessor) fs : classes (appended s fs) = classes s.
Proof. reflexivity. Qed.

Lemma ctx_appended (s : Pillar3Assessor) fs : ctx (appended s fs) = ctx s.
Proof. reflexivity. Qed.

Lemma emitsx_findings_append (s : Pillar3Assessor) f
      (Q : unit -> list Pillar3Finding.t -> Prop) R :
  Q tt [f] -> emitsx s (findings_append f) Q R.
Proof. intros HQ. exists [f]. split; [reflexivity|exact HQ]. Qed.

Lemma always_emits_findings_append (P : Pillar3Finding.t -> Prop) f :
  P f -> always_emits P (findings_append f).
Proof. intros HP s. apply emitsx_findings_append. now repeat constructor. Qed.

(** A finding of a known severity and section, about class 0 or a class
    at hand. *)
Ltac class_at_hand :=
  first [ left; reflexivity
        | right; apply in_map; assumption
        | right; apply in_map;
          match goal with
          | H : In _ (filter _ _) |- _ => apply filter_In in H; tauto
          end
        | right;
          match goal with
          | H : find _ _ = Some ?c |- _ =>
              let Hin := fresh in
              let Heq := fresh in
              destruct (find_some _ _ H) as [Hin Heq];
              apply Z.eqb_eq in Heq; rewrite <- Heq; apply in_map; exact Hin
          end ].

Ltac well_formed_finding :=
  unfold well_formed, known_severity, sections;
  cbn [severity tmep_section class_number];
  repeat match goal with
         | |- context [if ?b then _ else _] => destruct b
         end;
  (split;
   [ solve [repeat (first [left; reflexivity | right]); reflexivity]
   | split;
     [ cbn [In]; solve [repeat (first [left; reflexivity | right])]
     | class_at_hand ] ]).

(** One step of a proof that a check appends well-formed findings. *)
Ltac always_emits_step :=
  lazymatch goal with
  | |- always_emits _ (bind _ _) => apply always_emits_bind; [|intros]
  | |- always_emits _ (ret _) => apply always_emits_ret
  | |- always_emits _ (gets _) => apply always_emits_gets
  | |- always_emits _ (findings_append _) =>
      apply always_emits_findings_append; well_formed_finding
  | |- always_emits _ (when _ _) => apply always_emits_when
  | |- always_emits _ (for_each _ _ _) => apply always_emits_for_each; intros
  | |- always_emits _ (if ?b then _ else _) => destruct b
  | |- always_emits _ (match ?x with _ => _ end) => destruct x eqn:?
  end.

Ltac always_emits_auto := cbv zeta; repeat always_emits_step.

Lemma check_1403_01_well_formed s :
  emits s _check_1403_01_multi_class_requirements
        (fun _ fs => Forall (well_formed (classes s)) fs).
Proof.
  unfold _check_1403_01_multi_class_requirements. cbv zeta.
  apply emitsx_bind_gets, emitsx_bind_gets, always_emits_at.
  always_emits_auto.
Qed.

Lemma check_1403_02_well_formed set_order s :
  emits s (_check_1403_02_amendment_review set_order)
        (fun _ fs => Forall (well_formed (classes s)) fs).
Proof.
  unfold _check_1403_02_amendment_review. cbv zeta.
  apply emitsx_bind_gets, emitsx_bind_gets, always_emits_at.
  always_emits_auto.
Qed.

Lemma check_1403_03_well_formed s :
  emits s _check_1403_03_division_eligibility
        (fun _ fs => Forall (well_formed (classes s)) fs).
Proof.
  unfold _check_1403_03_division_eligibility. cbv zeta.
  apply emitsx_bind_gets, emitsx_bind_gets, always_emits_at.
  always_emits_auto.
Qed.

Lemma check_1403_04_well_formed s :
  emits s _check_1403_04_partial_refusals
        (fun _ fs => Forall (well_formed (classes s)) fs).
Proof.
  unfold _check_1403_04_partial_refusals. cbv zeta.
  apply emitsx_bind_gets, always_emits_at.
  always_emits_auto.
Qed.

Lemma check_1403_05_well_formed s :
  emits s _check_1403_05_post_filing_fees
        (fun _ fs => Forall (well_formed (classes s)) fs).
Proof.
  unfold _check_1403_05_post_filing_fees. cbv zeta.
  apply emitsx_bind_gets, emitsx_bind_gets, always_emits_at.
  always_emits_auto.
Qed.

Lemma check_1403_06_well_formed set_order s :
  emits s (_check_1403_06_surrender_or_amendment set_order)
        (fun _ fs => Forall (well_formed (classes s)) fs).
Proof.
  unfold _check_1403_06_surrender_or_amendment. cbv zeta.
  apply emitsx_bind_gets, emitsx_bind_gets, always_emits_at.
  always_emits_auto.
Qed.


Lemma emits_build_result (s : Pillar3Assessor) division_eligible refusal_classes
      refusal_reasons :
  emits s (_build_result division_eligible refusal_classes refusal_reasons)
        (fun result fs =>
           fs = []
           /\ Pillar3AssessmentResult.findings result = findings s
           /\ Pillar3AssessmentResult.division_eligible_classes result
              = division_eligible
           /\ Pillar3AssessmentResult.partial_refusal_classes result
              = refusal_classes
           /\ Pillar3AssessmentResult.partial_refusal_reasons result
              = refusal_reasons
           /\ counts_agree result).
Proof.
  destruct (build_result_run division_eligible refusal_classes refusal_reasons s)
    as (result & Hrun & Hfs & Hde & Hrc & Hrr & Hcounts).
  apply (emitsx_intro s _ _ _ result []).
  - now rewrite appended_nil.
  - auto 8.
Qed.

(** The run after the list has been cleared: it only appends, what it
    appends is well formed, and the result holds what was appended. *)
Lemma run_full_assessment_emits set_order (self : Pillar3Assessor) :
  exists result,
    run_full_assessment set_order self
    = (Return result,
       with_findings self (Pillar3AssessmentResult.findings result))
    /\ Forall (well_formed (classes self)) (Pillar3AssessmentResult.findings result).
Proof.
  set (Q := fun (result : Pillar3AssessmentResult.t) (fs : list Pillar3Finding.t) =>
              Pillar3AssessmentResult.findings result = fs
              /\ Forall (well_formed (classes self)) fs).
  assert (Hbuild : forall fs de rc rr,
             Forall (well_formed (classes self)) fs ->
             emits (appended (with_findings self []) fs) (_build_result de rc rr)
                   (fun result fs2 => Q result (fs ++ fs2))).
  { intros fs de rc rr Hfs. eapply emits_mono; [|apply emits_build_result].
    intros result fs2 (-> & Hfindings & _). unfold Q.
    rewrite app_nil_r. split; [exact Hfindings|exact Hfs]. }
  assert (H : emits (with_findings self [])
                    (self_classes <- gets classes ;;
                     if Z.of_nat (List.length
                                    (PyList.distinct
                                       (map ClassSummary.class_number self_classes)))
                        <? 2
                     then
                       findings_append
                         {| tmep_section := "§1403";
                            severity := "INFO";
                            class_number := 0;
                            item := "Single-class application";
                            finding := fstr
                              ["Application contains only one class. ";
                               "§1403 multi-class requirements do not apply."];
                            recommendation := "No §1403 action required.";
                            triggered_by := "" |} ;;
                       _build_result [] [] []
                     else
                       _check_1403_01_multi_class_requirements ;;
                       amendment_conflicts <- _check_1403_02_amendment_review set_order ;;
                       division_eligible <- _check_1403_03_division_eligibility ;;
                       refused <- _check_1403_04_partial_refusals ;;
                       _check_1403_05_post_filing_fees ;;
                       _check_1403_06_surrender_or_amendment set_order ;;
                       _build_result division_eligible (fst refused) (snd refused))
                    Q).
  { apply emitsx_bind_gets. destruct (_ <? 2).
    - eapply emits_bind.
      + apply (emitsx_findings_append _ _
                 (fun _ fs => Forall (well_formed (classes self)) fs)).
        apply Forall_cons; [well_formed_finding|apply Forall_nil].
      + intros ? fs1 H1. cbv beta in H1.
        eapply emits_mono; [|apply (Hbuild fs1 [] [] [] H1)]. auto.
    - eapply emits_bind; [apply check_1403_01_well_formed|].
      intros ? fs1 H1. cbv beta in H1.
      eapply emits_bind; [apply check_1403_02_well_formed|].
      intros amendment_conflicts fs2 H2. cbv beta in H2.
      eapply emits_bind; [apply check_1403_03_well_formed|].
      intros division_eligible fs3 H3. cbv beta in H3.
      eapply emits_bind; [apply check_1403_04_well_formed|].
      intros refused fs4 H4. cbv beta in H4.
      eapply emits_bind; [apply check_1403_05_well_formed|].
      intros ? fs5 H5. cbv beta in H5.
      eapply emits_bind; [apply check_1403_06_well_formed|].
      intros ? fs6 H6. cbv beta in H6.
      rewrite !appended_app.
      eapply emits_mono;
        [|apply (Hbuild (fs1 ++ fs2 ++ fs3 ++ fs4 ++ fs5 ++ fs6)
                        division_eligible (fst refused) (snd refused))].
      + intros result fs7 HQ. cbv beta in HQ. now rewrite <- !app_assoc in *.
      + repeat (apply Forall_app; split); assumption. }
  apply emits_elim in H. destruct H as (result & fs & Hrun & Hfs & Hwf).
  exists result. subst fs. split; [|exact Hwf].
  unfold run_full_assessment, findings_clear. unfold bind at 1. unfold modify.
  rewrite Hrun. reflexivity.
Qed.

(** X11. Whatever the classes and the context, every finding of a Pillar 3
    result is well formed: its severity is one of ERROR, WARNING, INFO and
    OK, its section is §1403 or one of §1403.01 to §1403.06, and its class
    number is 0, for the application as a whole, or the number of a class
    of the application. *)
Theorem pillar3_findings_are_well_formed :
  forall (set_order : list string -> list string) (self : Pillar3Assessor),
    exists result self',
      run_full_assessment set_order self = (Return result, self')
      /\ Forall (fun f =>
                   known_severity (severity f)
                   /\ In (tmep_section f) sections
                   /\ (class_number f = 0
                       \/ In (class_number f)
                             (map ClassSummary.class_number (classes self))))
                (Pillar3AssessmentResult.findings result).
Proof.
  intros set_order self.
  destruct (run_full_assessment_emits set_order self) as (result & Hrun & Hwf).
  exists result, (with_findings self (Pillar3AssessmentResult.findings result)).
  split; [exact Hrun|exact Hwf].
Qed.

(** X12. A Pillar 3 run leaves the class summaries and the context of the
    assessor as they were: only the list of findings changes, and it ends
    up holding the findings of the result.  The findings of an earlier run
    do not pile up: running again on the assessor as the first run left it,
    or on the same input with any other list of findings, gives the same
    result again. *)
Theorem pillar3_run_keeps_its_input_and_is_repeatable :
  forall (set_order : list string -> list string) (self : Pillar3Assessor),
    exists result,
      let after := with_findings self (Pillar3AssessmentResult.findings result) in
      run_full_assessment set_order self = (Return result, after)
      /\ classes after = classes self
      /\ ctx after = ctx self
      /\ run_full_assessment set_order after = (Return result, after)
      /\ forall earlier,
           run_full_assessment set_order (with_findings self earlier)
           = (Return result, after).
Proof.
  intros set_order self.
  destruct (run_full_assessment_emits set_order self) as (result & Hrun & _).
  exists result. cbv zeta.
  assert (Hany : forall earlier,
             run_full_assessment set_order (with_findings self earlier)
             = run_full_assessment set_order self).
  { intros earlier. unfold run_full_assessment, findings_clear.
    unfold bind at 1 3. unfold modify. reflexivity. }
  split; [exact Hrun|]. split; [reflexivity|]. split; [reflexivity|].
  split; [now rewrite Hany|]. intros earlier. now rewrite Hany.
Qed.


(* --------------------------------------------------------------------- *)
(** ** The run, check by check *)

Section RunSteps.
Variable set_order : list string -> list string.
Variable self : Pillar3Assessor.
Variables (Q1 Q5 Q6 : unit -> list Pillar3Finding.t -> Prop).
Variables (Q2 Q3 : list Z -> list Pillar3Finding.t -> Prop).
Variable Q4 : list Z * list (Z * string) -> list Pillar3Finding.t -> Prop.

Let same_input (s : Pillar3Assessor) : Prop :=
  classes s = classes self /\ ctx s = ctx self.

Hypothesis Hmulti : 2 <= unique_class_count (classes self).
Hypothesis H1 : forall s, same_input s ->
  emits s _check_1403_01_multi_class_requirements Q1.
Hypothesis H2 : forall s, same_input s ->
  emits s (_check_1403_02_amendment_review set_order) Q2.
Hypothesis H3 : forall s, same_input s ->
  emits s _check_1403_03_division_eligibility Q3.
Hypothesis H4 : forall s, same_input s ->
  emits s _check_1403_04_partial_refusals Q4.
Hypothesis H5 : forall s, same_input s ->
  emits s _check_1403_05_post_filing_fees Q5.
Hypothesis H6 : forall s, same_input s ->
  emits s (_check_1403_06_surrender_or_amendment set_order) Q6.

(** With two distinct class numbers or more the run is the six checks one
    after the other, each from the input of the run and the findings of the
    checks before it, and the result is built from what they appended and
    returned. *)
Lemma run_full_assessment_steps :
  exists result fs1 fs2 fs3 fs4 fs5 fs6 conflicts division_eligible refused,
    Q1 tt fs1 /\ Q2 conflicts fs2 /\ Q3 division_eligible fs3
    /\ Q4 refused fs4 /\ Q5 tt fs5 /\ Q6 tt fs6
    /\ run_full_assessment set_order self
       = (Return result,
          with_findings self (Pillar3AssessmentResult.findings result))
    /\ Pillar3AssessmentResult.findings result
       = fs1 ++ fs2 ++ fs3 ++ fs4 ++ fs5 ++ fs6
    /\ Pillar3AssessmentResult.division_eligible_classes result = division_eligible
    /\ Pillar3AssessmentResult.partial_refusal_classes result = fst refused
    /\ Pillar3AssessmentResult.partial_refusal_reasons result = snd refused
    /\ counts_agree result.
Proof.
  pose (s0 := with_findings self []).
  assert (Hin : forall fs, same_input (appended s0 fs)) by (intros; split; reflexivity).
  destruct (emits_elim _ _ _ (H1 s0 (Hin []))) as ([] & fs1 & Hrun1 & HQ1).
  destruct (emits_elim _ _ _ (H2 _ (Hin fs1))) as (conflicts & fs2 & Hrun2 & HQ2).
  rewrite appended_app in Hrun2.
  destruct (emits_elim _ _ _ (H3 _ (Hin (fs1 ++ fs2))))
    as (division_eligible & fs3 & Hrun3 & HQ3).
  rewrite appended_app in Hrun3.
  destruct (emits_elim _ _ _ (H4 _ (Hin ((fs1 ++ fs2) ++ fs3))))
    as (refused & fs4 & Hrun4 & HQ4).
  rewrite appended_app in Hrun4.
  destruct (emits_elim _ _ _ (H5 _ (Hin (((fs1 ++ fs2) ++ fs3) ++ fs4))))
    as ([] & fs5 & Hrun5 & HQ5).
  rewrite appended_app in Hrun5.
  destruct (emits_elim _ _ _ (H6 _ (Hin ((((fs1 ++ fs2) ++ fs3) ++ fs4) ++ fs5))))
    as ([] & fs6 & Hrun6 & HQ6).
  rewrite appended_app in Hrun6.
  destruct (build_result_run division_eligible (fst refused) (snd refused)
              (appended s0 (((((fs1 ++ fs2) ++ fs3) ++ fs4) ++ fs5) ++ fs6)))
    as (result & Hrun7 & Hfs & Hde & Hrc & Hrr & Hcounts).
  assert (Hfindings : Pillar3AssessmentResult.findings result
                      = fs1 ++ fs2 ++ fs3 ++ fs4 ++ fs5 ++ fs6).
  { rewrite Hfs. cbn [findings appended findings_of with_findings_of
                       assessor_findings with_findings s0 List.app].
    now rewrite <- !app_assoc. }
  exists result, fs1, fs2, fs3, fs4, fs5, fs6, conflicts, division_eligible, refused.
  repeat (split; [assumption|]).
  split; [|auto].
  unfold run_full_assessment, findings_clear. unfold bind at 1. unfold modify.
  fold s0. unfold bind at 1. unfold gets at 1.
  assert (Hcond : (Z.of_nat (List.length
                               (PyList.distinct
                                  (map ClassSummary.class_number (classes s0))))
                   <? 2) = false).
  { apply Z.ltb_ge. exact Hmulti. }
  rewrite Hcond.
  unfold bind at 1. rewrite <- (appended_nil s0) at 1. rewrite (appended_nil s0) at 1.
  rewrite Hrun1.
  unfold bind at 1. rewrite Hrun2. unfold bind at 1. rewrite Hrun3.
  unfold bind at 1. rewrite Hrun4. unfold bind at 1. rewrite Hrun5.
  unfold bind at 1. rewrite Hrun6. rewrite Hrun7.
  f_equal. rewrite Hfindings.
  cbn [findings appended findings_of with_findings_of assessor_findings
       with_findings s0 List.app]. subst s0. unfold with_findings.
  cbn [classes ctx]. now rewrite <- !app_assoc.
Qed.

End RunSteps.


(* --------------------------------------------------------------------- *)
(** ** §1403.04: the refused classes and their reasons *)

Lemma dict_get_set {V} (d : list (Z * V)) k v n :
  PyDict.get Z.eqb (PyDict.set Z.eqb d k v) n
  = if k =? n then Some v else PyDict.get Z.eqb d n.
Proof.
  induction d as [|[k' v'] d IH]; simpl; [reflexivity|].
  destruct (k' =? k) eqn:Ek; simpl.
  - apply Z.eqb_eq in Ek. subst k'. now destruct (k =? n).
  - rewrite IH. destruct (k' =? n) eqn:En; [|reflexivity].
    apply Z.eqb_eq in En. subst k'. now rewrite Z.eqb_sym, Ek.
Qed.

Lemma find_app {A} (p : A -> bool) (a b : list A) :
  find p (a ++ b) = match find p a with Some x => Some x | None => find p b end.
Proof. induction a as [|x a IH]; simpl; [reflexivity|]. now destruct (p x). Qed.

(** Looking a class number up after the classes were entered in turn: the
    last class of that number decides. *)
Lemma get_reasons_by_class (l : list ClassSummary.t) n :
  PyDict.get Z.eqb (reasons_by_class l) n
  = option_map refusal_reason
               (find (fun c => ClassSummary.class_number c =? n) (rev l)).
Proof.
  unfold reasons_by_class.
  assert (H : forall d,
             PyDict.get Z.eqb
               (fold_left (fun d c => PyDict.set Z.eqb d (ClassSummary.class_number c)
                                                 (refusal_reason c)) l d) n
             = match find (fun c => ClassSummary.class_number c =? n) (rev l) with
               | Some c => Some (refusal_reason c)
               | None => PyDict.get Z.eqb d n
               end).
  { induction l as [|c l IH]; intros d; [reflexivity|].
    cbn [fold_left rev]. rewrite IH, find_app.
    destruct (find _ (rev l)); [reflexivity|].
    rewrite dict_get_set. cbn [find]. now destruct (_ =? n). }
  rewrite H. now destruct (find _ (rev l)).
Qed.

Lemma emits_check_1403_04 (s : Pillar3Assessor) :
  emits s _check_1403_04_partial_refusals
        (fun refused _ =>
           refused = (map ClassSummary.class_number (filter is_refused (classes s)),
                      reasons_by_class (filter is_refused (classes s)))).
Proof.
  unfold _check_1403_04_partial_refusals. cbv zeta.
  apply emitsx_bind_gets.
  pose (I := fun (pre : list ClassSummary.t) (acc : list Z * list (Z * string))
                 (_ : list Pillar3Finding.t) =>
               acc = (map ClassSummary.class_number (filter is_refused pre),
                      reasons_by_class (filter is_refused pre))).
  eapply emits_bind.
  - apply (emits_for_each _ I (classes s) s ([], [])); [|reflexivity].
    intros pre x post acc fs _ HI. unfold I in HI. subst acc. unfold I.
    rewrite filter_app. cbn [filter].
    change (nonempty (refusal_reasons_of x)) with (is_refused x).
    destruct (is_refused x).
    + eapply emits_bind;
        [apply (emitsx_findings_append _ _ (fun _ _ => True)); exact Logic.I|].
      intros ? ? _. apply emitsx_ret. cbn [fst snd].
      rewrite map_app. unfold reasons_by_class. rewrite fold_left_app.
      reflexivity.
    + eapply emits_bind;
        [apply (emitsx_findings_append _ _ (fun _ _ => True)); exact Logic.I|].
      intros ? ? _. apply emitsx_ret. now rewrite app_nil_r.
  - intros refused fs1 HI. unfold I in HI. cbv beta.
    eapply emits_bind.
    + apply always_emits_at with (P := fun _ => True).
      apply always_emits_when, always_emits_findings_append. exact Logic.I.
    + intros ? ? _. apply emitsx_ret. exact HI.
Qed.

Lemma emits_anything {A} (s : Pillar3Assessor) (m : Check A)
      (Q : A -> list Pillar3Finding.t -> Prop) :
  emits s m Q -> emits s m (fun _ _ => True).
Proof. apply emits_mono. auto. Qed.

Lemma nonempty_iff {A} (l : list A) : nonempty l = true <-> l <> [].
Proof. destruct l; simpl; split; congruence. Qed.

Lemma is_refused_eq (c : ClassSummary.t) :
  is_refused c
  = ((ClassSummary.p1_error_count c >? 0) && nonempty (ClassSummary.p1_error_messages c))
    || negb (ClassSummary.p2_is_definite c)
    || ((ClassSummary.p2_error_count c >? 0)
        && nonempty (ClassSummary.p2_error_messages c)).
Proof.
  unfold is_refused, refusal_reasons_of.
  destruct (ClassSummary.p1_error_count c >? 0);
    destruct (ClassSummary.p2_is_definite c);
    destruct (ClassSummary.p2_error_count c >? 0);
    destruct (ClassSummary.p1_error_messages c) as [|m1 [|m1' l1]];
    destruct (ClassSummary.p2_error_messages c) as [|m2 [|m2' l2]];
    reflexivity.
Qed.

Lemma is_refused_iff (c : ClassSummary.t) :
  is_refused c = true
  <-> (ClassSummary.p1_error_count c > 0 /\ ClassSummary.p1_error_messages c <> [])
      \/ ClassSummary.p2_is_definite c = false
      \/ (ClassSummary.p2_error_count c > 0 /\ ClassSummary.p2_error_messages c <> []).
Proof.
  rewrite is_refused_eq, !orb_true_iff, !andb_true_iff, !nonempty_iff,
    negb_true_iff, !Z.gtb_lt, !Z.gt_lt_iff.
  tauto.
Qed.

(** X13. For an application with two distinct class numbers or more, the
    result lists as partial-refusal classes the numbers of the classes that
    have grounds of refusal, in the order of the classes: a class has
    grounds when Pillar 1 counted an error and left an error message, when
    Pillar 2 found the identification not definite, or when Pillar 2 counted
    an error and left a message (a class whose Pillar 1 error count is
    positive but whose message list is empty is not refused).  The reasons
    dictionary has an entry exactly for the listed numbers; for a number
    that several classes carry, the reason of the last of them. *)
Theorem partial_refusals_follow_the_pillar_errors :
  forall (set_order : list string -> list string) (self : Pillar3Assessor),
    2 <= unique_class_count (classes self) ->
    exists result self',
      run_full_assessment set_order self = (Return result, self')
      /\ Pillar3AssessmentResult.partial_refusal_classes result
         = map ClassSummary.class_number (filter is_refused (classes self))
      /\ (forall n,
            PyDict.get Z.eqb (Pillar3AssessmentResult.partial_refusal_reasons result) n
            = option_map refusal_reason
                (find (fun c => ClassSummary.class_number c =? n)
                      (rev (filter is_refused (classes self)))))
      /\ (forall n,
            In n (Pillar3AssessmentResult.partial_refusal_classes result)
            <-> PyDict.mem Z.eqb
                  (Pillar3AssessmentResult.partial_refusal_reasons result) n = true)
      /\ (forall c,
            is_refused c = true
            <-> (ClassSummary.p1_error_count c > 0
                 /\ ClassSummary.p1_error_messages c <> [])
                \/ ClassSummary.p2_is_definite c = false
                \/ (ClassSummary.p2_error_count c > 0
                    /\ ClassSummary.p2_error_messages c <> [])).
Proof.
  intros set_order self Hmulti.
  destruct (run_full_assessment_steps set_order self
              (fun _ _ => True) (fun _ _ => True) (fun _ _ => True)
              (fun _ _ => True) (fun _ _ => True)
              (fun refused _ =>
                 refused
                 = (map ClassSummary.class_number (filter is_refused (classes self)),
                    reasons_by_class (filter is_refused (classes self))))
              Hmulti)
    as (result & fs1 & fs2 & fs3 & fs4 & fs5 & fs6 & conflicts & de & refused
        & _ & _ & _ & Hrefused & _ & _ & Hrun & _ & _ & Hrc & Hrr & _).
  - intros s _. eapply emits_anything, check_1403_01_well_formed.
  - intros s _. eapply emits_anything, check_1403_02_well_formed.
  - intros s _. eapply emits_anything, check_1403_03_well_formed.
  - intros s [Hc _]. rewrite <- Hc. apply emits_check_1403_04.
  - intros s _. eapply emits_anything, check_1403_05_well_formed.
  - intros s _. eapply emits_anything, check_1403_06_well_formed.
  - subst refused. cbn [fst snd] in Hrc, Hrr.
    exists result, (with_findings self (Pillar3AssessmentResult.findings result)).
    split; [exact Hrun|]. split; [exact Hrc|].
    assert (Hget : forall n,
               PyDict.get Z.eqb (Pillar3AssessmentResult.partial_refusal_reasons result) n
               = option_map refusal_reason
                   (find (fun c => ClassSummary.class_number c =? n)
                         (rev (filter is_refused (classes self))))).
    { intros n. rewrite Hrr. apply get_reasons_by_class. }
    split; [exact Hget|]. split; [|apply is_refused_iff].
    intros n. unfold PyDict.mem. rewrite Hget, Hrc. split.
    + intros Hin. apply in_map_iff in Hin as (c & Hn & Hin).
      destruct (find _ (rev _)) eqn:E; [reflexivity|]. exfalso.
      apply in_rev in Hin. pose proof (find_none _ _ E c Hin) as Hf.
      cbv beta in Hf. apply Z.eqb_neq in Hf. contradiction.
    + destruct (find _ (rev _)) as [c|] eqn:E; [|discriminate]. intros _.
      apply find_some in E as [Hin Hn]. apply Z.eqb_eq in Hn.
      apply in_map_iff. exists c. split; [exact Hn|now apply in_rev].
Qed.

(** The theorem at Classes 9 and 25, Class 25 with a Pillar 1 error. *)
Lemma partial_refusals_witness :
  2 <= unique_class_count (classes sample_two_classes)
  /\ exists result self',
      run_full_assessment (fun l => l) sample_two_classes = (Return result, self')
      /\ Pillar3AssessmentResult.partial_refusal_classes result
         = map ClassSummary.class_number
               (filter is_refused (classes sample_two_classes))
      /\ (forall n,
            PyDict.get Z.eqb (Pillar3AssessmentResult.partial_refusal_reasons result) n
            = option_map refusal_reason
                (find (fun c => ClassSummary.class_number c =? n)
                      (rev (filter is_refused (classes sample_two_classes)))))
      /\ (forall n,
            In n (Pillar3AssessmentResult.partial_refusal_classes result)
            <-> PyDict.mem Z.eqb
                  (Pillar3AssessmentResult.partial_refusal_reasons result) n = true)
      /\ (forall c,
            is_refused c = true
            <-> (ClassSummary.p1_error_count c > 0
                 /\ ClassSummary.p1_error_messages c <> [])
                \/ ClassSummary.p2_is_definite c = false
                \/ (ClassSummary.p2_error_count c > 0
                    /\ ClassSummary.p2_error_messages c <> [])).
Proof.
  assert (H : 2 <= unique_class_count (classes sample_two_classes))
    by (vm_compute; discriminate).
  split; [exact H|].
  exact (partial_refusals_follow_the_pillar_errors (fun l => l) sample_two_classes H).
Defined.


(* --------------------------------------------------------------------- *)
(** ** Which input makes a check file an ERROR *)

Lemma has_error_app fs gs : has_error (fs ++ gs) = has_error fs || has_error gs.
Proof. apply existsb_app. Qed.

Lemma files_error_ret {A} (a : A) : files_error (ret a) false.
Proof. intros s. now apply emitsx_ret. Qed.

Lemma files_error_append f :
  files_error (findings_append f) (severity f =? "ERROR")%string.
Proof. intros s. apply emitsx_findings_append. cbn. apply orb_false_r. Qed.

Lemma files_error_bind {A B} (m : Check A) (k : A -> Check B) b1 b2 :
  files_error m b1 -> (forall a, files_error (k a) b2) ->
  files_error (bind m k) (b1 || b2).
Proof.
  intros Hm Hk s. eapply emits_bind; [apply Hm|].
  intros a fs1 Hfs1. cbv beta in Hfs1. eapply emits_mono; [|apply Hk].
  intros b fs2 Hfs2. cbv beta in Hfs2. now rewrite has_error_app, Hfs1, Hfs2.
Qed.

Lemma files_error_if {A} (c : bool) (m1 m2 : Check A) b1 b2 :
  files_error m1 b1 -> files_error m2 b2 ->
  files_error (if c then m1 else m2) (if c then b1 else b2).
Proof. now destruct c. Qed.

Lemma files_error_when (c : bool) (m : Check unit) b :
  files_error m b -> files_error (when c m) (c && b).
Proof. destruct c; [auto|intros _; apply files_error_ret]. Qed.

Lemma files_error_when_false (c : bool) (m : Check unit) :
  files_error m false -> files_error (when c m) false.
Proof. destruct c; [auto|intros _; apply files_error_ret]. Qed.

Lemma files_error_match_list {A B} (l : list B) (m1 : Check A)
      (m2 : B -> list B -> Check A) b1 b2 :
  files_error m1 b1 -> (forall h t, files_error (m2 h t) (b2 h t)) ->
  files_error (match l with [] => m1 | h :: t => m2 h t end)
              (match l with [] => b1 | h :: t => b2 h t end).
Proof. destruct l; auto. Qed.

Lemma files_error_match_option {A B} (o : option B) (m1 : B -> Check A)
      (m2 : Check A) b1 b2 :
  (forall x, files_error (m1 x) (b1 x)) -> files_error m2 b2 ->
  files_error (match o with Some x => m1 x | None => m2 end)
              (match o with Some x => b1 x | None => b2 end).
Proof. destruct o; auto. Qed.

Lemma files_error_for_each {A B} (l : list A) (body : B -> A -> Check B)
      (g : A -> bool) :
  (forall acc x, files_error (body acc x) (g x)) ->
  forall acc, files_error (for_each l acc body) (existsb g l).
Proof.
  intros Hbody. induction l as [|x l IH]; intros acc; simpl.
  - apply files_error_ret.
  - apply files_error_bind; [apply Hbody|intros; apply IH].
Qed.

Lemma files_error_at {A} (s : Pillar3Assessor) (m : Check A) b' b :
  files_error m b' -> b' = b -> emits s m (fun _ fs => has_error fs = b).
Proof. intros Hm <-. apply Hm. Qed.

Lemma files_error_append_as f b :
  (severity f =? "ERROR")%string = b -> files_error (findings_append f) b.
Proof. intros <-. apply files_error_append. Qed.

(** Whether a severity, a literal or a choice between literals, is ERROR. *)
Ltac severity_is_error v :=
  lazymatch v with
  | if ?c then ?a else ?b =>
      let a' := severity_is_error a in
      let b' := severity_is_error b in
      constr:(if c then a' else b')
  | _ => eval vm_compute in (String.eqb v "ERROR")
  end.

(** One step in working out when a piece of code files an ERROR. *)
Ltac files_error_step :=
  lazymatch goal with
  | |- files_error (bind _ _) _ => eapply files_error_bind; [|intros]
  | |- files_error (ret _) _ => apply files_error_ret
  | |- files_error (findings_append ?f) _ =>
      let v := eval cbv beta iota delta [severity] in (severity f) in
      let b := severity_is_error v in
      apply (files_error_append_as f b);
      cbv beta iota delta [severity];
      repeat match goal with
             | |- context [if ?c then _ else _] => destruct c
             end;
      reflexivity
  | |- files_error (when _ _) _ =>
      first [ apply files_error_when_false; solve [repeat files_error_step]
            | eapply files_error_when ]
  | |- files_error (for_each _ _ _) _ => eapply files_error_for_each; intros
  | |- files_error (if _ then _ else _) _ => eapply files_error_if
  | |- files_error (match _ with _ => _ end) _ =>
      first [ eapply files_error_match_list; [|intros]
            | eapply files_error_match_option; [intros|] ]
  end.

Ltac files_error_auto := cbv zeta; repeat files_error_step.

Lemma if_same {A} (c : bool) (a : A) : (if c then a else a) = a.
Proof. now destruct c. Qed.

Ltac no_error :=
  repeat rewrite ?andb_false_r, ?orb_false_r, ?if_same; reflexivity.

Lemma check_1403_05_files_error s :
  emits s _check_1403_05_post_filing_fees (fun _ fs => has_error fs = false).
Proof.
  unfold _check_1403_05_post_filing_fees. cbv zeta.
  apply emitsx_bind_gets, emitsx_bind_gets.
  eapply files_error_at; [files_error_auto|]. no_error.
Qed.


Lemma if_true_else (c b : bool) : (if c then true else b) = c || b.
Proof. now destruct c. Qed.

Lemma if_else_false (c b : bool) : (if c then b else false) = c && b.
Proof. now destruct c. Qed.

Lemma if_false (c a b : bool) :
  a = false -> b = false -> (if c then a else b) = false.
Proof. now destruct c. Qed.

Lemma existsb_pointwise {A} (f g : A -> bool) l :
  (forall x, f x = g x) -> existsb f l = existsb g l.
Proof. intros H. induction l as [|x l IH]; simpl; [|rewrite H, IH]; reflexivity. Qed.

Lemma existsb_false {A} (f : A -> bool) l :
  (forall x, f x = false) -> existsb f l = false.
Proof. intros H. induction l as [|x l IH]; simpl; [|rewrite H, IH]; reflexivity. Qed.

Lemma match_filter_existsb {A} (p : A -> bool) l :
  match filter p l with [] => false | _ :: _ => true end = existsb p l.
Proof.
  induction l as [|x l IH]; simpl; [reflexivity|].
  destruct (p x); [reflexivity|exact IH].
Qed.

Lemma nonempty_filter {A} (p : A -> bool) l : nonempty (filter p l) = existsb p l.
Proof. apply match_filter_existsb. Qed.

(** A boolean built from [false] leaves only. *)
Ltac is_false :=
  repeat lazymatch goal with
         | |- false = false => reflexivity
         | |- (if _ then _ else _) = false => apply if_false
         | |- _ || _ = false => apply orb_false_intro
         | |- _ && false = false => apply andb_false_r
         | |- existsb _ _ = false => apply existsb_false; intros
         end.

Lemma check_1403_01_files_error s :
  emits s _check_1403_01_multi_class_requirements
        (fun _ fs => has_error fs
                     = existsb class_blocks_1403_01 (classes s)
                       || fee_shortage (classes s) (ctx s)).
Proof.
  unfold _check_1403_01_multi_class_requirements. cbv zeta.
  apply emitsx_bind_gets, emitsx_bind_gets.
  eapply files_error_at; [files_error_auto|]. cbv beta. f_equal.
  - apply existsb_pointwise. intros x.
    unfold class_blocks_1403_01, identification_fails, specimen_fails,
      class_assignment_fails.
    rewrite ?if_same, ?if_true_else, ?if_else_false, ?orb_false_r, ?andb_false_r.
    rewrite ?match_filter_existsb.
    rewrite <- ?orb_assoc, ?orb_false_r. reflexivity.
  - unfold fee_shortage.
    rewrite ?if_same, ?if_true_else, ?if_else_false, ?orb_false_r, ?andb_false_r.
    destruct (fees_paid_count (ctx s) >? 0); [|reflexivity]. simpl.
    destruct (Z.eqb_spec (fees_paid_count (ctx s)) (unique_class_count (classes s)));
      destruct (Z.ltb_spec (fees_paid_count (ctx s)) (unique_class_count (classes s)));
      simpl; try reflexivity; try lia.
Qed.

Lemma check_1403_02_files_error set_order s :
  emits s (_check_1403_02_amendment_review set_order)
        (fun _ fs => has_error fs = amendment_broadens (ctx s)).
Proof.
  unfold _check_1403_02_amendment_review. cbv zeta.
  apply emitsx_bind_gets, emitsx_bind_gets.
  eapply files_error_at; [files_error_auto|]. cbv beta.
  unfold amendment_broadens.
  destruct (amendment_requested (ctx s)); cbn [negb andb]; [|reflexivity].
  match goal with
  | |- ?X || _ = _ => assert (HX : X = false) by is_false; rewrite HX
  end.
  rewrite orb_false_l, orb_false_r, andb_true_r.
  destruct (amendment_description (ctx s)); [vm_compute|]; reflexivity.
Qed.

Lemma check_1403_03_files_error s :
  emits s (_check_1403_03_division_eligibility)
        (fun _ fs => has_error fs = division_blocked (classes s) (ctx s)).
Proof.
  unfold _check_1403_03_division_eligibility. cbv zeta.
  apply emitsx_bind_gets, emitsx_bind_gets.
  eapply files_error_at; [files_error_auto|]. cbv beta.
  unfold division_blocked.
  destruct (division_requested (ctx s)); cbn [andb]; [|is_false].
  rewrite ?andb_false_r, ?orb_false_r. apply existsb_pointwise. intros n.
  destruct (find _ _); [|reflexivity].
  now destruct (nonempty _).
Qed.

Lemma check_1403_04_files_error s :
  emits s (_check_1403_04_partial_refusals)
        (fun _ fs => has_error fs = existsb refusal_candidate (classes s)).
Proof.
  unfold _check_1403_04_partial_refusals. cbv zeta.
  apply emitsx_bind_gets.
  eapply files_error_at; [files_error_auto|]. cbv beta.
  rewrite ?orb_false_r. apply existsb_pointwise. intros x.
  unfold refusal_candidate.
  change (nonempty (refusal_reasons_of x)) with (is_refused x).
  rewrite ?orb_false_r, ?if_true_else, ?orb_false_r, ?if_else_false. reflexivity.
Qed.

Lemma check_1403_06_files_error set_order s :
  emits s (_check_1403_06_surrender_or_amendment set_order)
        (fun _ fs => has_error fs = full_surrender (classes s) (ctx s)).
Proof.
  unfold _check_1403_06_surrender_or_amendment. cbv zeta.
  apply emitsx_bind_gets, emitsx_bind_gets.
  eapply files_error_at; [files_error_auto|]. cbv beta.
  unfold full_surrender.
  destruct (ApplicationStage_eqb _ REGISTERED || ApplicationStage_eqb _ _);
    cbn [negb andb]; [|reflexivity].
  destruct (surrender_requested (ctx s)); cbn [negb andb]; [|reflexivity].
  destruct (_ >=? _); [reflexivity|]. is_false.
Qed.

Lemma compliant_iff_no_error result :
  counts_agree result ->
  Pillar3AssessmentResult.is_multi_class_compliant result
  = negb (has_error (Pillar3AssessmentResult.findings result)).
Proof.
  intros (_ & _ & _ & H). unfold has_error.
  destruct (existsb _ _) eqn:E; simpl.
  - apply existsb_exists in E as (f & Hin & Hf). apply String.eqb_eq in Hf.
    destruct (Pillar3AssessmentResult.is_multi_class_compliant result);
      [|reflexivity].
    destruct H as [H _]. specialize (H eq_refl).
    rewrite Forall_forall in H. now apply H in Hin.
  - apply H, Forall_forall. intros f Hin Hf.
    assert (Hex : existsb (fun f => (severity f =? "ERROR")%string)
                          (Pillar3AssessmentResult.findings result) = true).
    { apply existsb_exists. exists f. split; [exact Hin|now apply String.eqb_eq]. }
    congruence.
Qed.

(** X14. For an application with two distinct class numbers or more, the
    result is compliant exactly when nothing blocks: no class fails a point
    of the §1403.01 checklist (identification missing, under five
    characters or not definite; fee unpaid; a use-based class without
    specimen or with a Pillar 1 specimen error; a Pillar 1 error message
    about the class), the fees counted are not fewer than the classes, no
    requested amendment has a broadening word, no class named in a requested
    division has an issue, no class is a refusal candidate with grounds of
    refusal, and no surrender after registration names as many classes as
    there are.  The error count is zero in the same case. *)
Theorem compliant_iff_nothing_blocks :
  forall (set_order : list string -> list string) (self : Pillar3Assessor),
    2 <= unique_class_count (classes self) ->
    exists result self',
      run_full_assessment set_order self = (Return result, self')
      /\ Pillar3AssessmentResult.is_multi_class_compliant result
         = negb (existsb class_blocks_1403_01 (classes self)
                 || fee_shortage (classes self) (ctx self)
                 || amendment_broadens (ctx self)
                 || division_blocked (classes self) (ctx self)
                 || existsb refusal_candidate (classes self)
                 || full_surrender (classes self) (ctx self))
      /\ (Pillar3AssessmentResult.total_errors result = 0
          <-> blocking (classes self) (ctx self) = false).
Proof.
  intros set_order self Hmulti.
  destruct (run_full_assessment_steps set_order self
              (fun _ fs => has_error fs
                           = existsb class_blocks_1403_01 (classes self)
                             || fee_shortage (classes self) (ctx self))
              (fun _ fs => has_error fs = false)
              (fun _ fs => has_error fs = full_surrender (classes self) (ctx self))
              (fun _ fs => has_error fs = amendment_broadens (ctx self))
              (fun _ fs => has_error fs = division_blocked (classes self) (ctx self))
              (fun _ fs => has_error fs = existsb refusal_candidate (classes self))
              Hmulti)
    as (result & fs1 & fs2 & fs3 & fs4 & fs5 & fs6 & conflicts & de & refused
        & E1 & E2 & E3 & E4 & E5 & E6 & Hrun & Hfs & _ & _ & _ & Hcounts).
  - intros s [Hc Hx]. rewrite <- Hc, <- Hx. apply check_1403_01_files_error.
  - intros s [Hc Hx]. rewrite <- Hx. apply check_1403_02_files_error.
  - intros s [Hc Hx]. rewrite <- Hc, <- Hx. apply check_1403_03_files_error.
  - intros s [Hc Hx]. rewrite <- Hc. apply check_1403_04_files_error.
  - intros s _. apply check_1403_05_files_error.
  - intros s [Hc Hx]. rewrite <- Hc, <- Hx. apply check_1403_06_files_error.
  - exists result, (with_findings self (Pillar3AssessmentResult.findings result)).
    split; [exact Hrun|].
    assert (Hcompliant :
              Pillar3AssessmentResult.is_multi_class_compliant result
              = negb (blocking (classes self) (ctx self))).
    { rewrite (compliant_iff_no_error result Hcounts), Hfs, !has_error_app.
      rewrite E1, E2, E3, E4, E5, E6. unfold blocking.
      now rewrite orb_false_l, !orb_assoc. }
    split; [exact Hcompliant|].
    destruct Hcounts as (_ & _ & <- & _). rewrite Hcompliant.
    apply negb_true_iff.
Qed.

(** The theorem at Classes 9 and 25, Class 25 with a Pillar 1 error about
    the class: the result is not compliant. *)
Lemma compliant_iff_nothing_blocks_witness :
  2 <= unique_class_count (classes sample_two_classes)
  /\ exists result self',
      run_full_assessment (fun l => l) sample_two_classes = (Return result, self')
      /\ Pillar3AssessmentResult.is_multi_class_compliant result
         = negb (existsb class_blocks_1403_01 (classes sample_two_classes)
                 || fee_shortage (classes sample_two_classes)
                                 (ctx sample_two_classes)
                 || amendment_broadens (ctx sample_two_classes)
                 || division_blocked (classes sample_two_classes)
                                     (ctx sample_two_classes)
                 || existsb refusal_candidate (classes sample_two_classes)
                 || full_surrender (classes sample_two_classes)
                                   (ctx sample_two_classes))
      /\ (Pillar3AssessmentResult.total_errors result = 0
          <-> blocking (classes sample_two_classes) (ctx sample_two_classes)
              = false).
Proof.
  assert (H : 2 <= unique_class_count (classes sample_two_classes))
    by (vm_compute; discriminate).
  split; [exact H|].
  exact (compliant_iff_nothing_blocks (fun l => l) sample_two_classes H).
Defined.

(* --------------------------------------------------------------------- *)
(** ** §1403.03: the classes eligible for division *)

Lemma emits_append_ret {A} (s : Pillar3Assessor) f (a : A)
      (Q : A -> list Pillar3Finding.t -> Prop) :
  (forall fs, Q a fs) -> emits s (findings_append f ;; ret a) Q.
Proof.
  intros HQ. eapply emits_bind;
    [apply (emitsx_findings_append _ _ (fun _ _ => True)); exact Logic.I|].
  intros ? ? _. apply emitsx_ret. apply HQ.
Qed.

Lemma emits_check_1403_03 (s : Pillar3Assessor) :
  emits s _check_1403_03_division_eligibility
        (fun eligible _ => eligible = division_eligible (classes s) (ctx s)).
Proof.
  unfold _check_1403_03_division_eligibility. cbv zeta.
  apply emitsx_bind_gets, emitsx_bind_gets. unfold division_eligible.
  destruct (division_requested (ctx s)).
  - pose (I := fun (pre : list Z) (acc : list Z) (_ : list Pillar3Finding.t) =>
                 acc = filter (can_stand_alone (classes s)) pre).
    eapply emits_bind.
    + apply (emits_for_each _ I (classes_to_divide_out (ctx s)) s []); [|reflexivity].
      intros pre x post acc fs _ HI. unfold I in HI. subst acc. unfold I.
      rewrite filter_app. cbn [filter].
      change (can_stand_alone (classes s) x)
        with (match find (fun c => ClassSummary.class_number c =? x) (classes s) with
              | Some cls => negb (nonempty (division_issues cls))
              | None => false
              end).
      destruct (find _ (classes s)) as [cls|].
      * destruct (nonempty (division_issues cls)); cbn [negb];
          apply emits_append_ret; intros _; [now rewrite app_nil_r|reflexivity].
      * apply emitsx_ret. now rewrite app_nil_r.
    + intros eligible fs1 HI. unfold I in HI. cbv beta.
      eapply emits_bind.
      * apply always_emits_at with (P := fun _ => True).
        apply always_emits_when, always_emits_findings_append. exact Logic.I.
      * intros ? ? _. apply emitsx_ret. exact HI.
  - destruct (_ && _); [apply emits_append_ret; reflexivity|].
    destruct (_ && _); apply emits_append_ret; reflexivity.
Qed.

(** In every result of a run the division is recommended exactly when
    classes are eligible. *)
Lemma run_full_assessment_recommends set_order self result self' :
  run_full_assessment set_order self = (Return result, self') ->
  Pillar3AssessmentResult.division_recommended result
  = nonempty (Pillar3AssessmentResult.division_eligible_classes result).
Proof.
  intros Hrun.
  assert (Hbuild : forall de rc rr s,
             wp (_build_result de rc rr)
                (fun result _ =>
                   Pillar3AssessmentResult.division_recommended result
                   = nonempty (Pillar3AssessmentResult.division_eligible_classes result))
                s).
  { intros de rc rr s. unfold wp, _build_result, bind, gets, ret.
    cbn [Pillar3AssessmentResult.division_recommended
         Pillar3AssessmentResult.division_eligible_classes].
    now destruct de. }
  assert (H : wp (run_full_assessment set_order)
                 (fun result _ =>
                    Pillar3AssessmentResult.division_recommended result
                    = nonempty (Pillar3AssessmentResult.division_eligible_classes result))
                 self).
  { unfold run_full_assessment.
    apply wp_bind_returns; [apply returns_modify|]. intros _ s1.
    apply wp_bind_returns; [apply returns_gets|]. intros self_classes s2.
    cbv zeta.
    destruct (Z.of_nat _ <? 2).
    - apply wp_bind_returns; [apply returns_findings_append|].
      intros _ s3. apply Hbuild.
    - apply wp_bind_returns; [apply check_1403_01_returns|]. intros _ s3.
      apply wp_bind_returns; [apply check_1403_02_returns|]. intros ? s4.
      apply wp_bind_returns; [apply check_1403_03_returns|]. intros ? s5.
      apply wp_bind_returns; [apply check_1403_04_returns|]. intros ? s6.
      apply wp_bind_returns; [apply check_1403_05_returns|]. intros _ s7.
      apply wp_bind_returns; [apply check_1403_06_returns|]. intros _ s8.
      apply Hbuild. }
  unfold wp in H. rewrite Hrun in H. exact H.
Qed.

Lemma division_eligible_known cs x n :
  In n (division_eligible cs x) -> In n (map ClassSummary.class_number cs).
Proof.
  unfold division_eligible.
  destruct (division_requested x).
  - intros Hin. apply filter_In in Hin as [_ Hn]. unfold can_stand_alone in Hn.
    destruct (find _ cs) as [c|] eqn:E; [|discriminate].
    apply find_some in E as [Hc Heq]. apply Z.eqb_eq in Heq. subst n.
    now apply in_map.
  - destruct (_ && _).
    { intros Hin. apply in_map_iff in Hin as (c & <- & Hc).
      apply filter_In in Hc as [Hc _]. now apply in_map. }
    destruct (_ && _); [|intros []].
    intros Hin. apply in_map_iff in Hin as (c & <- & Hc).
    apply filter_In in Hc as [Hc _]. now apply in_map.
Qed.

Lemma division_issues_none cls :
  nonempty (division_issues cls) = false
  <-> truthy (strip (ClassSummary.identification cls)) = true
      /\ ClassSummary.fee_paid cls = true
      /\ (ClassSummary.is_use_based cls = true ->
          truthy (ClassSummary.specimen_type cls) = true).
Proof.
  unfold division_issues.
  destruct (truthy (strip _)), (ClassSummary.fee_paid cls),
    (ClassSummary.is_use_based cls), (truthy (ClassSummary.specimen_type cls));
    cbn; intuition congruence.
Qed.

(** X18. For an application with two distinct class numbers or more, the
    division-eligible classes of the result are: when a division is
    requested, the class numbers to divide out that belong to a class which
    can stand alone, in the order of the request; without a request, the
    clean classes if some classes have errors and others none, else the
    use-based classes if use-based and intent-to-use classes are mixed,
    else none.  Division is recommended exactly when the list is not empty.
    Every eligible number is the number of a class of the application, and
    a class divided out on request has an identification that is not blank,
    its fee paid and, if it is use-based, a specimen type. *)
Theorem division_eligible_classes_can_stand_alone :
  forall (set_order : list string -> list string) (self : Pillar3Assessor),
    2 <= unique_class_count (classes self) ->
    exists result self',
      run_full_assessment set_order self = (Return result, self')
      /\ Pillar3AssessmentResult.division_eligible_classes result
         = division_eligible (classes self) (ctx self)
      /\ Pillar3AssessmentResult.division_recommended result
         = nonempty (Pillar3AssessmentResult.division_eligible_classes result)
      /\ (forall n,
            In n (Pillar3AssessmentResult.division_eligible_classes result) ->
            In n (map ClassSummary.class_number (classes self)))
      /\ (division_requested (ctx self) = true ->
          forall n,
            In n (Pillar3AssessmentResult.division_eligible_classes result) ->
            In n (classes_to_divide_out (ctx self))
            /\ exists cls,
                find (fun c => ClassSummary.class_number c =? n) (classes self)
                = Some cls
                /\ truthy (strip (ClassSummary.identification cls)) = true
                /\ ClassSummary.fee_paid cls = true
                /\ (ClassSummary.is_use_based cls = true ->
                    truthy (ClassSummary.specimen_type cls) = true)).
Proof.
  intros set_order self Hmulti.
  destruct (run_full_assessment_steps set_order self
              (fun _ _ => True) (fun _ _ => True) (fun _ _ => True)
              (fun _ _ => True)
              (fun eligible _ => eligible = division_eligible (classes self) (ctx self))
              (fun _ _ => True)
              Hmulti)
    as (result & fs1 & fs2 & fs3 & fs4 & fs5 & fs6 & conflicts & de & refused
        & _ & _ & Hde & _ & _ & _ & Hrun & _ & Heligible & _ & _ & _).
  - intros s _. eapply emits_anything, check_1403_01_well_formed.
  - intros s _. eapply emits_anything, check_1403_02_well_formed.
  - intros s [Hc Hx]. rewrite <- Hc, <- Hx. apply emits_check_1403_03.
  - intros s _. eapply emits_anything, check_1403_04_well_formed.
  - intros s _. eapply emits_anything, check_1403_05_well_formed.
  - intros s _. eapply emits_anything, check_1403_06_well_formed.
  - subst de.
    exists result, (with_findings self (Pillar3AssessmentResult.findings result)).
    split; [exact Hrun|]. split; [exact Heligible|].
    split; [exact (run_full_assessment_recommends _ _ _ _ Hrun)|].
    rewrite Heligible. split; [intros n; apply division_eligible_known|].
    intros Hreq n Hin. unfold division_eligible in Hin. rewrite Hreq in Hin.
    apply filter_In in Hin as [Hin Halone]. split; [exact Hin|].
    unfold can_stand_alone in Halone.
    destruct (find _ (classes self)) as [cls|]; [|discriminate].
    exists cls. split; [reflexivity|].
    apply division_issues_none. now apply negb_true_iff.
Qed.

(** The theorem at Classes 9 and 25 with the default context. *)
Lemma division_eligible_classes_witness :
  2 <= unique_class_count (classes sample_two_classes)
  /\ exists result self',
      run_full_assessment (fun l => l) sample_two_classes = (Return result, self')
      /\ Pillar3AssessmentResult.division_eligible_classes result
         = division_eligible (classes sample_two_classes) (ctx sample_two_classes)
      /\ Pillar3AssessmentResult.division_recommended result
         = nonempty (Pillar3AssessmentResult.division_eligible_classes result)
      /\ (forall n,
            In n (Pillar3AssessmentResult.division_eligible_classes result) ->
            In n (map ClassSummary.class_number (classes sample_two_classes)))
      /\ (division_requested (ctx sample_two_classes) = true ->
          forall n,
            In n (Pillar3AssessmentResult.division_eligible_classes result) ->
            In n (classes_to_divide_out (ctx sample_two_classes))
            /\ exists cls,
                find (fun c => ClassSummary.class_number c =? n)
                     (classes sample_two_classes)
                = Some cls
                /\ truthy (strip (ClassSummary.identification cls)) = true
                /\ ClassSummary.fee_paid cls = true
                /\ (ClassSummary.is_use_based cls = true ->
                    truthy (ClassSummary.specimen_type cls) = true)).
Proof.
  assert (H : 2 <= unique_class_count (classes sample_two_classes))
    by (vm_compute; discriminate).
  split; [exact H|].
  exact (division_eligible_classes_can_stand_alone (fun l => l) sample_two_classes H).
Defined.

(* --------------------------------------------------------------------- *)
(** ** Class summaries built from Pillars 1 and 2 *)

Lemma filter_filter {A} (p q : A -> bool) l :
  filter p (filter q l) = filter (fun x => p x && q x) l.
Proof.
  induction l as [|x l IH]; simpl; [reflexivity|].
  destruct (q x); simpl; rewrite ?andb_true_r, ?andb_false_r;
    [destruct (p x)|]; now rewrite IH.
Qed.

Lemma take_length n s : (String.length (take n s) <= n)%nat.
Proof.
  revert s. induction n as [|n IH]; intros s; destruct s; simpl; try lia.
  specialize (IH s). lia.
Qed.

Lemma length_pos_nonempty {A} (l : list A) :
  (Z.of_nat (List.length l) >? 0) = nonempty l.
Proof.
  destruct l; [reflexivity|]. cbn [List.length nonempty].
  rewrite Nat2Z.inj_succ. apply Z.gtb_lt. lia.
Qed.

Lemma nonempty_map {A B} (f : A -> B) l : nonempty (map f l) = nonempty l.
Proof. now destruct l. Qed.

Lemma nonempty_firstn_S {A} n (l : list A) : nonempty (firstn (S n) l) = nonempty l.
Proof. now destruct l. Qed.

(** The fields of a built summary that Pillars 1 and 2 decide. *)
Lemma built_summary_fields class_entry_dict p1_findings p2_result_dict :
  let c := build_class_summary class_entry_dict p1_findings p2_result_dict in
  let n := get_or (ClassEntryDict.class_number class_entry_dict) 0 in
  let p1_errors := filter (p1_error_for n) p1_findings in
  ClassSummary.class_number c = n
  /\ ClassSummary.p1_error_count c = Z.of_nat (List.length p1_errors)
  /\ ClassSummary.p1_error_messages c
     = map (fun f => take 100 (Pillar1.AssessmentFinding.finding f))
           (firstn 3 p1_errors)
  /\ ClassSummary.p2_is_definite c
     = match p2_result_dict with
       | Some result => Pillar2.Summary.is_definite (Pillar2.Analysis.summary result)
       | None => true
       end
  /\ ClassSummary.p2_error_count c
     = match p2_result_dict with
       | Some result => Pillar2.Summary.errors (Pillar2.Analysis.summary result)
       | None => 0
       end
  /\ ClassSummary.p2_error_messages c
     = match p2_result_dict with
       | Some result =>
           map (fun sf => take 100 (Pillar2.finding sf))
               (filter (fun sf => (Pillar2.severity sf =? "ERROR")%string)
                       (Pillar2.subsection_findings
                          (Pillar2.Analysis.tmep_1402_analysis result)))
       | None => []
       end
  /\ (ClassSummary.status c = REFUSAL_CANDIDATE
      <-> ClassSummary.p1_error_count c + ClassSummary.p2_error_count c >= 3).
Proof.
  intros c n p1_errors.
  assert (Herrors :
            filter (fun f => (Pillar1.AssessmentFinding.severity f =? "ERROR")%string)
                   (filter (fun f => (Pillar1.AssessmentFinding.class_number f =? n)
                                     || (Pillar1.AssessmentFinding.class_number f =? 0))
                           p1_findings)
            = p1_errors).
  { rewrite filter_filter. reflexivity. }
  subst c. unfold build_class_summary. cbv zeta. fold n. rewrite Herrors.
  destruct (if negb _ || negb _ then _ else _) as [class_title class_category].
  destruct p2_result_dict as [result|];
    cbn [ClassSummary.class_number ClassSummary.p1_error_count
         ClassSummary.p1_error_messages ClassSummary.p2_is_definite
         ClassSummary.p2_error_count ClassSummary.p2_error_messages
         ClassSummary.status];
    repeat (split; [reflexivity|]);
    (destruct (_ >=? 3) eqn:E3;
     [apply Z.geb_le in E3; split; [intros _; lia|reflexivity]
     |split; [|intros H; apply Z.ge_le, Z.geb_le in H; congruence];
      destruct (_ >? 0); [discriminate|]; destruct (_ >? 0); discriminate]).
Qed.

Lemma built_summary_is_refused class_entry_dict p1_findings identification_text
      pillar1_context :
  let p2 := Pillar2.analyze_identification_under_tmep_1402
              identification_text pillar1_context in
  let c := build_class_summary class_entry_dict p1_findings (Some p2) in
  is_refused c
  = existsb (p1_error_for (ClassSummary.class_number c)) p1_findings
    || negb (Pillar2.is_definite
               (Pillar2.evaluate (Pillar2.lens identification_text pillar1_context))).
Proof.
  intros p2 c. rewrite is_refused_eq.
  destruct (built_summary_fields class_entry_dict p1_findings (Some p2))
    as (Hn & Hcount & Hmsgs & Hdef & Herr & Hmsgs2 & _).
  fold c in Hn, Hcount, Hmsgs, Hdef, Herr, Hmsgs2.
  rewrite Hn, Hcount, Hmsgs, Hdef, Herr, Hmsgs2.
  rewrite length_pos_nonempty, nonempty_map, nonempty_firstn_S, andb_diag.
  rewrite nonempty_filter.
  change (Pillar2.Summary.is_definite (Pillar2.Analysis.summary p2))
    with (Pillar2.is_definite
            (Pillar2.evaluate (Pillar2.lens identification_text pillar1_context))).
  change (Pillar2.Summary.errors (Pillar2.Analysis.summary p2))
    with (Pillar2.count_severity "ERROR"
            (Pillar2.subsection_findings
               (Pillar2.evaluate (Pillar2.lens identification_text pillar1_context)))).
  rewrite Pillar2Facts.subsection_findings_evaluate, Pillar2Facts.is_definite_evaluate.
  set (E := Pillar2.count_severity "ERROR" _).
  destruct (E =? 0) eqn:E0; [|now rewrite orb_true_r].
  apply Z.eqb_eq in E0. rewrite E0. cbn. now rewrite !orb_false_r.
Qed.

(** X23. A class summary built from the findings of Pillar 1 and the
    Pillar 2 analysis of the identification counts as Pillar 1 errors the
    ERROR findings about the class or about the application as a whole
    (class 0), and keeps the texts of the first three, cut at 100
    characters.  §1403.04 then holds the class to have grounds of refusal
    exactly when Pillar 1 has such an ERROR or Pillar 2 finds the
    identification not definite: an application-level Pillar 1 ERROR puts
    every class among the refused.  The status is REFUSAL_CANDIDATE exactly
    when the errors of the two pillars add up to three or more, and such a
    class always has grounds of refusal. *)
Theorem built_summary_refused_iff_pillar_errors :
  forall (class_entry_dict : ClassEntryDict.t)
         (p1_findings : list Pillar1.AssessmentFinding.t)
         (identification_text : string)
         (pillar1_context : option Pillar2.Pillar1ClassContext),
    let p2 := Pillar2.analyze_identification_under_tmep_1402
                identification_text pillar1_context in
    let c := build_class_summary class_entry_dict p1_findings (Some p2) in
    let n := ClassSummary.class_number c in
    n = get_or (ClassEntryDict.class_number class_entry_dict) 0
    /\ ClassSummary.p1_error_count c
       = Z.of_nat (List.length (filter (p1_error_for n) p1_findings))
    /\ (List.length (ClassSummary.p1_error_messages c) <= 3)%nat
    /\ Forall (fun m => len m <= 100) (ClassSummary.p1_error_messages c)
    /\ is_refused c
       = existsb (p1_error_for n) p1_findings
         || negb (Pillar2.is_definite
                    (Pillar2.evaluate
                       (Pillar2.lens identification_text pillar1_context)))
    /\ (ClassSummary.status c = REFUSAL_CANDIDATE
        <-> ClassSummary.p1_error_count c + ClassSummary.p2_error_count c >= 3)
    /\ refusal_candidate c
       = (ClassSummary.p1_error_count c + ClassSummary.p2_error_count c >=? 3).
Proof.
  intros class_entry_dict p1_findings identification_text pillar1_context p2 c n.
  destruct (built_summary_fields class_entry_dict p1_findings (Some p2))
    as (Hn & Hcount & Hmsgs & Hdef & Herr & Hmsgs2 & Hstatus).
  fold c in Hn, Hcount, Hmsgs, Hdef, Herr, Hmsgs2, Hstatus. fold n in Hn.
  rewrite <- Hn in Hcount, Hmsgs.
  pose proof (built_summary_is_refused class_entry_dict p1_findings
                identification_text pillar1_context) as Hrefused.
  cbv zeta in Hrefused. fold p2 in Hrefused. fold c in Hrefused. fold n in Hrefused.
  split; [exact Hn|]. split; [exact Hcount|]. split.
  { rewrite Hmsgs, length_map. apply firstn_le_length. }
  split.
  { rewrite Hmsgs. apply Forall_map, Forall_forall. intros f _.
    unfold len. pose proof (take_length 100 (Pillar1.AssessmentFinding.finding f)).
    lia. }
  split; [exact Hrefused|]. split; [exact Hstatus|].
  unfold refusal_candidate.
  destruct (_ >=? 3) eqn:E3.
  - assert (Hst : ClassSummary.status c = REFUSAL_CANDIDATE)
      by (apply Hstatus, Z.le_ge, Z.geb_le; exact E3).
    rewrite Hst. cbn [ClassStatus_eqb]. rewrite andb_true_r.
    rewrite Hrefused.
    destruct (existsb (p1_error_for n) p1_findings) eqn:Eex; [reflexivity|].
    rewrite <- nonempty_filter in Eex.
    destruct (filter (p1_error_for n) p1_findings); [|discriminate].
    cbn [List.length] in Hcount. rewrite Hcount, Herr in E3.
    change (Pillar2.Summary.errors (Pillar2.Analysis.summary p2))
      with (Pillar2.count_severity "ERROR"
              (Pillar2.subsection_findings
                 (Pillar2.evaluate
                    (Pillar2.lens identification_text pillar1_context)))) in E3.
    rewrite Pillar2Facts.subsection_findings_evaluate in E3.
    rewrite Pillar2Facts.is_definite_evaluate.
    apply Z.geb_le in E3. cbn [orb]. apply negb_true_iff, Z.eqb_neq. lia.
  - destruct (ClassStatus_eqb (ClassSummary.status c) REFUSAL_CANDIDATE) eqn:Est;
      [|apply andb_false_r].
    exfalso.
    assert (Hst : ClassSummary.status c = REFUSAL_CANDIDATE)
      by (destruct (ClassSummary.status c); try discriminate; reflexivity).
    apply Hstatus, Z.ge_le, Z.geb_le in Hst. congruence.
Qed.
End Pillar3Facts.

(* ===================================================================== *)
(** * Pillar 1: the shape and the order of the findings *)

Module Pillar1Shape.
Import PyStr NiceDb Py PyFacts Pillar1 Pillar1.AssessmentFinding.
Local Open Scope py_scope.

#[export] Instance findings_of_assessor_laws :
  FindingsLaws TMEP1401Assessor AssessmentFinding.t.
Proof. split; [reflexivity|reflexivity|intros []; reflexivity]. Qed.

Lemma app_appended (s : TMEP1401Assessor) fs : app (appended s fs) = app s.
Proof. reflexivity. Qed.

Lemma always_emits_append (P : AssessmentFinding.t -> Prop) f :
  P f -> always_emits P (findings_append f).
Proof.
  intros HP s. exists [f]. split; [reflexivity|]. now repeat constructor.
Qed.

Lemma always_emits_getitem {A} (P : AssessmentFinding.t -> Prop) (a : A) :
  always_emits P (getitem (Some a) : Check A).
Proof. apply always_emits_ret. Qed.

Lemma always_emits_subscript {A} (P : AssessmentFinding.t -> Prop) (a : A) :
  always_emits P (subscript (Some a) : Check A).
Proof. apply always_emits_ret. Qed.

Lemma emits_or_raises_strptime (P : AssessmentFinding.t -> Prop) s :
  emits_or_raises P ValueError (strptime s).
Proof.
  intros self. unfold strptime. destruct (PyDate.strptime s).
  - apply emitsx_ret. constructor.
  - apply emitsx_raise. split; [reflexivity|constructor].
Qed.

Lemma always_emits_when_true (P : AssessmentFinding.t -> Prop) c (body : Check unit) :
  (c = true -> always_emits P body) -> always_emits P (when c body).
Proof. destruct c; [auto|intros _; apply always_emits_ret]. Qed.

(** The class of a finding: 0, the class of the entry at hand, or a number
    the entry at hand was tested for. *)
Ltac class_at_hand :=
  first [ left; reflexivity
        | right; apply in_map; assumption
        | right;
          match goal with
          | H : negb (ClassEntry.class_number ?c =? ?n) = false |- _ =>
              apply negb_false_iff, Z.eqb_eq in H; rewrite <- H;
              apply in_map; assumption
          | H : (ClassEntry.class_number ?c =? ?n) = true |- _ =>
              apply Z.eqb_eq in H; rewrite <- H; apply in_map; assumption
          | E : filter _ _ = ?l, H : In ?c ?l |- _ =>
              let Hn := fresh in
              rewrite <- E in H; apply filter_In in H as [H Hn];
              apply Z.eqb_eq in Hn; rewrite <- Hn; apply in_map; exact H
          end ].

Ltac filed_finding :=
  unfold filed_under, known_severity;
  cbn [severity tmep_section class_number];
  repeat match goal with
         | |- context [if ?b then _ else _] => destruct b
         end;
  (split;
   [ reflexivity
   | split;
     [ solve [repeat (first [left; reflexivity | right]); reflexivity]
     | class_at_hand ] ]).

(** One step of a proof about the findings a check files; [leaf] proves
    the property of one finding. *)
Ltac emits_step leaf :=
  lazymatch goal with
  | |- always_emits _ (bind _ _) => apply always_emits_bind; [|intros]
  | |- always_emits _ (ret _) => apply always_emits_ret
  | |- always_emits _ (gets _) => apply always_emits_gets
  | |- always_emits _ (findings_append _) => apply always_emits_append; leaf
  | |- always_emits _ (when _ _) => apply always_emits_when_true; intro
  | |- always_emits _ (for_each _ _ _) => apply always_emits_for_each; intros
  | |- always_emits _ (for_break _ _ _) => apply always_emits_for_break; intros
  | |- always_emits _ (getitem (Some _)) => apply always_emits_getitem
  | |- always_emits _ (getitem ?o) =>
      let v := eval vm_compute in o in
      change o with v; apply always_emits_getitem
  | |- always_emits _ (match suggest_class_for_keyword ?t with _ => _ end) =>
      let E := fresh "E" in
      let top := fresh "top" in
      let H := fresh "H" in
      destruct (suggest_class_for_keyword t) as [|top ?] eqn:E;
      [|assert (H : In top (suggest_class_for_keyword t))
          by (rewrite E; left; reflexivity);
        apply NiceDbFacts.suggested_class_known in H;
        destruct H as [? H]; try rewrite H]
  | |- always_emits _ (subscript (Some _)) => apply always_emits_subscript
  | |- always_emits _ (try_except _ _ _) => apply always_emits_try_except
  | |- always_emits _ (if ?b then _ else _) => destruct b eqn:?
  | |- always_emits _ (match ?x with _ => _ end) => destruct x eqn:?
  | |- emits_or_raises _ _ (strptime _) => apply emits_or_raises_strptime
  | |- emits_or_raises _ _ (bind _ _) => apply emits_or_raises_bind; [|intros]
  | |- emits_or_raises _ _ (if ?b then _ else _) => destruct b eqn:?
  | |- emits_or_raises _ _ (match ?x with _ => _ end) => destruct x eqn:?
  | |- emits_or_raises _ _ _ => apply emits_or_raises_of_always
  end.

Ltac filed_auto := cbv zeta; repeat emits_step ltac:(filed_finding).

Ltac filed_check :=
  apply emitsx_bind_gets, always_emits_at; filed_auto.

(** A finding that is not an ERROR. *)
Ltac mild_finding :=
  cbn [severity];
  repeat match goal with
         | |- context [if ?b then _ else _] => destruct b
         end;
  discriminate.


Lemma check_1401_01_filed s :
  emits s _check_1401_01_statutory_authority
        (fun _ fs => Forall (filed_under (app s) "§1401.01") fs).
Proof. unfold _check_1401_01_statutory_authority. cbv zeta. filed_check. Qed.

Lemma check_1401_02_filed s :
  emits s _check_1401_02_international_classification_adopted
        (fun _ fs => Forall (filed_under (app s) "§1401.02") fs).
Proof. unfold _check_1401_02_international_classification_adopted. cbv zeta. filed_check. Qed.

Lemma check_1401_03_filed s :
  emits s _check_1401_03_designation_of_class
        (fun _ fs => Forall (filed_under (app s) "§1401.03") fs).
Proof. unfold _check_1401_03_designation_of_class. cbv zeta. filed_check. Qed.

Lemma check_1401_04_filed s :
  emits s _check_1401_04_classification_determines_fees
        (fun _ fs => Forall (filed_under (app s) "§1401.04") fs).
Proof. unfold _check_1401_04_classification_determines_fees. cbv zeta. filed_check. Qed.

Lemma check_1401_05_filed s :
  emits s _check_1401_05_criteria_for_classification
        (fun _ fs => Forall (filed_under (app s) "§1401.05") fs).
Proof. unfold _check_1401_05_criteria_for_classification. cbv zeta. filed_check. Qed.

Lemma check_1401_06_filed s :
  emits s _check_1401_06_specimen_related_to_classification
        (fun _ fs => Forall (filed_under (app s) "§1401.06") fs).
Proof. unfold _check_1401_06_specimen_related_to_classification. cbv zeta. filed_check. Qed.

Lemma check_1401_07_filed s :
  emits s _check_1401_07_specimen_discloses_special_characteristics
        (fun _ fs => Forall (filed_under (app s) "§1401.07") fs).
Proof. unfold _check_1401_07_specimen_discloses_special_characteristics. cbv zeta. filed_check. Qed.

Lemma check_1401_08_filed s :
  emits s _check_1401_08_classification_and_identification
        (fun _ fs => Forall (filed_under (app s) "§1401.08") fs).
Proof. unfold _check_1401_08_classification_and_identification. cbv zeta. filed_check. Qed.

Lemma check_1401_09_filed s :
  emits s _check_1401_09_implementation_of_nice_changes
        (fun _ fs => Forall (filed_under (app s) "§1401.09") fs).
Proof.
  unfold _check_1401_09_implementation_of_nice_changes. cbv zeta.
  apply emitsx_bind_gets, always_emits_at.
  unfold PyDict.mem, dict_get_str.
  destruct (PyDict.get String.eqb NICE_EDITION_TIMELINE (nice_edition_claimed (app s)))
    as [edition_info|]; cbn [negb]; cbv iota; filed_auto.
Qed.

Lemma check_1401_10_filed s :
  emits s _check_1401_10_effective_date_id_manual
        (fun _ fs => Forall (filed_under (app s) "§1401.10") fs).
Proof. unfold _check_1401_10_effective_date_id_manual. cbv zeta. filed_check. Qed.

Lemma check_1401_11_filed s :
  emits s _check_1401_11_class42_restructuring_8th_edition
        (fun _ fs => Forall (filed_under (app s) "§1401.11") fs).
Proof. unfold _check_1401_11_class42_restructuring_8th_edition. cbv zeta. filed_check. Qed.

Lemma check_1401_12_filed s :
  emits s _check_1401_12_9th_edition_changes
        (fun _ fs => Forall (filed_under (app s) "§1401.12") fs).
Proof. unfold _check_1401_12_9th_edition_changes. cbv zeta. filed_check. Qed.

Lemma check_1401_13_filed s :
  emits s _check_1401_13_10th_edition_changes
        (fun _ fs => Forall (filed_under (app s) "§1401.13") fs).
Proof. unfold _check_1401_13_10th_edition_changes. cbv zeta. filed_check. Qed.

Lemma check_1401_14_filed s :
  emits s _check_1401_14_11th_edition_changes
        (fun _ fs => Forall (filed_under (app s) "§1401.14") fs).
Proof. unfold _check_1401_14_11th_edition_changes. cbv zeta. filed_check. Qed.

Lemma check_1401_15_filed s :
  emits s _check_1401_15_12th_edition_changes
        (fun _ fs => Forall (filed_under (app s) "§1401.15") fs).
Proof. unfold _check_1401_15_12th_edition_changes. cbv zeta. filed_check. Qed.

(** The checks of [cs], each filing under its section of [secs], file one
    group of findings after the other. *)
Lemma run_checks_groups (a : TrademarkApplication)
      (P : string -> AssessmentFinding.t -> Prop) cs secs :
  Forall2 (fun (c : Check unit) sec =>
             forall s, app s = a ->
                       emits s c (fun _ fs => Forall (P sec) fs))
          cs secs ->
  forall s, app s = a ->
    exists groups,
      run_checks cs s
      = (Return (findings s ++ List.concat groups), appended s (List.concat groups))
      /\ Forall2 (fun sec group => Forall (P sec) group) secs groups.
Proof.
  induction 1 as [|c sec cs secs Hc _ IH]; intros s Hs.
  - exists []. split; [|constructor]. simpl List.concat.
    rewrite appended_nil, app_nil_r. reflexivity.
  - destruct (emits_elim _ _ _ (Hc s Hs)) as ([] & fs & Hrun & Hfs).
    assert (Hs' : app (appended s fs) = a) by exact Hs.
    destruct (IH (appended s fs) Hs') as (groups & Hrest & Hgroups).
    exists (fs :: groups). split; [|now constructor].
    simpl run_checks. unfold bind. rewrite Hrun, Hrest.
    rewrite appended_app. simpl List.concat.
    change (findings (appended s fs)) with (findings s ++ fs).
    now rewrite <- app_assoc.
Qed.

Lemma all_checks_filed (a : TrademarkApplication) :
  Forall2 (fun (c : Check unit) sec =>
             forall s, app s = a ->
                       emits s c (fun _ fs => Forall (filed_under a sec) fs))
          all_checks sections.
Proof.
  unfold all_checks, sections.
  repeat (apply Forall2_cons; [intros s <-|]); [..|apply Forall2_nil].
  - apply check_1401_01_filed.
  - apply check_1401_02_filed.
  - apply check_1401_03_filed.
  - apply check_1401_04_filed.
  - apply check_1401_05_filed.
  - apply check_1401_06_filed.
  - apply check_1401_07_filed.
  - apply check_1401_08_filed.
  - apply check_1401_09_filed.
  - apply check_1401_10_filed.
  - apply check_1401_11_filed.
  - apply check_1401_12_filed.
  - apply check_1401_13_filed.
  - apply check_1401_14_filed.
  - apply check_1401_15_filed.
Qed.

(** The run from any assessor, group by group. *)
Lemma run_full_assessment_groups self :
  exists groups,
    run_full_assessment self
    = (Return (List.concat groups), with_findings self (List.concat groups))
    /\ Forall2 (fun sec group => Forall (filed_under (app self) sec) group)
               sections groups.
Proof.
  destruct (run_checks_groups (app self) (filed_under (app self)) all_checks sections
              (all_checks_filed (app self)) (with_findings self []) eq_refl)
    as (groups & Hrun & Hgroups).
  exists groups. split; [|exact Hgroups].
  rewrite Pillar1Facts.run_full_assessment_as_run_checks. unfold bind at 1.
  change (findings_clear self) with (Return tt, with_findings self []).
  cbv beta iota. rewrite Hrun. reflexivity.
Qed.

(** X15. For every application whose numbers are within the limit of the
    conversion to text, and whatever the assessor held before, the Pillar 1
    run returns and its findings come section by section: they are fifteen
    groups one after the other, one for each of §1401.01 to §1401.15 in
    this order (a group may be empty), and a finding of a group is filed
    under the section of the group, has one of the severities ERROR,
    WARNING, INFO and OK, and is about class 0, the application as a whole,
    or about the number of a class entry of the application.  The assessor
    ends up holding the list that is returned. *)
Theorem pillar1_findings_come_section_by_section :
  forall self : TMEP1401Assessor,
    within_conversion_limit (app self) = true ->
    exists groups,
      run_full_assessment self
      = (Return (List.concat groups), with_findings self (List.concat groups))
      /\ Forall2 (fun section group =>
                    Forall (fun f =>
                              tmep_section f = section
                              /\ known_severity (severity f)
                              /\ (class_number f = 0
                                  \/ In (class_number f)
                                        (map ClassEntry.class_number
                                             (classes (app self)))))
                           group)
                 sections groups.
Proof.
  intros self _.
  destruct (run_full_assessment_groups self) as (groups & Hrun & Hgroups).
  exists groups. split; [exact Hrun|exact Hgroups].
Qed.

(** The theorem at an application with two classes and one fee: fifteen
    groups come back. *)
Lemma pillar1_findings_come_section_by_section_witness :
  within_conversion_limit (app Pillar1.sample_one_fee_two_classes) = true
  /\ exists groups,
      fst (run_full_assessment Pillar1.sample_one_fee_two_classes)
      = Return (List.concat groups)
      /\ List.length groups = 15%nat.
Proof.
  assert (L : within_conversion_limit (app Pillar1.sample_one_fee_two_classes) = true)
    by (vm_compute; reflexivity).
  split; [exact L|].
  destruct (pillar1_findings_come_section_by_section
              Pillar1.sample_one_fee_two_classes L)
    as (groups & Hrun & Hgroups).
  exists groups. split; [now rewrite Hrun|].
  symmetry. exact (Forall2_length Hgroups).
Defined.

(* --------------------------------------------------------------------- *)
(** ** The summary of the entry point *)








(* --------------------------------------------------------------------- *)
(** ** The checks that only advise *)











(* --------------------------------------------------------------------- *)
(** ** §1401.09: the edition claimed against the filing date *)

Lemma edition_dates_parse e info :
  PyDict.get String.eqb NICE_EDITION_TIMELINE e = Some info ->
  exists ds de,
    PyDate.strptime (start info) = Some ds /\ PyDate.strptime (end_ info) = Some de.
Proof.
  unfold NICE_EDITION_TIMELINE. cbn [PyDict.get].
  repeat match goal with
         | |- context [if ?c then _ else _] => destruct c
         end;
    intros H; inversion H; subst; cbn [start end_];
    eexists; eexists; split; vm_compute; reflexivity.
Qed.

(** What §1401.09 does, case by case. *)
Lemma check_1401_09_run :
  forall self : TMEP1401Assessor,
    let filed := filing_date (app self) in
    let edition := nice_edition_claimed (app self) in
    exists fs,
      _check_1401_09_implementation_of_nice_changes self
      = (Return tt, with_findings self (findings self ++ fs))
      /\ (PyDict.get String.eqb NICE_EDITION_TIMELINE edition = None ->
          exists f, fs = [f] /\ severity f = "WARNING")
      /\ (forall info,
            PyDict.get String.eqb NICE_EDITION_TIMELINE edition = Some info ->
            (filed = "" -> fs = [])
            /\ (filed <> "" -> PyDate.strptime filed = None ->
                exists f, fs = [f] /\ severity f = "INFO")
            /\ (forall d,
                  PyDate.strptime filed = Some d ->
                  exists f edition_start edition_end,
                    PyDate.strptime (start info) = Some edition_start
                    /\ PyDate.strptime (end_ info) = Some edition_end
                    /\ fs = [f]
                    /\ severity f
                       = if PyDate.lt d edition_start then "ERROR"
                         else if PyDate.lt edition_end d
                                 && negb (edition =? "12th")%string
                              then "WARNING"
                              else "OK")).
Proof.
  intros self filed edition.
  unfold _check_1401_09_implementation_of_nice_changes. cbv zeta.
  unfold bind at 1. unfold gets at 1. cbv beta iota.
  fold filed. fold edition.
  unfold PyDict.mem, dict_get_str.
  destruct (PyDict.get String.eqb NICE_EDITION_TIMELINE edition) as [info|] eqn:Einfo;
    cbn [negb]; cbv iota.
  - destruct (edition_dates_parse _ _ Einfo) as (ds & de & Hds & Hde).
    unfold bind at 1. unfold getitem, ret at 1. cbv beta iota.
    destruct filed as [|c filed'] eqn:Efiled.
    + exists []. split; [now rewrite app_nil_r, Pillar1Facts.with_findings_same|].
      split; [discriminate|]. intros info' Hinfo'. split; [reflexivity|].
      split; [intros H; now contradiction H|]. intros d Hd. vm_compute in Hd.
      discriminate.
    + cbn [truthy]. unfold when.
      destruct (PyDate.strptime (String c filed')) as [d|] eqn:Ed.
      * unfold try_except, bind, strptime. rewrite Ed, Hds, Hde.
        unfold ret. cbv beta iota.
        destruct (PyDate.lt d ds) eqn:E1;
          [|destruct (PyDate.lt de d && negb (edition =? "12th")%string) eqn:E2];
          (eexists; split; [apply Pillar1Facts.findings_append_run|];
           split; [discriminate|]; intros info' Hinfo'; inversion Hinfo'; subst info';
           split; [discriminate|]; split; [discriminate|];
           intros d' Hd'; inversion Hd'; subst d';
           eexists; exists ds, de;
           split; [exact Hds|]; split; [exact Hde|]; split; [reflexivity|];
           rewrite E1, ?E2; reflexivity).
      * rewrite Pillar1Facts.try_strptime_fails by exact Ed.
        eexists. split; [apply Pillar1Facts.findings_append_run|].
        split; [discriminate|]. intros info' Hinfo'.
        split; [discriminate|]. split; [|discriminate].
        intros _ _. eexists. split; reflexivity.
  - eexists. split; [apply Pillar1Facts.findings_append_run|].
    split; [|discriminate]. intros _. eexists. split; reflexivity.
Qed.

(** X21. The edition check (§1401.09) decides as follows.  An edition that
    is not in the timeline gets one WARNING.  For an edition of the
    timeline: with an empty filing date the check files nothing; with a
    filing date that does not parse, one INFO; otherwise exactly one
    finding, an ERROR when the filing date is before the start of the
    edition, a WARNING when it is after the end of the edition and the
    edition is not the 12th, an OK in the other cases.  The dates of the
    timeline always parse. *)
Theorem edition_check_verdict :
  forall self : TMEP1401Assessor,
    let filed := filing_date (app self) in
    let edition := nice_edition_claimed (app self) in
    exists fs,
      _check_1401_09_implementation_of_nice_changes self
      = (Return tt, with_findings self (findings self ++ fs))
      /\ (PyDict.get String.eqb NICE_EDITION_TIMELINE edition = None ->
          exists f, fs = [f] /\ severity f = "WARNING")
      /\ (forall info,
            PyDict.get String.eqb NICE_EDITION_TIMELINE edition = Some info ->
            (filed = "" -> fs = [])
            /\ (filed <> "" -> PyDate.strptime filed = None ->
                exists f, fs = [f] /\ severity f = "INFO")
            /\ (forall d,
                  PyDate.strptime filed = Some d ->
                  exists f edition_start edition_end,
                    PyDate.strptime (start info) = Some edition_start
                    /\ PyDate.strptime (end_ info) = Some edition_end
                    /\ fs = [f]
                    /\ severity f
                       = if PyDate.lt d edition_start then "ERROR"
                         else if PyDate.lt edition_end d
                                 && negb (edition =? "12th")%string
                              then "WARNING"
                              else "OK")).
Proof. intros self. exact (check_1401_09_run self). Qed.

(* --------------------------------------------------------------------- *)
(** ** Which application makes a check file an ERROR *)

Lemma any_error_app fs gs : any_error (fs ++ gs) = any_error fs || any_error gs.
Proof. apply existsb_app. Qed.

Lemma any_error_false fs :
  Forall (fun f => severity f <> "ERROR") fs -> any_error fs = false.
Proof.
  intros Hfs. apply not_true_is_false. intros Hex.
  apply existsb_exists in Hex as (f & Hin & Hf).
  rewrite Forall_forall in Hfs. apply String.eqb_eq in Hf. exact (Hfs f Hin Hf).
Qed.

Lemma blocks_ret {A} (a : A) : blocks (ret a) false.
Proof. intros s. now apply emitsx_ret. Qed.

Lemma blocks_append_as f b :
  (severity f =? "ERROR")%string = b -> blocks (findings_append f) b.
Proof.
  intros <- s. exists [f]. split; [reflexivity|]. cbn. apply orb_false_r.
Qed.

Lemma blocks_bind {A B} (m : Check A) (k : A -> Check B) b1 b2 :
  blocks m b1 -> (forall a, blocks (k a) b2) -> blocks (bind m k) (b1 || b2).
Proof.
  intros Hm Hk s. eapply emits_bind; [apply Hm|].
  intros a fs1 Hfs1. cbv beta in Hfs1. eapply emits_mono; [|apply Hk].
  intros b fs2 Hfs2. cbv beta in Hfs2. now rewrite any_error_app, Hfs1, Hfs2.
Qed.

Lemma blocks_bind_getitem {A B} (o : option A) v (k : A -> Check B) b :
  o = Some v -> blocks (k v) b -> blocks (bind (getitem o) k) b.
Proof. intros -> H s. exact (H s). Qed.

Lemma blocks_if {A} (c : bool) (m1 m2 : Check A) b1 b2 :
  blocks m1 b1 -> blocks m2 b2 ->
  blocks (if c then m1 else m2) (if c then b1 else b2).
Proof. now destruct c. Qed.

Lemma blocks_when (c : bool) (m : Check unit) b :
  blocks m b -> blocks (when c m) (c && b).
Proof. destruct c; [auto|intros _; apply blocks_ret]. Qed.

Lemma blocks_let_pair {A B C} (x : A * B) (m : A -> B -> Check C) b :
  blocks (m (fst x) (snd x)) b -> blocks (let '(a, b) := x in m a b) b.
Proof. now destruct x. Qed.

Lemma blocks_match_list {A B} (l : list B) (m1 : Check A)
      (m2 : B -> list B -> Check A) b1 b2 :
  blocks m1 b1 -> (forall h t, blocks (m2 h t) (b2 h t)) ->
  blocks (match l with [] => m1 | h :: t => m2 h t end)
         (match l with [] => b1 | h :: t => b2 h t end).
Proof. destruct l; auto. Qed.

Lemma blocks_match_option {A B} (o : option B) (m1 : B -> Check A)
      (m2 : Check A) b1 b2 :
  (forall x, blocks (m1 x) (b1 x)) -> blocks m2 b2 ->
  blocks (match o with Some x => m1 x | None => m2 end)
         (match o with Some x => b1 x | None => b2 end).
Proof. destruct o; auto. Qed.

Lemma blocks_for_each {A B} (l : list A) (body : B -> A -> Check B)
      (g : A -> bool) :
  (forall acc x, blocks (body acc x) (g x)) ->
  forall acc, blocks (for_each l acc body) (existsb g l).
Proof.
  intros Hbody. induction l as [|x l IH]; intros acc; simpl.
  - apply blocks_ret.
  - apply blocks_bind; [apply Hbody|intros; apply IH].
Qed.

(** A loop that breaks only after an ERROR. *)
Lemma blocks_for_break {A B} (l : list A) (body : B -> A -> Check (B * bool))
      (g : A -> bool) :
  (forall acc x s,
      emits s (body acc x)
            (fun r fs => any_error fs = g x /\ (snd r = true -> g x = true))) ->
  forall acc, blocks (for_break l acc body) (existsb g l).
Proof.
  intros Hbody. induction l as [|x l IH]; intros acc; simpl.
  - apply blocks_ret.
  - intros s. eapply emits_bind; [apply Hbody|].
    intros r fs1 [Hfs1 Hbreak]. destruct (snd r).
    + apply emitsx_ret. rewrite app_nil_r, Hfs1, (Hbreak eq_refl). reflexivity.
    + eapply emits_mono; [|apply IH].
      intros b fs2 Hfs2. cbv beta in Hfs2. now rewrite any_error_app, Hfs1, Hfs2.
Qed.

Lemma emits_break_if {B} (c : bool) f (v w : B) (s : TMEP1401Assessor) :
  severity f = "ERROR" ->
  emits s (if c then findings_append f ;; ret (v, true) else ret (w, false))
        (fun r fs => any_error fs = c /\ (snd r = true -> c = true)).
Proof.
  intros Hf. destruct c.
  - eapply emits_bind.
    + exists [f]. split; [reflexivity|].
      exact (eq_refl : (fun (_ : unit) fs => fs = [f]) tt [f]).
    + intros ? fs1 ->. apply emitsx_ret. rewrite app_nil_r. split; [|auto].
      unfold any_error, has_severity. cbn [existsb]. now rewrite Hf.
  - apply emitsx_ret. split; [reflexivity|discriminate].
Qed.

Lemma blocks_at {A} (s : TMEP1401Assessor) (m : Check A) b' b :
  blocks m b' -> b' = b -> emits s m (fun _ fs => any_error fs = b).
Proof. intros Hm <-. apply Hm. Qed.

Lemma blocks_mild {A} (m : Check A) :
  always_emits (fun f => severity f <> "ERROR") m -> blocks m false.
Proof.
  intros H s. eapply emits_mono; [|apply H].
  intros ? fs Hfs. now apply any_error_false.
Qed.

(** Whether a severity, a literal or a choice between literals, is ERROR. *)
Ltac severity_is_error v :=
  lazymatch v with
  | if ?c then ?a else ?b =>
      let a' := severity_is_error a in
      let b' := severity_is_error b in
      constr:(if c then a' else b')
  | _ => eval vm_compute in (String.eqb v "ERROR")
  end.

(** One step in working out when a piece of code files an ERROR: never, if
    all it can file is milder; else by its parts. *)
Ltac blocks_step :=
  first
    [ apply blocks_mild;
      solve [cbv zeta; repeat emits_step ltac:(mild_finding)]
    | lazymatch goal with
      | |- blocks (bind (getitem _) _) _ =>
          eapply blocks_bind_getitem; [vm_compute; reflexivity|cbv beta]
      | |- blocks (bind _ _) _ => eapply blocks_bind; [|intros]
      | |- blocks (findings_append ?f) _ =>
          let v := eval cbv beta iota delta [severity] in (severity f) in
          let b := severity_is_error v in
          apply (blocks_append_as f b);
          cbv beta iota delta [severity];
          repeat match goal with
                 | |- context [if ?c then _ else _] => destruct c
                 end;
          reflexivity
      | |- blocks (when _ _) _ => eapply blocks_when
      | |- blocks (for_each _ _ _) _ => eapply blocks_for_each; intros
      | |- blocks (for_break _ _ _) _ =>
          eapply blocks_for_break; intros; apply emits_break_if; reflexivity
      | |- blocks (if _ then _ else _) _ => eapply blocks_if
      | |- blocks (match _ with _ => _ end) _ =>
          first [ eapply blocks_let_pair; cbv beta
                | eapply blocks_match_list; [|intros]
                | eapply blocks_match_option; [intros|] ]
      end ].

Ltac blocks_auto := cbv zeta; repeat blocks_step.

Ltac blocks_check :=
  apply emitsx_bind_gets; eapply blocks_at; [blocks_auto|]; cbv beta.


Ltac tidy_bool :=
  rewrite ?Pillar3Facts.if_same, ?Pillar3Facts.if_true_else,
    ?Pillar3Facts.if_else_false, ?orb_false_r, ?andb_true_r, ?orb_false_l.




Lemma check_1401_04_blocks s :
  emits s _check_1401_04_classification_determines_fees
        (fun _ fs => any_error fs
                     = fees_short (app s) || existsb fee_unpaid (classes (app s))).
Proof.
  unfold _check_1401_04_classification_determines_fees. cbv zeta. blocks_check.
  rewrite !orb_false_l. f_equal.
  - unfold fees_short, num_distinct. rewrite PyListFacts.sorted_length.
    destruct (fees_paid_count (app s) =? 0); [reflexivity|].
    now destruct (_ <? _).
  - apply Pillar3Facts.existsb_pointwise. intros c. apply andb_true_r.
Qed.











(* --------------------------------------------------------------------- *)
(** ** The application parsed from JSON *)

Lemma existsb_map {A B} (f : B -> bool) (g : A -> B) l :
  existsb f (map g l) = existsb (fun x => f (g x)) l.
Proof. induction l as [|x l IH]; simpl; [reflexivity|]. now rewrite IH. Qed.

(** X25. When the application JSON has no fees_paid_count, the parsed
    application takes the number of distinct class numbers as its fee
    count, so the fee check (§1401.04) never finds a shortage: it files an
    ERROR exactly when the data of some class says fee_paid false (a class
    without the key counts as paid).  The application is multi-class
    exactly when it has more than one distinct class number. *)
Theorem parsed_application_fee_defaults :
  forall (app_dict : Main.AppDict.t) (now : string),
    Main.AppDict.fees_paid_count app_dict = None ->
    let a := Main.parse_application app_dict in
    let self := new_assessor a now in
    fees_paid_count a = num_distinct a
    /\ is_multi_class a = (num_distinct a >? 1)
    /\ fees_short a = false
    /\ exists fs,
        _check_1401_04_classification_determines_fees self
        = (Return tt, with_findings self fs)
        /\ any_error fs
           = existsb Main.says_fee_unpaid
                     (ClassData.get_or (Main.AppDict.classes app_dict) []).
Proof.
  intros app_dict now Hnone a self.
  assert (Hfees : fees_paid_count a = num_distinct a).
  { subst a. unfold Main.parse_application. cbv zeta. cbn [fees_paid_count].
    rewrite Hnone. reflexivity. }
  assert (Hshort : fees_short a = false).
  { unfold fees_short. rewrite Hfees, Z.ltb_irrefl. apply andb_false_r. }
  split; [exact Hfees|]. split; [reflexivity|]. split; [exact Hshort|].
  destruct (emits_elim _ _ _ (check_1401_04_blocks self)) as ([] & fs & Hrun & Hfs).
  exists fs. split; [exact Hrun|].
  rewrite Hfs. change (app self) with a. rewrite Hshort, orb_false_l.
  subst a. unfold Main.parse_application. cbv zeta. cbn [classes].
  rewrite existsb_map. apply Pillar3Facts.existsb_pointwise. intros cls.
  unfold fee_unpaid, Main.says_fee_unpaid. cbn [ClassEntry.fee_paid].
  now destruct (ClassData.ClassEntryDict.fee_paid cls).
Qed.

(** The theorem at the application JSON with no key. *)
Lemma parsed_application_fee_defaults_witness :
  Main.AppDict.fees_paid_count Main.empty_app_dict = None
  /\ (let a := Main.parse_application Main.empty_app_dict in
      let self := new_assessor a "2025-11-03 10:00:00" in
      fees_paid_count a = num_distinct a
      /\ is_multi_class a = (num_distinct a >? 1)
      /\ fees_short a = false
      /\ exists fs,
          _check_1401_04_classification_determines_fees self
          = (Return tt, with_findings self fs)
          /\ any_error fs
             = existsb Main.says_fee_unpaid
                       (ClassData.get_or (Main.AppDict.classes Main.empty_app_dict) [])).
Proof.
  split; [reflexivity|].
  exact (parsed_application_fee_defaults Main.empty_app_dict "2025-11-03 10:00:00"
           eq_refl).
Defined.

End Pillar1Shape.

(* ===================================================================== *)
(** * The report generator: the finding shown for a class *)

Module Report1401Facts.
Import PyStr PyList Pillar1 Pillar1.AssessmentFinding Report1401.

Lemma hd_sorted_key {A} (key : A -> Z) x l :
  hd_error (sorted_key key (x :: l))
  = match hd_error (sorted_key key l) with
    | Some y => if key y <? key x then Some y else Some x
    | None => Some x
    end.
Proof.
  unfold sorted_key. cbn [sort_by].
  destruct (sort_by _ l) as [|y r]; [reflexivity|].
  cbn [insert_by hd_error]. now destruct (key y <? key x).
Qed.

Lemma order_key_error f : severity f = "ERROR" -> order_key f = 0.
Proof. unfold order_key. now intros ->. Qed.

Lemma order_key_warning f : severity f = "WARNING" -> order_key f = 1.
Proof. unfold order_key. now intros ->. Qed.

Lemma actionable_eq f :
  PyStr.mem (severity f) ["ERROR"; "WARNING"]
  = has_severity "ERROR" f || has_severity "WARNING" f.
Proof.
  unfold PyStr.mem, has_severity. cbn [existsb].
  now rewrite orb_false_r.
Qed.

(** The head of the sorted actionable findings: the first ERROR, or else
    the first WARNING. *)
Lemma hd_sorted_actionable findings :
  hd_error (sorted_key order_key
              (filter (fun f => PyStr.mem (severity f) ["ERROR"; "WARNING"]) findings))
  = match find (has_severity "ERROR") findings with
    | Some f => Some f
    | None => find (has_severity "WARNING") findings
    end.
Proof.
  induction findings as [|f fs IH]; [reflexivity|].
  cbn [filter find]. rewrite actionable_eq.
  destruct (has_severity "ERROR" f) eqn:Ee.
  - unfold has_severity in Ee. apply String.eqb_eq in Ee. cbn [orb].
    rewrite hd_sorted_key.
    rewrite (order_key_error f Ee).
    destruct (hd_error _) as [y|]; [|reflexivity].
    destruct (order_key y <? 0) eqn:E; [|reflexivity].
    apply Z.ltb_lt in E. unfold order_key in E.
    destruct (PyDict.get String.eqb order (severity y)) as [n|] eqn:En; [|lia].
    unfold order in En. cbn [PyDict.get] in En.
    repeat match type of En with
           | (if ?c then _ else _) = _ => destruct c
           end; inversion En; lia.
  - cbn [orb]. destruct (has_severity "WARNING" f) eqn:Ew.
    + unfold has_severity in Ew. apply String.eqb_eq in Ew.
      rewrite hd_sorted_key, IH.
      rewrite (order_key_warning f Ew).
      destruct (find (has_severity "ERROR") fs) as [e|] eqn:Efind.
      * apply find_some in Efind as [_ He]. apply String.eqb_eq in He.
        now rewrite (order_key_error e He).
      * destruct (find (has_severity "WARNING") fs) as [w|] eqn:Wfind;
          [|reflexivity].
        apply find_some in Wfind as [_ Hw]. apply String.eqb_eq in Hw.
        now rewrite (order_key_warning w Hw).
    + exact IH.
Qed.

(** X19. The finding the report shows for a class is the first ERROR of the
    list it is given, in the order of the list; when the list has no ERROR
    it is the first WARNING; when it has neither there is none, also if the
    list holds INFO or OK findings.  The sort by severity never puts a
    later finding ahead of an earlier one of the same severity. *)
Theorem top_finding_is_first_error_else_first_warning :
  forall findings : list AssessmentFinding.t,
    _top_finding findings
    = match find (has_severity "ERROR") findings with
      | Some f => Some f
      | None => find (has_severity "WARNING") findings
      end
    /\ (_top_finding findings = None
        <-> Forall (fun f => severity f <> "ERROR" /\ severity f <> "WARNING")
                   findings).
Proof.
  intros findings.
  assert (Heq : _top_finding findings
                = match find (has_severity "ERROR") findings with
                  | Some f => Some f
                  | None => find (has_severity "WARNING") findings
                  end).
  { unfold _top_finding. cbv zeta. rewrite <- hd_sorted_actionable.
    now destruct (filter _ findings). }
  split; [exact Heq|]. rewrite Heq. rewrite Forall_forall. split.
  - intros Hnone f Hin.
    destruct (find (has_severity "ERROR") findings) eqn:Ee; [discriminate|].
    pose proof (find_none _ _ Ee f Hin) as He.
    pose proof (find_none _ _ Hnone f Hin) as Hw.
    unfold has_severity in He, Hw. apply String.eqb_neq in He, Hw. now split.
  - intros Hall.
    destruct (find (has_severity "ERROR") findings) as [e|] eqn:Ee.
    + apply find_some in Ee as [Hin He]. apply String.eqb_eq in He.
      now destruct (Hall e Hin).
    + destruct (find (has_severity "WARNING") findings) as [w|] eqn:Ew;
        [|reflexivity].
      apply find_some in Ew as [Hin Hw]. apply String.eqb_eq in Hw.
      now destruct (Hall w Hin).
Qed.

End Report1401Facts.
